(** * rr: the Task core (src/Task.cc)

    A shallow embedding of the per-tracee control object of the rr
    record/replay debugger: wait-status decoding, the post-stop register
    normaliser [did_waitpid], [resume_execution] and [wait], the debug
    register programming of [set_debug_regs], the remote-memory paths
    [read_bytes_fallible] / [write_bytes_helper], and the shadow-state hooks
    of [on_syscall_exit].

    C++ [int] and [uintptr_t] values are integers in [Z]; wrap-around is
    written out where the source relies on it.  A C++ [double] is an IEEE
    754 binary64 number.  The kernel, the session and the shared aggregates
    are an explicit environment threaded through every operation;
    [ASSERT]/[FATAL] aborts are a separate outcome. *)

From Stdlib Require Import ZArith List Bool Lia SpecFloat.
Import ListNotations.
Open Scope Z_scope.

(** ** Machine integers *)

Definition wrap64 (z : Z) : Z := z mod 2 ^ 64.
Definition wrap32 (z : Z) : Z := z mod 2 ^ 32.

(** Reinterpretation of an unsigned w-bit pattern as two's complement. *)
Definition to_signed (w : Z) (z : Z) : Z :=
  let u := z mod 2 ^ w in
  if u <? 2 ^ (w - 1) then u else u - 2 ^ w.

Definition signed64 : Z -> Z := to_signed 64.
Definition signed32 : Z -> Z := to_signed 32.

(** ** The C++ type [double]

    IEEE 754 binary64 (53 bits of precision) with rounding to nearest even,
    as the Standard Library's [SpecFloat] defines it; this is how the
    tracer's arithmetic on doubles is done on x86-64. *)

Definition double : Type := spec_float.

(** An integer converted to [double]. *)
Definition double_of_int (z : Z) : double := binary_normalize 53 1024 z 0 false.

Definition double_sub (x y : double) : double := SFsub 53 1024 x y.
Definition double_mul (x y : double) : double := SFmul 53 1024 x y.
Definition double_div (x y : double) : double := SFdiv 53 1024 x y.

(** [d == 0]: true of both zeros and of nothing else; a [double] used as a
    condition is true when this is false. *)
Definition double_is_zero (d : double) : bool :=
  match d with S754_zero _ => true | _ => false end.

(** [floor(d)], which is an integer, when [d] is a number. *)
Definition double_floor (d : double) : option Z :=
  match d with
  | S754_zero _ => Some 0
  | S754_finite s m e => Some (Z.shiftl (if s then Z.neg m else Z.pos m) e)
  | S754_infinity _ | S754_nan => None
  end.

(** [(T)floor(d)] for a signed integer type [T] of [w] bits.  Where the
    value does not fit, or [d] is not a number, the conversion is undefined
    in C++; the value here is the one that the conversion instruction of
    x86-64 gives, the smallest integer of the type. *)
Definition floor_to_int (w : Z) (d : double) : Z :=
  match double_floor d with
  | Some z =>
      if (- 2 ^ (w - 1) <=? z) && (z <? 2 ^ (w - 1)) then z
      else - 2 ^ (w - 1)
  | None => - 2 ^ (w - 1)
  end.

(** [struct timeval]. *)
Record timeval : Type := mkTimeval { tv_sec : Z; tv_usec : Z }.

(** [to_timeval] of Task.cc; [time_t] has 64 bits, and [v.tv_sec] and
    1000000 are converted to [double] for the arithmetic. *)
Definition to_timeval (t : double) : timeval :=
  let sec := floor_to_int 64 t in
  let usec :=
    floor_to_int 32
      (double_mul (double_sub t (double_of_int sec))
         (double_of_int 1000000)) in
  {| tv_sec := sec; tv_usec := usec |}.

(** ** Signals, ptrace events and errno values (Linux x86 ABI) *)

Definition SIGTRAP : Z := 5.
Definition SIGSTOP : Z := 19.
Definition SIGSTKFLT : Z := 16.

Definition PTRACE_EVENT_EXEC : Z := 4.
Definition PTRACE_EVENT_EXIT : Z := 6.
Definition PTRACE_EVENT_STOP : Z := 128.

Definition ESRCH : Z := 3.
Definition EINTR : Z := 4.
Definition EIO : Z := 5.
Definition EPERM : Z := 1.
Definition ECHILD : Z := 10.

Definition POLL_IN : Z := 1.

(** ** Wait-status decoding

    [ptrace_event_from_status] and [stopped_from_status] are declared in
    Task.h, [WSTOPSIG] in <sys/wait.h>.  The layout is the one the source
    relies on when it builds [ptrace_exit_wait_status] and the time-slice
    status: low byte 0x7f for a stop, the stop signal in bits 8..15 and the
    ptrace event in bits 16..23. *)

(** Modelled from the spec: Task.h is not part of the sources; the packed
    wait result carries the ptrace event code above the stop signal. *)
Definition ptrace_event_from_status (status : Z) : Z :=
  Z.shiftr (Z.land 16711680 status) 16.

(** Modelled from the spec: Task.h is not part of the sources; a status is
    a ptrace-stop when its low byte is 0x7f. *)
Definition stopped_from_status (status : Z) : bool :=
  Z.land status 255 =? 127.

Definition WSTOPSIG (status : Z) : Z :=
  Z.shiftr (Z.land status 65280) 8.

(** [Task::stop_sig_from_status]: the ASSERT makes the function partial. *)
Definition stop_sig_from_status (status : Z) : option Z :=
  if stopped_from_status status then Some (WSTOPSIG status) else None.

(** [Task::pending_sig_from_status]. *)
Definition pending_sig_from_status (status : Z) : option Z :=
  if status =? 0 then Some 0
  else
    match stop_sig_from_status status with
    | None => None
    | Some sig =>
        if sig =? Z.lor SIGTRAP 128 then Some 0
        else if sig =? SIGTRAP then
          Some (if ptrace_event_from_status status =? 0 then SIGTRAP else 0)
        else Some (Z.land sig (Z.lnot 128))
    end.

(** [static const int ptrace_exit_wait_status]. *)
Definition ptrace_exit_wait_status : Z :=
  Z.lor (Z.shiftl PTRACE_EVENT_EXIT 16) 34175.

(** [is_signal_triggered_by_ptrace_interrupt]. *)
Definition is_signal_triggered_by_ptrace_interrupt (sig : Z) : bool :=
  if sig =? SIGTRAP then true
  else if sig =? SIGSTOP then true
  else if sig =? 0 then true
  else false.


(** ** Architectures and the per-architecture syscall numbers *)

Inductive SupportedArch : Type := x86 | x86_64.

Definition is_x86_64 (a : SupportedArch) : bool :=
  match a with x86_64 => true | x86 => false end.

(** The constants [Arch::brk], [Arch::mprotect], ... are generated headers that
    are not part of the sources; a table of them is a parameter of the model
    (the field [abi] of the state below). *)
Module Arch.
Record syscalls : Type := mkSyscalls {
  brk : Z; mmap : Z; mmap2 : Z; mprotect : Z; mremap : Z; munmap : Z;
  shmdt : Z; madvise : Z; ipc : Z; set_thread_area : Z; prctl : Z;
  dup : Z; dup2 : Z; dup3 : Z; fcntl64 : Z; fcntl : Z; close : Z;
  unshare : Z; write : Z; writev : Z; sigreturn : Z; rt_sigreturn : Z;
  DUPFD : Z; DUPFD_CLOEXEC : Z
}.
End Arch.

Definition SHMDT : Z := 22.
Definition PR_SET_NAME : Z := 15.
Definition CLONE_FILES : Z := 1024.

Definition PROT_READ : Z := 1.
Definition PROT_WRITE : Z := 2.
Definition MAP_PRIVATE : Z := 2.
Definition MAP_FIXED : Z := 16.
Definition page_size : Z := 4096.

Definition X86_TF_FLAG : Z := 256.

(** ** Plain data *)

Record siginfo_t : Type := mkSiginfo { si_signo : Z; si_code : Z; si_fd : Z }.

Definition zero_siginfo : siginfo_t := mkSiginfo 0 0 0.

Record user_desc : Type := mkUserDesc {
  entry_number : Z; base_addr : Z; limit : Z; desc_bits : Z
}.

Record KernelMapping : Type := mkKernelMapping {
  km_start : Z; km_end : Z; km_prot : Z; km_flags : Z
}.

Inductive BreakpointType : Type := BKPT_NONE | BKPT_INTERNAL | BKPT_USER.

(** A [ScopedFd] for /proc/<tid>/mem.  Whether an open descriptor still
    refers to the tracee's current address space ([live]) is known to the
    kernel only; the tracer can test [is_open] and nothing else. *)
Inductive ScopedFd : Type := closed_fd | open_fd (live : bool).

Definition is_open (fd : ScopedFd) : bool :=
  match fd with closed_fd => false | open_fd _ => true end.

Inductive VmOp : Type :=
| VmProtect (addr num_bytes prot : Z)
| VmRemap (old_addr old_num_bytes new_addr new_num_bytes : Z)
| VmUnmap (addr num_bytes : Z)
| VmAdvise (addr num_bytes advice : Z)
| VmNotifyWritten (addr num_bytes : Z).

Inductive FdOp : Type :=
| FdDidDup (from to : Z)
| FdDidClose (fd : Z)
| FdDidWrite (fd : Z) (ranges : list (Z * Z))
| FdEraseTask
| FdClone.

Record FdTable : Type := mkFdTable { fd_log : list FdOp }.

(** The current event of a RecordTask, as far as
    [is_in_non_sigreturn_exit_syscall] inspects it. *)
Inductive Event : Type := EV_SYSCALL (number : Z) | EV_OTHER.

Definition is_syscall_event (e : Event) : bool :=
  match e with EV_SYSCALL _ => true | EV_OTHER => false end.

Inductive WatchType : Type := WATCH_EXEC | WATCH_WRITE | WATCH_READWRITE.

Definition WatchType_bits (t : WatchType) : Z :=
  match t with WATCH_EXEC => 0 | WATCH_WRITE => 1 | WATCH_READWRITE => 3 end.

Record WatchConfig : Type := mkWatchConfig {
  wc_addr : Z; wc_num_bytes : Z; wc_type : WatchType
}.

Inductive TicksRequest : Type :=
| RESUME_NO_TICKS
| RESUME_UNLIMITED_TICKS
| RESUME_TICKS (n : Z).

Inductive WaitRequest : Type := RESUME_WAIT | RESUME_NONBLOCKING.


(** Modelled from the spec: Registers.h is not part of the sources.  The
    cached general-purpose register bank, with one field per accessor that
    Task.cc calls ([arg1] .. [arg6] are the syscall arguments). *)
Record Registers : Type := mkRegisters {
  arch : SupportedArch;
  ip : Z;
  flags : Z;
  r11 : Z;
  cx : Z;
  original_syscallno : Z;
  syscall_result : Z;
  arg1 : Z;
  arg2 : Z;
  arg3 : Z;
  arg4 : Z;
  arg5 : Z;
  arg6 : Z
}.

Definition with_flags (v : Z) (x : Registers) : Registers :=
  {| arch := arch x; ip := ip x; flags := v; r11 := r11 x; cx := cx x;
     original_syscallno := original_syscallno x;
     syscall_result := syscall_result x; arg1 := arg1 x; arg2 := arg2 x;
     arg3 := arg3 x; arg4 := arg4 x; arg5 := arg5 x; arg6 := arg6 x |}.

Definition with_r11 (v : Z) (x : Registers) : Registers :=
  {| arch := arch x; ip := ip x; flags := flags x; r11 := v; cx := cx x;
     original_syscallno := original_syscallno x;
     syscall_result := syscall_result x; arg1 := arg1 x; arg2 := arg2 x;
     arg3 := arg3 x; arg4 := arg4 x; arg5 := arg5 x; arg6 := arg6 x |}.

Definition with_cx (v : Z) (x : Registers) : Registers :=
  {| arch := arch x; ip := ip x; flags := flags x; r11 := r11 x; cx := v;
     original_syscallno := original_syscallno x;
     syscall_result := syscall_result x; arg1 := arg1 x; arg2 := arg2 x;
     arg3 := arg3 x; arg4 := arg4 x; arg5 := arg5 x; arg6 := arg6 x |}.

Definition with_original_syscallno (v : Z) (x : Registers) : Registers :=
  {| arch := arch x; ip := ip x; flags := flags x; r11 := r11 x; cx := cx x;
     original_syscallno := v; syscall_result := syscall_result x;
     arg1 := arg1 x; arg2 := arg2 x; arg3 := arg3 x; arg4 := arg4 x;
     arg5 := arg5 x; arg6 := arg6 x |}.


(** ** Requests to the kernel and their record *)

Inductive ptrace_request : Type :=
| PTRACE_PEEKDATA | PTRACE_PEEKUSER | PTRACE_POKEDATA | PTRACE_POKEUSER
| PTRACE_CONT | PTRACE_SINGLESTEP | PTRACE_SYSCALL | PTRACE_SYSEMU
| PTRACE_SYSEMU_SINGLESTEP
| PTRACE_GETREGS | PTRACE_SETREGS | PTRACE_GETSIGINFO | PTRACE_SETSIGINFO
| PTRACE_INTERRUPT | PTRACE_DETACH.

(** [enum ResumeRequest] reuses the ptrace request numbers. *)
Inductive ResumeRequest : Type :=
| RESUME_CONT | RESUME_SINGLESTEP | RESUME_SYSCALL | RESUME_SYSEMU
| RESUME_SYSEMU_SINGLESTEP.

Definition request_of_resume (how : ResumeRequest) : ptrace_request :=
  match how with
  | RESUME_CONT => PTRACE_CONT
  | RESUME_SINGLESTEP => PTRACE_SINGLESTEP
  | RESUME_SYSCALL => PTRACE_SYSCALL
  | RESUME_SYSEMU => PTRACE_SYSEMU
  | RESUME_SYSEMU_SINGLESTEP => PTRACE_SYSEMU_SINGLESTEP
  end.

(** The [data] argument of ptrace, in or out. *)
Inductive ptrace_data : Type :=
| DataNull
| DataWord (v : Z)
| DataRegs (r : Registers)
| DataSiginfo (si : siginfo_t).

(** One result of waitpid: the returned pid (or -1), the status written and
    errno. *)
Record wait_result : Type := mkWaitResult {
  wr_ret : Z; wr_status : Z; wr_errno : Z
}.

Inductive event : Type :=
| EvPtrace (req : ptrace_request) (addr : Z) (data : ptrace_data) (err : Z)
| EvWaitpid (nohang : bool) (res : wait_result)
| EvSetitimer (it_value : timeval)
| EvPread64 (count offset ret : Z)
| EvPwrite64 (bytes : list Z) (offset ret : Z)
| EvOpenMemFd (live : bool)
| EvRemoteMprotect (addr num_bytes prot : Z)
| EvReplacePages (page_start : Z) (contents : list Z) (prot flags : Z)
| EvHpcReset (ticks_period : Z)
| EvHpcStop.


(** The members of [class Task] that the modelled operations read or write. *)
Record Task : Type := mkTask {
  tid : Z;
  registers : Registers;
  is_stopped : bool;
  wait_status : Z;
  pending_siginfo : siginfo_t;
  seen_ptrace_exit_event : bool;
  detected_unexpected_exit : bool;
  unstable : bool;
  extra_registers_known : bool;
  ticks : Z;
  address_of_last_execution_resume : Z;
  prname : list Z;
  thread_areas_ : list user_desc
}.

Definition with_registers (v : Registers) (x : Task) : Task :=
  {| tid := tid x; registers := v; is_stopped := is_stopped x;
     wait_status := wait_status x; pending_siginfo := pending_siginfo x;
     seen_ptrace_exit_event := seen_ptrace_exit_event x;
     detected_unexpected_exit := detected_unexpected_exit x;
     unstable := unstable x;
     extra_registers_known := extra_registers_known x; ticks := ticks x;
     address_of_last_execution_resume := address_of_last_execution_resume x;
     prname := prname x; thread_areas_ := thread_areas_ x |}.

Definition with_is_stopped (v : bool) (x : Task) : Task :=
  {| tid := tid x; registers := registers x; is_stopped := v;
     wait_status := wait_status x; pending_siginfo := pending_siginfo x;
     seen_ptrace_exit_event := seen_ptrace_exit_event x;
     detected_unexpected_exit := detected_unexpected_exit x;
     unstable := unstable x;
     extra_registers_known := extra_registers_known x; ticks := ticks x;
     address_of_last_execution_resume := address_of_last_execution_resume x;
     prname := prname x; thread_areas_ := thread_areas_ x |}.

Definition with_wait_status (v : Z) (x : Task) : Task :=
  {| tid := tid x; registers := registers x; is_stopped := is_stopped x;
     wait_status := v; pending_siginfo := pending_siginfo x;
     seen_ptrace_exit_event := seen_ptrace_exit_event x;
     detected_unexpected_exit := detected_unexpected_exit x;
     unstable := unstable x;
     extra_registers_known := extra_registers_known x; ticks := ticks x;
     address_of_last_execution_resume := address_of_last_execution_resume x;
     prname := prname x; thread_areas_ := thread_areas_ x |}.

Definition with_pending_siginfo (v : siginfo_t) (x : Task) : Task :=
  {| tid := tid x; registers := registers x; is_stopped := is_stopped x;
     wait_status := wait_status x; pending_siginfo := v;
     seen_ptrace_exit_event := seen_ptrace_exit_event x;
     detected_unexpected_exit := detected_unexpected_exit x;
     unstable := unstable x;
     extra_registers_known := extra_registers_known x; ticks := ticks x;
     address_of_last_execution_resume := address_of_last_execution_resume x;
     prname := prname x; thread_areas_ := thread_areas_ x |}.

Definition with_seen_ptrace_exit_event (v : bool) (x : Task) : Task :=
  {| tid := tid x; registers := registers x; is_stopped := is_stopped x;
     wait_status := wait_status x; pending_siginfo := pending_siginfo x;
     seen_ptrace_exit_event := v;
     detected_unexpected_exit := detected_unexpected_exit x;
     unstable := unstable x;
     extra_registers_known := extra_registers_known x; ticks := ticks x;
     address_of_last_execution_resume := address_of_last_execution_resume x;
     prname := prname x; thread_areas_ := thread_areas_ x |}.

Definition with_detected_unexpected_exit (v : bool) (x : Task) : Task :=
  {| tid := tid x; registers := registers x; is_stopped := is_stopped x;
     wait_status := wait_status x; pending_siginfo := pending_siginfo x;
     seen_ptrace_exit_event := seen_ptrace_exit_event x;
     detected_unexpected_exit := v; unstable := unstable x;
     extra_registers_known := extra_registers_known x; ticks := ticks x;
     address_of_last_execution_resume := address_of_last_execution_resume x;
     prname := prname x; thread_areas_ := thread_areas_ x |}.

Definition with_extra_registers_known (v : bool) (x : Task) : Task :=
  {| tid := tid x; registers := registers x; is_stopped := is_stopped x;
     wait_status := wait_status x; pending_siginfo := pending_siginfo x;
     seen_ptrace_exit_event := seen_ptrace_exit_event x;
     detected_unexpected_exit := detected_unexpected_exit x;
     unstable := unstable x; extra_registers_known := v; ticks := ticks x;
     address_of_last_execution_resume := address_of_last_execution_resume x;
     prname := prname x; thread_areas_ := thread_areas_ x |}.

Definition with_ticks (v : Z) (x : Task) : Task :=
  {| tid := tid x; registers := registers x; is_stopped := is_stopped x;
     wait_status := wait_status x; pending_siginfo := pending_siginfo x;
     seen_ptrace_exit_event := seen_ptrace_exit_event x;
     detected_unexpected_exit := detected_unexpected_exit x;
     unstable := unstable x;
     extra_registers_known := extra_registers_known x; ticks := v;
     address_of_last_execution_resume := address_of_last_execution_resume x;
     prname := prname x; thread_areas_ := thread_areas_ x |}.

Definition with_address_of_last_execution_resume (v : Z) (x : Task) : Task :=
  {| tid := tid x; registers := registers x; is_stopped := is_stopped x;
     wait_status := wait_status x; pending_siginfo := pending_siginfo x;
     seen_ptrace_exit_event := seen_ptrace_exit_event x;
     detected_unexpected_exit := detected_unexpected_exit x;
     unstable := unstable x;
     extra_registers_known := extra_registers_known x; ticks := ticks x;
     address_of_last_execution_resume := v; prname := prname x;
     thread_areas_ := thread_areas_ x |}.

Definition with_prname (v : list Z) (x : Task) : Task :=
  {| tid := tid x; registers := registers x; is_stopped := is_stopped x;
     wait_status := wait_status x; pending_siginfo := pending_siginfo x;
     seen_ptrace_exit_event := seen_ptrace_exit_event x;
     detected_unexpected_exit := detected_unexpected_exit x;
     unstable := unstable x;
     extra_registers_known := extra_registers_known x; ticks := ticks x;
     address_of_last_execution_resume := address_of_last_execution_resume x;
     prname := v; thread_areas_ := thread_areas_ x |}.

Definition with_thread_areas_ (v : list user_desc) (x : Task) : Task :=
  {| tid := tid x; registers := registers x; is_stopped := is_stopped x;
     wait_status := wait_status x; pending_siginfo := pending_siginfo x;
     seen_ptrace_exit_event := seen_ptrace_exit_event x;
     detected_unexpected_exit := detected_unexpected_exit x;
     unstable := unstable x;
     extra_registers_known := extra_registers_known x; ticks := ticks x;
     address_of_last_execution_resume := address_of_last_execution_resume x;
     prname := prname x; thread_areas_ := v |}.


(** The session as Task.cc sees it: the recording/replay mode, its counters,
    the scheduler's expired-timeslice count and, for a recording, the current
    event of the RecordTask ([rt->ev()]). *)
Record Session : Type := mkSession {
  is_recording : bool;
  ticks_processed : Z;
  syscalls_performed : Z;
  timeslices_expired : Z;
  ev : Event
}.

Definition with_ticks_processed (v : Z) (x : Session) : Session :=
  {| is_recording := is_recording x; ticks_processed := v;
     syscalls_performed := syscalls_performed x;
     timeslices_expired := timeslices_expired x; ev := ev x |}.

Definition with_syscalls_performed (v : Z) (x : Session) : Session :=
  {| is_recording := is_recording x; ticks_processed := ticks_processed x;
     syscalls_performed := v; timeslices_expired := timeslices_expired x;
     ev := ev x |}.

Definition with_timeslices_expired (v : Z) (x : Session) : Session :=
  {| is_recording := is_recording x; ticks_processed := ticks_processed x;
     syscalls_performed := syscalls_performed x; timeslices_expired := v;
     ev := ev x |}.


(** The shadow AddressSpace.  Its algorithms are outside Task.cc: every
    mutating call is recorded in [vm_log], and [mappings_after] is the
    table of mappings that the AddressSpace holds after a given sequence of
    such calls.  Queries are answered from the table after the calls made
    so far. *)
Record AddressSpace : Type := mkAddressSpace {
  breakpoints : list (Z * BreakpointType);
  mem_fd : ScopedFd;
  mappings_after : list VmOp -> list KernelMapping;
  vm_log : list VmOp
}.

Definition with_mem_fd (v : ScopedFd) (x : AddressSpace) : AddressSpace :=
  {| breakpoints := breakpoints x; mem_fd := v;
     mappings_after := mappings_after x; vm_log := vm_log x |}.

Definition with_vm_log (v : list VmOp) (x : AddressSpace) : AddressSpace :=
  {| breakpoints := breakpoints x; mem_fd := mem_fd x;
     mappings_after := mappings_after x; vm_log := v |}.

(** [AddressSpace::maps]: the mappings as they are after the calls made so
    far. *)
Definition maps (a : AddressSpace) : list KernelMapping :=
  mappings_after a (vm_log a).


(** The kernel side of one tracee.
    - [k_ttl]: [None] when the tracee lives on, [Some n] when it serves [n]
      more ptrace requests and then is gone (every later request fails with
      ESRCH);
    - [k_regs], [k_siginfo], [k_dr]: its user registers, the siginfo of the
      current stop and the eight debug registers;
    - [k_dr_ok i v]: whether the kernel accepts value [v] for debug register
      [i];
    - [k_mem]: mapped bytes; [k_poke_ok a]: whether a forced ptrace write
      reaches the word at [a]; [k_prot], [k_memfd_denied], [k_prot_none_bug]:
      page protections and the two failure modes of writes through
      /proc/<tid>/mem that the source works around;
    - [k_waitpid]: the results of the coming waitpid calls, in order;
    - [k_mem_fd_opens]: whether each coming open of /proc/<tid>/mem yields a
      usable descriptor;
    - [k_mem_fd_ttl]: [None] when the address space that the usable
      descriptors refer to stays, [Some n] when it is replaced (as by an
      exec) after [n] more reads or writes through a descriptor, which from
      then on reads and writes nothing until it is reopened;
    - [k_trace]: every request issued so far, oldest first. *)
Record Kernel : Type := mkKernel {
  k_ttl : option nat;
  k_errno : Z;
  k_regs : Registers;
  k_siginfo : siginfo_t;
  k_dr : Z -> Z;
  k_dr_ok : Z -> Z -> bool;
  k_mem : Z -> option Z;
  k_poke_ok : Z -> bool;
  k_prot : Z -> Z;
  k_memfd_denied : Z -> bool;
  k_prot_none_bug : bool;
  k_waitpid : list wait_result;
  k_leader_zombie : bool;
  k_mem_fd_opens : list bool;
  k_mem_fd_ttl : option nat;
  k_hpc_ticks : Z;
  k_ticks_fd : Z;
  k_trace : list event
}.

Definition with_k_ttl (v : option nat) (x : Kernel) : Kernel :=
  {| k_ttl := v; k_errno := k_errno x; k_regs := k_regs x;
     k_siginfo := k_siginfo x; k_dr := k_dr x; k_dr_ok := k_dr_ok x;
     k_mem := k_mem x; k_poke_ok := k_poke_ok x; k_prot := k_prot x;
     k_memfd_denied := k_memfd_denied x;
     k_prot_none_bug := k_prot_none_bug x; k_waitpid := k_waitpid x;
     k_leader_zombie := k_leader_zombie x;
     k_mem_fd_opens := k_mem_fd_opens x; k_mem_fd_ttl := k_mem_fd_ttl x;
     k_hpc_ticks := k_hpc_ticks x;
     k_ticks_fd := k_ticks_fd x; k_trace := k_trace x |}.

Definition with_k_errno (v : Z) (x : Kernel) : Kernel :=
  {| k_ttl := k_ttl x; k_errno := v; k_regs := k_regs x;
     k_siginfo := k_siginfo x; k_dr := k_dr x; k_dr_ok := k_dr_ok x;
     k_mem := k_mem x; k_poke_ok := k_poke_ok x; k_prot := k_prot x;
     k_memfd_denied := k_memfd_denied x;
     k_prot_none_bug := k_prot_none_bug x; k_waitpid := k_waitpid x;
     k_leader_zombie := k_leader_zombie x;
     k_mem_fd_opens := k_mem_fd_opens x; k_mem_fd_ttl := k_mem_fd_ttl x;
     k_hpc_ticks := k_hpc_ticks x;
     k_ticks_fd := k_ticks_fd x; k_trace := k_trace x |}.

Definition with_k_regs (v : Registers) (x : Kernel) : Kernel :=
  {| k_ttl := k_ttl x; k_errno := k_errno x; k_regs := v;
     k_siginfo := k_siginfo x; k_dr := k_dr x; k_dr_ok := k_dr_ok x;
     k_mem := k_mem x; k_poke_ok := k_poke_ok x; k_prot := k_prot x;
     k_memfd_denied := k_memfd_denied x;
     k_prot_none_bug := k_prot_none_bug x; k_waitpid := k_waitpid x;
     k_leader_zombie := k_leader_zombie x;
     k_mem_fd_opens := k_mem_fd_opens x; k_mem_fd_ttl := k_mem_fd_ttl x;
     k_hpc_ticks := k_hpc_ticks x;
     k_ticks_fd := k_ticks_fd x; k_trace := k_trace x |}.

Definition with_k_siginfo (v : siginfo_t) (x : Kernel) : Kernel :=
  {| k_ttl := k_ttl x; k_errno := k_errno x; k_regs := k_regs x;
     k_siginfo := v; k_dr := k_dr x; k_dr_ok := k_dr_ok x; k_mem := k_mem x;
     k_poke_ok := k_poke_ok x; k_prot := k_prot x;
     k_memfd_denied := k_memfd_denied x;
     k_prot_none_bug := k_prot_none_bug x; k_waitpid := k_waitpid x;
     k_leader_zombie := k_leader_zombie x;
     k_mem_fd_opens := k_mem_fd_opens x; k_mem_fd_ttl := k_mem_fd_ttl x;
     k_hpc_ticks := k_hpc_ticks x;
     k_ticks_fd := k_ticks_fd x; k_trace := k_trace x |}.

Definition with_k_dr (v : (Z -> Z)) (x : Kernel) : Kernel :=
  {| k_ttl := k_ttl x; k_errno := k_errno x; k_regs := k_regs x;
     k_siginfo := k_siginfo x; k_dr := v; k_dr_ok := k_dr_ok x;
     k_mem := k_mem x; k_poke_ok := k_poke_ok x; k_prot := k_prot x;
     k_memfd_denied := k_memfd_denied x;
     k_prot_none_bug := k_prot_none_bug x; k_waitpid := k_waitpid x;
     k_leader_zombie := k_leader_zombie x;
     k_mem_fd_opens := k_mem_fd_opens x; k_mem_fd_ttl := k_mem_fd_ttl x;
     k_hpc_ticks := k_hpc_ticks x;
     k_ticks_fd := k_ticks_fd x; k_trace := k_trace x |}.

Definition with_k_mem (v : (Z -> option Z)) (x : Kernel) : Kernel :=
  {| k_ttl := k_ttl x; k_errno := k_errno x; k_regs := k_regs x;
     k_siginfo := k_siginfo x; k_dr := k_dr x; k_dr_ok := k_dr_ok x;
     k_mem := v; k_poke_ok := k_poke_ok x; k_prot := k_prot x;
     k_memfd_denied := k_memfd_denied x;
     k_prot_none_bug := k_prot_none_bug x; k_waitpid := k_waitpid x;
     k_leader_zombie := k_leader_zombie x;
     k_mem_fd_opens := k_mem_fd_opens x; k_mem_fd_ttl := k_mem_fd_ttl x;
     k_hpc_ticks := k_hpc_ticks x;
     k_ticks_fd := k_ticks_fd x; k_trace := k_trace x |}.

Definition with_k_prot (v : (Z -> Z)) (x : Kernel) : Kernel :=
  {| k_ttl := k_ttl x; k_errno := k_errno x; k_regs := k_regs x;
     k_siginfo := k_siginfo x; k_dr := k_dr x; k_dr_ok := k_dr_ok x;
     k_mem := k_mem x; k_poke_ok := k_poke_ok x; k_prot := v;
     k_memfd_denied := k_memfd_denied x;
     k_prot_none_bug := k_prot_none_bug x; k_waitpid := k_waitpid x;
     k_leader_zombie := k_leader_zombie x;
     k_mem_fd_opens := k_mem_fd_opens x; k_mem_fd_ttl := k_mem_fd_ttl x;
     k_hpc_ticks := k_hpc_ticks x;
     k_ticks_fd := k_ticks_fd x; k_trace := k_trace x |}.

Definition with_k_waitpid (v : list wait_result) (x : Kernel) : Kernel :=
  {| k_ttl := k_ttl x; k_errno := k_errno x; k_regs := k_regs x;
     k_siginfo := k_siginfo x; k_dr := k_dr x; k_dr_ok := k_dr_ok x;
     k_mem := k_mem x; k_poke_ok := k_poke_ok x; k_prot := k_prot x;
     k_memfd_denied := k_memfd_denied x;
     k_prot_none_bug := k_prot_none_bug x; k_waitpid := v;
     k_leader_zombie := k_leader_zombie x;
     k_mem_fd_opens := k_mem_fd_opens x; k_mem_fd_ttl := k_mem_fd_ttl x;
     k_hpc_ticks := k_hpc_ticks x;
     k_ticks_fd := k_ticks_fd x; k_trace := k_trace x |}.

Definition with_k_mem_fd_opens (v : list bool) (x : Kernel) : Kernel :=
  {| k_ttl := k_ttl x; k_errno := k_errno x; k_regs := k_regs x;
     k_siginfo := k_siginfo x; k_dr := k_dr x; k_dr_ok := k_dr_ok x;
     k_mem := k_mem x; k_poke_ok := k_poke_ok x; k_prot := k_prot x;
     k_memfd_denied := k_memfd_denied x;
     k_prot_none_bug := k_prot_none_bug x; k_waitpid := k_waitpid x;
     k_leader_zombie := k_leader_zombie x; k_mem_fd_opens := v;
     k_mem_fd_ttl := k_mem_fd_ttl x;
     k_hpc_ticks := k_hpc_ticks x; k_ticks_fd := k_ticks_fd x;
     k_trace := k_trace x |}.

Definition with_k_mem_fd_ttl (v : option nat) (x : Kernel) : Kernel :=
  {| k_ttl := k_ttl x; k_errno := k_errno x; k_regs := k_regs x;
     k_siginfo := k_siginfo x; k_dr := k_dr x; k_dr_ok := k_dr_ok x;
     k_mem := k_mem x; k_poke_ok := k_poke_ok x; k_prot := k_prot x;
     k_memfd_denied := k_memfd_denied x;
     k_prot_none_bug := k_prot_none_bug x; k_waitpid := k_waitpid x;
     k_leader_zombie := k_leader_zombie x;
     k_mem_fd_opens := k_mem_fd_opens x; k_mem_fd_ttl := v;
     k_hpc_ticks := k_hpc_ticks x; k_ticks_fd := k_ticks_fd x;
     k_trace := k_trace x |}.

Definition with_k_trace (v : list event) (x : Kernel) : Kernel :=
  {| k_ttl := k_ttl x; k_errno := k_errno x; k_regs := k_regs x;
     k_siginfo := k_siginfo x; k_dr := k_dr x; k_dr_ok := k_dr_ok x;
     k_mem := k_mem x; k_poke_ok := k_poke_ok x; k_prot := k_prot x;
     k_memfd_denied := k_memfd_denied x;
     k_prot_none_bug := k_prot_none_bug x; k_waitpid := k_waitpid x;
     k_leader_zombie := k_leader_zombie x;
     k_mem_fd_opens := k_mem_fd_opens x; k_mem_fd_ttl := k_mem_fd_ttl x;
     k_hpc_ticks := k_hpc_ticks x;
     k_ticks_fd := k_ticks_fd x; k_trace := v |}.


(** Everything an operation of Task can observe or change. *)
Record State : Type := mkState {
  task : Task;
  session : Session;
  vm : AddressSpace;
  fds : FdTable;
  kernel : Kernel;
  abi : SupportedArch -> Arch.syscalls
}.

Definition with_task (v : Task) (x : State) : State :=
  {| task := v; session := session x; vm := vm x; fds := fds x;
     kernel := kernel x; abi := abi x |}.

Definition with_session (v : Session) (x : State) : State :=
  {| task := task x; session := v; vm := vm x; fds := fds x;
     kernel := kernel x; abi := abi x |}.

Definition with_vm (v : AddressSpace) (x : State) : State :=
  {| task := task x; session := session x; vm := v; fds := fds x;
     kernel := kernel x; abi := abi x |}.

Definition with_fds (v : FdTable) (x : State) : State :=
  {| task := task x; session := session x; vm := vm x; fds := v;
     kernel := kernel x; abi := abi x |}.

Definition with_kernel (v : Kernel) (x : State) : State :=
  {| task := task x; session := session x; vm := vm x; fds := fds x;
     kernel := v; abi := abi x |}.


(** ** Outcomes and the state monad of the model

    An operation either returns ([Done]), aborts the tracer through a failed
    [ASSERT] or a [FATAL] ([Fatal]), or never returns ([Diverged]: waitpid
    blocks for ever, or a loop exhausts the iteration budget it was given). *)

Inductive outcome (A : Type) : Type :=
| Done (a : A) (st : State)
| Fatal (st : State)
| Diverged.

Arguments Done {A} a st.
Arguments Fatal {A} st.
Arguments Diverged {A}.

Definition M (A : Type) : Type := State -> outcome A.

Definition ret {A : Type} (a : A) : M A := fun st => Done a st.

Definition bind {A B : Type} (m : M A) (k : A -> M B) : M B :=
  fun st =>
    match m st with
    | Done a st' => k a st'
    | Fatal st' => Fatal st'
    | Diverged => Diverged
    end.

Notation "x <- m ;; k" := (bind m (fun x => k))
  (at level 61, m at next level, right associativity).
Notation "' pat <- m ;; k" := (bind m (fun x => match x with pat => k end))
  (at level 61, pat pattern, m at next level, right associativity).
Notation "m ;; k" := (bind m (fun _ => k))
  (at level 61, right associativity).

Definition gets {A : Type} (f : State -> A) : M A := fun st => Done (f st) st.
Definition modify (f : State -> State) : M unit := fun st => Done tt (f st).
Definition fatal {A : Type} : M A := fun st => Fatal st.
Definition diverge {A : Type} : M A := fun _ => Diverged.

(** [ASSERT(this, cond)]. *)
Definition ASSERT (cond : bool) : M unit :=
  if cond then ret tt else fatal.

Definition when (cond : bool) (m : M unit) : M unit :=
  if cond then m else ret tt.

Definition modify_task (f : Task -> Task) : M unit :=
  modify (fun st => with_task (f (task st)) st).
Definition modify_session (f : Session -> Session) : M unit :=
  modify (fun st => with_session (f (session st)) st).
Definition modify_vm (f : AddressSpace -> AddressSpace) : M unit :=
  modify (fun st => with_vm (f (vm st)) st).
Definition modify_fds (f : FdTable -> FdTable) : M unit :=
  modify (fun st => with_fds (f (fds st)) st).
Definition modify_kernel (f : Kernel -> Kernel) : M unit :=
  modify (fun st => with_kernel (f (kernel st)) st).

Definition log_event (e : event) (k : Kernel) : Kernel :=
  with_k_trace (k_trace k ++ [e]) k.

(** ** Bytes and words *)

(** Little-endian bytes of the low [n] bytes of [v]. *)
Fixpoint bytes_of_int (n : nat) (v : Z) : list Z :=
  match n with
  | O => []
  | S n' => Z.land v 255 :: bytes_of_int n' (Z.shiftr v 8)
  end.

Fixpoint int_of_bytes (bs : list Z) : Z :=
  match bs with
  | [] => 0
  | b :: bs' => Z.lor (Z.land b 255) (Z.shiftl (int_of_bytes bs') 8)
  end.

(** [memcpy(dst + off, src, length src)] on a buffer held as a list. *)
Definition splice (dst : list Z) (off : nat) (src : list Z) : list Z :=
  firstn off dst ++ src ++ skipn (off + length src) dst.

(** ** The kernel's view of tracee memory *)

(** The longest readable run of at most [n] bytes from [a]. *)
Fixpoint read_span (mem : Z -> option Z) (a : Z) (n : nat) : list Z :=
  match n with
  | O => []
  | S n' =>
      match mem (wrap64 a) with
      | Some b => b :: read_span mem (a + 1) n'
      | None => []
      end
  end.

Fixpoint store_bytes (mem : Z -> option Z) (a : Z) (bs : list Z)
  : Z -> option Z :=
  match bs with
  | [] => mem
  | b :: bs' =>
      store_bytes (fun x => if x =? wrap64 a then Some b else mem x) (a + 1) bs'
  end.

(** errno of a one-byte write through /proc/<tid>/mem at [a]; 0 when the
    byte can be written. *)
Definition memfd_write_errno (k : Kernel) (a : Z) : Z :=
  match k_mem k (wrap64 a) with
  | None => EIO
  | Some _ =>
      if k_memfd_denied k (wrap64 a) then EPERM
      else if k_prot_none_bug k
              && (Z.land (k_prot k (wrap64 a)) (Z.lor PROT_READ PROT_WRITE) =? 0)
      then EIO
      else 0
  end.

Fixpoint writable_span (k : Kernel) (a : Z) (n : nat) : nat :=
  match n with
  | O => O
  | S n' =>
      if memfd_write_errno k a =? 0 then S (writable_span k (a + 1) n') else O
  end.


(** ** The kernel primitives *)

Definition EINVAL : Z := 22.
Definition EBADF : Z := 9.

Definition tracee_alive (k : Kernel) : bool :=
  match k_ttl k with Some O => false | _ => true end.

(** Serving a request uses up one unit of the tracee's remaining life. *)
Definition serve (k : Kernel) : Kernel :=
  match k_ttl k with
  | Some (S n) => with_k_ttl (Some n) k
  | _ => k
  end.

(** [offsetof(struct user, u_debugreg[0])] on x86-64. *)
Definition u_debugreg_offset : Z := 848.

Definition debugreg_of_offset (off : Z) : option Z :=
  if (u_debugreg_offset <=? off) && (off <? u_debugreg_offset + 64)
     && ((off - u_debugreg_offset) mod 8 =? 0)
  then Some ((off - u_debugreg_offset) / 8)
  else None.

(** Writes of DR6 and the all-disabled DR7 are always taken; DR4 and DR5 do
    not exist; everything else is up to [k_dr_ok]. *)
Definition dr_write_accepted (k : Kernel) (i v : Z) : bool :=
  if i =? 6 then true
  else if (i =? 7) && (v =? 0) then true
  else if (i =? 4) || (i =? 5) then false
  else k_dr_ok k i v.

Definition word_readable (k : Kernel) (addr : Z) : bool :=
  (length (read_span (k_mem k) addr 8) =? 8)%nat.

(** What the kernel does with one ptrace request: the return value, errno
    (0 for success), the data written to the caller's buffer and the next
    kernel state. *)
Definition kernel_ptrace (req : ptrace_request) (addr : Z) (data : ptrace_data)
    (k0 : Kernel) : Z * Z * ptrace_data * Kernel :=
  if negb (tracee_alive k0) then (-1, ESRCH, DataNull, k0)
  else
    let k := serve k0 in
    let failed := (-1, EIO, DataNull, k) in
    match req with
    | PTRACE_PEEKDATA =>
        if word_readable k addr
        then (signed64 (int_of_bytes (read_span (k_mem k) addr 8)), 0,
              DataNull, k)
        else failed
    | PTRACE_POKEDATA =>
        match data with
        | DataWord v =>
            if word_readable k addr && k_poke_ok k addr
            then (0, 0, DataNull,
                  with_k_mem (store_bytes (k_mem k) addr (bytes_of_int 8 v)) k)
            else failed
        | _ => failed
        end
    | PTRACE_PEEKUSER =>
        match debugreg_of_offset addr with
        | Some i => (signed64 (k_dr k i), 0, DataNull, k)
        | None => failed
        end
    | PTRACE_POKEUSER =>
        match debugreg_of_offset addr, data with
        | Some i, DataWord v =>
            if dr_write_accepted k i v
            then (0, 0, DataNull,
                  with_k_dr (fun j => if j =? i then wrap64 v else k_dr k j) k)
            else failed
        | _, _ => failed
        end
    | PTRACE_GETREGS => (0, 0, DataRegs (k_regs k), k)
    | PTRACE_SETREGS =>
        match data with
        | DataRegs r => (0, 0, DataNull, with_k_regs r k)
        | _ => failed
        end
    | PTRACE_GETSIGINFO => (0, 0, DataSiginfo (k_siginfo k), k)
    | PTRACE_SETSIGINFO =>
        match data with
        | DataSiginfo si => (0, 0, DataNull, with_k_siginfo si k)
        | _ => failed
        end
    | PTRACE_CONT | PTRACE_SINGLESTEP | PTRACE_SYSCALL | PTRACE_SYSEMU
    | PTRACE_SYSEMU_SINGLESTEP | PTRACE_INTERRUPT | PTRACE_DETACH =>
        (0, 0, DataNull, k)
    end.

Definition is_peek (req : ptrace_request) : bool :=
  match req with
  | PTRACE_PEEKDATA | PTRACE_PEEKUSER => true
  | _ => false
  end.

Definition get_errno : M Z := gets (fun st => k_errno (kernel st)).
Definition set_errno (e : Z) : M unit := modify_kernel (with_k_errno e).

(** [Task::fallible_ptrace].  errno is set on failure; on success it is left
    alone, except that the C library clears it after a successful PEEK. *)
Definition fallible_ptrace (req : ptrace_request) (addr : Z)
    (data : ptrace_data) : M (Z * ptrace_data) :=
  fun st =>
    let '(r, err, out, k1) := kernel_ptrace req addr data (kernel st) in
    let k2 := log_event (EvPtrace req addr data err) k1 in
    let k3 := if err =? 0
              then (if is_peek req then with_k_errno 0 k2 else k2)
              else with_k_errno err k2 in
    Done (r, out) (with_kernel k3 st).

(** [Task::ptrace_if_alive]. *)
Definition ptrace_if_alive (req : ptrace_request) (addr : Z)
    (data : ptrace_data) : M (bool * ptrace_data) :=
  set_errno 0 ;;
  '(_, out) <- fallible_ptrace req addr data ;;
  e <- get_errno ;;
  if e =? ESRCH then ret (false, out)
  else ASSERT (e =? 0) ;; ret (true, out).

(** [Task::xptrace]. *)
Definition xptrace (req : ptrace_request) (addr : Z) (data : ptrace_data)
  : M ptrace_data :=
  set_errno 0 ;;
  '(_, out) <- fallible_ptrace req addr data ;;
  e <- get_errno ;;
  ASSERT (e =? 0) ;; ret out.

(** [waitpid(tid, &status, flags)]: the next scripted result.  With the
    script used up nothing more will ever be reported: WNOHANG returns 0 and
    a blocking call does not return. *)
Definition waitpid (nohang : bool) : M wait_result :=
  fun st =>
    let k := kernel st in
    match k_waitpid k with
    | r :: rest =>
        let k1 := with_k_waitpid rest k in
        let k2 := if wr_ret r <? 0 then with_k_errno (wr_errno r) k1 else k1 in
        Done r (with_kernel (log_event (EvWaitpid nohang r) k2) st)
    | [] =>
        if nohang
        then let r := mkWaitResult 0 0 0 in
             Done r (with_kernel (log_event (EvWaitpid nohang r) k) st)
        else Diverged
    end.

(** [setitimer(ITIMER_REAL, &timer, nullptr)] with no interval and the
    value given. *)
Definition setitimer (it_value : timeval) : M unit :=
  modify_kernel (log_event (EvSetitimer it_value)).

(** [is_zombie_process(tg->real_tgid)]: the State: line of
    /proc/<tgid>/status. *)
Definition is_zombie_process : M bool := gets (fun st => k_leader_zombie (kernel st)).

(** Whether the address space that the open descriptors refer to has been
    replaced. *)
Definition mem_fd_gone (k : Kernel) : bool :=
  match k_mem_fd_ttl k with Some O => true | _ => false end.

(** A read or write through a usable descriptor uses up one unit of the
    life of the address space it refers to. *)
Definition serve_mem_fd (k : Kernel) : Kernel :=
  match k_mem_fd_ttl k with
  | Some (S n) => with_k_mem_fd_ttl (Some n) k
  | _ => k
  end.

(** [pread64(as->mem_fd(), buf, count, offset)]: the return value and the
    bytes delivered.  A stale descriptor (one that was stale when opened,
    or whose address space has been replaced since) reads nothing and
    reports no error. *)
Definition pread64 (count offset : Z) : M (Z * list Z) :=
  fun st =>
    let k0 := kernel st in
    let '(r, bs, k1) :=
      match mem_fd (vm st) with
      | closed_fd => (-1, [], with_k_errno EBADF k0)
      | open_fd false => (0, [], k0)
      | open_fd true =>
          if mem_fd_gone k0 then (0, [], k0)
          else
            let k := serve_mem_fd k0 in
            if 2 ^ 63 <=? offset then (-1, [], with_k_errno EINVAL k)
            else
              match read_span (k_mem k) offset (Z.to_nat count) with
              | [] => (-1, [], with_k_errno EIO k)
              | bs => (Z.of_nat (length bs), bs, k)
              end
      end in
    Done (r, bs) (with_kernel (log_event (EvPread64 count offset r) k1) st).

(** [pwrite64(t->vm()->mem_fd(), buf, buf_size, offset)]. *)
Definition pwrite64 (buf : list Z) (offset : Z) : M Z :=
  fun st =>
    let k0 := kernel st in
    let '(r, k1) :=
      match mem_fd (vm st) with
      | closed_fd => (-1, with_k_errno EBADF k0)
      | open_fd false => (0, k0)
      | open_fd true =>
          if mem_fd_gone k0 then (0, k0)
          else
            let k := serve_mem_fd k0 in
            if 2 ^ 63 <=? offset then (-1, with_k_errno EINVAL k)
            else
              match writable_span k offset (length buf) with
              | O => (-1, with_k_errno (memfd_write_errno k offset) k)
              | n => (Z.of_nat n,
                      with_k_mem (store_bytes (k_mem k) offset (firstn n buf))
                        k)
              end
      end in
    Done r (with_kernel (log_event (EvPwrite64 buf offset r) k1) st).

(** [remote.infallible_syscall(mprotect, start, size, prot)]. *)
Definition remote_mprotect (start size prot : Z) : M unit :=
  modify_kernel (fun k =>
    log_event (EvRemoteMprotect start size prot)
      (with_k_prot (fun a => if (start <=? a) && (a <? start + size)
                             then prot else k_prot k a) k)).

(** The PerfCounters object [hpc]. *)
Definition hpc_read_ticks : M Z := gets (fun st => k_hpc_ticks (kernel st)).
Definition hpc_stop : M unit := modify_kernel (log_event EvHpcStop).
Definition hpc_reset (ticks_period : Z) : M unit :=
  modify_kernel (log_event (EvHpcReset ticks_period)).
Definition hpc_ticks_fd : M Z := gets (fun st => k_ticks_fd (kernel st)).

(** ** Register accessors used by Task.cc (class Registers) *)

Definition reg_wrap (a : SupportedArch) (v : Z) : Z :=
  match a with x86 => wrap32 v | x86_64 => wrap64 v end.

Definition reg_signed (a : SupportedArch) (v : Z) : Z :=
  match a with x86 => signed32 v | x86_64 => signed64 v end.

Definition set_flags (v : Z) (r : Registers) : Registers :=
  with_flags (reg_wrap (arch r) v) r.
Definition set_r11 (v : Z) (r : Registers) : Registers :=
  with_r11 (wrap64 v) r.
Definition set_cx (v : Z) (r : Registers) : Registers :=
  with_cx (reg_wrap (arch r) v) r.
Definition set_original_syscallno (v : Z) (r : Registers) : Registers :=
  with_original_syscallno v r.

Definition cx_signed (r : Registers) : Z := reg_signed (arch r) (cx r).
Definition arg1_signed (r : Registers) : Z := reg_signed (arch r) (arg1 r).
Definition arg3_signed (r : Registers) : Z := reg_signed (arch r) (arg3 r).
Definition syscall_result_signed (r : Registers) : Z :=
  reg_signed (arch r) (syscall_result r).

Definition singlestep_flag (r : Registers) : bool :=
  negb (Z.land (flags r) X86_TF_FLAG =? 0).
Definition clear_singlestep_flag (r : Registers) : Registers :=
  with_flags (Z.land (flags r) (Z.lnot X86_TF_FLAG)) r.

(** Modelled from the spec: Registers::syscall_failed is declared in
    Registers.h, which is not part of the sources; "the syscall failed" is
    the kernel's convention of a result in the errno range. *)
Definition syscall_failed (r : Registers) : bool :=
  let result := syscall_result_signed r in
  (-4096 <? result) && (result <? 0).

(** [set_from_ptrace] takes the values PTRACE_GETREGS delivered and keeps the
    architecture the cache was created with; [get_ptrace] is its inverse. *)
Definition set_from_ptrace (ptrace_regs : Registers) (r : Registers)
  : Registers :=
  mkRegisters (arch r) (ip ptrace_regs) (flags ptrace_regs) (r11 ptrace_regs)
    (cx ptrace_regs) (original_syscallno ptrace_regs)
    (syscall_result ptrace_regs) (arg1 ptrace_regs) (arg2 ptrace_regs)
    (arg3 ptrace_regs) (arg4 ptrace_regs) (arg5 ptrace_regs) (arg6 ptrace_regs).

Definition get_ptrace (r : Registers) : Registers := r.

(** Modelled from the spec: remote_code_ptr is not part of the sources; the
    breakpoint instruction of both architectures (int3) is one byte long. *)
Definition bkpt_insn_length (a : SupportedArch) : Z := 1.

Definition increment_by_bkpt_insn_length (a : SupportedArch) (p : Z) : Z :=
  p + bkpt_insn_length a.

(** Modelled from the spec: the sigreturn family is the two system calls
    sigreturn and rt_sigreturn. *)
Definition is_sigreturn (tbl : Arch.syscalls) (syscallno : Z) : bool :=
  (syscallno =? Arch.sigreturn tbl) || (syscallno =? Arch.rt_sigreturn tbl).

Definition is_mprotect_syscall (tbl : Arch.syscalls) (syscallno : Z) : bool :=
  syscallno =? Arch.mprotect tbl.

(** ** AddressSpace queries *)

Fixpoint get_breakpoint_type_at_addr (bs : list (Z * BreakpointType)) (addr : Z)
  : BreakpointType :=
  match bs with
  | [] => BKPT_NONE
  | (a, t) :: bs' =>
      if a =? addr then t else get_breakpoint_type_at_addr bs' addr
  end.

Definition is_bkpt_none (t : BreakpointType) : bool :=
  match t with BKPT_NONE => true | _ => false end.

Definition mapping_contains (m : KernelMapping) (p : Z) : bool :=
  (km_start m <=? p) && (p <? km_end m).

(** [AddressSpace::mapping_of] asserts that the address is mapped. *)
Definition mapping_of (p : Z) : M KernelMapping :=
  fun st =>
    match find (fun m => mapping_contains m p) (maps (vm st)) with
    | Some m => Done m st
    | None => Fatal st
    end.

(** [AddressSpace::maps_starting_at]: the mappings, in address order, from
    the first one that ends after [start]. *)
Definition maps_starting_at (start : Z) (a : AddressSpace)
  : list KernelMapping :=
  filter (fun m => start <? km_end m) (maps a).

(** A mutating call on the AddressSpace: it is appended to the log of calls,
    from which [maps] answers the queries that follow. *)
Definition vm_call (op : VmOp) : M unit :=
  modify_vm (fun a => with_vm_log (vm_log a ++ [op]) a).

Definition fd_call (op : FdOp) : M unit :=
  modify_fds (fun f => mkFdTable (fd_log f ++ [op])).

(** ** Small accessors of Task *)

(** [Task::regs]. *)
Definition regs : M Registers :=
  stopped <- gets (fun st => is_stopped (task st)) ;;
  ASSERT stopped ;;
  gets (fun st => registers (task st)).

Definition task_ip : M Z := r <- regs ;; ret (ip r).

Definition task_arch : M SupportedArch :=
  gets (fun st => arch (registers (task st))).

Definition ptrace_event : M Z :=
  gets (fun st => ptrace_event_from_status (wait_status (task st))).

Definition lift_option {A : Type} (o : option A) : M A :=
  match o with Some a => ret a | None => fatal end.

Definition pending_sig : M Z :=
  status <- gets (fun st => wait_status (task st)) ;;
  lift_option (pending_sig_from_status status).

Definition stop_sig : M Z :=
  status <- gets (fun st => wait_status (task st)) ;;
  lift_option (stop_sig_from_status status).

(** [Task::set_regs]. *)
Definition set_regs (r : Registers) : M unit :=
  stopped <- gets (fun st => is_stopped (task st)) ;;
  ASSERT stopped ;;
  modify_task (with_registers r) ;;
  ptrace_if_alive PTRACE_SETREGS 0 (DataRegs (get_ptrace r)) ;;
  ret tt.

(** ** Debug registers *)

(** [dr_user_word_offset], with its [assert]. *)
Definition dr_user_word_offset (i : Z) : M Z :=
  ASSERT ((0 <=? i) && (i <? 8)) ;;
  ret (u_debugreg_offset + 8 * i).

Definition set_debug_status (status : Z) : M unit :=
  off <- dr_user_word_offset 6 ;;
  fallible_ptrace PTRACE_POKEUSER off (DataWord status) ;;
  ret tt.

(** [Task::get_debug_reg]. *)
Definition get_debug_reg (regno : Z) : M Z :=
  set_errno 0 ;;
  off <- dr_user_word_offset regno ;;
  '(result, _) <- fallible_ptrace PTRACE_PEEKUSER off DataNull ;;
  e <- get_errno ;;
  if e =? ESRCH then ret 0 else ret (wrap64 result).

(** [num_bytes_to_dr_len]; an unsupported size is FATAL. *)
Definition num_bytes_to_dr_len (num_bytes : Z) : M Z :=
  if num_bytes =? 1 then ret 0
  else if num_bytes =? 2 then ret 1
  else if num_bytes =? 4 then ret 3
  else if num_bytes =? 8 then ret 2
  else fatal.

(** Assignment to a bit-field of [width] bits at bit [pos] of the packed
    [DebugControl] word. *)
Definition set_field (pos width v x : Z) : Z :=
  Z.lor (Z.land x (Z.lnot (Z.shiftl (Z.ones width) pos)))
        (Z.shiftl (Z.land v (Z.ones width)) pos).

(** [CASE_ENABLE_DR(dr7, i, reg)]: dr<i>_local at bit 2i, dr<i>_type at bits
    16+4i, dr<i>_len at bits 18+4i. *)
Definition enable_dr (i : Z) (reg : WatchConfig) (dr7 : Z) : M Z :=
  let dr7 := set_field (2 * i) 1 1 dr7 in
  let dr7 := set_field (16 + 4 * i) 2 (WatchType_bits (wc_type reg)) dr7 in
  len <- num_bytes_to_dr_len (wc_num_bytes reg) ;;
  ret (set_field (18 + 4 * i) 2 len dr7).

(** The [for (auto reg : regs)] loop of [set_debug_regs]: [None] when a
    write of an address register failed, else the packed control word. *)
Fixpoint program_debug_regs (regs : list WatchConfig) (dr : Z) (dr7 : Z)
  : M (option Z) :=
  match regs with
  | [] => ret (Some dr7)
  | reg :: rest =>
      off <- dr_user_word_offset dr ;;
      '(rc, _) <- fallible_ptrace PTRACE_POKEUSER off (DataWord (wc_addr reg)) ;;
      if negb (rc =? 0) then ret None
      else
        dr7' <- (if (0 <=? dr) && (dr <? 4) then enable_dr dr reg dr7
                 else fatal) ;;
        program_debug_regs rest (dr + 1) dr7'
  end.

Definition NUM_X86_WATCHPOINTS : Z := 4.

(** [Task::set_debug_regs]. *)
Definition set_debug_regs (regs : list WatchConfig) : M bool :=
  off6 <- dr_user_word_offset 6 ;;
  ptrace_if_alive PTRACE_POKEUSER off6 (DataWord 0) ;;
  off7 <- dr_user_word_offset 7 ;;
  ptrace_if_alive PTRACE_POKEUSER off7 (DataWord 0) ;;
  if NUM_X86_WATCHPOINTS <? Z.of_nat (length regs) then ret false
  else
    packed <- program_debug_regs regs 0 0 ;;
    match packed with
    | None => ret false
    | Some dr7 =>
        off <- dr_user_word_offset 7 ;;
        '(rc, _) <- fallible_ptrace PTRACE_POKEUSER off (DataWord dr7) ;;
        ret (rc =? 0)
    end.

(** ** The post-stop normaliser *)

(** [is_in_non_sigreturn_exit_syscall]. *)
Definition is_in_non_sigreturn_exit_syscall : M bool :=
  sig <- stop_sig ;;
  if negb (sig =? Z.lor SIGTRAP 128) then ret false
  else
    recording <- gets (fun st => is_recording (session st)) ;;
    if recording then
      e <- gets (fun st => ev (session st)) ;;
      a <- task_arch ;;
      tbl <- gets (fun st => abi st a) ;;
      ret (match e with
           | EV_SYSCALL number => negb (is_sigreturn tbl number)
           | EV_OTHER => true
           end)
    else ret true.

(** [fixup_syscall_registers]; 582 is 0x246. *)
Definition fixup_syscall_registers (r : Registers) : Registers :=
  match arch r with
  | x86_64 =>
      let r := set_r11 (Z.land (r11 r) (Z.lnot X86_TF_FLAG)) r in
      let r := set_cx (-1) r in
      set_flags 582 r
  | x86 => set_flags 582 r
  end.

(** [Task::did_waitpid(status, override_siginfo)]. *)
Definition did_waitpid (status : Z) (override_siginfo : option siginfo_t)
  : M unit :=
  more_ticks <- hpc_read_ticks ;;
  hpc_stop ;;
  modify_task (fun t => with_ticks (ticks t + more_ticks) t) ;;
  modify_session
    (fun s => with_ticks_processed (ticks_processed s + more_ticks) s) ;;
  original_syscallno_ <-
    gets (fun st => original_syscallno (registers (task st))) ;;
  event0 <- ptrace_event ;;
  status <-
    (if negb (event0 =? PTRACE_EVENT_EXEC) then
       '(alive, out) <- ptrace_if_alive PTRACE_GETREGS 0 DataNull ;;
       if alive then
         match out with
         | DataRegs ptrace_regs =>
             modify_task (fun t =>
               with_registers (set_from_ptrace ptrace_regs (registers t)) t)
         | _ => ret tt
         end ;;
         ret status
       else ret ptrace_exit_wait_status
     else ret status) ;;
  sig <- lift_option (pending_sig_from_status status) ;;
  status <-
    (if negb (sig =? 0) then
       match override_siginfo with
       | Some si => modify_task (with_pending_siginfo si) ;; ret status
       | None =>
           '(alive, out) <- ptrace_if_alive PTRACE_GETSIGINFO 0 DataNull ;;
           if alive then
             match out with
             | DataSiginfo si => modify_task (with_pending_siginfo si)
             | _ => ret tt
             end ;;
             ret status
           else ret ptrace_exit_wait_status
       end
     else ret status) ;;
  modify_task (with_is_stopped true) ;;
  modify_task (with_wait_status status) ;;
  event1 <- ptrace_event ;;
  when (event1 =? PTRACE_EVENT_EXIT)
    (modify_task (with_seen_ptrace_exit_event true)) ;;
  r <- gets (fun st => registers (task st)) ;;
  need_to_set_regs <-
    (if singlestep_flag r then
       modify_task (with_registers (clear_singlestep_flag r)) ;; ret true
     else ret false) ;;
  resume_addr <- gets (fun st => address_of_last_execution_resume (task st)) ;;
  bkpt <- gets (fun st =>
            get_breakpoint_type_at_addr (breakpoints (vm st)) resume_addr) ;;
  at_breakpoint <-
    (if negb (is_bkpt_none bkpt) then
       psig <- pending_sig ;;
       if psig =? SIGTRAP then
         event2 <- ptrace_event ;; ret (event2 =? 0)
       else ret false
     else ret false) ;;
  need_to_set_regs <-
    (if at_breakpoint then
       ip_ <- task_ip ;;
       a <- task_arch ;;
       ASSERT (ip_ =? increment_by_bkpt_insn_length a resume_addr) ;;
       ASSERT (more_ticks =? 0) ;;
       modify_task (fun t =>
         with_registers
           (set_original_syscallno original_syscallno_ (registers t)) t) ;;
       ret true
     else ret need_to_set_regs) ;;
  in_exit <- is_in_non_sigreturn_exit_syscall ;;
  need_to_set_regs <-
    (if in_exit then
       modify_task (fun t =>
         with_registers (fixup_syscall_registers (registers t)) t) ;;
       ret true
     else ret need_to_set_regs) ;;
  if need_to_set_regs then
    r <- gets (fun st => registers (task st)) ;;
    set_regs r
  else ret tt.

(** ** wait and resume_execution *)

(** Modelled from the spec: PerfCounters.h is not part of the sources;
    [PerfCounters::TIME_SLICE_SIGNAL], the scheduler signal, is SIGSTKFLT. *)
Definition TIME_SLICE_SIGNAL : Z := SIGSTKFLT.

Definition expire_timeslice : M unit :=
  modify_session
    (fun s => with_timeslices_expired (timeslices_expired s + 1) s).

(** The [while (true)] loop of [Task::wait]; it yields [ret], [status] and
    [sent_wait_interrupt].  Every iteration takes one result off the waitpid
    script, so a budget of one more than the script's length is never the
    reason the loop stops: a blocking waitpid on the empty script is. *)
Fixpoint wait_loop (budget : nat) (interrupt_after_elapsed : double)
    (sent_wait_interrupt : bool) : M (Z * Z * bool) :=
  match budget with
  | O => diverge
  | S budget' =>
      when (negb (double_is_zero interrupt_after_elapsed))
        (setitimer (to_timeval interrupt_after_elapsed)) ;;
      r <- waitpid false ;;
      when (negb (double_is_zero interrupt_after_elapsed))
        (setitimer (mkTimeval 0 0)) ;;
      e <- get_errno ;;
      if (0 <=? wr_ret r) || negb (e =? EINTR)
      then ret (wr_ret r, wr_status r, sent_wait_interrupt)
      else
        zombie <- is_zombie_process ;;
        if zombie then
          tid_ <- gets (fun st => tid (task st)) ;;
          ret (tid_, ptrace_exit_wait_status, sent_wait_interrupt)
        else
          sent <-
            (if negb sent_wait_interrupt then
               ptrace_if_alive PTRACE_INTERRUPT 0 DataNull ;; ret true
             else ret sent_wait_interrupt) ;;
          wait_loop budget' interrupt_after_elapsed sent
  end.

(** The status and siginfo [wait] forges for an expired time slice. *)
Definition time_slice_status : Z := Z.lor (Z.shiftl TIME_SLICE_SIGNAL 8) 127.

Definition time_slice_siginfo (ticks_fd : Z) : siginfo_t :=
  {| si_signo := TIME_SLICE_SIGNAL; si_code := POLL_IN; si_fd := ticks_fd |}.

(** [Task::wait(interrupt_after_elapsed)]. *)
Definition wait (interrupt_after_elapsed : double) : M unit :=
  unstable_ <- gets (fun st => unstable (task st)) ;;
  ASSERT (negb unstable_) ;;
  recording <- gets (fun st => is_recording (session st)) ;;
  ASSERT (recording || double_is_zero interrupt_after_elapsed) ;;
  unexpected <- gets (fun st => detected_unexpected_exit (task st)) ;;
  if unexpected then
    did_waitpid ptrace_exit_wait_status None ;;
    modify_task (with_detected_unexpected_exit false)
  else
    budget <- gets (fun st => S (length (k_waitpid (kernel st)))) ;;
    '(ret_, status, sent_wait_interrupt) <-
      wait_loop budget interrupt_after_elapsed false ;;
    status <-
      (if (0 <=? ret_) && negb (stopped_from_status status) then
         seen <- gets (fun st => seen_ptrace_exit_event (task st)) ;;
         ASSERT (negb seen) ;;
         ret ptrace_exit_wait_status
       else ret status) ;;
    tid_ <- gets (fun st => tid (task st)) ;;
    ASSERT (tid_ =? ret_) ;;
    if sent_wait_interrupt
       && (PTRACE_EVENT_STOP =? ptrace_event_from_status status)
       && is_signal_triggered_by_ptrace_interrupt (WSTOPSIG status)
    then
      recording <- gets (fun st => is_recording (session st)) ;;
      when recording expire_timeslice ;;
      ticks_fd <- hpc_ticks_fd ;;
      did_waitpid time_slice_status (Some (time_slice_siginfo ticks_fd))
    else did_waitpid status None.

(** [Task::resume_execution(how, wait_how, tick_period, sig)]. *)
Definition resume_execution (how : ResumeRequest) (wait_how : WaitRequest)
    (tick_period : TicksRequest) (sig : Z) : M unit :=
  match tick_period with
  | RESUME_NO_TICKS => ret tt
  | RESUME_UNLIMITED_TICKS => hpc_reset 4294967295
  | RESUME_TICKS n => hpc_reset (Z.max 1 n)
  end ;;
  ip_ <- task_ip ;;
  modify_task (with_address_of_last_execution_resume ip_) ;;
  set_debug_status 0 ;;
  recording <- gets (fun st => is_recording (session st)) ;;
  tid_ <- gets (fun st => tid (task st)) ;;
  wait_ret <-
    (if recording then
       r <- waitpid true ;;
       ASSERT (0 <=? wr_ret r) ;;
       (if wr_ret r =? tid_
        then ASSERT (ptrace_event_from_status (wr_status r) =? PTRACE_EVENT_EXIT)
        else ASSERT (0 =? wr_ret r)) ;;
       ret (wr_ret r)
     else ret 0) ;;
  (if wait_ret =? tid_ then
     modify_task (with_detected_unexpected_exit true)
   else
     ptrace_if_alive (request_of_resume how) 0 (DataWord sig) ;; ret tt) ;;
  modify_task (with_is_stopped false) ;;
  modify_task (with_extra_registers_known false) ;;
  match wait_how with
  | RESUME_WAIT => wait (double_of_int 0)
  | RESUME_NONBLOCKING => ret tt
  end.

(** ** Remote memory *)

(** [sizeof(long)] on the host. *)
Definition word_size : Z := 8.

Definition align_down (a alignment : Z) : Z :=
  Z.land a (wrap64 (Z.lnot (alignment - 1))).

Definition floor_page_size (a : Z) : Z := align_down a page_size.
Definition ceil_page_size (a : Z) : Z :=
  align_down (wrap64 (a + page_size - 1)) page_size.

(** The kernel's side of opening /proc/<tid>/mem anew: the next answer of
    the script is used up, and a descriptor opened after the address space
    was replaced refers to the new one. *)
Definition reopened (k : Kernel) : Kernel :=
  with_k_mem_fd_ttl (if mem_fd_gone k then None else k_mem_fd_ttl k)
    (with_k_mem_fd_opens (tl (k_mem_fd_opens k)) k).

(** [Task::open_mem_fd].  The injected open of /proc/self/mem is one step of
    the environment; whether the descriptor it returns is usable is the
    kernel's choice. *)
Definition open_mem_fd : M unit :=
  modify_vm (with_mem_fd closed_fd) ;;
  opens <- gets (fun st => k_mem_fd_opens (kernel st)) ;;
  let live := match opens with [] => true | b :: _ => b end in
  modify_kernel (fun k => log_event (EvOpenMemFd live) (reopened k)) ;;
  modify_vm (with_mem_fd (open_fd live)) ;;
  fd <- gets (fun st => mem_fd (vm st)) ;;
  ASSERT (is_open fd).

(** The loop of [Task::read_bytes_ptrace]: [nread] and the bytes copied to
    [buf] so far. *)
Fixpoint read_bytes_ptrace_loop (fuel : nat) (addr buf_size nread : Z)
    (buf : list Z) : M (Z * list Z) :=
  if nread <? buf_size then
    match fuel with
    | O => diverge
    | S fuel' =>
        let start := wrap64 (addr + nread) in
        let start_word := align_down start word_size in
        let end_word := wrap64 (start_word + word_size) in
        let length :=
          Z.min (wrap64 (end_word - start)) (wrap64 (buf_size - nread)) in
        '(v, _) <- fallible_ptrace PTRACE_PEEKDATA start_word DataNull ;;
        e <- get_errno ;;
        if negb (e =? 0) then ret (nread, buf)
        else
          let chunk :=
            firstn (Z.to_nat length)
              (skipn (Z.to_nat (start - start_word)) (bytes_of_int 8 v)) in
          read_bytes_ptrace_loop fuel' addr buf_size (nread + length)
            (buf ++ chunk)
    end
  else ret (nread, buf).

(** [Task::read_bytes_ptrace]. *)
Definition read_bytes_ptrace (fuel : nat) (addr buf_size : Z)
  : M (Z * list Z) :=
  set_errno 0 ;;
  read_bytes_ptrace_loop fuel addr buf_size 0 [].

(** The loop of [Task::write_bytes_ptrace].  The word [v] is uninitialised
    when a whole word is written; it is then overwritten entirely. *)
Fixpoint write_bytes_ptrace_loop (fuel : nat) (addr : Z) (buf : list Z)
    (nwritten : Z) : M Z :=
  let buf_size := Z.of_nat (length buf) in
  if nwritten <? buf_size then
    match fuel with
    | O => diverge
    | S fuel' =>
        let start := wrap64 (addr + nwritten) in
        let start_word := align_down start word_size in
        let end_word := wrap64 (start_word + word_size) in
        let length :=
          Z.min (wrap64 (end_word - start)) (wrap64 (buf_size - nwritten)) in
        peeked <-
          (if length <? word_size then
             '(v, _) <- fallible_ptrace PTRACE_PEEKDATA start_word DataNull ;;
             e <- get_errno ;;
             ret (if e =? 0 then Some v else None)
           else ret (Some 0)) ;;
        match peeked with
        | None => ret nwritten
        | Some v =>
            let v' :=
              signed64
                (int_of_bytes
                   (splice (bytes_of_int 8 v) (Z.to_nat (start - start_word))
                      (firstn (Z.to_nat length)
                         (skipn (Z.to_nat nwritten) buf)))) in
            fallible_ptrace PTRACE_POKEDATA start_word (DataWord v') ;;
            write_bytes_ptrace_loop fuel' addr buf (nwritten + length)
        end
    end
  else ret nwritten.

(** [Task::write_bytes_ptrace]. *)
Definition write_bytes_ptrace (fuel : nat) (addr : Z) (buf : list Z) : M Z :=
  set_errno 0 ;;
  write_bytes_ptrace_loop fuel addr buf 0.

(** The [while (all_read < buf_size)] loop of [Task::read_bytes_fallible]. *)
Fixpoint read_bytes_mem_fd_loop (fuel : nat) (addr buf_size all_read : Z)
    (buf : list Z) : M (Z * list Z) :=
  if all_read <? buf_size then
    match fuel with
    | O => diverge
    | S fuel' =>
        set_errno 0 ;;
        '(nread, bytes) <-
          pread64 (buf_size - all_read) (wrap64 (addr + all_read)) ;;
        e <- get_errno ;;
        if (0 =? nread) && (0 =? all_read) && (0 =? e) then
          open_mem_fd ;;
          read_bytes_mem_fd_loop fuel' addr buf_size all_read buf
        else if nread <=? 0 then
          if 0 <? all_read then set_errno 0 ;; ret (all_read, buf)
          else ret (nread, buf)
        else
          read_bytes_mem_fd_loop fuel' addr buf_size (all_read + nread)
            (buf ++ bytes)
    end
  else ret (all_read, buf).

(** [Task::read_bytes_fallible]: the count returned and the bytes placed in
    [buf]. *)
Definition read_bytes_fallible (fuel : nat) (addr buf_size : Z)
  : M (Z * list Z) :=
  ASSERT (0 <=? buf_size) ;;
  if 0 =? buf_size then ret (0, [])
  else
    fd <- gets (fun st => mem_fd (vm st)) ;;
    if negb (is_open fd) then read_bytes_ptrace fuel addr buf_size
    else read_bytes_mem_fd_loop fuel addr buf_size 0 [].

(** [Task::read_bytes_helper]; [ok] is the optional out-flag. *)
Definition read_bytes_helper (fuel : nat) (addr buf_size : Z)
    (ok : option bool) : M (list Z * option bool) :=
  '(nread, buf) <- read_bytes_fallible fuel addr buf_size ;;
  if negb (nread =? buf_size) then
    match ok with
    | Some _ => ret (buf, Some false)
    | None => fatal
    end
  else ret (buf, ok).

(** [read_mem] of Task.h: a read that must be complete. *)
Definition read_mem (fuel : nat) (addr size : Z) : M (list Z) :=
  '(buf, _) <- read_bytes_helper fuel addr size None ;;
  ret buf.

(** The page walk of [Task::try_replace_pages]: [None] when two pages differ
    in protection or flags. *)
Fixpoint check_pages (n : nat) (page_start p all_prot all_flags : Z)
  : M (option (Z * Z)) :=
  match n with
  | O => ret (Some (all_prot, all_flags))
  | S n' =>
      m <- mapping_of p ;;
      if page_start <? p then
        if negb (all_prot =? km_prot m) || negb (all_flags =? km_flags m)
        then ret None
        else check_pages n' page_start (p + page_size) all_prot all_flags
      else check_pages n' page_start (p + page_size) (km_prot m) (km_flags m)
  end.

(** [Task::try_replace_pages]: the temporary file and the injected
    open/mmap/close are one step of the environment, which maps the spliced
    page contents over the destination. *)
Definition try_replace_pages (fuel : nat) (addr : Z) (buf : list Z) : M bool :=
  let buf_size := Z.of_nat (length buf) in
  let page_start := floor_page_size addr in
  let page_end := ceil_page_size (wrap64 (addr + buf_size)) in
  checked <-
    check_pages (Z.to_nat ((page_end - page_start) / page_size))
      page_start page_start 0 0 ;;
  match checked with
  | None => ret false
  | Some (all_prot, all_flags) =>
      if Z.land all_flags MAP_PRIVATE =? 0 then ret false
      else
        cur <- read_mem fuel page_start (page_end - page_start) ;;
        let contents := splice cur (Z.to_nat (addr - page_start)) buf in
        modify_kernel (fun k =>
          log_event
            (EvReplacePages page_start contents all_prot
               (Z.lor all_flags MAP_FIXED))
            (with_k_mem (store_bytes (k_mem k) page_start contents) k)) ;;
        ret true
  end.

(** The mappings [safe_pwrite64] must make writable first. *)
Fixpoint mappings_to_fix (ms : list KernelMapping) (stop : Z)
  : list KernelMapping :=
  match ms with
  | [] => []
  | m :: ms' =>
      if stop <=? km_start m then []
      else if Z.land (km_prot m) (Z.lor PROT_READ PROT_WRITE) =? 0
      then m :: mappings_to_fix ms' stop
      else mappings_to_fix ms' stop
  end.

Fixpoint mprotect_each (ms : list KernelMapping) (extra_prot : Z) : M unit :=
  match ms with
  | [] => ret tt
  | m :: ms' =>
      remote_mprotect (km_start m) (km_end m - km_start m)
        (Z.lor (km_prot m) extra_prot) ;;
      mprotect_each ms' extra_prot
  end.

(** [safe_pwrite64]. *)
Definition safe_pwrite64 (buf : list Z) (addr : Z) : M Z :=
  let buf_size := Z.of_nat (length buf) in
  a <- gets vm ;;
  let to_fix :=
    mappings_to_fix (maps_starting_at (floor_page_size addr) a)
      (ceil_page_size (wrap64 (addr + buf_size))) in
  match to_fix with
  | [] => pwrite64 buf addr
  | _ =>
      mprotect_each to_fix PROT_WRITE ;;
      nwritten <- pwrite64 buf addr ;;
      mprotect_each to_fix 0 ;;
      ret nwritten
  end.

(** [Task::write_bytes_helper(addr, buf_size, buf, ok)] with
    [buf_size = length buf]; the result is the out-flag [ok]. *)
Fixpoint write_bytes_helper (fuel : nat) (addr : Z) (buf : list Z)
    (ok : option bool) : M (option bool) :=
  let buf_size := Z.of_nat (length buf) in
  ASSERT (0 <=? buf_size) ;;
  if 0 =? buf_size then ret ok
  else
    fd <- gets (fun st => mem_fd (vm st)) ;;
    if negb (is_open fd) then
      nwritten <- write_bytes_ptrace fuel addr buf ;;
      when (0 <? nwritten) (vm_call (VmNotifyWritten addr nwritten)) ;;
      ret (match ok with
           | Some _ => if nwritten <? buf_size then Some false else ok
           | None => None
           end)
    else
      set_errno 0 ;;
      nwritten <- safe_pwrite64 buf addr ;;
      e <- get_errno ;;
      if (0 =? nwritten) && (0 =? e) then
        match fuel with
        | O => diverge
        | S fuel' => open_mem_fd ;; write_bytes_helper fuel' addr buf ok
        end
      else
        replaced <-
          (if e =? EPERM then try_replace_pages fuel addr buf else ret false) ;;
        if replaced then
          vm_call (VmNotifyWritten addr buf_size) ;; ret ok
        else
          ok' <-
            match ok with
            | Some _ => ret (if nwritten <? buf_size then Some false else ok)
            | None => ASSERT (nwritten =? buf_size) ;; ret None
            end ;;
          when (0 <? nwritten) (vm_call (VmNotifyWritten addr nwritten)) ;;
          ret ok'.

(** ** The syscall-exit hooks *)

(** Conversion to a C [int]. *)
Definition to_int (v : Z) : Z := signed32 v.

Definition decode_user_desc (bs : list Z) : user_desc :=
  {| entry_number := int_of_bytes (firstn 4 bs);
     base_addr := int_of_bytes (firstn 4 (skipn 4 bs));
     limit := int_of_bytes (firstn 4 (skipn 8 bs));
     desc_bits := int_of_bytes (firstn 4 (skipn 12 bs)) |}.

(** The loop of [Task::set_thread_area]: overwrite the entry with the same
    [entry_number], else append. *)
Fixpoint upsert_thread_area (desc : user_desc) (areas : list user_desc)
  : list user_desc :=
  match areas with
  | [] => [desc]
  | t :: rest =>
      if entry_number t =? entry_number desc then desc :: rest
      else t :: upsert_thread_area desc rest
  end.

(** [Task::set_thread_area]. *)
Definition set_thread_area (fuel : nat) (tls : Z) : M unit :=
  bs <- read_mem fuel tls 16 ;;
  modify_task (fun t =>
    with_thread_areas_
      (upsert_thread_area (decode_user_desc bs) (thread_areas_ t)) t).

(** The characters of a C string held in a buffer. *)
Fixpoint c_string (chars : list Z) : list Z :=
  match chars with
  | [] => []
  | c :: rest => if c =? 0 then [] else c :: c_string rest
  end.

(** [Task::update_prname]. *)
Definition update_prname (fuel : nat) (child_addr : Z) : M unit :=
  name <- read_mem fuel child_addr 16 ;;
  modify_task (with_prname (c_string (firstn 15 name ++ [0]))).

(** Bytes of one machine word of the tracee's ABI. *)
Definition abi_word_bytes (a : SupportedArch) : nat :=
  match a with x86 => 4%nat | x86_64 => 8%nat end.

(** [n] records of [struct iovec]: the pairs (iov_base, iov_len). *)
Fixpoint decode_iovecs (w : nat) (n : nat) (bs : list Z) : list (Z * Z) :=
  match n with
  | O => []
  | S n' =>
      (int_of_bytes (firstn w bs), int_of_bytes (firstn w (skipn w bs)))
        :: decode_iovecs w n' (skipn (w + w) bs)
  end.

(** The [for (auto& v : iovecs)] loop of the writev case. *)
Fixpoint writev_ranges (iovecs : list (Z * Z)) (written : Z) : list (Z * Z) :=
  match iovecs with
  | [] => []
  | (iov_base, iov_len) :: rest =>
      let amount := Z.min written (signed64 iov_len) in
      if 0 <? amount
      then (iov_base, amount) :: writev_ranges rest (written - amount)
      else writev_ranges rest written
  end.

(** [Task::on_syscall_exit_arch<Arch>]; [arch_] is the template argument and
    [tbl] its table of constants.  The [switch] is written as tests in the
    order of its labels. *)
Definition on_syscall_exit_arch (fuel : nat) (arch_ : SupportedArch)
    (syscallno : Z) (regs : Registers) : M unit :=
  modify_session
    (fun s => with_syscalls_performed (syscalls_performed s + 1) s) ;;
  tbl <- gets (fun st => abi st arch_) ;;
  a <- task_arch ;;
  task_tbl <- gets (fun st => abi st a) ;;
  if syscall_failed regs && negb (is_mprotect_syscall task_tbl syscallno)
  then ret tt
  else if (syscallno =? Arch.brk tbl) || (syscallno =? Arch.mmap tbl)
          || (syscallno =? Arch.mmap2 tbl)
  then ret tt
  else if syscallno =? Arch.mprotect tbl then
    vm_call (VmProtect (arg1 regs) (arg2 regs) (to_int (arg3_signed regs)))
  else if syscallno =? Arch.mremap tbl then
    vm_call (VmRemap (arg1 regs) (arg2 regs) (syscall_result regs) (arg3 regs))
  else if syscallno =? Arch.munmap tbl then
    vm_call (VmUnmap (arg1 regs) (arg2 regs))
  else if syscallno =? Arch.shmdt tbl then
    let addr := arg1 regs in
    mapping <- mapping_of addr ;;
    ASSERT (km_start mapping =? addr) ;;
    vm_call (VmUnmap addr (km_end mapping - addr))
  else if syscallno =? Arch.madvise tbl then
    vm_call (VmAdvise (arg1 regs) (arg2 regs) (to_int (arg3 regs)))
  else if syscallno =? Arch.ipc tbl then
    if to_int (arg1_signed regs) =? SHMDT then
      let addr := arg5 regs in
      mapping <- mapping_of addr ;;
      ASSERT (km_start mapping =? addr) ;;
      vm_call (VmUnmap addr (km_end mapping - addr))
    else ret tt
  else if syscallno =? Arch.set_thread_area tbl then
    set_thread_area fuel (arg1 regs)
  else if syscallno =? Arch.prctl tbl then
    if to_int (arg1_signed regs) =? PR_SET_NAME
    then update_prname fuel (arg2 regs)
    else ret tt
  else if (syscallno =? Arch.dup tbl) || (syscallno =? Arch.dup2 tbl)
          || (syscallno =? Arch.dup3 tbl)
  then fd_call (FdDidDup (to_int (arg1 regs)) (to_int (syscall_result regs)))
  else if (syscallno =? Arch.fcntl64 tbl) || (syscallno =? Arch.fcntl tbl) then
    if (arg2 regs =? Arch.DUPFD tbl) || (arg2 regs =? Arch.DUPFD_CLOEXEC tbl)
    then fd_call (FdDidDup (to_int (arg1 regs)) (to_int (syscall_result regs)))
    else ret tt
  else if syscallno =? Arch.close tbl then
    fd_call (FdDidClose (to_int (arg1 regs)))
  else if syscallno =? Arch.unshare tbl then
    if negb (Z.land (arg1 regs) CLONE_FILES =? 0)
    then fd_call FdEraseTask ;; fd_call FdClone
    else ret tt
  else if syscallno =? Arch.write tbl then
    let fd := to_int (arg1_signed regs) in
    let amount := syscall_result_signed regs in
    fd_call (FdDidWrite fd (if 0 <? amount then [(arg2 regs, amount)] else []))
  else if syscallno =? Arch.writev tbl then
    let fd := to_int (arg1_signed regs) in
    let w := abi_word_bytes arch_ in
    bs <- read_mem fuel (arg2 regs) (Z.of_nat (w + w) * arg3 regs) ;;
    let iovecs := decode_iovecs w (Z.to_nat (arg3 regs)) bs in
    let written := syscall_result_signed regs in
    ASSERT (0 <=? written) ;;
    fd_call (FdDidWrite fd (writev_ranges iovecs written))
  else ret tt.

(** [Task::on_syscall_exit]: dispatch on the task's architecture. *)
Definition on_syscall_exit (fuel : nat) (syscallno : Z) (regs : Registers)
  : M unit :=
  a <- task_arch ;;
  on_syscall_exit_arch fuel a syscallno regs.

(** ** Vocabulary of the statements *)

(** The state an outcome ends in, when it has one. *)
Definition outcome_state {A : Type} (o : outcome A) : option State :=
  match o with
  | Done _ st => Some st
  | Fatal st => Some st
  | Diverged => None
  end.

(** The state a run ends in, [st] itself when it has none. *)
Definition final_state {A : Type} (m : M A) (st : State) : State :=
  match outcome_state (m st) with
  | Some st' => st'
  | None => st
  end.

(** A PTRACE_POKEUSER of debug register [i] with value [v] that ended with
    errno [err]. *)
Definition poke_dr (i v err : Z) : event :=
  EvPtrace PTRACE_POKEUSER (u_debugreg_offset + 8 * i) (DataWord v) err.

(** The tracee is gone, or no slot of DR7 is enabled. *)
Definition watchpoints_disabled (k : Kernel) : Prop :=
  tracee_alive k = false \/ k_dr k 7 = 0.

Definition supported_watch_size (reg : WatchConfig) : bool :=
  (wc_num_bytes reg =? 1) || (wc_num_bytes reg =? 2)
  || (wc_num_bytes reg =? 4) || (wc_num_bytes reg =? 8).

(** The successful writes of the addresses of [regs] to DR[dr], DR[dr+1],
    ... *)
Fixpoint addr_writes (regs : list WatchConfig) (dr : Z) : list event :=
  match regs with
  | [] => []
  | reg :: rest => poke_dr dr (wc_addr reg) 0 :: addr_writes rest (dr + 1)
  end.

(** What one PTRACE_POKEUSER of debug register [i] with value [v] does to
    the state, with its return value [rc] and errno [err]. *)
Record poke_step (i v : Z) (st st' : State) (rc err : Z) : Prop := {
  ps_frame : st' = with_kernel (kernel st') st;
  ps_trace : k_trace (kernel st') = k_trace (kernel st) ++ [poke_dr i v err];
  ps_rc : rc = 0 <-> err = 0;
  ps_errno :
    k_errno (kernel st') = if err =? 0 then k_errno (kernel st) else err;
  ps_dead :
    tracee_alive (kernel st) = false ->
    tracee_alive (kernel st') = false /\ err = ESRCH;
  ps_alive_err : tracee_alive (kernel st) = true -> err = 0 \/ err = EIO;
  ps_other : forall j, j <> i -> k_dr (kernel st') j = k_dr (kernel st) j;
  ps_fail : err <> 0 -> k_dr (kernel st') = k_dr (kernel st);
  ps_zero :
    tracee_alive (kernel st) = true -> i = 6 \/ (i = 7 /\ v = 0) -> err = 0;
  ps_ok : err = 0 -> k_dr (kernel st') i = wrap64 v;
  ps_waitpid : k_waitpid (kernel st') = k_waitpid (kernel st)
}.

(** A write of an address register DR0..DR3 that the kernel accepted. *)
Definition successful_addr_write (e : event) : Prop :=
  exists i a, 0 <= i < 4 /\ e = poke_dr i a 0.

(** How the requests of one [set_debug_regs] call end, after the two
    zeroing writes and the accepted address writes, and the result that goes
    with it. *)
Definition debug_regs_ending (n_regs : nat) (writes final : list event)
    (ok : bool) : Prop :=
  (4 < Z.of_nat n_regs /\ writes = [] /\ final = [] /\ ok = false)
  \/ (exists i a err,
        0 <= i < 4 /\ err <> 0 /\ final = [poke_dr i a err] /\ ok = false)
  \/ (exists v err,
        Z.of_nat n_regs <= 4 /\ length writes = n_regs /\
        final = [poke_dr 7 v err] /\ ok = (err =? 0)).

(** Steps 1 to 4 of [did_waitpid] (ticks, register refresh, siginfo and the
    commit of the status), yielding the two locals the later steps use:
    [more_ticks] and the [original_syscallno] saved on entry.  Named, like
    [did_waitpid_normalize] below, so that statements can refer to the state
    between the two halves; [did_waitpid] itself is the definition above. *)
Definition did_waitpid_refresh (status : Z)
    (override_siginfo : option siginfo_t) : M (Z * Z) :=
  more_ticks <- hpc_read_ticks ;;
  hpc_stop ;;
  modify_task (fun t => with_ticks (ticks t + more_ticks) t) ;;
  modify_session
    (fun s => with_ticks_processed (ticks_processed s + more_ticks) s) ;;
  original_syscallno_ <-
    gets (fun st => original_syscallno (registers (task st))) ;;
  event0 <- ptrace_event ;;
  status <-
    (if negb (event0 =? PTRACE_EVENT_EXEC) then
       '(alive, out) <- ptrace_if_alive PTRACE_GETREGS 0 DataNull ;;
       if alive then
         match out with
         | DataRegs ptrace_regs =>
             modify_task (fun t =>
               with_registers (set_from_ptrace ptrace_regs (registers t)) t)
         | _ => ret tt
         end ;;
         ret status
       else ret ptrace_exit_wait_status
     else ret status) ;;
  sig <- lift_option (pending_sig_from_status status) ;;
  status <-
    (if negb (sig =? 0) then
       match override_siginfo with
       | Some si => modify_task (with_pending_siginfo si) ;; ret status
       | None =>
           '(alive, out) <- ptrace_if_alive PTRACE_GETSIGINFO 0 DataNull ;;
           if alive then
             match out with
             | DataSiginfo si => modify_task (with_pending_siginfo si)
             | _ => ret tt
             end ;;
             ret status
           else ret ptrace_exit_wait_status
       end
     else ret status) ;;
  modify_task (with_is_stopped true) ;;
  modify_task (with_wait_status status) ;;
  event1 <- ptrace_event ;;
  when (event1 =? PTRACE_EVENT_EXIT)
    (modify_task (with_seen_ptrace_exit_event true)) ;;
  ret (more_ticks, original_syscallno_).

(** Steps 5 to 8 of [did_waitpid] (from the single-step flag to the final
    PTRACE_SETREGS), named so that statements can refer to the state they
    start from; [did_waitpid] itself is the definition above. *)
Definition did_waitpid_normalize (more_ticks original_syscallno_ : Z)
  : M unit :=
  r <- gets (fun st => registers (task st)) ;;
  need_to_set_regs <-
    (if singlestep_flag r then
       modify_task (with_registers (clear_singlestep_flag r)) ;; ret true
     else ret false) ;;
  resume_addr <- gets (fun st => address_of_last_execution_resume (task st)) ;;
  bkpt <- gets (fun st =>
            get_breakpoint_type_at_addr (breakpoints (vm st)) resume_addr) ;;
  at_breakpoint <-
    (if negb (is_bkpt_none bkpt) then
       psig <- pending_sig ;;
       if psig =? SIGTRAP then
         event2 <- ptrace_event ;; ret (event2 =? 0)
       else ret false
     else ret false) ;;
  need_to_set_regs <-
    (if at_breakpoint then
       ip_ <- task_ip ;;
       a <- task_arch ;;
       ASSERT (ip_ =? increment_by_bkpt_insn_length a resume_addr) ;;
       ASSERT (more_ticks =? 0) ;;
       modify_task (fun t =>
         with_registers
           (set_original_syscallno original_syscallno_ (registers t)) t) ;;
       ret true
     else ret need_to_set_regs) ;;
  in_exit <- is_in_non_sigreturn_exit_syscall ;;
  need_to_set_regs <-
    (if in_exit then
       modify_task (fun t =>
         with_registers (fixup_syscall_registers (registers t)) t) ;;
       ret true
     else ret need_to_set_regs) ;;
  if need_to_set_regs then
    r <- gets (fun st => registers (task st)) ;;
    set_regs r
  else ret tt.

(** The stop is one at which [did_waitpid] normalises the registers: a
    syscall stop that, in a recording, is not the exit of a sigreturn. *)
Definition non_sigreturn_syscall_stop (st : State) : Prop :=
  stop_sig_from_status (wait_status (task st)) = Some (Z.lor SIGTRAP 128) /\
  (is_recording (session st) = true ->
   forall number,
     ev (session st) = EV_SYSCALL number ->
     is_sigreturn (abi st (arch (registers (task st)))) number = false).

(** The stop is a SIGTRAP without ptrace event while a breakpoint sits at
    the address of the last resume. *)
Definition breakpoint_at_resume_stop (st : State) : Prop :=
  stop_sig_from_status (wait_status (task st)) = Some SIGTRAP /\
  ptrace_event_from_status (wait_status (task st)) = 0 /\
  get_breakpoint_type_at_addr (breakpoints (vm st))
    (address_of_last_execution_resume (task st)) <> BKPT_NONE.

(** The last request issued is a PTRACE_SETREGS of the cached registers, and
    the kernel holds them if it accepted the request. *)
Definition registers_written_back (st : State) : Prop :=
  exists earlier err,
    k_trace (kernel st) =
      earlier
        ++ [EvPtrace PTRACE_SETREGS 0 (DataRegs (registers (task st))) err] /\
    (err = 0 \/ err = ESRCH) /\
    (err = 0 -> k_regs (kernel st) = registers (task st)).

Definition is_waitpid_event (e : event) : bool :=
  match e with EvWaitpid _ _ => true | _ => false end.

(** What a ptrace request that only queries or resumes the tracee leaves
    alone in the kernel: everything but the trace, errno and the tracee's
    remaining life. *)
Record kernel_frame (k k' : Kernel) (new : list event) : Prop := {
  kf_trace : k_trace k' = k_trace k ++ new;
  kf_waitpid : k_waitpid k' = k_waitpid k;
  kf_regs : k_regs k' = k_regs k;
  kf_siginfo : k_siginfo k' = k_siginfo k;
  kf_dr : k_dr k' = k_dr k;
  kf_mem : k_mem k' = k_mem k;
  kf_hpc_ticks : k_hpc_ticks k' = k_hpc_ticks k;
  kf_ticks_fd : k_ticks_fd k' = k_ticks_fd k;
  kf_leader_zombie : k_leader_zombie k' = k_leader_zombie k;
  kf_dead : tracee_alive k = false -> tracee_alive k' = false;
  kf_forever : k_ttl k = None -> k_ttl k' = None
}.

(** The state [s] in which the first half of [did_waitpid status osi] leaves
    a task that was in state [st]. *)
Record refreshed (status : Z) (osi : option siginfo_t) (st s : State)
  : Prop := {
  rf_is_stopped : is_stopped (task s) = true;
  rf_status :
    wait_status (task s) = status
    \/ wait_status (task s) = ptrace_exit_wait_status;
  rf_status_alive :
    k_ttl (kernel st) = None -> wait_status (task s) = status;
  rf_pending : pending_sig_from_status (wait_status (task s)) <> None;
  rf_seen :
    seen_ptrace_exit_event (task s)
    = seen_ptrace_exit_event (task st)
      || (ptrace_event_from_status (wait_status (task s)) =? PTRACE_EVENT_EXIT);
  rf_siginfo :
    forall si,
      osi = Some si ->
      wait_status (task s) = status ->
      pending_sig_from_status status <> Some 0 ->
      pending_siginfo (task s) = si;
  rf_ticks : ticks (task s) = ticks (task st) + k_hpc_ticks (kernel st);
  rf_tid : tid (task s) = tid (task st);
  rf_unstable : unstable (task s) = unstable (task st);
  rf_unexpected :
    detected_unexpected_exit (task s) = detected_unexpected_exit (task st);
  rf_resume_addr :
    address_of_last_execution_resume (task s)
    = address_of_last_execution_resume (task st);
  rf_arch : arch (registers (task s)) = arch (registers (task st));
  rf_vm : vm s = vm st;
  rf_fds : fds s = fds st;
  rf_abi : abi s = abi st;
  rf_recording : is_recording (session s) = is_recording (session st);
  rf_ev : ev (session s) = ev (session st);
  rf_timeslices :
    timeslices_expired (session s) = timeslices_expired (session st);
  rf_kernel :
    exists new,
      kernel_frame (kernel st) (kernel s) new /\
      forallb (fun e => negb (is_waitpid_event e)) new = true
}.

(** What the second half of [did_waitpid] leaves alone: everything but the
    cached registers, the kernel's copy of them and the trace, to which no
    waitpid is added. *)
Record normalize_frame_of (s st' : State) : Prop := {
  nf_wait_status : wait_status (task st') = wait_status (task s);
  nf_resume_addr :
    address_of_last_execution_resume (task st')
    = address_of_last_execution_resume (task s);
  nf_is_stopped : is_stopped (task st') = is_stopped (task s);
  nf_seen :
    seen_ptrace_exit_event (task st') = seen_ptrace_exit_event (task s);
  nf_unexpected :
    detected_unexpected_exit (task st') = detected_unexpected_exit (task s);
  nf_unstable : unstable (task st') = unstable (task s);
  nf_tid : tid (task st') = tid (task s);
  nf_arch : arch (registers (task st')) = arch (registers (task s));
  nf_pending_siginfo : pending_siginfo (task st') = pending_siginfo (task s);
  nf_ticks : ticks (task st') = ticks (task s);
  nf_vm : vm st' = vm s;
  nf_session : session st' = session s;
  nf_fds : fds st' = fds s;
  nf_abi : abi st' = abi s;
  nf_waitpid : k_waitpid (kernel st') = k_waitpid (kernel s);
  nf_trace :
    exists new,
      k_trace (kernel st') = k_trace (kernel s) ++ new /\
      forallb (fun e => negb (is_waitpid_event e)) new = true
}.

(** The perf-counter request [resume_execution] starts with. *)
Definition hpc_reset_events (tick_period : TicksRequest) : list event :=
  match tick_period with
  | RESUME_NO_TICKS => []
  | RESUME_UNLIMITED_TICKS => [EvHpcReset 4294967295]
  | RESUME_TICKS n => [EvHpcReset (Z.max 1 n)]
  end.

(** A request that makes the tracee run again. *)
Definition is_resume_event (e : event) : bool :=
  match e with
  | EvPtrace (PTRACE_CONT | PTRACE_SINGLESTEP | PTRACE_SYSCALL | PTRACE_SYSEMU
              | PTRACE_SYSEMU_SINGLESTEP) _ _ _ => true
  | _ => false
  end.

(** The scheduler bookkeeping [wait] does before it commits a time-slice
    stop. *)
Definition after_expire_timeslice (st : State) : State :=
  if is_recording (session st)
  then with_session
         (with_timeslices_expired (timeslices_expired (session st) + 1)
            (session st)) st
  else st.

Definition is_open_mem_fd_event (e : event) : bool :=
  match e with EvOpenMemFd _ => true | _ => false end.

(** The rule of the mem-fd path of one [read_bytes_fallible addr buf_size],
    read off the requests of the call, [all_read] bytes having been read so
    far.  Each pread64 asks for the rest of the buffer.  When it returns 0
    and nothing has been read yet, the mem fd is reopened and the read is
    tried again.  Any other result that is not positive ends the call: with
    the count read so far if there is one, else with that result.  A
    positive result adds to what has been read, and the call ends when the
    buffer is full.  The value is the count that the call returns; it is
    [None] when the requests do not follow the rule. *)
Fixpoint mem_fd_read_rule (addr buf_size all_read : Z) (evs : list event)
  : option Z :=
  match evs with
  | [] => if all_read <? buf_size then None else Some all_read
  | EvPread64 count offset nread :: rest =>
      if negb ((all_read <? buf_size) && (count =? buf_size - all_read)
               && (offset =? wrap64 (addr + all_read)))
      then None
      else if (nread =? 0) && (all_read =? 0) then
        match rest with
        | EvOpenMemFd _ :: retry => mem_fd_read_rule addr buf_size 0 retry
        | _ => None
        end
      else if nread <=? 0 then
        match rest with
        | [] => Some (if 0 <? all_read then all_read else nread)
        | _ :: _ => None
        end
      else mem_fd_read_rule addr buf_size (all_read + nread) rest
  | _ => None
  end.

(** The requests added to the trace by running [m] from [st]. *)
Definition new_events {A : Type} (m : M A) (st : State) : list event :=
  skipn (length (k_trace (kernel st))) (k_trace (kernel (final_state m st))).

Definition reopen_count {A : Type} (m : M A) (st : State) : nat :=
  length (filter is_open_mem_fd_event (new_events m st)).

(** ** Concrete tables and states

    The Linux syscall numbers of the two architectures (a syscall that an
    architecture lacks has a negative number of its own, so that the case
    labels stay distinct), and the states on which the statements below are
    exercised. *)

Definition x86_64_syscalls : Arch.syscalls :=
  {| Arch.brk := 12; Arch.mmap := 9; Arch.mmap2 := -2; Arch.mprotect := 10;
     Arch.mremap := 25; Arch.munmap := 11; Arch.shmdt := 67;
     Arch.madvise := 28; Arch.ipc := -3; Arch.set_thread_area := 205;
     Arch.prctl := 157; Arch.dup := 32; Arch.dup2 := 33; Arch.dup3 := 292;
     Arch.fcntl64 := -4; Arch.fcntl := 72; Arch.close := 3;
     Arch.unshare := 272; Arch.write := 1; Arch.writev := 20;
     Arch.sigreturn := -5; Arch.rt_sigreturn := 15;
     Arch.DUPFD := 0; Arch.DUPFD_CLOEXEC := 1030 |}.

Definition x86_syscalls : Arch.syscalls :=
  {| Arch.brk := 45; Arch.mmap := 90; Arch.mmap2 := 192; Arch.mprotect := 125;
     Arch.mremap := 163; Arch.munmap := 91; Arch.shmdt := -2;
     Arch.madvise := 219; Arch.ipc := 117; Arch.set_thread_area := 243;
     Arch.prctl := 172; Arch.dup := 41; Arch.dup2 := 63; Arch.dup3 := 330;
     Arch.fcntl64 := 221; Arch.fcntl := 55; Arch.close := 6;
     Arch.unshare := 310; Arch.write := 4; Arch.writev := 146;
     Arch.sigreturn := 119; Arch.rt_sigreturn := 173;
     Arch.DUPFD := 0; Arch.DUPFD_CLOEXEC := 1030 |}.

Definition linux_abi (a : SupportedArch) : Arch.syscalls :=
  match a with x86 => x86_syscalls | x86_64 => x86_64_syscalls end.

Definition zero_registers (a : SupportedArch) : Registers :=
  mkRegisters a 0 0 0 0 0 0 0 0 0 0 0 0.

(** A stopped x86-64 task, tid 100, in a recording, whose tracee lives on and
    has no memory mapped. *)
Definition example_task : Task :=
  {| tid := 100; registers := zero_registers x86_64; is_stopped := true;
     wait_status := 1407; pending_siginfo := zero_siginfo;
     seen_ptrace_exit_event := false; detected_unexpected_exit := false;
     unstable := false; extra_registers_known := false; ticks := 0;
     address_of_last_execution_resume := 4194304; prname := [];
     thread_areas_ := [] |}.

Definition example_session : Session :=
  {| is_recording := true; ticks_processed := 0; syscalls_performed := 0;
     timeslices_expired := 0; ev := EV_SYSCALL 1 |}.

Definition example_vm : AddressSpace :=
  {| breakpoints := [(4194304, BKPT_INTERNAL)]; mem_fd := closed_fd;
     mappings_after := fun _ => []; vm_log := [] |}.

Definition example_kernel : Kernel :=
  {| k_ttl := None; k_errno := 0; k_regs := zero_registers x86_64;
     k_siginfo := zero_siginfo; k_dr := fun _ => 0;
     k_dr_ok := fun _ _ => true; k_mem := fun _ => None;
     k_poke_ok := fun _ => true; k_prot := fun _ => 3;
     k_memfd_denied := fun _ => false; k_prot_none_bug := false;
     k_waitpid := []; k_leader_zombie := false; k_mem_fd_opens := [];
     k_mem_fd_ttl := None;
     k_hpc_ticks := 0; k_ticks_fd := 7; k_trace := [] |}.

Definition example_state : State :=
  {| task := example_task; session := example_session; vm := example_vm;
     fds := mkFdTable []; kernel := example_kernel; abi := linux_abi |}.

(** The tracee stopped at the exit of write(2): R11 holds flags with TF set,
    RCX the return address, and the flags are whatever the kernel left. *)
Definition syscall_exit_state : State :=
  with_kernel
    (with_k_regs
       (mkRegisters x86_64 4198400 514 838 4198400 1 5 1 0 5 0 0 0)
       example_kernel)
    example_state.

(** The tracee was resumed at the breakpoint at 4194304 with
    [original_syscallno] 59 in the cache; the kernel reports the trap one
    byte further on and has reset [original_syscallno] to -1. *)
Definition breakpoint_state : State :=
  with_task
    (with_registers
       (mkRegisters x86_64 4194304 582 0 0 59 0 0 0 0 0 0 0) example_task)
    (with_kernel
       (with_k_regs (mkRegisters x86_64 4194305 582 0 0 (-1) 0 0 0 0 0 0 0)
          example_kernel)
       example_state).

(** The tracee was killed while stopped: the non-blocking waitpid will
    report its PTRACE_EVENT_EXIT. *)
Definition killed_state : State :=
  with_kernel
    (with_k_waitpid [mkWaitResult 100 ptrace_exit_wait_status 0] example_kernel)
    example_state.

(** Deadlines: ten milliseconds, and 1.001 seconds.  The nearest [double]
    to 1.001 is a little less than 1.001, so that [to_timeval] gives 1 s and
    999 us for it. *)
Definition ten_milliseconds : double :=
  double_div (double_of_int 1) (double_of_int 100).

Definition a_second_and_a_millisecond : double :=
  double_div (double_of_int 1001) (double_of_int 1000).

(** Half a microsecond: not zero, and less than [to_timeval] can express. *)
Definition half_a_microsecond : double :=
  double_div (double_of_int 1) (double_of_int 2000000).

(** A runaway tracee: the first waitpid is interrupted by the alarm, the
    second reports the PTRACE_EVENT_STOP (SIGTRAP) of the interrupt. *)
Definition interrupt_stop_status : Z :=
  Z.lor (Z.shiftl PTRACE_EVENT_STOP 16) (Z.lor (Z.shiftl SIGTRAP 8) 127).

Definition runaway_state : State :=
  with_kernel
    (with_k_waitpid
       [mkWaitResult (-1) 0 EINTR; mkWaitResult 100 interrupt_stop_status 0]
       example_kernel)
    example_state.

(** An mprotect that failed with EINVAL, and a munmap that did. *)
Definition failed_mprotect_regs : Registers :=
  mkRegisters x86_64 4198400 582 0 0 10 (wrap64 (-22)) 8192 4096 1 0 0 0.

Definition failed_munmap_regs : Registers :=
  mkRegisters x86_64 4198400 582 0 0 11 (wrap64 (-22)) 8192 4096 0 0 0 0.

Definition five_watchpoints : list WatchConfig :=
  [mkWatchConfig 4096 4 WATCH_WRITE; mkWatchConfig 8192 4 WATCH_WRITE;
   mkWatchConfig 12288 4 WATCH_WRITE; mkWatchConfig 16384 4 WATCH_WRITE;
   mkWatchConfig 20480 4 WATCH_WRITE].

(** Eight bytes 1..8 mapped at 4096. *)
Definition eight_bytes_at_4096 (a : Z) : option Z :=
  if (4096 <=? a) && (a <? 4104) then Some (a - 4095) else None.

(** The mem fd is stale (it was opened across an exec); reopening it yields
    a usable descriptor. *)
Definition stale_mem_fd_state : State :=
  with_vm (with_mem_fd (open_fd false) example_vm)
    (with_kernel (with_k_mem eight_bytes_at_4096 example_kernel)
       example_state).

(** The mem fd is stale, and so is the first descriptor that reopening
    yields; the second one is usable. *)
Definition twice_stale_mem_fd_state : State :=
  with_vm (with_mem_fd (open_fd false) example_vm)
    (with_kernel
       (with_k_mem_fd_opens [false]
          (with_k_mem eight_bytes_at_4096 example_kernel))
       example_state).

(** The mem fd is stale and reopening it yields a usable descriptor, but
    the tracee's address space is replaced after one more read. *)
Definition short_lived_mem_fd_state : State :=
  with_vm (with_mem_fd (open_fd false) example_vm)
    (with_kernel
       (with_k_mem_fd_ttl (Some 1%nat)
          (with_k_mem eight_bytes_at_4096 example_kernel))
       example_state).

(** No mem fd is open, and the word at 4096 belongs to a mapping that a
    forced ptrace write cannot reach (a read-only shared file mapping):
    PTRACE_PEEKDATA succeeds there and PTRACE_POKEDATA fails. *)
Definition read_only_word_state : State :=
  with_kernel
    {| k_ttl := None; k_errno := 0; k_regs := zero_registers x86_64;
       k_siginfo := zero_siginfo; k_dr := fun _ => 0;
       k_dr_ok := fun _ _ => true; k_mem := eight_bytes_at_4096;
       k_poke_ok := fun _ => false; k_prot := fun _ => 1;
       k_memfd_denied := fun _ => false; k_prot_none_bug := false;
       k_waitpid := []; k_leader_zombie := false; k_mem_fd_opens := [];
       k_mem_fd_ttl := None;
       k_hpc_ticks := 0; k_ticks_fd := 7; k_trace := [] |}
    example_state.

(** ** Further operations of Task.cc *)

(** [Task::try_wait]: the non-blocking counterpart of [wait]. *)
Definition try_wait : M bool :=
  r <- waitpid true ;;
  ASSERT (0 <=? wr_ret r) ;;
  tid_ <- gets (fun st => tid (task st)) ;;
  if wr_ret r =? tid_ then did_waitpid (wr_status r) None ;; ret true
  else ret false.

Definition set_ip (v : Z) (r : Registers) : Registers :=
  mkRegisters (arch r) v (flags r) (r11 r) (cx r) (original_syscallno r)
    (syscall_result r) (arg1 r) (arg2 r) (arg3 r) (arg4 r) (arg5 r) (arg6 r).

(** Modelled from the spec: remote_code_ptr is not part of the sources;
    stepping back over the one-byte breakpoint instruction. *)
Definition decrement_by_bkpt_insn_length (a : SupportedArch) (p : Z) : Z :=
  p - bkpt_insn_length a.

(** [Task::move_ip_before_breakpoint]. *)
Definition move_ip_before_breakpoint : M unit :=
  r <- regs ;;
  a <- task_arch ;;
  set_regs (set_ip (decrement_by_bkpt_insn_length a (ip r)) r).

(** [Task::emulate_syscall_entry]. *)
Definition emulate_syscall_entry (regs : Registers) : M unit :=
  let r := regs in
  let r := if is_x86_64 (arch r) then set_r11 (flags r) r else r in
  set_regs (fixup_syscall_registers r).

(** The tracee stopped after a single step: its flags still have TF set. *)
Definition singlestep_state : State :=
  with_task (with_address_of_last_execution_resume 4198400 example_task)
    (with_kernel
       (with_k_regs (mkRegisters x86_64 4198402 838 0 0 (-1) 0 0 0 0 0 0 0)
          example_kernel)
       example_state).

(** The tracee was killed and reaped behind the tracer's back: every ptrace
    request fails with ESRCH. *)
Definition dead_tracee_state : State :=
  with_kernel (with_k_ttl (Some O) example_kernel) example_state.

(** The requests of one iteration of the loop of [wait]: the waitpid, between
    the arming and the disarming of the interval timer when there is a
    deadline. *)
Definition timed_waitpid (interrupt_after_elapsed : double) (r : wait_result)
  : list event :=
  if double_is_zero interrupt_after_elapsed then [EvWaitpid false r]
  else [EvSetitimer (to_timeval interrupt_after_elapsed); EvWaitpid false r;
        EvSetitimer (mkTimeval 0 0)].

Definition is_interrupt_event (e : event) : bool :=
  match e with EvPtrace PTRACE_INTERRUPT _ _ _ => true | _ => false end.

(** A blocking waitpid will be interrupted by the alarm while the
    thread-group leader is a zombie. *)
Definition zombie_leader_state : State :=
  with_kernel
    {| k_ttl := None; k_errno := 0; k_regs := zero_registers x86_64;
       k_siginfo := zero_siginfo; k_dr := fun _ => 0;
       k_dr_ok := fun _ _ => true; k_mem := fun _ => None;
       k_poke_ok := fun _ => true; k_prot := fun _ => 3;
       k_memfd_denied := fun _ => false; k_prot_none_bug := false;
       k_waitpid := [mkWaitResult (-1) 0 EINTR]; k_leader_zombie := true;
       k_mem_fd_opens := []; k_mem_fd_ttl := None; k_hpc_ticks := 0;
       k_ticks_fd := 7;
       k_trace := [] |}
    example_state.

(** waitpid will report that the task exited with code 1, without a
    PTRACE_EVENT_EXIT stop before. *)
Definition exited_state : State :=
  with_kernel (with_k_waitpid [mkWaitResult 100 256 0] example_kernel)
    example_state.

(** waitpid will report a syscall stop of the task. *)
Definition stop_reported_state : State :=
  with_kernel (with_k_waitpid [mkWaitResult 100 34175 0] example_kernel)
    example_state.

(** waitpid will fail with ECHILD. *)
Definition no_child_state : State :=
  with_kernel (with_k_waitpid [mkWaitResult (-1) 0 ECHILD] example_kernel)
    example_state.

(** ** Reading the packed debug control word *)

(** The bit-field of [width] bits at bit [pos] of a packed word. *)
Definition get_field (pos width x : Z) : Z :=
  Z.land (Z.shiftr x pos) (Z.ones width).

(** The encoding of a watched length in DR7, as [num_bytes_to_dr_len]
    returns it for the four supported sizes. *)
Definition dr_len_bits (num_bytes : Z) : Z :=
  if num_bytes =? 1 then 0
  else if num_bytes =? 2 then 1
  else if num_bytes =? 4 then 3
  else 2.

(** The control word that the loop of [set_debug_regs] builds for entries
    of supported size, slot [dr] first. *)
Fixpoint packed_dr7 (regs : list WatchConfig) (dr dr7 : Z) : Z :=
  match regs with
  | [] => dr7
  | reg :: rest =>
      packed_dr7 rest (dr + 1)
        (set_field (18 + 4 * dr) 2 (dr_len_bits (wc_num_bytes reg))
           (set_field (16 + 4 * dr) 2 (WatchType_bits (wc_type reg))
              (set_field (2 * dr) 1 1 dr7)))
  end.

Definition two_watchpoints : list WatchConfig :=
  [mkWatchConfig 6295552 4 WATCH_WRITE; mkWatchConfig 6295560 8 WATCH_READWRITE].

(** ** Well-formed bytes *)

(** Memory holds bytes: every mapped cell is in 0..255. *)
Definition byte_memory (mem : Z -> option Z) : Prop :=
  forall a b, mem a = Some b -> 0 <= b < 256.

Definition byte_list (bs : list Z) : Prop :=
  Forall (fun b => 0 <= b < 256) bs.

(** A PTRACE_PEEKDATA of a word-aligned address. *)
Definition is_aligned_peek (e : event) : Prop :=
  exists a err, e = EvPtrace PTRACE_PEEKDATA a DataNull err /\ a mod 8 = 0.

(** Every aligned word that the [n] bytes from [addr] touch is mapped. *)
Definition words_mapped (mem : Z -> option Z) (addr n : Z) : Prop :=
  forall i, 0 <= i < n ->
    length (read_span mem (align_down (wrap64 (addr + i)) word_size) 8)
    = 8%nat.

(** A request that is not a refused PTRACE_POKEDATA. *)
Definition poke_accepted (e : event) : bool :=
  match e with
  | EvPtrace PTRACE_POKEDATA _ _ err => err =? 0
  | _ => true
  end.




(** The thread area with entry number [n], when there is one. *)
Definition thread_area (n : Z) (areas : list user_desc) : option user_desc :=
  find (fun t => entry_number t =? n) areas.

(** Memory holding the bytes [bs] from [base] on. *)
Definition bytes_at (base : Z) (bs : list Z) (a : Z) : option Z :=
  if (base <=? a) && (a <? base + Z.of_nat (length bs))
  then nth_error bs (Z.to_nat (a - base)) else None.

(** A [struct user_desc] with entry number 6 at 8192, and a thread name of
    seven characters at 12288. *)
Definition hook_memory (a : Z) : option Z :=
  match bytes_at 8192 [6; 0; 0; 0; 0; 16; 0; 0; 255; 255; 0; 0; 81; 0; 0; 0] a
  with
  | Some b => Some b
  | None =>
      bytes_at 12288
        [114; 114; 45; 116; 97; 115; 107; 0; 1; 2; 3; 4; 5; 6; 7; 8] a
  end.

Definition hook_state : State :=
  with_kernel (with_k_mem hook_memory example_kernel) example_state.

(** The registers at the exit of a successful prctl(PR_SET_NAME, 12288). *)
Definition prctl_set_name_regs : Registers :=
  mkRegisters x86_64 4198400 582 0 0 157 0 15 12288 0 0 0 0.

(** * Proofs *)

(** ** [to_timeval]

    The conversion rounds down: 1.001 s is armed as 1 s and 999 us, and a
    deadline of less than a microsecond, though not zero, as the zero timer
    (which disarms). *)
Lemma to_timeval_examples :
  to_timeval ten_milliseconds = mkTimeval 0 10000 /\
  to_timeval a_second_and_a_millisecond = mkTimeval 1 999 /\
  double_is_zero half_a_microsecond = false /\
  to_timeval half_a_microsecond = mkTimeval 0 0.
Proof. vm_compute. repeat split. Qed.

(** The zero deadline converts to the zero timer. *)
Lemma to_timeval_zero : to_timeval (double_of_int 0) = mkTimeval 0 0.
Proof. reflexivity. Qed.

(** Reduction of record projections, setters and the monad's plumbing, and
    nothing else. *)
Ltac rsimpl :=
  cbn [arch ip flags r11 cx original_syscallno syscall_result arg1 arg2 arg3
       arg4 arg5 arg6 with_flags with_r11 with_cx with_original_syscallno tid
       registers is_stopped wait_status pending_siginfo
       seen_ptrace_exit_event detected_unexpected_exit unstable
       extra_registers_known ticks address_of_last_execution_resume prname
       thread_areas_ with_registers with_is_stopped with_wait_status
       with_pending_siginfo with_seen_ptrace_exit_event
       with_detected_unexpected_exit with_extra_registers_known with_ticks
       with_address_of_last_execution_resume with_prname with_thread_areas_
       is_recording ticks_processed syscalls_performed timeslices_expired ev
       with_ticks_processed with_syscalls_performed with_timeslices_expired
       breakpoints mem_fd mappings_after maps vm_log with_mem_fd with_vm_log
       k_ttl k_errno
       k_regs k_siginfo k_dr k_dr_ok k_mem k_poke_ok k_prot k_memfd_denied
       k_prot_none_bug k_waitpid k_leader_zombie k_mem_fd_opens k_mem_fd_ttl
       k_hpc_ticks
       k_ticks_fd k_trace with_k_ttl with_k_errno with_k_regs with_k_siginfo
       with_k_dr with_k_mem with_k_prot with_k_waitpid with_k_mem_fd_opens
       with_k_mem_fd_ttl
       with_k_trace task session vm fds kernel abi with_task with_session
       with_vm with_fds with_kernel si_signo si_code si_fd fd_log wr_ret
       wr_status wr_errno km_start km_end km_prot km_flags
       bind ret gets modify modify_task modify_session modify_vm modify_fds
       modify_kernel when fatal diverge lift_option log_event
       get_errno set_errno fst snd negb andb orb].
Tactic Notation "rsimpl" "in" hyp(H) :=
  cbn [arch ip flags r11 cx original_syscallno syscall_result arg1 arg2 arg3
       arg4 arg5 arg6 with_flags with_r11 with_cx with_original_syscallno tid
       registers is_stopped wait_status pending_siginfo
       seen_ptrace_exit_event detected_unexpected_exit unstable
       extra_registers_known ticks address_of_last_execution_resume prname
       thread_areas_ with_registers with_is_stopped with_wait_status
       with_pending_siginfo with_seen_ptrace_exit_event
       with_detected_unexpected_exit with_extra_registers_known with_ticks
       with_address_of_last_execution_resume with_prname with_thread_areas_
       is_recording ticks_processed syscalls_performed timeslices_expired ev
       with_ticks_processed with_syscalls_performed with_timeslices_expired
       breakpoints mem_fd mappings_after maps vm_log with_mem_fd with_vm_log
       k_ttl k_errno
       k_regs k_siginfo k_dr k_dr_ok k_mem k_poke_ok k_prot k_memfd_denied
       k_prot_none_bug k_waitpid k_leader_zombie k_mem_fd_opens k_mem_fd_ttl
       k_hpc_ticks
       k_ticks_fd k_trace with_k_ttl with_k_errno with_k_regs with_k_siginfo
       with_k_dr with_k_mem with_k_prot with_k_waitpid with_k_mem_fd_opens
       with_k_mem_fd_ttl
       with_k_trace task session vm fds kernel abi with_task with_session
       with_vm with_fds with_kernel si_signo si_code si_fd fd_log wr_ret
       wr_status wr_errno km_start km_end km_prot km_flags
       bind ret gets modify modify_task modify_session modify_vm modify_fds
       modify_kernel when fatal diverge lift_option log_event
       get_errno set_errno fst snd negb andb orb] in H.

(** Symbolic execution of the monad: unfold its plumbing completely, then
    reduce projections. *)
Ltac msimpl :=
  cbv beta iota delta [bind ret gets modify modify_task modify_session
    modify_vm modify_fds modify_kernel when fatal diverge lift_option ASSERT
    get_errno set_errno];
  cbn [arch ip flags r11 cx original_syscallno syscall_result arg1 arg2 arg3
       arg4 arg5 arg6 with_flags with_r11 with_cx with_original_syscallno tid
       registers is_stopped wait_status pending_siginfo
       seen_ptrace_exit_event detected_unexpected_exit unstable
       extra_registers_known ticks address_of_last_execution_resume prname
       thread_areas_ with_registers with_is_stopped with_wait_status
       with_pending_siginfo with_seen_ptrace_exit_event
       with_detected_unexpected_exit with_extra_registers_known with_ticks
       with_address_of_last_execution_resume with_prname with_thread_areas_
       is_recording ticks_processed syscalls_performed timeslices_expired ev
       with_ticks_processed with_syscalls_performed with_timeslices_expired
       breakpoints mem_fd mappings_after maps vm_log with_mem_fd with_vm_log
       k_ttl k_errno
       k_regs k_siginfo k_dr k_dr_ok k_mem k_poke_ok k_prot k_memfd_denied
       k_prot_none_bug k_waitpid k_leader_zombie k_mem_fd_opens k_mem_fd_ttl
       k_hpc_ticks
       k_ticks_fd k_trace with_k_ttl with_k_errno with_k_regs with_k_siginfo
       with_k_dr with_k_mem with_k_prot with_k_waitpid with_k_mem_fd_opens
       with_k_mem_fd_ttl
       with_k_trace task session vm fds kernel abi with_task with_session
       with_vm with_fds with_kernel si_signo si_code si_fd fd_log wr_ret
       wr_status wr_errno km_start km_end km_prot km_flags
       log_event fst snd negb andb orb].
Tactic Notation "msimpl" "in" hyp(H) :=
  cbv beta iota delta [bind ret gets modify modify_task modify_session
    modify_vm modify_fds modify_kernel when fatal diverge lift_option ASSERT
    get_errno set_errno] in H;
  cbn [arch ip flags r11 cx original_syscallno syscall_result arg1 arg2 arg3
       arg4 arg5 arg6 with_flags with_r11 with_cx with_original_syscallno tid
       registers is_stopped wait_status pending_siginfo
       seen_ptrace_exit_event detected_unexpected_exit unstable
       extra_registers_known ticks address_of_last_execution_resume prname
       thread_areas_ with_registers with_is_stopped with_wait_status
       with_pending_siginfo with_seen_ptrace_exit_event
       with_detected_unexpected_exit with_extra_registers_known with_ticks
       with_address_of_last_execution_resume with_prname with_thread_areas_
       is_recording ticks_processed syscalls_performed timeslices_expired ev
       with_ticks_processed with_syscalls_performed with_timeslices_expired
       breakpoints mem_fd mappings_after maps vm_log with_mem_fd with_vm_log
       k_ttl k_errno
       k_regs k_siginfo k_dr k_dr_ok k_mem k_poke_ok k_prot k_memfd_denied
       k_prot_none_bug k_waitpid k_leader_zombie k_mem_fd_opens k_mem_fd_ttl
       k_hpc_ticks
       k_ticks_fd k_trace with_k_ttl with_k_errno with_k_regs with_k_siginfo
       with_k_dr with_k_mem with_k_prot with_k_waitpid with_k_mem_fd_opens
       with_k_mem_fd_ttl
       with_k_trace task session vm fds kernel abi with_task with_session
       with_vm with_fds with_kernel si_signo si_code si_fd fd_log wr_ret
       wr_status wr_errno km_start km_end km_prot km_flags
       log_event fst snd negb andb orb] in H.

Lemma bind_Done {A B} (m : M A) (k : A -> M B) st b st' :
  bind m k st = Done b st' ->
  exists a st1, m st = Done a st1 /\ k a st1 = Done b st'.
Proof.
  unfold bind. destruct (m st) as [a st1| |]; try discriminate.
  intros H. exists a, st1. split; [reflexivity|exact H].
Qed.

Lemma bind_run {A B} (m : M A) (k : A -> M B) st a st1 :
  m st = Done a st1 -> bind m k st = k a st1.
Proof. unfold bind. intros ->. reflexivity. Qed.

Lemma bind_Fatal {A B} (m : M A) (k : A -> M B) st st1 :
  m st = Fatal st1 -> bind m k st = Fatal st1.
Proof. unfold bind. intros ->. reflexivity. Qed.

Lemma debugreg_of_offset_dr i :
  0 <= i < 8 -> debugreg_of_offset (u_debugreg_offset + 8 * i) = Some i.
Proof.
  intros H. unfold debugreg_of_offset, u_debugreg_offset.
  replace (848 + 8 * i - 848) with (i * 8) by lia.
  rewrite Z.mod_mul, Z.div_mul by lia.
  replace (848 <=? 848 + 8 * i) with true by (symmetry; apply Z.leb_le; lia).
  replace (848 + 8 * i <? 848 + 64) with true by (symmetry; apply Z.ltb_lt; lia).
  reflexivity.
Qed.

Lemma tracee_alive_serve k :
  tracee_alive k = false -> tracee_alive (serve k) = false.
Proof.
  unfold tracee_alive, serve.
  destruct (k_ttl k) as [[|n]|] eqn:E; try discriminate.
  intros _. rewrite E. reflexivity.
Qed.

Lemma serve_fields k :
  k_trace (serve k) = k_trace k /\ k_dr (serve k) = k_dr k /\
  k_errno (serve k) = k_errno k /\ k_regs (serve k) = k_regs k /\
  k_mem (serve k) = k_mem k /\ k_waitpid (serve k) = k_waitpid k.
Proof.
  unfold serve. destruct (k_ttl k) as [[|n]|]; repeat split; reflexivity.
Qed.

Lemma fallible_ptrace_poke i v st :
  0 <= i < 8 ->
  exists rc err st',
    fallible_ptrace PTRACE_POKEUSER (u_debugreg_offset + 8 * i) (DataWord v) st
      = Done (rc, DataNull) st' /\
    poke_step i v st st' rc err.
Proof.
  intros Hi. unfold fallible_ptrace, kernel_ptrace.
  rewrite (debugreg_of_offset_dr i Hi).
  destruct (serve_fields (kernel st)) as (Ht & Hd & He & _ & _ & Hw).
  destruct (tracee_alive (kernel st)) eqn:Halive; cbn [negb].
  - destruct (dr_write_accepted (serve (kernel st)) i v) eqn:Hacc.
    + change (0 =? 0) with true; cbn [is_peek].
      eexists 0, 0, _. split; [reflexivity|].
      split; rsimpl; try rewrite Ht; try rewrite He; try rewrite Hw;
        try reflexivity; try tauto; try discriminate.
      * congruence.
      * intros j Hj. apply Z.eqb_neq in Hj. rewrite Hj, Hd. reflexivity.
      * intros _. rewrite Z.eqb_refl. reflexivity.
    + change (EIO =? 0) with false.
      eexists (-1), EIO, _. split; [reflexivity|].
      split; rsimpl; try rewrite Ht; try rewrite He; try rewrite Hd;
        try rewrite Hw; try reflexivity; try tauto; try discriminate.
      * split; discriminate.
      * congruence.
      * intros _ H. exfalso. unfold dr_write_accepted in Hacc.
        destruct H as [->|[-> ->]]; cbn in Hacc; discriminate.
  - change (ESRCH =? 0) with false.
    eexists (-1), ESRCH, _. split; [reflexivity|].
    split; rsimpl; try reflexivity; try tauto; try discriminate;
      try congruence.
    split; discriminate.
Qed.


Lemma dr_user_word_offset_ok i st :
  0 <= i < 8 -> dr_user_word_offset i st = Done (u_debugreg_offset + 8 * i) st.
Proof.
  intros H. unfold dr_user_word_offset, ASSERT.
  replace (0 <=? i) with true by (symmetry; apply Z.leb_le; lia).
  replace (i <? 8) with true by (symmetry; apply Z.ltb_lt; lia).
  reflexivity.
Qed.

Lemma watchpoints_disabled_step i v st st' rc err :
  poke_step i v st st' rc err ->
  (i <> 7 \/ err <> 0 \/ v = 0) ->
  watchpoints_disabled (kernel st) -> watchpoints_disabled (kernel st').
Proof.
  intros P Hi [Hdead|Hz].
  - left. apply (ps_dead _ _ _ _ _ _ P Hdead).
  - right. destruct Hi as [Hi|[Hi|Hi]].
    + rewrite (ps_other _ _ _ _ _ _ P 7) by congruence. exact Hz.
    + rewrite (ps_fail _ _ _ _ _ _ P Hi). exact Hz.
    + destruct (Z.eq_dec err 0) as [He|He].
      * destruct (Z.eq_dec i 7) as [->|Hn].
        -- rewrite (ps_ok _ _ _ _ _ _ P He), Hi. reflexivity.
        -- rewrite (ps_other _ _ _ _ _ _ P 7) by congruence. exact Hz.
      * rewrite (ps_fail _ _ _ _ _ _ P He). exact Hz.
Qed.

(** Zeroing DR6 or DR7 through [ptrace_if_alive] never aborts. *)
Lemma ptrace_if_alive_zero i st :
  i = 6 \/ i = 7 ->
  exists alive err st',
    ptrace_if_alive PTRACE_POKEUSER (u_debugreg_offset + 8 * i) (DataWord 0) st
      = Done (alive, DataNull) st' /\
    st' = with_kernel (kernel st') st /\
    k_trace (kernel st') = k_trace (kernel st) ++ [poke_dr i 0 err] /\
    (tracee_alive (kernel st) = false -> tracee_alive (kernel st') = false) /\
    (i = 7 -> watchpoints_disabled (kernel st')) /\
    (watchpoints_disabled (kernel st) -> watchpoints_disabled (kernel st')).
Proof.
  intros Hi. unfold ptrace_if_alive.
  assert (Hr : 0 <= i < 8) by lia.
  set (st0 := with_kernel (with_k_errno 0 (kernel st)) st).
  destruct (fallible_ptrace_poke i 0 st0 Hr) as (rc & err & st1 & Hrun & P).
  rsimpl. fold st0. rewrite (bind_run _ _ _ _ _ Hrun). rsimpl.
  rewrite (ps_errno _ _ _ _ _ _ P). subst st0. rsimpl.
  assert (Hwd : watchpoints_disabled (kernel st) ->
                watchpoints_disabled (kernel st1)).
  { intros H. apply (watchpoints_disabled_step _ _ _ _ _ _ P); [tauto|].
    exact H. }
  assert (Hframe : st1 = with_kernel (kernel st1) st).
  { rewrite (ps_frame _ _ _ _ _ _ P). reflexivity. }
  destruct (tracee_alive (kernel st)) eqn:Halive.
  - assert (He : err = 0) by (apply (ps_zero _ _ _ _ _ _ P); [exact Halive|lia]).
    subst err. change (0 =? 0) with true. cbv iota.
    change (0 =? ESRCH) with false. cbv iota. unfold ASSERT.
    change (0 =? 0) with true. rsimpl.
    exists true, 0, st1. repeat split; try assumption.
    + apply (ps_trace _ _ _ _ _ _ P).
    + discriminate.
    + intros ->. right. rewrite (ps_ok _ _ _ _ _ _ P eq_refl). reflexivity.
  - destruct (ps_dead _ _ _ _ _ _ P Halive) as [Hd He]. subst err.
    change (ESRCH =? 0) with false. cbv iota.
    change (ESRCH =? ESRCH) with true. cbv iota.
    exists false, ESRCH, st1. repeat split; try assumption.
    + apply (ps_trace _ _ _ _ _ _ P).
    + intros _. exact Hd.
    + intros _. left. exact Hd.
Qed.


Lemma enable_dr_cases i reg dr7 :
  (supported_watch_size reg = true /\
   exists v, forall st, enable_dr i reg dr7 st = Done v st)
  \/ (supported_watch_size reg = false /\
      forall st, enable_dr i reg dr7 st = Fatal st).
Proof.
  unfold enable_dr, supported_watch_size, num_bytes_to_dr_len.
  destruct (wc_num_bytes reg =? 1); [left; split; [reflexivity|eexists; intros; reflexivity]|].
  destruct (wc_num_bytes reg =? 2); [left; split; [reflexivity|eexists; intros; reflexivity]|].
  destruct (wc_num_bytes reg =? 4); [left; split; [reflexivity|eexists; intros; reflexivity]|].
  destruct (wc_num_bytes reg =? 8); [left; split; [reflexivity|eexists; intros; reflexivity]|].
  right. split; [reflexivity|intros; reflexivity].
Qed.

Lemma program_debug_regs_spec regs : forall dr dr7 st,
  0 <= dr -> dr + Z.of_nat (length regs) <= 4 ->
  match program_debug_regs regs dr dr7 st with
  | Done packed st' =>
      st' = with_kernel (kernel st') st /\
      (watchpoints_disabled (kernel st) -> watchpoints_disabled (kernel st')) /\
      exists writes final,
        k_trace (kernel st') = k_trace (kernel st) ++ writes ++ final /\
        Forall successful_addr_write writes /\
        match packed with
        | Some _ => final = [] /\ length writes = length regs
        | None =>
            exists i a err,
              0 <= i < 4 /\ err <> 0 /\ final = [poke_dr i a err]
        end
  | Fatal st' =>
      (exists reg, In reg regs /\ supported_watch_size reg = false) /\
      (watchpoints_disabled (kernel st) -> watchpoints_disabled (kernel st')) /\
      exists writes,
        k_trace (kernel st') = k_trace (kernel st) ++ writes /\
        Forall successful_addr_write writes
  | Diverged => False
  end.
Proof.
  induction regs as [|reg rest IH]; intros dr dr7 st Hdr Hlen.
  - cbn [program_debug_regs ret]. split; [destruct st; reflexivity|].
    split; [tauto|]. exists [], []. rewrite app_nil_r.
    repeat split; [constructor].
  - cbn [length] in Hlen. cbn [program_debug_regs].
    rewrite (bind_run _ _ _ _ _ (dr_user_word_offset_ok dr st ltac:(lia))).
    destruct (fallible_ptrace_poke dr (wc_addr reg) st ltac:(lia))
      as (rc & err & st1 & Hrun & P).
    rewrite (bind_run _ _ _ _ _ Hrun).
    destruct (rc =? 0) eqn:Hrc; cbn [negb].
    + apply Z.eqb_eq in Hrc. apply (ps_rc _ _ _ _ _ _ P) in Hrc. subst err.
      replace ((0 <=? dr) && (dr <? 4)) with true
        by (symmetry; apply andb_true_iff; split;
            [apply Z.leb_le|apply Z.ltb_lt]; lia).
      destruct (enable_dr_cases dr reg dr7) as [[Hs [v Hv]]|[Hs Hf]].
      * rewrite (bind_run _ _ _ _ _ (Hv st1)).
        specialize (IH (dr + 1) v st1 ltac:(lia) ltac:(lia)).
        assert (Haddr : successful_addr_write (poke_dr dr (wc_addr reg) 0)).
        { exists dr, (wc_addr reg). split; [lia|reflexivity]. }
        destruct (program_debug_regs rest (dr + 1) v st1) as [packed st2|st2|];
          [| |exact IH].
        2:{ destruct IH as ((r & Hin & Hr) & Hwd & writes & Htr & Hall).
            split; [exists r; split; [right|]; assumption|].
            split.
            { intros H. apply Hwd.
              apply (watchpoints_disabled_step _ _ _ _ _ _ P);
                [left; lia|exact H]. }
            exists (poke_dr dr (wc_addr reg) 0 :: writes).
            split; [|constructor; assumption].
            rewrite Htr, (ps_trace _ _ _ _ _ _ P), <- app_assoc.
            reflexivity. }
        destruct IH as (Hfr & Hwd & writes & final & Htr & Hall & Hend).
        split.
        { rewrite Hfr, (ps_frame _ _ _ _ _ _ P). reflexivity. }
        split.
        { intros H. apply Hwd.
          apply (watchpoints_disabled_step _ _ _ _ _ _ P); [left; lia|exact H]. }
        exists (poke_dr dr (wc_addr reg) 0 :: writes), final.
        split.
        { rewrite Htr, (ps_trace _ _ _ _ _ _ P), <- app_assoc. reflexivity. }
        split.
        { constructor; [|exact Hall]. exists dr, (wc_addr reg).
          split; [lia|reflexivity]. }
        destruct packed; [|exact Hend].
        destruct Hend as [-> Hl]. split; [reflexivity|].
        cbn [length]. rewrite Hl. reflexivity.
      * rewrite (bind_Fatal _ _ _ _ (Hf st1)).
        split; [exists reg; split; [left; reflexivity|exact Hs]|].
        split.
        { intros H.
          apply (watchpoints_disabled_step _ _ _ _ _ _ P); [left; lia|exact H]. }
        exists [poke_dr dr (wc_addr reg) 0].
        split; [apply (ps_trace _ _ _ _ _ _ P)|].
        constructor; [|constructor]. exists dr, (wc_addr reg).
        split; [lia|reflexivity].
    + apply Z.eqb_neq in Hrc. cbn [ret].
      split; [apply (ps_frame _ _ _ _ _ _ P)|].
      split.
      { intros H.
        apply (watchpoints_disabled_step _ _ _ _ _ _ P); [left; lia|exact H]. }
      exists [], [poke_dr dr (wc_addr reg) err].
      split; [apply (ps_trace _ _ _ _ _ _ P)|].
      split; [constructor|].
      exists dr, (wc_addr reg), err. repeat split; try lia.
      intros He. apply Hrc. apply (ps_rc _ _ _ _ _ _ P). exact He.
Qed.


Lemma get_debug_reg_disabled st :
  watchpoints_disabled (kernel st) ->
  exists st', get_debug_reg 7 st = Done 0 st'.
Proof.
  intros Hwd. unfold get_debug_reg. rsimpl.
  rewrite (bind_run _ _ _ _ _
             (dr_user_word_offset_ok 7 _ ltac:(lia))).
  unfold bind at 1. unfold fallible_ptrace, kernel_ptrace.
  rewrite (debugreg_of_offset_dr 7 ltac:(lia)). rsimpl.
  destruct (tracee_alive (with_k_errno 0 (kernel st))) eqn:Halive; cbn [negb].
  - change (0 =? 0) with true. cbn [is_peek]. rsimpl.
    change (0 =? ESRCH) with false. cbv iota.
    destruct (serve_fields (with_k_errno 0 (kernel st))) as (_ & Hd & _).
    rewrite Hd. rsimpl.
    destruct Hwd as [Hdead|Hz].
    + unfold tracee_alive in Halive, Hdead. cbn [k_ttl with_k_errno] in Halive.
      congruence.
    + rewrite Hz. eexists. reflexivity.
  - change (ESRCH =? 0) with false. rsimpl.
    change (ESRCH =? ESRCH) with true. cbv iota.
    eexists. reflexivity.
Qed.

(** C3.  [set_debug_regs] first writes 0 to DR6 and to DR7, then programs
    address registers DR0..DR3, each accepted by the kernel, and ends in one
    of three ways: with nothing more and [false] when there are more than
    four entries; with the first address write that the kernel refuses and
    [false], DR7 not being written again; or, all addresses written, with
    the write of the packed control word to DR7 and the result [true]
    exactly when the kernel accepted it.  After a call that returned
    [false], reading DR7 gives 0.  The call aborts only on an entry of
    unsupported size, the two zeroing writes done and DR7 still 0. *)
Theorem set_debug_regs_atomic regs st :
  match set_debug_regs regs st with
  | Done ok st' =>
      exists e6 e7 writes final,
        k_trace (kernel st') =
          k_trace (kernel st)
            ++ poke_dr 6 0 e6 :: poke_dr 7 0 e7 :: writes ++ final /\
        Forall successful_addr_write writes /\
        debug_regs_ending (length regs) writes final ok /\
        (ok = false -> exists st'', get_debug_reg 7 st' = Done 0 st'')
  | Fatal st' =>
      (exists reg, In reg regs /\ supported_watch_size reg = false) /\
      exists e6 e7 writes st'',
        k_trace (kernel st') =
          k_trace (kernel st) ++ poke_dr 6 0 e6 :: poke_dr 7 0 e7 :: writes /\
        Forall successful_addr_write writes /\
        get_debug_reg 7 st' = Done 0 st''
  | Diverged => False
  end.
Proof.
  unfold set_debug_regs.
  rewrite (bind_run _ _ _ _ _ (dr_user_word_offset_ok 6 st ltac:(lia))).
  destruct (ptrace_if_alive_zero 6 st ltac:(lia))
    as (a6 & e6 & st1 & Hrun6 & Hfr6 & Htr6 & _ & _ & _).
  rewrite (bind_run _ _ _ _ _ Hrun6).
  rewrite (bind_run _ _ _ _ _ (dr_user_word_offset_ok 7 st1 ltac:(lia))).
  destruct (ptrace_if_alive_zero 7 st1 ltac:(lia))
    as (a7 & e7 & st2 & Hrun7 & Hfr7 & Htr7 & _ & Hwd7 & _).
  rewrite (bind_run _ _ _ _ _ Hrun7).
  specialize (Hwd7 eq_refl).
  assert (Htr : k_trace (kernel st2) =
                k_trace (kernel st) ++ [poke_dr 6 0 e6; poke_dr 7 0 e7]).
  { rewrite Htr7, Htr6, <- app_assoc. reflexivity. }
  unfold NUM_X86_WATCHPOINTS.
  destruct (4 <? Z.of_nat (length regs)) eqn:Hlen.
  - apply Z.ltb_lt in Hlen. cbn [ret].
    exists e6, e7, [], []. rewrite Htr.
    repeat split; [constructor| |].
    + left. repeat split; [exact Hlen].
    + intros _. apply get_debug_reg_disabled. exact Hwd7.
  - apply Z.ltb_ge in Hlen.
    pose proof (program_debug_regs_spec regs 0 0 st2 ltac:(lia) ltac:(lia))
      as Hloop.
    unfold bind at 1.
    destruct (program_debug_regs regs 0 0 st2) as [packed st3|st3|];
      [| |exact Hloop].
    2:{ destruct Hloop as (Hbad & Hwd & writes & Htr3 & Hall).
        split; [exact Hbad|].
        destruct (get_debug_reg_disabled st3 (Hwd Hwd7)) as [st4 Hget].
        exists e6, e7, writes, st4.
        split; [|split; assumption].
        rewrite Htr3, Htr, <- app_assoc. reflexivity. }
    destruct Hloop as (Hfr & Hwd & writes & final & Htr3 & Hall & Hend).
    specialize (Hwd Hwd7).
    destruct packed as [dr7|].
    + destruct Hend as [-> Hl]. rewrite app_nil_r in Htr3.
      rewrite (bind_run _ _ _ _ _ (dr_user_word_offset_ok 7 st3 ltac:(lia))).
      destruct (fallible_ptrace_poke 7 dr7 st3 ltac:(lia))
        as (rc & err & st4 & Hrun & P).
      rewrite (bind_run _ _ _ _ _ Hrun). cbn [ret].
      exists e6, e7, writes, [poke_dr 7 dr7 err].
      split.
      { rewrite (ps_trace _ _ _ _ _ _ P), Htr3, Htr, <- !app_assoc.
        reflexivity. }
      split; [exact Hall|].
      assert (Hok : (rc =? 0) = (err =? 0)).
      { destruct (Z.eq_dec err 0) as [He|He].
        - rewrite (proj2 (ps_rc _ _ _ _ _ _ P) He), He. reflexivity.
        - assert (rc <> 0) by (intros Hc; apply He, (ps_rc _ _ _ _ _ _ P), Hc).
          rewrite (proj2 (Z.eqb_neq _ _) H), (proj2 (Z.eqb_neq _ _) He).
          reflexivity. }
      split.
      { right. right. exists dr7, err. repeat split; [exact Hlen|exact Hl|exact Hok]. }
      intros Hfalse. apply get_debug_reg_disabled.
      apply (watchpoints_disabled_step _ _ _ _ _ _ P); [|exact Hwd].
      right. left. rewrite Hok in Hfalse. apply Z.eqb_neq. exact Hfalse.
    + destruct Hend as (i & a & err & Hi & He & ->). cbn [ret].
      exists e6, e7, writes, [poke_dr i a err].
      split.
      { rewrite Htr3, Htr, <- !app_assoc. reflexivity. }
      split; [exact Hall|].
      split.
      { right. left. exists i, a, err. repeat split; try lia; assumption. }
      intros _. apply get_debug_reg_disabled. exact Hwd.
Qed.

(** C10.  Called with more than four entries, [set_debug_regs] returns
    [false] after exactly two requests, the writes of 0 to DR6 and to DR7;
    no watchpoint is enabled afterwards and DR7 reads 0. *)
Theorem set_debug_regs_too_many regs st :
  4 < Z.of_nat (length regs) ->
  exists e6 e7 st' st'',
    set_debug_regs regs st = Done false st' /\
    k_trace (kernel st') =
      k_trace (kernel st) ++ [poke_dr 6 0 e6; poke_dr 7 0 e7] /\
    watchpoints_disabled (kernel st') /\
    get_debug_reg 7 st' = Done 0 st''.
Proof.
  intros Hlen. unfold set_debug_regs.
  rewrite (bind_run _ _ _ _ _ (dr_user_word_offset_ok 6 st ltac:(lia))).
  destruct (ptrace_if_alive_zero 6 st ltac:(lia))
    as (a6 & e6 & st1 & Hrun6 & Hfr6 & Htr6 & _ & _ & _).
  rewrite (bind_run _ _ _ _ _ Hrun6).
  rewrite (bind_run _ _ _ _ _ (dr_user_word_offset_ok 7 st1 ltac:(lia))).
  destruct (ptrace_if_alive_zero 7 st1 ltac:(lia))
    as (a7 & e7 & st2 & Hrun7 & Hfr7 & Htr7 & _ & Hwd7 & _).
  rewrite (bind_run _ _ _ _ _ Hrun7).
  specialize (Hwd7 eq_refl).
  unfold NUM_X86_WATCHPOINTS.
  apply Z.ltb_lt in Hlen. rewrite Hlen. cbn [ret].
  destruct (get_debug_reg_disabled st2 Hwd7) as [st3 Hget].
  exists e6, e7, st2, st3.
  repeat split; try assumption.
  rewrite Htr7, Htr6, <- app_assoc. reflexivity.
Qed.


(** One step of symbolic execution of a run in hypothesis [H]: reduce, then
    split on the first undecided test. *)
Ltac mcase H :=
  match type of H with
  | context [if ?c then _ else _] =>
      lazymatch c with
      | context [if _ then _ else _] => fail
      | _ => destruct c eqn:?
      end
  | context [match ?o with Some _ => _ | None => _ end] =>
      destruct o eqn:?
  end; rsimpl in H; try discriminate H.

Lemma set_regs_run r st :
  if is_stopped (task st) then
    exists err k',
      set_regs r st
        = Done tt (with_kernel k' (with_task (with_registers r (task st)) st)) /\
      k_trace k' =
        k_trace (kernel st) ++ [EvPtrace PTRACE_SETREGS 0 (DataRegs r) err] /\
      (err = 0 \/ err = ESRCH) /\
      (err = 0 -> k_regs k' = r) /\
      k_waitpid k' = k_waitpid (kernel st)
  else set_regs r st = Fatal st.
Proof.
  unfold set_regs, ptrace_if_alive, ASSERT, get_ptrace. rsimpl.
  destruct (is_stopped (task st)); rsimpl; [|reflexivity].
  unfold bind, fallible_ptrace, kernel_ptrace. rsimpl.
  destruct (serve_fields (with_k_errno 0 (kernel st)))
    as (Ht & _ & He & _ & _ & Hw).
  destruct (tracee_alive (with_k_errno 0 (kernel st))); cbn [negb].
  - change (0 =? 0) with true. cbn [is_peek]. rsimpl. rewrite He. rsimpl.
    change (0 =? ESRCH) with false. cbv iota. change (0 =? 0) with true.
    rsimpl. eexists 0, _. split; [reflexivity|]. rsimpl. rewrite Ht, Hw.
    rsimpl. repeat split; tauto.
  - change (ESRCH =? 0) with false. rsimpl.
    change (ESRCH =? ESRCH) with true. cbv iota. rsimpl.
    eexists ESRCH, _. split; [reflexivity|]. rsimpl.
    repeat split; try tauto. discriminate.
Qed.

Lemma in_exit_Done st b st1 :
  is_in_non_sigreturn_exit_syscall st = Done b st1 ->
  st1 = st /\ (b = true <-> non_sigreturn_syscall_stop st).
Proof.
  unfold is_in_non_sigreturn_exit_syscall, stop_sig, task_arch,
    non_sigreturn_syscall_stop.
  msimpl.
  destruct (stop_sig_from_status (wait_status (task st))) as [sig|];
    msimpl; [|discriminate].
  destruct (sig =? Z.lor SIGTRAP 128) eqn:Hsig; msimpl.
  - apply Z.eqb_eq in Hsig. subst sig.
    destruct (is_recording (session st)); msimpl.
    + destruct (ev (session st)) as [number|]; intros H; inversion H; subst;
        (split; [reflexivity|]).
      * split.
        -- intros Hb. split; [reflexivity|]. intros _ n Hn. inversion Hn; subst.
           apply negb_true_iff. exact Hb.
        -- intros [_ Hn]. apply negb_true_iff. apply Hn; reflexivity.
      * split; [|reflexivity]. intros _. split; [reflexivity|].
        intros _ n Hn. discriminate.
    + intros H; inversion H; subst. split; [reflexivity|].
      split; [|reflexivity]. intros _. split; [reflexivity|].
      intros Hc. discriminate.
  - intros H; inversion H; subst. split; [reflexivity|].
    split; [discriminate|]. intros [Hc _]. inversion Hc; subst.
    rewrite Z.eqb_refl in Hsig. discriminate.
Qed.


Lemma fixup_syscall_registers_arch r :
  arch (fixup_syscall_registers r) = arch r.
Proof.
  unfold fixup_syscall_registers, set_flags, set_cx, set_r11.
  destruct (arch r) eqn:E; cbn [arch with_flags with_cx with_r11]; exact E.
Qed.

(** One step of symbolic execution of the run in [H]: split on the first
    test whose outcome is not known yet. *)
Ltac mstep H :=
  first
    [ match type of H with
      | context [is_in_non_sigreturn_exit_syscall ?st] =>
          let b := fresh "in_exit" in
          let s1 := fresh "s" in
          let Hin := fresh "Hin" in
          destruct (is_in_non_sigreturn_exit_syscall st) as [b s1| |] eqn:Hin;
          [ apply in_exit_Done in Hin; destruct Hin as [-> Hin]
          | discriminate H | discriminate H ]
      end
    | match type of H with
      | context [if ?c then _ else _] => destruct c eqn:?
      end
    | match type of H with
      | context [match ?o with Some _ => _ | None => _ end] =>
          destruct o eqn:?
      end ];
  msimpl in H; try discriminate H.

(** The last step: [set_regs] of the cached registers. *)
Ltac mset_regs H :=
  match type of H with
  | set_regs ?r ?st = Done tt ?st' =>
      let Hs := fresh "Hs" in
      let err := fresh "err" in
      let k' := fresh "k'" in
      pose proof (set_regs_run r st) as Hs; msimpl in Hs;
      match type of Hs with
      | context [if ?c then _ else _] => destruct c eqn:?
      end;
      [ destruct Hs as (err & k' & Hs & ?Htr & ?Herr & ?Hregs & ?Hwp);
        rewrite Hs in H; inversion H; subst st'; clear H Hs
      | rewrite Hs in H; discriminate H ]
  | Done tt ?st = Done tt ?st' => inversion H; subst st'; clear H
  end.

Lemma normalize_frame mt o s st' :
  did_waitpid_normalize mt o s = Done tt st' -> normalize_frame_of s st'.
Proof.
  intros H.
  unfold did_waitpid_normalize, pending_sig, task_ip, regs, task_arch,
    ptrace_event in H.
  msimpl in H.
  repeat mstep H; mset_regs H; split; msimpl;
    rewrite ?fixup_syscall_registers_arch;
    unfold clear_singlestep_flag, set_original_syscallno; msimpl;
    try reflexivity; try assumption; try (symmetry; assumption);
    first
      [ eexists; split; [eassumption|reflexivity]
      | exists []; split; [rewrite app_nil_r; reflexivity|reflexivity] ].
Qed.


Lemma bind_bind_ext {A B C} (m : M A) (k1 : A -> M C) (k2 : A -> M B)
    (k3 : B -> M C) st :
  (forall a s, k1 a s = bind (k2 a) k3 s) ->
  bind m k1 st = bind (bind m k2) k3 st.
Proof.
  intros H. unfold bind at 1 2 3. destruct (m st); [apply H|reflexivity..].
Qed.

(** [did_waitpid] is its first half followed by its second half. *)
Lemma did_waitpid_split status osi st :
  did_waitpid status osi st =
  bind (did_waitpid_refresh status osi)
       (fun p => did_waitpid_normalize (fst p) (snd p)) st.
Proof.
  unfold did_waitpid, did_waitpid_refresh.
  repeat (apply bind_bind_ext; intros ? ?).
  reflexivity.
Qed.


Lemma kernel_frame_refl k : kernel_frame k k [].
Proof. split; try reflexivity; try tauto. rewrite app_nil_r; reflexivity. Qed.

Lemma kernel_frame_trans k k1 k2 n1 n2 :
  kernel_frame k k1 n1 -> kernel_frame k1 k2 n2 ->
  kernel_frame k k2 (n1 ++ n2).
Proof.
  intros [] []. split; try congruence; try tauto.
  rewrite app_assoc. congruence.
Qed.

Lemma kernel_frame_log e k : kernel_frame k (log_event e k) [e].
Proof. split; try reflexivity; tauto. Qed.

Lemma kernel_frame_errno e k : kernel_frame k (with_k_errno e k) [].
Proof.
  split; try reflexivity; try tauto. cbn; rewrite app_nil_r; reflexivity.
Qed.

Lemma kernel_frame_serve k : kernel_frame k (serve k) [].
Proof.
  unfold serve. destruct (k_ttl k) as [[|n]|] eqn:E;
    try apply kernel_frame_refl.
  split; try reflexivity; try congruence.
  - cbn; rewrite app_nil_r; reflexivity.
  - unfold tracee_alive. rewrite E. discriminate.
Qed.

(** PTRACE_GETREGS and PTRACE_GETSIGINFO through [ptrace_if_alive]: they
    succeed exactly when the tracee is there, and never abort. *)
Lemma ptrace_if_alive_query req st :
  req = PTRACE_GETREGS \/ req = PTRACE_GETSIGINFO ->
  exists k',
    ptrace_if_alive req 0 DataNull st =
      Done (tracee_alive (kernel st),
            if tracee_alive (kernel st) then
              match req with
              | PTRACE_GETREGS => DataRegs (k_regs (kernel st))
              | _ => DataSiginfo (k_siginfo (kernel st))
              end
            else DataNull)
           (with_kernel k' st) /\
    kernel_frame (kernel st) k'
      [EvPtrace req 0 DataNull
         (if tracee_alive (kernel st) then 0 else ESRCH)].
Proof.
  intros Hreq. unfold ptrace_if_alive, fallible_ptrace, kernel_ptrace. msimpl.
  change (tracee_alive (with_k_errno 0 (kernel st)))
    with (tracee_alive (kernel st)).
  pose proof (kernel_frame_trans _ _ _ _ _
                (kernel_frame_errno 0 (kernel st))
                (kernel_frame_serve (with_k_errno 0 (kernel st)))) as Hs.
  cbn [app] in Hs.
  destruct (serve_fields (with_k_errno 0 (kernel st))) as (_ & _ & He & Hr & _).
  destruct (tracee_alive (kernel st)) eqn:Halive; cbn [negb].
  - destruct Hreq as [-> | ->]; cbn [is_peek]; change (0 =? 0) with true;
      msimpl; rewrite He; msimpl; change (0 =? ESRCH) with false;
      change (0 =? 0) with true; msimpl.
    + rewrite Hr. msimpl. eexists. split; [reflexivity|].
      apply (kernel_frame_trans _ _ _ [] _ Hs), kernel_frame_log.
    + rewrite (kf_siginfo _ _ _ Hs). eexists. split; [reflexivity|].
      apply (kernel_frame_trans _ _ _ [] _ Hs), kernel_frame_log.
  - change (ESRCH =? 0) with false. msimpl.
    change (ESRCH =? ESRCH) with true. msimpl.
    eexists. split; [reflexivity|].
    apply (kernel_frame_trans _ _ _ [] [_] (kernel_frame_errno 0 (kernel st))).
    apply (kernel_frame_trans _ _ _ [_] [] (kernel_frame_log _ _)).
    apply kernel_frame_errno.
Qed.


Lemma stop_sig_stopped status sig :
  stop_sig_from_status status = Some sig -> status <> 0.
Proof.
  unfold stop_sig_from_status, stopped_from_status.
  destruct (Z.land status 255 =? 127) eqn:E; [|discriminate].
  intros _ ->. discriminate.
Qed.

Lemma pending_sig_exit_status :
  pending_sig_from_status ptrace_exit_wait_status = Some 0.
Proof. reflexivity. Qed.

(** Replace a PTRACE_GETREGS / PTRACE_GETSIGINFO in the goal by its result. *)
Ltac gquery :=
  match goal with
  | |- context [ptrace_if_alive ?req 0 DataNull ?x] =>
      let k' := fresh "k'" in
      let Hrun := fresh "Hrun" in
      let Hk := fresh "Hk" in
      destruct (ptrace_if_alive_query req x ltac:(tauto)) as (k' & Hrun & Hk);
      rewrite Hrun; clear Hrun; msimpl in Hk; msimpl
  end.

Ltac gcase :=
  match goal with
  | |- context [if ?c then _ else _] => destruct c eqn:?
  | |- context [match ?o with Some _ => _ | None => _ end] => destruct o eqn:?
  end; msimpl.

Lemma ttl_none_alive k : k_ttl k = None -> tracee_alive k = true.
Proof. unfold tracee_alive. intros ->. reflexivity. Qed.

Lemma exit_status_event :
  (ptrace_event_from_status ptrace_exit_wait_status =? PTRACE_EVENT_EXIT)
  = true.
Proof. reflexivity. Qed.

Lemma eqb_zero_pending status z :
  pending_sig_from_status status = Some z -> negb (z =? 0) = false ->
  pending_sig_from_status status = Some 0.
Proof.
  intros H Hz. apply negb_false_iff, Z.eqb_eq in Hz. subst z. exact H.
Qed.

(** The kernel part of [refreshed], from the frames of the requests that
    were made. *)
Ltac kernel_frames :=
  eexists; split;
  [ first
      [ apply kernel_frame_log
      | eapply kernel_frame_trans; [apply kernel_frame_log|eassumption]
      | eapply kernel_frame_trans;
        [apply kernel_frame_log
        |eapply kernel_frame_trans; eassumption] ]
  | reflexivity ].

Ltac immortal_contra Hn :=
  exfalso;
  match goal with
  | Ha : tracee_alive (kernel _) = false |- _ =>
      rewrite (ttl_none_alive _ Hn) in Ha; discriminate Ha
  | Ha : tracee_alive ?k = false, Hk : kernel_frame _ ?k _ |- _ =>
      rewrite (ttl_none_alive k (kf_forever _ _ _ Hk Hn)) in Ha;
      discriminate Ha
  end.

Ltac refreshed_rest :=
  first
    [ rewrite ?exit_status_event;
      repeat match goal with
             | H : (_ =? PTRACE_EVENT_EXIT) = _ |- _ => rewrite H
             end;
      rewrite ?orb_true_r, ?orb_false_r; reflexivity
    | rewrite pending_sig_exit_status; discriminate
    | let Hn := fresh "Hn" in intros Hn; immortal_contra Hn
    | let si := fresh "si" in
      let Hsi := fresh "Hsi" in
      let Hst := fresh "Hst" in
      let Hp := fresh "Hp" in
      intros si Hsi Hst Hp;
      first
        [ inversion Hsi; reflexivity
        | discriminate Hsi
        | exfalso; apply Hp; eapply eqb_zero_pending; eassumption
        | exfalso; apply Hp; rewrite <- Hst; reflexivity ] ].

Lemma did_waitpid_refresh_spec status osi st :
  match did_waitpid_refresh status osi st with
  | Done (mt, o) s =>
      mt = k_hpc_ticks (kernel st) /\
      o = original_syscallno (registers (task st)) /\
      refreshed status osi st s
  | Fatal _ => pending_sig_from_status status = None
  | Diverged => False
  end.
Proof.
  unfold did_waitpid_refresh, hpc_read_ticks, hpc_stop, ptrace_event.
  msimpl.
  repeat (first [ gquery
                | rewrite pending_sig_exit_status; msimpl
                | rewrite exit_status_event; msimpl
                | gcase ]);
    change (tracee_alive (log_event EvHpcStop (kernel st)))
      with (tracee_alive (kernel st)) in *;
    try assumption; try reflexivity;
    (split; [reflexivity|split; [reflexivity|]]);
    split; msimpl; try reflexivity; try tauto; try congruence;
    try kernel_frames; try refreshed_rest.
Qed.

Lemma did_waitpid_Done status osi st st' :
  did_waitpid status osi st = Done tt st' ->
  exists s,
    refreshed status osi st s /\
    did_waitpid_normalize (k_hpc_ticks (kernel st))
      (original_syscallno (registers (task st))) s = Done tt st'.
Proof.
  rewrite did_waitpid_split. unfold bind at 1.
  pose proof (did_waitpid_refresh_spec status osi st) as Hspec.
  destruct (did_waitpid_refresh status osi st) as [[mt o] s| |];
    try discriminate.
  destruct Hspec as (-> & -> & Hr). cbn [fst snd].
  intros H. exists s. split; assumption.
Qed.

Lemma fixup_syscall_registers_spec r :
  let r' := fixup_syscall_registers r in
  (arch r = x86_64 ->
   Z.testbit (r11 r') 8 = false /\ cx_signed r' = -1 /\ flags r' = 582) /\
  (arch r = x86 -> flags r' = 582).
Proof.
  cbv zeta. unfold fixup_syscall_registers, cx_signed.
  split; intros Ha; rewrite Ha;
    unfold set_flags, set_cx, set_r11;
    cbn [arch flags r11 cx with_flags with_cx with_r11]; rewrite ?Ha;
    [|reflexivity].
  split; [|split; reflexivity].
  unfold wrap64. rewrite Z.mod_pow2_bits_low by lia.
  rewrite Z.land_spec, Z.lnot_spec by lia.
  change (Z.testbit X86_TF_FLAG 8) with true. apply andb_false_r.
Qed.

Lemma normalize_syscall_exit mt o s st' :
  did_waitpid_normalize mt o s = Done tt st' ->
  non_sigreturn_syscall_stop s ->
  (exists r0,
     arch r0 = arch (registers (task s)) /\
     registers (task st') = fixup_syscall_registers r0) /\
  registers_written_back st'.
Proof.
  intros H Hstop.
  unfold did_waitpid_normalize, pending_sig, task_ip, regs, task_arch,
    ptrace_event in H.
  msimpl in H.
  repeat mstep H; mset_regs H.
  all: unfold registers_written_back; msimpl.
  all: first
    [ exfalso;
      match goal with
      | Hin : false = true <-> _ |- _ =>
          assert (Hc : false = true)
            by (apply Hin; unfold non_sigreturn_syscall_stop in *;
                unfold clear_singlestep_flag, set_original_syscallno;
                msimpl; exact Hstop);
          discriminate Hc
      end
    | split;
      [ eexists; split; [|reflexivity];
        unfold clear_singlestep_flag, set_original_syscallno; msimpl;
        reflexivity
      | eexists _, _; split; [eassumption|split; assumption] ] ].
Qed.

Lemma pending_sig_sigtrap status :
  stop_sig_from_status status = Some SIGTRAP ->
  ptrace_event_from_status status = 0 ->
  pending_sig_from_status status = Some SIGTRAP.
Proof.
  intros H Hev. pose proof (stop_sig_stopped _ _ H) as Hnz.
  unfold pending_sig_from_status. rewrite H, Hev.
  apply Z.eqb_neq in Hnz. rewrite Hnz. reflexivity.
Qed.

Lemma normalize_breakpoint mt o s st' :
  did_waitpid_normalize mt o s = Done tt st' ->
  breakpoint_at_resume_stop s ->
  original_syscallno (registers (task st')) = o /\
  registers_written_back st' /\
  mt = 0 /\
  ip (registers (task st'))
  = increment_by_bkpt_insn_length (arch (registers (task st')))
      (address_of_last_execution_resume (task st')).
Proof.
  intros H (Hsig & Hev & Hbk).
  pose proof (pending_sig_sigtrap _ Hsig Hev) as Hp.
  unfold did_waitpid_normalize, pending_sig, task_ip, regs, task_arch,
    ptrace_event in H.
  msimpl in H.
  repeat mstep H; mset_regs H.
  all: try solve [exfalso; discriminate Hp].
  all: try solve
    [ exfalso;
      match goal with
      | Hz : (?z =? SIGTRAP) = false |- _ =>
          inversion Hp; subst z; rewrite Z.eqb_refl in Hz; discriminate Hz
      end ].
  all: try solve
    [ exfalso;
      match goal with
      | Hz : (ptrace_event_from_status _ =? 0) = false |- _ =>
          rewrite Hev in Hz; discriminate Hz
      end ].
  all: try solve
    [ exfalso;
      match goal with
      | Hz : negb (is_bkpt_none ?b) = false |- _ =>
          destruct b; cbn [negb is_bkpt_none] in Hz;
          [apply Hbk; reflexivity|discriminate Hz|discriminate Hz]
      end ].
  all: try solve
    [ exfalso;
      match goal with
      | Hin : true = true <-> non_sigreturn_syscall_stop _ |- _ =>
          destruct (proj1 Hin eq_refl) as [Hc _]; msimpl in Hc;
          rewrite Hsig in Hc; discriminate Hc
      end ].
  all: unfold registers_written_back; msimpl;
    unfold set_original_syscallno, clear_singlestep_flag in *; msimpl;
    repeat match goal with
           | Hq : (_ =? _) = true |- _ => apply Z.eqb_eq in Hq; msimpl in Hq
           end;
    (split; [reflexivity|]);
    (split; [eexists _, _; split; [eassumption|split; assumption]|]);
    split; assumption.
Qed.

(** C1.  Every stop that [did_waitpid] commits and that is a syscall stop
    outside the sigreturn family leaves the register cache normalised: on
    x86-64 bit 8 (TF) of R11 is clear, RCX is -1 and the flags are 0x246; on
    x86 the flags are 0x246; and the last request made is the
    PTRACE_SETREGS that writes the cache back to the tracee. *)
Theorem did_waitpid_normalizes_syscall_exit status osi st st' :
  did_waitpid status osi st = Done tt st' ->
  non_sigreturn_syscall_stop st' ->
  let r := registers (task st') in
  (arch r = x86_64 ->
   Z.testbit (r11 r) 8 = false /\ cx_signed r = -1 /\ flags r = 582) /\
  (arch r = x86 -> flags r = 582) /\
  registers_written_back st'.
Proof.
  intros H Hstop. cbv zeta.
  destruct (did_waitpid_Done _ _ _ _ H) as (s & Hr & Hn).
  pose proof (normalize_frame _ _ _ _ Hn) as Hf.
  assert (Hstop_s : non_sigreturn_syscall_stop s).
  { unfold non_sigreturn_syscall_stop in *.
    rewrite <- (nf_wait_status _ _ Hf), <- (nf_session _ _ Hf),
      <- (nf_abi _ _ Hf), <- (nf_arch _ _ Hf).
    exact Hstop. }
  destruct (normalize_syscall_exit _ _ _ _ Hn Hstop_s)
    as ((r0 & Ha0 & Hregs) & Hwb).
  rewrite Hregs.
  pose proof (fixup_syscall_registers_spec r0) as Hfix. cbv zeta in Hfix.
  rewrite fixup_syscall_registers_arch.
  destruct Hfix as [H64 H32]. repeat split; try assumption.
  - apply H64; assumption.
  - apply H64; assumption.
  - apply H64; assumption.
Qed.

(** C2.  When the committed stop is a SIGTRAP without ptrace event and the
    AddressSpace has a breakpoint at [address_of_last_execution_resume],
    the cached [original_syscallno] is the one the cache held when
    [did_waitpid] was entered, that is, before the resume; the instruction
    pointer is then one breakpoint instruction past the resume address, no
    tick was counted, and the registers are written back by a final
    PTRACE_SETREGS. *)
Theorem did_waitpid_restores_original_syscallno status osi st st' :
  did_waitpid status osi st = Done tt st' ->
  breakpoint_at_resume_stop st' ->
  original_syscallno (registers (task st'))
    = original_syscallno (registers (task st)) /\
  registers_written_back st' /\
  k_hpc_ticks (kernel st) = 0 /\
  ip (registers (task st'))
  = increment_by_bkpt_insn_length (arch (registers (task st')))
      (address_of_last_execution_resume (task st')).
Proof.
  intros H Hstop.
  destruct (did_waitpid_Done _ _ _ _ H) as (s & Hr & Hn).
  pose proof (normalize_frame _ _ _ _ Hn) as Hf.
  apply (normalize_breakpoint _ _ _ _ Hn).
  unfold breakpoint_at_resume_stop in *.
  rewrite <- (nf_wait_status _ _ Hf), <- (nf_resume_addr _ _ Hf),
    <- (nf_vm _ _ Hf).
  exact Hstop.
Qed.


(** C9.  [pending_sig_from_status] reports no pending signal (0) for the
    status 0, for a stop by SIGTRAP|0x80, and for a stop by SIGTRAP that
    carries a ptrace event; a stop by SIGTRAP without ptrace event is
    reported as SIGTRAP, and a stop by any other signal as that signal with
    bit 0x80 cleared. *)
Theorem pending_sig_from_status_cases (status : Z) :
  (status = 0 -> pending_sig_from_status status = Some 0) /\
  (stop_sig_from_status status = Some (Z.lor SIGTRAP 128) ->
   pending_sig_from_status status = Some 0) /\
  (stop_sig_from_status status = Some SIGTRAP ->
   ptrace_event_from_status status <> 0 ->
   pending_sig_from_status status = Some 0) /\
  (stop_sig_from_status status = Some SIGTRAP ->
   ptrace_event_from_status status = 0 ->
   pending_sig_from_status status = Some SIGTRAP) /\
  (forall sig,
     stop_sig_from_status status = Some sig ->
     sig <> SIGTRAP -> sig <> Z.lor SIGTRAP 128 ->
     pending_sig_from_status status = Some (Z.land sig (Z.lnot 128))).
Proof.
  repeat split.
  - intros ->. reflexivity.
  - intros H. pose proof (stop_sig_stopped _ _ H) as Hnz.
    unfold pending_sig_from_status. rewrite H.
    apply Z.eqb_neq in Hnz. rewrite Hnz. reflexivity.
  - intros H Hev. pose proof (stop_sig_stopped _ _ H) as Hnz.
    unfold pending_sig_from_status. rewrite H.
    apply Z.eqb_neq in Hnz, Hev. rewrite Hnz, Hev. reflexivity.
  - intros H Hev. pose proof (stop_sig_stopped _ _ H) as Hnz.
    unfold pending_sig_from_status. rewrite H, Hev.
    apply Z.eqb_neq in Hnz. rewrite Hnz. reflexivity.
  - intros sig H H1 H2. pose proof (stop_sig_stopped _ _ H) as Hnz.
    unfold pending_sig_from_status. rewrite H.
    apply Z.eqb_neq in Hnz, H1, H2. rewrite Hnz, H1, H2. reflexivity.
Qed.


Lemma in_exit_run st :
  stopped_from_status (wait_status (task st)) = true ->
  exists b, is_in_non_sigreturn_exit_syscall st = Done b st.
Proof.
  intros Hs.
  unfold is_in_non_sigreturn_exit_syscall, stop_sig, task_arch,
    stop_sig_from_status.
  msimpl. rewrite Hs. msimpl.
  destruct (WSTOPSIG (wait_status (task st)) =? Z.lor SIGTRAP 128); msimpl;
    [|eexists; reflexivity].
  destruct (is_recording (session st)); msimpl; eexists; reflexivity.
Qed.

(** The second half of [did_waitpid] returns whenever the committed status
    is a stop whose pending signal is not SIGTRAP. *)
Lemma normalize_returns mt o s z :
  is_stopped (task s) = true ->
  stopped_from_status (wait_status (task s)) = true ->
  pending_sig_from_status (wait_status (task s)) = Some z ->
  z <> SIGTRAP ->
  exists st', did_waitpid_normalize mt o s = Done tt st'.
Proof.
  intros Hst Hstop Hp Hz. apply Z.eqb_neq in Hz.
  unfold did_waitpid_normalize, pending_sig, task_ip, regs, task_arch,
    ptrace_event.
  msimpl.
  destruct (singlestep_flag (registers (task s))); msimpl;
    destruct (negb (is_bkpt_none
                      (get_breakpoint_type_at_addr (breakpoints (vm s))
                         (address_of_last_execution_resume (task s)))));
    msimpl; rewrite ?Hp; msimpl; rewrite ?Hz; msimpl;
    match goal with
    | |- context [is_in_non_sigreturn_exit_syscall ?x] =>
        destruct (in_exit_run x Hstop) as [b Hb]; rewrite Hb; msimpl
    end;
    destruct b; msimpl;
    try (eexists; reflexivity);
    match goal with
    | |- context [set_regs ?r ?x] =>
        let Hs := fresh "Hs" in
        pose proof (set_regs_run r x) as Hs; msimpl in Hs; rewrite Hst in Hs;
        destruct Hs as (err & k' & Hs & _); rewrite Hs; eexists; reflexivity
    end.
Qed.


Lemma did_waitpid_returns status osi st z :
  stopped_from_status status = true ->
  pending_sig_from_status status = Some z ->
  z <> SIGTRAP ->
  exists s st',
    did_waitpid status osi st = Done tt st' /\
    refreshed status osi st s /\
    normalize_frame_of s st'.
Proof.
  intros Hstop Hp Hz.
  rewrite did_waitpid_split. unfold bind at 1.
  pose proof (did_waitpid_refresh_spec status osi st) as Hspec.
  destruct (did_waitpid_refresh status osi st) as [[mt o] s|s|];
    [|congruence|contradiction].
  destruct Hspec as (-> & -> & Hr). cbn [fst snd].
  assert (Hn : exists st',
             did_waitpid_normalize (k_hpc_ticks (kernel st))
               (original_syscallno (registers (task st))) s = Done tt st').
  { destruct (rf_status _ _ _ _ Hr) as [Hs|Hs].
    - apply (normalize_returns _ _ _ z).
      + apply (rf_is_stopped _ _ _ _ Hr).
      + rewrite Hs. exact Hstop.
      + rewrite Hs. exact Hp.
      + exact Hz.
    - apply (normalize_returns _ _ _ 0).
      + apply (rf_is_stopped _ _ _ _ Hr).
      + rewrite Hs. reflexivity.
      + rewrite Hs. reflexivity.
      + discriminate. }
  destruct Hn as [st' Hn]. exists s, st'. rewrite Hn.
  split; [reflexivity|]. split; [exact Hr|].
  apply (normalize_frame _ _ _ _ Hn).
Qed.

(** [wait] on a task whose unexpected exit was detected: the synthesized
    PTRACE_EVENT_EXIT stop is committed, the flag is cleared and waitpid is
    not called. *)
Lemma wait_reports_unexpected_exit iae st :
  unstable (task st) = false ->
  is_recording (session st) = true \/ double_is_zero iae = true ->
  detected_unexpected_exit (task st) = true ->
  exists st' new,
    wait iae st = Done tt st' /\
    wait_status (task st') = ptrace_exit_wait_status /\
    is_stopped (task st') = true /\
    seen_ptrace_exit_event (task st') = true /\
    detected_unexpected_exit (task st') = false /\
    k_waitpid (kernel st') = k_waitpid (kernel st) /\
    k_trace (kernel st') = k_trace (kernel st) ++ new /\
    forallb (fun e => negb (is_waitpid_event e)) new = true.
Proof.
  intros Hu Hrec Hd.
  assert (Hassert : is_recording (session st) || double_is_zero iae = true).
  { destruct Hrec as [->| ->]; [reflexivity|apply orb_true_r]. }
  destruct (did_waitpid_returns ptrace_exit_wait_status None st 0
              eq_refl eq_refl ltac:(discriminate))
    as (s & st1 & Hrun & Hr & Hf).
  unfold wait. msimpl. rewrite Hu. msimpl. rewrite Hassert. msimpl.
  rewrite Hd. msimpl. rewrite Hrun.
  destruct (rf_kernel _ _ _ _ Hr) as (new1 & Hk & Hnw1).
  destruct (nf_trace _ _ Hf) as (new2 & Htr2 & Hnw2).
  assert (Hws : wait_status (task st1) = ptrace_exit_wait_status).
  { rewrite (nf_wait_status _ _ Hf).
    destruct (rf_status _ _ _ _ Hr) as [H|H]; exact H. }
  eexists _, (new1 ++ new2). split; [reflexivity|]. msimpl.
  repeat split.
  - exact Hws.
  - rewrite (nf_is_stopped _ _ Hf). apply (rf_is_stopped _ _ _ _ Hr).
  - rewrite (nf_seen _ _ Hf), (rf_seen _ _ _ _ Hr).
    rewrite <- (nf_wait_status _ _ Hf), Hws. apply orb_true_r.
  - rewrite (nf_waitpid _ _ Hf). apply (kf_waitpid _ _ _ Hk).
  - rewrite Htr2, (kf_trace _ _ _ Hk), app_assoc. reflexivity.
  - rewrite forallb_app, Hnw1, Hnw2. reflexivity.
Qed.


Lemma waitpid_run nohang st r rest :
  k_waitpid (kernel st) = r :: rest ->
  exists k',
    waitpid nohang st = Done r (with_kernel k' st) /\
    k_trace k' = k_trace (kernel st) ++ [EvWaitpid nohang r] /\
    k_waitpid k' = rest /\
    k_ticks_fd k' = k_ticks_fd (kernel st) /\
    k_ttl k' = k_ttl (kernel st) /\
    k_errno k' = (if wr_ret r <? 0 then wr_errno r else k_errno (kernel st)).
Proof.
  intros H. unfold waitpid. rewrite H. eexists. split; [reflexivity|].
  destruct (wr_ret r <? 0); msimpl; repeat split; reflexivity.
Qed.

(** [resume_execution] when its non-blocking waitpid finds the exit event:
    the state before the optional [wait]. *)
Lemma resume_execution_race how tick_period sig st r rest :
  is_recording (session st) = true ->
  is_stopped (task st) = true ->
  0 <= tid (task st) ->
  k_waitpid (kernel st) = r :: rest ->
  wr_ret r = tid (task st) ->
  ptrace_event_from_status (wr_status r) = PTRACE_EVENT_EXIT ->
  exists s e6,
    (forall wait_how,
       resume_execution how wait_how tick_period sig st =
       match wait_how with
       | RESUME_WAIT => wait (double_of_int 0) s
       | RESUME_NONBLOCKING => Done tt s
       end) /\
    detected_unexpected_exit (task s) = true /\
    unstable (task s) = unstable (task st) /\
    session s = session st /\
    k_waitpid (kernel s) = rest /\
    k_trace (kernel s) =
      k_trace (kernel st)
        ++ hpc_reset_events tick_period
        ++ [poke_dr 6 0 e6; EvWaitpid true r].
Proof.
  intros Hrec Hstopped Htid Hscript Hret Hevent.
  unfold resume_execution, task_ip, regs, set_debug_status, hpc_reset.
  destruct tick_period; msimpl; rewrite Hstopped; msimpl;
    (rewrite dr_user_word_offset_ok by lia);
    match goal with
    | |- context [fallible_ptrace PTRACE_POKEUSER _ (DataWord 0) ?x] =>
        destruct (fallible_ptrace_poke 6 0 x ltac:(lia))
          as (rc & e6 & s1 & Hrun & P)
    end;
    rewrite Hrun; msimpl;
    pose proof (ps_trace _ _ _ _ _ _ P) as Htr;
    pose proof (ps_waitpid _ _ _ _ _ _ P) as Hwp;
    rewrite (ps_frame _ _ _ _ _ _ P); msimpl in Htr; msimpl in Hwp;
    generalize dependent (kernel s1); clear Hrun P; intros k1 Htr Hwp; msimpl;
    rewrite Hrec; msimpl;
    match goal with
    | |- context [waitpid true ?x] =>
        destruct (waitpid_run true x r rest) as (k2 & Hw & Htr2 & Hwp2 & _);
        [msimpl; rewrite Hwp; exact Hscript|]
    end;
    rewrite Hw; msimpl;
    rewrite Hret, (proj2 (Z.leb_le _ _) Htid), Z.eqb_refl, Hevent; msimpl;
    change (PTRACE_EVENT_EXIT =? PTRACE_EVENT_EXIT) with true; msimpl;
    rewrite Z.eqb_refl; msimpl;
    (eexists _, e6; split; [intros wait_how; destruct wait_how; reflexivity|]);
    msimpl; msimpl in Htr2; rewrite Htr2, Htr;
    repeat split; try reflexivity; try assumption;
    cbn [hpc_reset_events app]; rewrite <- ?app_assoc; reflexivity.
Qed.

Lemma wait_deadline_irrelevant iae st :
  is_recording (session st) = true ->
  detected_unexpected_exit (task st) = true ->
  wait iae st = wait (double_of_int 0) st.
Proof.
  intros Hrec Hd. unfold wait. msimpl.
  destruct (unstable (task st)); msimpl; [reflexivity|].
  rewrite Hrec. msimpl. rewrite Hd. reflexivity.
Qed.

(** C4.  In a recording, when the non-blocking waitpid of
    [resume_execution] reports this tid with a PTRACE_EVENT_EXIT, the flag
    [detected_unexpected_exit] is set and no request that resumes the tracee
    is issued: the requests made are the perf-counter reset, the zeroing of
    DR6 and that waitpid.  The next [wait] then commits the synthesized
    PTRACE_EVENT_EXIT stop, clears the flag and calls waitpid not at all;
    [resume_execution] with RESUME_WAIT does both in one call. *)
Theorem unexpected_exit_is_reported how tick_period sig iae st r rest :
  is_recording (session st) = true ->
  is_stopped (task st) = true ->
  unstable (task st) = false ->
  0 <= tid (task st) ->
  k_waitpid (kernel st) = r :: rest ->
  wr_ret r = tid (task st) ->
  ptrace_event_from_status (wr_status r) = PTRACE_EVENT_EXIT ->
  exists st1 st2 e6 new,
    resume_execution how RESUME_NONBLOCKING tick_period sig st = Done tt st1 /\
    detected_unexpected_exit (task st1) = true /\
    k_trace (kernel st1) =
      k_trace (kernel st)
        ++ hpc_reset_events tick_period
        ++ [poke_dr 6 0 e6; EvWaitpid true r] /\
    forallb (fun e => negb (is_resume_event e))
      (hpc_reset_events tick_period ++ [poke_dr 6 0 e6; EvWaitpid true r])
      = true /\
    wait iae st1 = Done tt st2 /\
    wait_status (task st2) = ptrace_exit_wait_status /\
    is_stopped (task st2) = true /\
    seen_ptrace_exit_event (task st2) = true /\
    detected_unexpected_exit (task st2) = false /\
    k_waitpid (kernel st2) = rest /\
    k_trace (kernel st2) = k_trace (kernel st1) ++ new /\
    forallb (fun e => negb (is_waitpid_event e)) new = true /\
    resume_execution how RESUME_WAIT tick_period sig st = Done tt st2.
Proof.
  intros Hrec Hstopped Hunstable Htid Hscript Hret Hevent.
  destruct (resume_execution_race how tick_period sig st
              r rest Hrec Hstopped Htid Hscript Hret Hevent)
    as (s & e6 & Hrun & Hflag & Hun & Hses & Hwp & Htr).
  assert (Hrec_s : is_recording (session s) = true) by (rewrite Hses; exact Hrec).
  destruct (wait_reports_unexpected_exit iae s)
    as (st2 & new & Hwait & Hws & Hst & Hseen & Hclr & Hwp2 & Htr2 & Hnw);
    [congruence|left; exact Hrec_s|exact Hflag|].
  exists s, st2, e6, new.
  repeat split; try assumption.
  - apply (Hrun RESUME_NONBLOCKING).
  - destruct tick_period; reflexivity.
  - congruence.
  - rewrite (Hrun RESUME_WAIT), <- Hwait. symmetry.
    apply wait_deadline_irrelevant; assumption.
Qed.


(** PTRACE_INTERRUPT and the resume requests through [ptrace_if_alive]. *)
Lemma ptrace_if_alive_control req addr data st :
  req = PTRACE_INTERRUPT \/ (exists how, req = request_of_resume how) ->
  exists k',
    ptrace_if_alive req addr data st
      = Done (tracee_alive (kernel st), DataNull) (with_kernel k' st) /\
    kernel_frame (kernel st) k'
      [EvPtrace req addr data
         (if tracee_alive (kernel st) then 0 else ESRCH)].
Proof.
  intros Hreq.
  pose proof (kernel_frame_trans _ _ _ _ _
                (kernel_frame_errno 0 (kernel st))
                (kernel_frame_serve (with_k_errno 0 (kernel st)))) as Hs.
  cbn [app] in Hs.
  destruct (serve_fields (with_k_errno 0 (kernel st))) as (_ & _ & He & _).
  destruct Hreq as [-> | [how ->]]; [|destruct how];
    cbn [request_of_resume];
    unfold ptrace_if_alive, fallible_ptrace, kernel_ptrace; msimpl;
    change (tracee_alive (with_k_errno 0 (kernel st)))
      with (tracee_alive (kernel st));
    (destruct (tracee_alive (kernel st)) eqn:Halive; cbn [negb];
     [ cbn [is_peek]; change (0 =? 0) with true; msimpl; rewrite He; msimpl;
       change (0 =? ESRCH) with false; change (0 =? 0) with true; msimpl;
       eexists; split; [reflexivity|];
       apply (kernel_frame_trans _ _ _ [] _ Hs), kernel_frame_log
     | change (ESRCH =? 0) with false; msimpl;
       change (ESRCH =? ESRCH) with true; msimpl;
       eexists; split; [reflexivity|];
       apply (kernel_frame_trans _ _ _ [] [_]
                (kernel_frame_errno 0 (kernel st)));
       apply (kernel_frame_trans _ _ _ [_] [] (kernel_frame_log _ _));
       apply kernel_frame_errno ]).
Qed.

Lemma wait_loop_frame n : forall iae sent st x s1,
  wait_loop n iae sent st = Done x s1 ->
  s1 = with_kernel (kernel s1) st /\
  k_ticks_fd (kernel s1) = k_ticks_fd (kernel st) /\
  exists new,
    k_trace (kernel s1) = k_trace (kernel st) ++ new /\
    (sent = false -> snd x = true ->
     exists e, In (EvPtrace PTRACE_INTERRUPT 0 DataNull e) new).
Proof.
  induction n as [|n IH]; intros iae sent st x s1 H; [discriminate H|].
  cbn [wait_loop] in H. unfold setitimer, is_zombie_process, waitpid in H.
  msimpl in H.
  destruct (negb (double_is_zero iae)); msimpl in H;
    (destruct (k_waitpid (kernel st)) as [|r rest]; [discriminate H|]);
    msimpl in H;
    destruct (wr_ret r <? 0); msimpl in H;
    repeat
      match type of H with
      | context [ptrace_if_alive PTRACE_INTERRUPT 0 DataNull ?x] =>
          let k' := fresh "k'" in
          let Hrun := fresh "Hrun" in
          let Hk := fresh "Hk" in
          destruct (ptrace_if_alive_control PTRACE_INTERRUPT 0 DataNull x
                      ltac:(left; reflexivity)) as (k' & Hrun & Hk);
          rewrite Hrun in H; clear Hrun; msimpl in Hk; msimpl in H
      | context [if ?c then _ else _] => destruct c eqn:?; msimpl in H
      end;
    try discriminate H.
  all: first
    [ inversion H; subst; msimpl;
      (split; [reflexivity|split; [reflexivity|]]);
      eexists; split; [rewrite <- ?app_assoc; reflexivity|];
      cbn [snd]; congruence
    | apply IH in H; destruct H as (H1 & H2 & new & H3 & H4);
      msimpl in H1; msimpl in H2; msimpl in H3;
      (split; [exact H1|]);
      (split; [rewrite H2; try rewrite (kf_ticks_fd _ _ _ Hk); reflexivity|]) ].
  all: first
    [ pose proof (kf_trace _ _ _ Hk) as Hkt; msimpl in Hkt; rewrite H3, Hkt;
      eexists; split; [rewrite <- ?app_assoc; cbn [app]; reflexivity|];
      intros _ _; eexists; cbn [In];
      repeat (first [left; reflexivity | right])
    | rewrite H3; eexists; split; [rewrite <- ?app_assoc; reflexivity|];
      intros Hs; rewrite Hs in *; discriminate ].
Qed.

(** C7.  When the loop of [wait] ends having sent a PTRACE_INTERRUPT and with
    a PTRACE_EVENT_STOP status whose stop signal is SIGTRAP, SIGSTOP or 0,
    [wait] tells the scheduler to expire the timeslice (in a recording) and
    commits, through [did_waitpid], the time-slice status with a forged
    siginfo: si_signo the scheduler signal, si_fd the ticks fd, si_code
    POLL_IN.  The call returns; the scheduler has been told once; and, for a
    tracee that stays alive, the committed status and pending siginfo are
    the forged ones. *)
Theorem wait_forges_time_slice_stop iae st ret_ status s1 :
  unstable (task st) = false ->
  is_recording (session st) = true \/ double_is_zero iae = true ->
  detected_unexpected_exit (task st) = false ->
  wait_loop (S (length (k_waitpid (kernel st)))) iae false st
    = Done (ret_, status, true) s1 ->
  ret_ = tid (task st) ->
  stopped_from_status status = true ->
  ptrace_event_from_status status = PTRACE_EVENT_STOP ->
  WSTOPSIG status = SIGTRAP \/ WSTOPSIG status = SIGSTOP
  \/ WSTOPSIG status = 0 ->
  let si := time_slice_siginfo (k_ticks_fd (kernel st)) in
  wait iae st = did_waitpid time_slice_status (Some si)
                  (after_expire_timeslice s1) /\
  si_signo si = TIME_SLICE_SIGNAL /\
  si_fd si = k_ticks_fd (kernel st) /\
  si_code si = POLL_IN /\
  (exists e, In (EvPtrace PTRACE_INTERRUPT 0 DataNull e) (k_trace (kernel s1)))
  /\
  exists st',
    wait iae st = Done tt st' /\
    timeslices_expired (session st')
      = timeslices_expired (session st)
        + (if is_recording (session st) then 1 else 0) /\
    (k_ttl (kernel s1) = None ->
     wait_status (task st') = time_slice_status /\
     pending_siginfo (task st') = si).
Proof.
  intros Hu Hrec Hd Hloop Hret Hstop Hev Hsig. cbv zeta.
  destruct (wait_loop_frame _ _ _ _ _ _ Hloop) as (Hfr & Hfd & new & Htr & Hint).
  assert (Hassert : is_recording (session st) || double_is_zero iae = true).
  { destruct Hrec as [->| ->]; [reflexivity|apply orb_true_r]. }
  assert (Hfr_tid : tid (task s1) = tid (task st)
                    /\ is_recording (session s1) = is_recording (session st)).
  { rewrite Hfr. split; reflexivity. }
  assert (Hinterrupt : is_signal_triggered_by_ptrace_interrupt (WSTOPSIG status)
                       = true).
  { destruct Hsig as [->|[->| ->]]; reflexivity. }
  assert (Hwait : wait iae st
                  = did_waitpid time_slice_status
                      (Some (time_slice_siginfo (k_ticks_fd (kernel st))))
                      (after_expire_timeslice s1)).
  { unfold wait, hpc_ticks_fd, expire_timeslice, after_expire_timeslice.
    msimpl. rewrite Hu. msimpl. rewrite Hassert. msimpl. rewrite Hd. msimpl.
    rewrite Hloop. msimpl. rewrite Hstop. cbn [negb]. rewrite andb_false_r.
    msimpl. rewrite (proj1 Hfr_tid), Hret, Z.eqb_refl. msimpl.
    rewrite Hev, Hinterrupt. change (PTRACE_EVENT_STOP =? PTRACE_EVENT_STOP)
      with true. msimpl.
    rewrite (proj2 Hfr_tid).
    destruct (is_recording (session st)); msimpl; rewrite Hfd; reflexivity. }
  split; [exact Hwait|]. split; [reflexivity|]. split; [reflexivity|].
  split; [reflexivity|].
  split.
  { destruct (Hint eq_refl eq_refl) as [e He]. exists e. rewrite Htr.
    apply in_or_app. right. exact He. }
  destruct (did_waitpid_returns time_slice_status
              (Some (time_slice_siginfo (k_ticks_fd (kernel st))))
              (after_expire_timeslice s1) TIME_SLICE_SIGNAL
              eq_refl eq_refl ltac:(discriminate))
    as (s & st' & Hrun & Hr & Hf).
  assert (Hses : session s1 = session st) by (rewrite Hfr; reflexivity).
  exists st'. split; [rewrite Hwait; exact Hrun|]. split.
  - rewrite (nf_session _ _ Hf), (rf_timeslices _ _ _ _ Hr).
    unfold after_expire_timeslice. rewrite Hses.
    destruct (is_recording (session st)); msimpl; rewrite ?Hses; lia.
  - intros Hforever.
    assert (Hst : wait_status (task s) = time_slice_status).
    { apply (rf_status_alive _ _ _ _ Hr).
      unfold after_expire_timeslice.
      destruct (is_recording (session s1)); exact Hforever. }
    split.
    + rewrite (nf_wait_status _ _ Hf). exact Hst.
    + rewrite (nf_pending_siginfo _ _ Hf).
      apply (rf_siginfo _ _ _ _ Hr); [reflexivity|exact Hst|discriminate].
Qed.


(** C6.  When the registers show that the syscall failed, [on_syscall_exit]
    touches neither the AddressSpace nor the FdTable nor the task (so
    neither [prname] nor [thread_areas]), except for mprotect, whose
    [AddressSpace.protect(addr, len, prot)] is applied all the same.  The
    case labels of a C++ switch are distinct, which is what the last
    hypothesis of the second part says of mprotect. *)
Theorem on_syscall_exit_failed fuel syscallno regs st :
  syscall_failed regs = true ->
  let tbl := abi st (arch (registers (task st))) in
  (syscallno <> Arch.mprotect tbl ->
   exists st',
     on_syscall_exit fuel syscallno regs st = Done tt st' /\
     vm st' = vm st /\ fds st' = fds st /\ task st' = task st /\
     prname (task st') = prname (task st) /\
     thread_areas_ (task st') = thread_areas_ (task st) /\
     kernel st' = kernel st) /\
  (syscallno = Arch.mprotect tbl ->
   Arch.mprotect tbl <> Arch.brk tbl ->
   Arch.mprotect tbl <> Arch.mmap tbl ->
   Arch.mprotect tbl <> Arch.mmap2 tbl ->
   exists st',
     on_syscall_exit fuel syscallno regs st = Done tt st' /\
     vm st' =
       with_vm_log
         (vm_log (vm st)
            ++ [VmProtect (arg1 regs) (arg2 regs) (to_int (arg3_signed regs))])
         (vm st) /\
     fds st' = fds st /\ task st' = task st /\
     prname (task st') = prname (task st) /\
     thread_areas_ (task st') = thread_areas_ (task st) /\
     kernel st' = kernel st).
Proof.
  intros Hfail. cbv zeta.
  unfold on_syscall_exit, on_syscall_exit_arch, task_arch, is_mprotect_syscall,
    vm_call.
  msimpl. rewrite Hfail. msimpl. split.
  - intros Hne. apply Z.eqb_neq in Hne. rewrite Hne. msimpl.
    eexists. split; [reflexivity|]. msimpl. repeat split.
  - intros -> H1 H2 H3. rewrite Z.eqb_refl. msimpl.
    apply Z.eqb_neq in H1, H2, H3. rewrite H1, H2, H3. msimpl.
    eexists. split; [reflexivity|]. msimpl. repeat split.
Qed.

Lemma serve_mem_fd_frame k :
  k_mem_fd_opens (serve_mem_fd k) = k_mem_fd_opens k /\
  k_trace (serve_mem_fd k) = k_trace k /\
  k_mem (serve_mem_fd k) = k_mem k /\
  k_errno (serve_mem_fd k) = k_errno k /\
  k_prot (serve_mem_fd k) = k_prot k /\
  k_memfd_denied (serve_mem_fd k) = k_memfd_denied k /\
  k_prot_none_bug (serve_mem_fd k) = k_prot_none_bug k.
Proof.
  unfold serve_mem_fd. destruct (k_mem_fd_ttl k) as [[|t]|]; repeat split.
Qed.

Lemma pread64_run count offset st :
  exists n bs k',
    pread64 count offset st = Done (n, bs) (with_kernel k' st) /\
    k_trace k' = k_trace (kernel st) ++ [EvPread64 count offset n] /\
    k_mem_fd_opens k' = k_mem_fd_opens (kernel st) /\
    (0 <= n -> k_errno k' = k_errno (kernel st)) /\
    (mem_fd (vm st) = open_fd true -> mem_fd_gone (kernel st) = false ->
     n <> 0).
Proof.
  unfold pread64.
  destruct (serve_mem_fd_frame (kernel st)) as (Hop & Htr & _ & He & _).
  destruct (mem_fd (vm st)) as [|[|]].
  - eexists _, _, _. repeat split; try reflexivity; try discriminate. lia.
  - destruct (mem_fd_gone (kernel st)) eqn:Eg.
    + eexists _, _, _. repeat split; try reflexivity. discriminate.
    + cbv zeta. destruct (2 ^ 63 <=? offset).
      * eexists _, _, _. split; [reflexivity|]. msimpl. rewrite Hop, Htr.
        repeat split; try reflexivity; lia.
      * destruct (read_span _ offset (Z.to_nat count));
          eexists _, _, _; (split; [reflexivity|]); msimpl;
          rewrite ?Hop, ?Htr, ?He;
          repeat split; try reflexivity; cbn [length]; lia.
  - eexists _, _, _. repeat split; try reflexivity. discriminate.
Qed.

Lemma reopened_not_gone k : mem_fd_gone (reopened k) = false.
Proof.
  unfold reopened, mem_fd_gone. msimpl.
  destruct (k_mem_fd_ttl k) as [[|t]|]; reflexivity.
Qed.

Lemma read_bytes_mem_fd_loop_rule fuel :
  forall addr buf_size all_read buf st r bs st',
    0 <= all_read ->
    read_bytes_mem_fd_loop fuel addr buf_size all_read buf st
      = Done (r, bs) st' ->
    exists new,
      k_trace (kernel st') = k_trace (kernel st) ++ new /\
      mem_fd_read_rule addr buf_size all_read new = Some r /\
      (0 < all_read -> filter is_open_mem_fd_event new = []) /\
      (mem_fd (vm st) = open_fd true -> mem_fd_gone (kernel st) = false ->
       filter is_open_mem_fd_event new = []) /\
      (hd true (k_mem_fd_opens (kernel st)) = true ->
       (length (filter is_open_mem_fd_event new) <= 1)%nat).
Proof.
  induction fuel as [|fuel IH]; intros addr buf_size all_read buf st r bs st'
    Hnn H.
  - cbn [read_bytes_mem_fd_loop] in H.
    destruct (all_read <? buf_size) eqn:E; [discriminate H|].
    inversion H; subst. exists []. rewrite app_nil_r.
    cbn [mem_fd_read_rule filter length]. rewrite E. auto 8.
  - cbn [read_bytes_mem_fd_loop] in H.
    destruct (all_read <? buf_size) eqn:E.
    2:{ inversion H; subst. exists []. rewrite app_nil_r.
        cbn [mem_fd_read_rule filter length]. rewrite E. auto 8. }
    unfold open_mem_fd in H. msimpl in H.
    match type of H with
    | context [pread64 ?c ?o ?x] =>
        destruct (pread64_run c o x)
          as (n & got & k' & Hrun & Htr & Hop & Herr & Hlive)
    end.
    rewrite Hrun in H. msimpl in H. msimpl in Htr. msimpl in Hop.
    msimpl in Hlive. msimpl in Herr.
    assert (Hguard :
      negb ((all_read <? buf_size)
            && (buf_size - all_read =? buf_size - all_read)
            && (wrap64 (addr + all_read) =? wrap64 (addr + all_read)))
      = false) by (rewrite E, !Z.eqb_refl; reflexivity).
    destruct ((0 =? n) && (0 =? all_read) && (0 =? k_errno k')) eqn:Hretry;
      msimpl in H.
    + apply andb_true_iff in Hretry. destruct Hretry as [Hretry _].
      apply andb_true_iff in Hretry. destruct Hretry as [Hn Ha].
      apply Z.eqb_eq in Hn, Ha. subst n all_read.
      cbn [is_open] in H. msimpl in H.
      apply IH in H; [|lia].
      destruct H as (new & Htr' & Hrule & _ & Hfd & _).
      unfold reopened in Htr'. msimpl in Htr'. msimpl in Hfd.
      exists (EvPread64 (buf_size - 0) (wrap64 (addr + 0)) 0
              :: EvOpenMemFd (match k_mem_fd_opens k' with
                              | [] => true | b :: _ => b end) :: new).
      split; [rewrite Htr', Htr, <- !app_assoc; reflexivity|].
      split.
      { cbn [mem_fd_read_rule]. rewrite Hguard. exact Hrule. }
      split; [lia|]. split.
      { intros Hl Hg. exfalso. exact (Hlive Hl Hg eq_refl). }
      intros Hhd. cbn [filter is_open_mem_fd_event length].
      rewrite Hfd; [reflexivity| |].
      * rewrite Hop. destruct (k_mem_fd_opens (kernel st)) as [|b opens];
          [reflexivity|cbn [hd] in Hhd; subst b; reflexivity].
      * unfold mem_fd_gone. msimpl. apply reopened_not_gone.
    + destruct (n <=? 0) eqn:Hle.
      * apply Z.leb_le in Hle.
        exists [EvPread64 (buf_size - all_read) (wrap64 (addr + all_read)) n].
        assert (Hnz : (n =? 0) && (all_read =? 0) = false).
        { destruct (n =? 0) eqn:En; [|reflexivity].
          destruct (all_read =? 0) eqn:Ea; [|reflexivity].
          apply Z.eqb_eq in En, Ea. subst n all_read.
          rewrite (Herr ltac:(lia)) in Hretry. discriminate Hretry. }
        assert (Hle' : (n <=? 0) = true) by (apply Z.leb_le; exact Hle).
        destruct (0 <? all_read) eqn:Ea; msimpl in H; inversion H; subst;
          msimpl; (split; [exact Htr|]);
          (split;
           [cbn [mem_fd_read_rule]; rewrite Hguard, Hnz, Hle', ?Ea;
            reflexivity|]);
          cbn [filter is_open_mem_fd_event length]; auto 8.
      * apply Z.leb_gt in Hle. apply IH in H; [|lia].
        destruct H as (new & Htr' & Hrule & Hpos & _). msimpl in Htr'.
        specialize (Hpos ltac:(lia)).
        exists (EvPread64 (buf_size - all_read) (wrap64 (addr + all_read)) n
                :: new).
        split; [rewrite Htr', Htr, <- app_assoc; reflexivity|].
        split.
        { cbn [mem_fd_read_rule]. rewrite Hguard.
          replace (n =? 0) with false by (symmetry; apply Z.eqb_neq; lia).
          replace (n <=? 0) with false by (symmetry; apply Z.leb_gt; lia).
          exact Hrule. }
        cbn [filter is_open_mem_fd_event]. rewrite Hpos.
        cbn [length]. auto 8.
Qed.

(** C5 (amended).  In the mem-fd path of [read_bytes_fallible] the
    requests of a call follow [mem_fd_read_rule], and the call returns the
    count the rule gives.  So the mem fd is reopened, and the read tried
    again, whenever a pread64 returns 0 before any byte has been read, and
    only then: a pread64 that returns 0 after bytes have been read ends the
    call with the count read so far.  There is one reopening per such
    result, hence at most one in a call when the descriptor that the first
    reopening yields is usable. *)
Theorem read_bytes_fallible_reopens_before_data fuel addr buf_size st res st' :
  is_open (mem_fd (vm st)) = true ->
  read_bytes_fallible fuel addr buf_size st = Done res st' ->
  exists new,
    k_trace (kernel st') = k_trace (kernel st) ++ new /\
    mem_fd_read_rule addr buf_size 0 new = Some (fst res) /\
    (hd true (k_mem_fd_opens (kernel st)) = true ->
     (length (filter is_open_mem_fd_event new) <= 1)%nat).
Proof.
  intros Hopen H. unfold read_bytes_fallible in H. msimpl in H.
  destruct (0 <=? buf_size) eqn:Hnn; msimpl in H; [|discriminate H].
  destruct (0 =? buf_size) eqn:Hz.
  - inversion H; subst. exists []. rewrite app_nil_r.
    apply Z.eqb_eq in Hz. subst buf_size. cbn. auto.
  - msimpl in H. rewrite Hopen in H. cbn [negb] in H.
    destruct res as [r bs].
    apply read_bytes_mem_fd_loop_rule in H; [|lia].
    destruct H as (new & Htr & Hrule & _ & _ & Hone).
    exists new. auto.
Qed.

Lemma read_bytes_fallible_reopens_before_data_witness :
  let st := short_lived_mem_fd_state in
  let st' := final_state (read_bytes_fallible 8 4096 16) st in
  exists new,
    k_trace (kernel st') = k_trace (kernel st) ++ new /\
    mem_fd_read_rule 4096 16 0 new = Some 8 /\
    (hd true (k_mem_fd_opens (kernel st)) = true ->
     (length (filter is_open_mem_fd_event new) <= 1)%nat).
Proof.
  apply (read_bytes_fallible_reopens_before_data 8 4096 16
           short_lived_mem_fd_state (8, [1; 2; 3; 4; 5; 6; 7; 8])).
  - reflexivity.
  - vm_compute. reflexivity.
Defined.

(** The requests of the run above: the first read returns 0 before any
    byte has been read and the mem fd is reopened; the retry reads the
    eight mapped bytes; the next read returns 0 again, the address space
    having been replaced, and the call returns the eight bytes without
    reopening. *)
Lemma read_bytes_fallible_no_reopen_after_data :
  (exists st',
     read_bytes_fallible 8 4096 16 short_lived_mem_fd_state =
       Done (8, [1; 2; 3; 4; 5; 6; 7; 8]) st') /\
  new_events (read_bytes_fallible 8 4096 16) short_lived_mem_fd_state =
    [EvPread64 16 4096 0; EvOpenMemFd true; EvPread64 16 4096 8;
     EvPread64 8 4104 0].
Proof.
  split; [eexists; vm_compute; reflexivity|vm_compute; reflexivity].
Qed.

(** C5 (as stated).  With a mem fd that is stale, and stale again after the
    first reopening, one call of [read_bytes_fallible] reopens it twice
    before it reads its four bytes. *)
Lemma read_bytes_fallible_reopens_twice :
  (exists st',
     read_bytes_fallible 8 4096 4 twice_stale_mem_fd_state =
       Done (4, [1; 2; 3; 4]) st') /\
  new_events (read_bytes_fallible 8 4096 4) twice_stale_mem_fd_state =
    [EvPread64 4 4096 0; EvOpenMemFd false;
     EvPread64 4 4096 0; EvOpenMemFd true; EvPread64 4 4096 4] /\
  reopen_count (read_bytes_fallible 8 4096 4) twice_stale_mem_fd_state = 2%nat /\
  ~ (forall fuel addr buf_size st,
       (reopen_count (read_bytes_fallible fuel addr buf_size) st <= 1)%nat).
Proof.
  split; [eexists; vm_compute; reflexivity|].
  split; [vm_compute; reflexivity|].
  split; [vm_compute; reflexivity|].
  intros H. specialize (H 8%nat 4096 4 twice_stale_mem_fd_state).
  vm_compute in H. lia.
Qed.

(** C8.  The round trip fails in the ptrace fallback.  With no mem fd open,
    writing the eight bytes 9,9,...,9 to the aligned word at 4096 issues
    one PTRACE_POKEDATA, which the kernel refuses with EIO;
    [write_bytes_ptrace] does not look at the result and reports all eight
    bytes written, so [write_bytes_helper] leaves [ok] set.  Reading the
    eight bytes back with [read_bytes_fallible] succeeds and returns the
    old contents 1,...,8. *)
Theorem write_bytes_ptrace_ignores_poke_failure :
  let buf := [9; 9; 9; 9; 9; 9; 9; 9] in
  exists s1 s2,
    write_bytes_helper 8 4096 buf (Some true) read_only_word_state =
      Done (Some true) s1 /\
    new_events (write_bytes_helper 8 4096 buf (Some true))
      read_only_word_state =
      [EvPtrace PTRACE_POKEDATA 4096 (DataWord 651061555542690057) EIO] /\
    vm_log (vm s1) = [VmNotifyWritten 4096 8] /\
    read_bytes_fallible 8 4096 8 s1 = Done (8, [1; 2; 3; 4; 5; 6; 7; 8]) s2 /\
    ~ (forall fuel addr bytes st s1' got s2',
         write_bytes_helper fuel addr bytes (Some true) st =
           Done (Some true) s1' ->
         read_bytes_fallible fuel addr (Z.of_nat (length bytes)) s1' =
           Done (Z.of_nat (length bytes), got) s2' ->
         got = bytes).
Proof.
  intros buf. subst buf.
  eexists
    (final_state (write_bytes_helper 8 4096 [9; 9; 9; 9; 9; 9; 9; 9] (Some true))
       read_only_word_state), _.
  split; [vm_compute; reflexivity|].
  split; [vm_compute; reflexivity|].
  split; [vm_compute; reflexivity|].
  split; [vm_compute; reflexivity|].
  intros H.
  specialize (H 8%nat 4096 [9; 9; 9; 9; 9; 9; 9; 9] read_only_word_state
                _ [1; 2; 3; 4; 5; 6; 7; 8] _ ltac:(vm_compute; reflexivity)
                ltac:(vm_compute; reflexivity)).
  discriminate H.
Qed.

(** ** The statements at concrete inputs *)

Lemma did_waitpid_normalizes_syscall_exit_witness :
  let st' := final_state (did_waitpid 34175 None) syscall_exit_state in
  let r := registers (task st') in
  (arch r = x86_64 ->
   Z.testbit (r11 r) 8 = false /\ cx_signed r = -1 /\ flags r = 582) /\
  (arch r = x86 -> flags r = 582) /\
  registers_written_back st'.
Proof.
  apply (did_waitpid_normalizes_syscall_exit 34175 None syscall_exit_state).
  - vm_compute. reflexivity.
  - split.
    + vm_compute. reflexivity.
    + intros _ number H. vm_compute in H. injection H as <-.
      vm_compute. reflexivity.
Defined.

Lemma did_waitpid_restores_original_syscallno_witness :
  let st' := final_state (did_waitpid 1407 None) breakpoint_state in
  original_syscallno (registers (task st')) = 59 /\
  registers_written_back st' /\
  k_hpc_ticks (kernel breakpoint_state) = 0 /\
  ip (registers (task st')) = 4194305.
Proof.
  apply (did_waitpid_restores_original_syscallno 1407 None breakpoint_state).
  - vm_compute. reflexivity.
  - split; [vm_compute; reflexivity|].
    split; [vm_compute; reflexivity|].
    vm_compute. discriminate.
Defined.

Lemma unexpected_exit_is_reported_witness :
  exists st1 st2 e6 new,
    resume_execution RESUME_CONT RESUME_NONBLOCKING RESUME_NO_TICKS 0
      killed_state = Done tt st1 /\
    detected_unexpected_exit (task st1) = true /\
    k_trace (kernel st1) =
      k_trace (kernel killed_state)
        ++ hpc_reset_events RESUME_NO_TICKS
        ++ [poke_dr 6 0 e6;
            EvWaitpid true (mkWaitResult 100 ptrace_exit_wait_status 0)] /\
    forallb (fun e => negb (is_resume_event e))
      (hpc_reset_events RESUME_NO_TICKS
         ++ [poke_dr 6 0 e6;
             EvWaitpid true (mkWaitResult 100 ptrace_exit_wait_status 0)])
      = true /\
    wait (double_of_int 0) st1 = Done tt st2 /\
    wait_status (task st2) = ptrace_exit_wait_status /\
    is_stopped (task st2) = true /\
    seen_ptrace_exit_event (task st2) = true /\
    detected_unexpected_exit (task st2) = false /\
    k_waitpid (kernel st2) = [] /\
    k_trace (kernel st2) = k_trace (kernel st1) ++ new /\
    forallb (fun e => negb (is_waitpid_event e)) new = true /\
    resume_execution RESUME_CONT RESUME_WAIT RESUME_NO_TICKS 0 killed_state
      = Done tt st2.
Proof.
  apply (unexpected_exit_is_reported RESUME_CONT RESUME_NO_TICKS 0
           (double_of_int 0)
           killed_state (mkWaitResult 100 ptrace_exit_wait_status 0) []).
  - reflexivity.
  - reflexivity.
  - reflexivity.
  - vm_compute. discriminate.
  - reflexivity.
  - reflexivity.
  - reflexivity.
Defined.

Lemma wait_forges_time_slice_stop_witness :
  let s1 := final_state (wait_loop 3 ten_milliseconds false) runaway_state in
  let si := time_slice_siginfo 7 in
  wait ten_milliseconds runaway_state =
    did_waitpid time_slice_status (Some si) (after_expire_timeslice s1) /\
  si_signo si = TIME_SLICE_SIGNAL /\
  si_fd si = 7 /\
  si_code si = POLL_IN /\
  (exists e, In (EvPtrace PTRACE_INTERRUPT 0 DataNull e) (k_trace (kernel s1)))
  /\
  exists st',
    wait ten_milliseconds runaway_state = Done tt st' /\
    timeslices_expired (session st') = 0 + 1 /\
    (k_ttl (kernel s1) = None ->
     wait_status (task st') = time_slice_status /\
     pending_siginfo (task st') = si).
Proof.
  apply (wait_forges_time_slice_stop ten_milliseconds runaway_state 100
           interrupt_stop_status).
  - reflexivity.
  - left. reflexivity.
  - reflexivity.
  - vm_compute. reflexivity.
  - reflexivity.
  - reflexivity.
  - reflexivity.
  - left. reflexivity.
Defined.

Lemma on_syscall_exit_failed_witness :
  (exists st',
     on_syscall_exit 8 11 failed_munmap_regs example_state = Done tt st' /\
     vm st' = vm example_state /\ fds st' = fds example_state /\
     task st' = task example_state /\
     prname (task st') = prname (task example_state) /\
     thread_areas_ (task st') = thread_areas_ (task example_state) /\
     kernel st' = kernel example_state) /\
  (exists st',
     on_syscall_exit 8 10 failed_mprotect_regs example_state = Done tt st' /\
     vm st' =
       with_vm_log (vm_log (vm example_state) ++ [VmProtect 8192 4096 1])
         (vm example_state) /\
     fds st' = fds example_state /\ task st' = task example_state /\
     prname (task st') = prname (task example_state) /\
     thread_areas_ (task st') = thread_areas_ (task example_state) /\
     kernel st' = kernel example_state).
Proof.
  split.
  - apply (on_syscall_exit_failed 8 11 failed_munmap_regs example_state).
    + reflexivity.
    + vm_compute. discriminate.
  - apply (on_syscall_exit_failed 8 10 failed_mprotect_regs example_state).
    + reflexivity.
    + reflexivity.
    + vm_compute. discriminate.
    + vm_compute. discriminate.
    + vm_compute. discriminate.
Defined.

Lemma pending_sig_from_status_cases_witness :
  pending_sig_from_status 0 = Some 0 /\
  pending_sig_from_status 34175 = Some 0 /\
  pending_sig_from_status 263551 = Some 0 /\
  pending_sig_from_status 1407 = Some SIGTRAP /\
  pending_sig_from_status 37759 = Some SIGSTOP.
Proof.
  split.
  { apply (proj1 (pending_sig_from_status_cases 0)). reflexivity. }
  split.
  { apply (proj1 (proj2 (pending_sig_from_status_cases 34175))).
    reflexivity. }
  split.
  { apply (proj1 (proj2 (proj2 (pending_sig_from_status_cases 263551)))).
    - reflexivity.
    - vm_compute. discriminate. }
  split.
  { apply (proj1 (proj2 (proj2 (proj2
             (pending_sig_from_status_cases 1407))))); reflexivity. }
  apply (proj2 (proj2 (proj2 (proj2
           (pending_sig_from_status_cases 37759)))) 147).
  - reflexivity.
  - vm_compute. discriminate.
  - vm_compute. discriminate.
Defined.

Lemma set_debug_regs_too_many_witness :
  exists e6 e7 st' st'',
    set_debug_regs five_watchpoints example_state = Done false st' /\
    k_trace (kernel st') =
      k_trace (kernel example_state) ++ [poke_dr 6 0 e6; poke_dr 7 0 e7] /\
    watchpoints_disabled (kernel st') /\
    get_debug_reg 7 st' = Done 0 st''.
Proof.
  apply (set_debug_regs_too_many five_watchpoints example_state).
  vm_compute. reflexivity.
Defined.

(** * Further properties of the code *)

Lemma did_waitpid_refresh_session status osi st :
  match did_waitpid_refresh status osi st with
  | Done _ s =>
      session s =
        with_ticks_processed
          (ticks_processed (session st) + k_hpc_ticks (kernel st))
          (session st) /\
      exists rest,
        k_trace (kernel s) = k_trace (kernel st) ++ EvHpcStop :: rest
  | _ => True
  end.
Proof.
  unfold did_waitpid_refresh, hpc_read_ticks, hpc_stop, ptrace_event.
  msimpl.
  repeat (first [ gquery
                | rewrite pending_sig_exit_status; msimpl
                | rewrite exit_status_event; msimpl
                | gcase ]);
    try exact I; (split; [reflexivity|]);
    repeat match goal with
           | Hk : kernel_frame _ _ _ |- _ =>
               rewrite (kf_trace _ _ _ Hk); clear Hk
           end;
    msimpl; rewrite <- ?app_assoc; eexists; reflexivity.
Qed.

(** X1.  Whenever [did_waitpid] returns, the task is stopped; the ticks read
    from the counter have been added to the task's and to the session's
    count and the counter was stopped before anything else was asked of the
    kernel; the status committed is the one given or the synthesized
    PTRACE_EVENT_EXIT status, and the one given when the tracee lives on;
    [seen_ptrace_exit_event] is set if it was or if the committed status
    carries PTRACE_EVENT_EXIT; the shadow address space and fd table are
    left alone. *)
Theorem did_waitpid_commits_stop status osi st st' :
  did_waitpid status osi st = Done tt st' ->
  is_stopped (task st') = true /\
  (wait_status (task st') = status
   \/ wait_status (task st') = ptrace_exit_wait_status) /\
  (k_ttl (kernel st) = None -> wait_status (task st') = status) /\
  ticks (task st') = ticks (task st) + k_hpc_ticks (kernel st) /\
  ticks_processed (session st')
  = ticks_processed (session st) + k_hpc_ticks (kernel st) /\
  (exists rest,
     k_trace (kernel st') = k_trace (kernel st) ++ EvHpcStop :: rest) /\
  seen_ptrace_exit_event (task st')
  = seen_ptrace_exit_event (task st)
    || (ptrace_event_from_status (wait_status (task st')) =? PTRACE_EVENT_EXIT)
  /\
  vm st' = vm st /\ fds st' = fds st.
Proof.
  rewrite did_waitpid_split. unfold bind at 1.
  pose proof (did_waitpid_refresh_spec status osi st) as Hspec.
  pose proof (did_waitpid_refresh_session status osi st) as Hses.
  destruct (did_waitpid_refresh status osi st) as [[mt o] s| |];
    try discriminate.
  destruct Hspec as (_ & _ & Hr). destruct Hses as (Hses & rest & Htr).
  cbn [fst snd]. intros H. apply normalize_frame in H.
  destruct (nf_trace _ _ H) as (new & Hnew & _).
  rewrite (nf_is_stopped _ _ H), (nf_wait_status _ _ H), (nf_ticks _ _ H),
    (nf_session _ _ H), (nf_seen _ _ H), (nf_vm _ _ H), (nf_fds _ _ H).
  split; [apply (rf_is_stopped _ _ _ _ Hr)|].
  split; [apply (rf_status _ _ _ _ Hr)|].
  split; [apply (rf_status_alive _ _ _ _ Hr)|].
  split; [apply (rf_ticks _ _ _ _ Hr)|].
  split; [rewrite Hses; reflexivity|].
  split.
  { exists (rest ++ new). rewrite Hnew, Htr, <- app_assoc. reflexivity. }
  split; [apply (rf_seen _ _ _ _ Hr)|].
  split; [apply (rf_vm _ _ _ _ Hr)|apply (rf_fds _ _ _ _ Hr)].
Qed.

Lemma did_waitpid_commits_stop_witness :
  let st' := final_state (did_waitpid 34175 None) syscall_exit_state in
  is_stopped (task st') = true /\
  (wait_status (task st') = 34175
   \/ wait_status (task st') = ptrace_exit_wait_status) /\
  (k_ttl (kernel syscall_exit_state) = None -> wait_status (task st') = 34175)
  /\
  ticks (task st')
  = ticks (task syscall_exit_state) + k_hpc_ticks (kernel syscall_exit_state)
  /\
  ticks_processed (session st')
  = ticks_processed (session syscall_exit_state)
    + k_hpc_ticks (kernel syscall_exit_state) /\
  (exists rest,
     k_trace (kernel st')
     = k_trace (kernel syscall_exit_state) ++ EvHpcStop :: rest) /\
  seen_ptrace_exit_event (task st')
  = seen_ptrace_exit_event (task syscall_exit_state)
    || (ptrace_event_from_status (wait_status (task st')) =? PTRACE_EVENT_EXIT)
  /\
  vm st' = vm syscall_exit_state /\ fds st' = fds syscall_exit_state.
Proof.
  apply (did_waitpid_commits_stop 34175 None syscall_exit_state).
  vm_compute. reflexivity.
Defined.

Lemma did_waitpid_refresh_regs status osi st :
  match did_waitpid_refresh status osi st with
  | Done _ s =>
      registers (task s) =
        if negb (ptrace_event_from_status (wait_status (task st))
                 =? PTRACE_EVENT_EXEC)
           && tracee_alive (kernel st)
        then set_from_ptrace (k_regs (kernel st)) (registers (task st))
        else registers (task st)
  | _ => True
  end.
Proof.
  unfold did_waitpid_refresh, hpc_read_ticks, hpc_stop, ptrace_event.
  msimpl.
  repeat (first [ gquery
                | rewrite pending_sig_exit_status; msimpl
                | rewrite exit_status_event; msimpl
                | gcase ]);
    change (tracee_alive (log_event EvHpcStop (kernel st)))
      with (tracee_alive (kernel st)) in *;
    try exact I;
    try solve [exfalso;
               match goal with
               | H1 : ?x = true, H2 : ?x = false |- _ =>
                   rewrite H1 in H2; discriminate H2
               end];
    repeat match goal with
           | H : tracee_alive (kernel st) = _ |- _ => rewrite H
           | H : negb _ = _ |- _ => rewrite H
           end;
    reflexivity.
Qed.

Lemma singlestep_flag_clear r :
  singlestep_flag (clear_singlestep_flag r) = false.
Proof.
  unfold singlestep_flag, clear_singlestep_flag. cbn [flags with_flags].
  rewrite <- Z.land_assoc.
  change (Z.land (Z.lnot X86_TF_FLAG) X86_TF_FLAG) with 0.
  rewrite Z.land_0_r. reflexivity.
Qed.

Lemma singlestep_flag_fixup r :
  singlestep_flag (fixup_syscall_registers r) = false.
Proof.
  unfold singlestep_flag, fixup_syscall_registers, set_flags, set_cx, set_r11.
  destruct (arch r) eqn:E; cbn [arch flags with_flags with_cx with_r11];
    rewrite ?E; reflexivity.
Qed.

Lemma singlestep_flag_syscallno o r :
  singlestep_flag (set_original_syscallno o r) = singlestep_flag r.
Proof. reflexivity. Qed.

Lemma normalize_singlestep mt o s st' :
  did_waitpid_normalize mt o s = Done tt st' ->
  singlestep_flag (registers (task st')) = false /\
  (singlestep_flag (registers (task s)) = true -> registers_written_back st').
Proof.
  intros H.
  unfold did_waitpid_normalize, pending_sig, task_ip, regs, task_arch,
    ptrace_event in H.
  msimpl in H.
  repeat mstep H; mset_regs H.
  all: unfold registers_written_back; msimpl.
  all: split;
    [ rewrite ?singlestep_flag_fixup, ?singlestep_flag_syscallno,
        ?singlestep_flag_clear; try reflexivity; assumption
    | intros Hc;
      first [ eexists _, _; split; [eassumption|split; assumption]
            | exfalso; rewrite Hc in *; discriminate ] ].
Qed.

(** X2.  After [did_waitpid] the cached registers never have the
    single-step flag (TF) set; and when the registers just read from the
    tracee had it set, the cleaned registers were written back to the
    tracee by the last request of the call. *)
Theorem did_waitpid_clears_singlestep status osi st st' :
  did_waitpid status osi st = Done tt st' ->
  singlestep_flag (registers (task st')) = false /\
  (tracee_alive (kernel st) = true ->
   ptrace_event_from_status (wait_status (task st)) <> PTRACE_EVENT_EXEC ->
   singlestep_flag (k_regs (kernel st)) = true ->
   registers_written_back st').
Proof.
  rewrite did_waitpid_split. unfold bind at 1.
  pose proof (did_waitpid_refresh_regs status osi st) as Hregs.
  destruct (did_waitpid_refresh status osi st) as [[mt o] s| |];
    try discriminate.
  cbn [fst snd]. intros H. apply normalize_singlestep in H.
  destruct H as [Hclear Hback]. split; [exact Hclear|].
  intros Hlive Hexec Htf.
  apply Z.eqb_neq in Hexec.
  rewrite Hexec, Hlive in Hregs. cbn [negb andb] in Hregs.
  apply Hback. rewrite Hregs. exact Htf.
Qed.

Lemma did_waitpid_clears_singlestep_witness :
  let st' := final_state (did_waitpid 1407 None) singlestep_state in
  singlestep_flag (registers (task st')) = false /\
  (tracee_alive (kernel singlestep_state) = true ->
   ptrace_event_from_status (wait_status (task singlestep_state))
   <> PTRACE_EVENT_EXEC ->
   singlestep_flag (k_regs (kernel singlestep_state)) = true ->
   registers_written_back st').
Proof.
  apply (did_waitpid_clears_singlestep 1407 None singlestep_state).
  vm_compute. reflexivity.
Defined.

Lemma did_waitpid_refresh_dead status osi st :
  tracee_alive (kernel st) = false ->
  ptrace_event_from_status (wait_status (task st)) <> PTRACE_EVENT_EXEC ->
  exists p s,
    did_waitpid_refresh status osi st = Done p s /\
    wait_status (task s) = ptrace_exit_wait_status /\
    is_stopped (task s) = true /\
    seen_ptrace_exit_event (task s) = true /\
    registers (task s) = registers (task st) /\
    pending_siginfo (task s) = pending_siginfo (task st).
Proof.
  intros Hdead Hexec. apply Z.eqb_neq in Hexec.
  unfold did_waitpid_refresh, hpc_read_ticks, hpc_stop, ptrace_event.
  msimpl. rewrite Hexec. msimpl. gquery.
  change (tracee_alive (log_event EvHpcStop (kernel st)))
    with (tracee_alive (kernel st)).
  rewrite Hdead. msimpl.
  rewrite pending_sig_exit_status. msimpl.
  change (negb (0 =? 0)) with false. cbv iota. msimpl.
  rewrite exit_status_event. msimpl.
  eexists _, _. split; [reflexivity|]. msimpl. repeat split.
Qed.

(** X3.  When the tracee is already gone (and the previous stop was not an
    exec), [did_waitpid] does not abort whatever status it is given: it
    returns having committed the synthesized PTRACE_EVENT_EXIT status, with
    [seen_ptrace_exit_event] set and the pending siginfo left as it was. *)
Theorem did_waitpid_reports_death status osi st :
  tracee_alive (kernel st) = false ->
  ptrace_event_from_status (wait_status (task st)) <> PTRACE_EVENT_EXEC ->
  exists st',
    did_waitpid status osi st = Done tt st' /\
    wait_status (task st') = ptrace_exit_wait_status /\
    is_stopped (task st') = true /\
    seen_ptrace_exit_event (task st') = true /\
    pending_siginfo (task st') = pending_siginfo (task st).
Proof.
  intros Hdead Hexec.
  destruct (did_waitpid_refresh_dead status osi st Hdead Hexec)
    as ([mt o] & s & Hrun & Hst & Hstop & Hseen & _ & Hsi).
  assert (Hret : exists st', did_waitpid_normalize mt o s = Done tt st').
  { apply (normalize_returns mt o s 0); rewrite ?Hst;
      [exact Hstop|reflexivity|reflexivity|discriminate]. }
  destruct Hret as [st' Hn]. exists st'.
  rewrite did_waitpid_split. unfold bind at 1. rewrite Hrun. cbn [fst snd].
  split; [exact Hn|].
  apply normalize_frame in Hn.
  rewrite (nf_wait_status _ _ Hn), (nf_is_stopped _ _ Hn), (nf_seen _ _ Hn),
    (nf_pending_siginfo _ _ Hn).
  repeat split; assumption.
Qed.

Lemma did_waitpid_reports_death_witness :
  exists st',
    did_waitpid 1407 None dead_tracee_state = Done tt st' /\
    wait_status (task st') = ptrace_exit_wait_status /\
    is_stopped (task st') = true /\
    seen_ptrace_exit_event (task st') = true /\
    pending_siginfo (task st') = pending_siginfo (task dead_tracee_state).
Proof.
  apply (did_waitpid_reports_death 1407 None dead_tracee_state).
  - reflexivity.
  - vm_compute. discriminate.
Defined.

Lemma waitpid_nohang_run st :
  let r := hd (mkWaitResult 0 0 0) (k_waitpid (kernel st)) in
  exists k',
    waitpid true st = Done r (with_kernel k' st) /\
    k_trace k' = k_trace (kernel st) ++ [EvWaitpid true r] /\
    k_waitpid k' = tl (k_waitpid (kernel st)) /\
    k_hpc_ticks k' = k_hpc_ticks (kernel st).
Proof.
  unfold waitpid. destruct (k_waitpid (kernel st)) as [|r rest] eqn:E;
    cbn [hd tl].
  - eexists. split; [reflexivity|]. msimpl. rewrite E. repeat split.
  - eexists. split; [reflexivity|]. msimpl.
    destruct (wr_ret r <? 0); msimpl; repeat split.
Qed.

(** X4.  [try_wait] asks waitpid once, without blocking, and aborts on a
    negative result.  It returns [true] exactly when the result names this
    task, having then committed the stop through [did_waitpid] (the task is
    stopped, with the reported status or the synthesized exit status);
    otherwise it returns [false] and leaves the task and the session
    untouched. *)
Theorem try_wait_commits_reported_stop st b st' :
  try_wait st = Done b st' ->
  let r := hd (mkWaitResult 0 0 0) (k_waitpid (kernel st)) in
  0 <= wr_ret r /\
  b = (wr_ret r =? tid (task st)) /\
  k_waitpid (kernel st') = tl (k_waitpid (kernel st)) /\
  (b = false ->
   task st' = task st /\ session st' = session st /\
   k_trace (kernel st') = k_trace (kernel st) ++ [EvWaitpid true r]) /\
  (b = true ->
   is_stopped (task st') = true /\
   (wait_status (task st') = wr_status r
    \/ wait_status (task st') = ptrace_exit_wait_status) /\
   ticks (task st') = ticks (task st) + k_hpc_ticks (kernel st)).
Proof.
  intros H r.
  destruct (waitpid_nohang_run st) as (k' & Hrun & Htr & Hwp & Hticks).
  fold r in Hrun, Htr.
  unfold try_wait in H. rewrite (bind_run _ _ _ _ _ Hrun) in H.
  msimpl in H.
  destruct (0 <=? wr_ret r) eqn:Hret; msimpl in H; [|discriminate H].
  apply Z.leb_le in Hret. split; [exact Hret|].
  destruct (wr_ret r =? tid (task st)) eqn:Htid.
  - destruct (did_waitpid (wr_status r) None (with_kernel k' st))
      as [[] s| |] eqn:Hd; try discriminate H.
    inversion H; subst b st'. clear H.
    split; [reflexivity|].
    destruct (did_waitpid_Done _ _ _ _ Hd) as (s0 & Hr & Hn).
    apply normalize_frame in Hn.
    destruct (rf_kernel _ _ _ _ Hr) as (new & Hk & _).
    split.
    { rewrite (nf_waitpid _ _ Hn), (kf_waitpid _ _ _ Hk). exact Hwp. }
    split; [discriminate|]. intros _.
    rewrite (nf_is_stopped _ _ Hn), (nf_wait_status _ _ Hn), (nf_ticks _ _ Hn).
    split; [apply (rf_is_stopped _ _ _ _ Hr)|].
    split; [apply (rf_status _ _ _ _ Hr)|].
    rewrite (rf_ticks _ _ _ _ Hr). msimpl. rewrite Hticks. reflexivity.
  - inversion H; subst b st'. clear H. msimpl.
    split; [reflexivity|]. split; [exact Hwp|].
    split; [|discriminate]. intros _. destruct st. repeat split. exact Htr.
Qed.

Lemma try_wait_commits_reported_stop_witness :
  let st' := final_state try_wait killed_state in
  let r := hd (mkWaitResult 0 0 0) (k_waitpid (kernel killed_state)) in
  0 <= wr_ret r /\
  true = (wr_ret r =? tid (task killed_state)) /\
  k_waitpid (kernel st') = tl (k_waitpid (kernel killed_state)) /\
  (true = false ->
   task st' = task killed_state /\ session st' = session killed_state /\
   k_trace (kernel st')
   = k_trace (kernel killed_state) ++ [EvWaitpid true r]) /\
  (true = true ->
   is_stopped (task st') = true /\
   (wait_status (task st') = wr_status r
    \/ wait_status (task st') = ptrace_exit_wait_status) /\
   ticks (task st')
   = ticks (task killed_state) + k_hpc_ticks (kernel killed_state)).
Proof.
  apply (try_wait_commits_reported_stop killed_state true).
  vm_compute. reflexivity.
Defined.

(** One iteration of the loop of [wait] on a waitpid result that ends it: a
    report, or a failure other than EINTR. *)
Lemma wait_loop_returns n iae sent st r rest :
  k_waitpid (kernel st) = r :: rest ->
  0 <= wr_ret r \/ wr_errno r <> EINTR ->
  exists k1,
    wait_loop (S n) iae sent st
      = Done (wr_ret r, wr_status r, sent) (with_kernel k1 st) /\
    k_trace k1 = k_trace (kernel st) ++ timed_waitpid iae r /\
    k_waitpid k1 = rest /\
    k_ttl k1 = k_ttl (kernel st) /\
    k_hpc_ticks k1 = k_hpc_ticks (kernel st).
Proof.
  intros Hw Hr. cbn [wait_loop]. unfold setitimer, waitpid, timed_waitpid.
  assert (Hend : forall e0,
            (0 <=? wr_ret r)
            || negb ((if wr_ret r <? 0 then wr_errno r else e0) =? EINTR)
            = true).
  { intros e0. destruct (0 <=? wr_ret r) eqn:E; [reflexivity|].
    apply Z.leb_gt in E. destruct Hr as [Hr|Hr]; [lia|].
    apply Z.ltb_lt in E. rewrite E. cbn [orb].
    apply negb_true_iff, Z.eqb_neq. exact Hr. }
  specialize (Hend (k_errno (kernel st))).
  destruct (double_is_zero iae); msimpl; rewrite Hw; msimpl;
    destruct (wr_ret r <? 0) eqn:Hneg; msimpl;
    rewrite ?Hneg in Hend; rewrite Hend; msimpl;
    (eexists; split; [reflexivity|]); msimpl;
    rewrite <- ?app_assoc; repeat split.
Qed.

Lemma wait_loop_zombie n iae sent st r rest :
  k_waitpid (kernel st) = r :: rest ->
  wr_ret r < 0 -> wr_errno r = EINTR ->
  k_leader_zombie (kernel st) = true ->
  exists k1,
    wait_loop (S n) iae sent st
      = Done (tid (task st), ptrace_exit_wait_status, sent)
          (with_kernel k1 st) /\
    k_trace k1 = k_trace (kernel st) ++ timed_waitpid iae r /\
    k_waitpid k1 = rest /\
    k_ttl k1 = k_ttl (kernel st).
Proof.
  intros Hw Hneg Herr Hz. cbn [wait_loop].
  unfold setitimer, waitpid, timed_waitpid, is_zombie_process.
  assert (Hle : (0 <=? wr_ret r) = false) by (apply Z.leb_gt; exact Hneg).
  apply Z.ltb_lt in Hneg.
  destruct (double_is_zero iae); msimpl; rewrite Hw; msimpl; rewrite Hneg;
    msimpl;
    rewrite Hle, Herr;
    change (negb (EINTR =? EINTR)) with false; msimpl; rewrite Hz; msimpl;
    (eexists; split; [reflexivity|]); msimpl;
    rewrite <- ?app_assoc; repeat split.
Qed.

(** What [wait] does once its loop has ended without a PTRACE_INTERRUPT
    having been sent. *)
Lemma wait_after_loop iae st ret_ status k1 :
  unstable (task st) = false ->
  is_recording (session st) = true \/ double_is_zero iae = true ->
  detected_unexpected_exit (task st) = false ->
  wait_loop (S (length (k_waitpid (kernel st)))) iae false st
    = Done (ret_, status, false) (with_kernel k1 st) ->
  wait iae st =
    if (0 <=? ret_) && negb (stopped_from_status status) then
      if seen_ptrace_exit_event (task st) then Fatal (with_kernel k1 st)
      else if tid (task st) =? ret_
           then did_waitpid ptrace_exit_wait_status None (with_kernel k1 st)
           else Fatal (with_kernel k1 st)
    else if tid (task st) =? ret_
         then did_waitpid status None (with_kernel k1 st)
         else Fatal (with_kernel k1 st).
Proof.
  intros Hu Hrec Hd Hloop.
  assert (Hassert : is_recording (session st) || double_is_zero iae = true).
  { destruct Hrec as [->| ->]; [reflexivity|apply orb_true_r]. }
  unfold wait. msimpl. rewrite Hu. msimpl. rewrite Hassert. msimpl.
  rewrite Hd. msimpl. rewrite Hloop. msimpl.
  destruct ((0 <=? ret_) && negb (stopped_from_status status)); msimpl.
  - destruct (seen_ptrace_exit_event (task st)); msimpl; [reflexivity|].
    destruct (tid (task st) =? ret_); msimpl; reflexivity.
  - destruct (tid (task st) =? ret_); msimpl; reflexivity.
Qed.

Lemma did_waitpid_exit_status osi s1 :
  exists st',
    did_waitpid ptrace_exit_wait_status osi s1 = Done tt st' /\
    wait_status (task st') = ptrace_exit_wait_status /\
    is_stopped (task st') = true /\
    seen_ptrace_exit_event (task st') = true /\
    k_waitpid (kernel st') = k_waitpid (kernel s1).
Proof.
  destruct (did_waitpid_returns ptrace_exit_wait_status osi s1 0
              eq_refl eq_refl ltac:(discriminate))
    as (s & st' & Hrun & Hr & Hf).
  exists st'. split; [exact Hrun|].
  assert (Hst : wait_status (task s) = ptrace_exit_wait_status).
  { destruct (rf_status _ _ _ _ Hr); assumption. }
  destruct (rf_kernel _ _ _ _ Hr) as (new & Hk & _).
  rewrite (nf_wait_status _ _ Hf), (nf_is_stopped _ _ Hf), (nf_seen _ _ Hf),
    (nf_waitpid _ _ Hf), (kf_waitpid _ _ _ Hk).
  split; [exact Hst|]. split; [apply (rf_is_stopped _ _ _ _ Hr)|].
  split; [|reflexivity].
  rewrite (rf_seen _ _ _ _ Hr), Hst. apply orb_true_r.
Qed.

(** X5.  When the blocking waitpid of [wait] is interrupted (EINTR) and the
    thread-group leader turns out to be a zombie, [wait] stops waiting: it
    sends no PTRACE_INTERRUPT, fakes a PTRACE_EVENT_EXIT status for this
    task and commits it through [did_waitpid], so that it returns with the
    task stopped at the synthesized exit.  Its only requests are the
    waitpid and, when the deadline (a [double]) is not zero, the arming of
    the interval timer with [to_timeval] of the deadline before it and the
    disarming with the zero timer after it. *)
Theorem wait_fakes_exit_for_zombie_leader iae st r rest :
  unstable (task st) = false ->
  is_recording (session st) = true \/ double_is_zero iae = true ->
  detected_unexpected_exit (task st) = false ->
  k_waitpid (kernel st) = r :: rest ->
  wr_ret r < 0 -> wr_errno r = EINTR ->
  k_leader_zombie (kernel st) = true ->
  exists s1 st',
    wait iae st = did_waitpid ptrace_exit_wait_status None s1 /\
    k_trace (kernel s1) = k_trace (kernel st) ++ timed_waitpid iae r /\
    forallb (fun e => negb (is_interrupt_event e)) (timed_waitpid iae r)
    = true /\
    wait iae st = Done tt st' /\
    wait_status (task st') = ptrace_exit_wait_status /\
    is_stopped (task st') = true /\
    seen_ptrace_exit_event (task st') = true /\
    k_waitpid (kernel st') = rest.
Proof.
  intros Hu Hrec Hd Hw Hneg Herr Hz.
  destruct (wait_loop_zombie (length (k_waitpid (kernel st))) iae false st
              r rest Hw Hneg Herr Hz) as (k1 & Hloop & Htr & Hwp & _).
  pose proof (wait_after_loop iae st _ _ k1 Hu Hrec Hd Hloop) as Hwait.
  change (stopped_from_status ptrace_exit_wait_status) with true in Hwait.
  rewrite andb_false_r, Z.eqb_refl in Hwait.
  destruct (did_waitpid_exit_status None (with_kernel k1 st))
    as (st' & Hrun & Hst & Hstop & Hseen & Hwp').
  exists (with_kernel k1 st), st'.
  split; [exact Hwait|]. split; [exact Htr|].
  split; [unfold timed_waitpid; destruct (double_is_zero iae); reflexivity|].
  split; [rewrite Hwait; exact Hrun|].
  rewrite Hwp'. repeat split; assumption.
Qed.

Lemma wait_fakes_exit_for_zombie_leader_witness :
  exists s1 st',
    wait ten_milliseconds zombie_leader_state
    = did_waitpid ptrace_exit_wait_status None s1 /\
    k_trace (kernel s1)
    = k_trace (kernel zombie_leader_state)
        ++ [EvSetitimer (mkTimeval 0 10000);
            EvWaitpid false (mkWaitResult (-1) 0 EINTR);
            EvSetitimer (mkTimeval 0 0)] /\
    forallb (fun e => negb (is_interrupt_event e))
      (timed_waitpid ten_milliseconds (mkWaitResult (-1) 0 EINTR)) = true /\
    wait ten_milliseconds zombie_leader_state = Done tt st' /\
    wait_status (task st') = ptrace_exit_wait_status /\
    is_stopped (task st') = true /\
    seen_ptrace_exit_event (task st') = true /\
    k_waitpid (kernel st') = [].
Proof.
  change [EvSetitimer (mkTimeval 0 10000);
          EvWaitpid false (mkWaitResult (-1) 0 EINTR);
          EvSetitimer (mkTimeval 0 0)]
    with (timed_waitpid ten_milliseconds (mkWaitResult (-1) 0 EINTR)).
  apply (wait_fakes_exit_for_zombie_leader ten_milliseconds zombie_leader_state
           (mkWaitResult (-1) 0 EINTR) []).
  - reflexivity.
  - left. reflexivity.
  - reflexivity.
  - reflexivity.
  - vm_compute. reflexivity.
  - reflexivity.
  - reflexivity.
Defined.

(** X6.  When waitpid reports this task with a status that is not a stop (an
    exit code, with no PTRACE_EVENT_EXIT seen before), [wait] turns it into
    the synthesized PTRACE_EVENT_EXIT stop and commits that; when a
    PTRACE_EVENT_EXIT had been seen already it aborts.  Before the commit
    its only requests are the waitpid and, when the deadline (a [double])
    is not zero, the arming of the interval timer with [to_timeval] of the
    deadline before it and the disarming with the zero timer after it. *)
Theorem wait_converts_exit_code iae st r rest :
  unstable (task st) = false ->
  is_recording (session st) = true \/ double_is_zero iae = true ->
  detected_unexpected_exit (task st) = false ->
  k_waitpid (kernel st) = r :: rest ->
  wr_ret r = tid (task st) -> 0 <= tid (task st) ->
  stopped_from_status (wr_status r) = false ->
  (seen_ptrace_exit_event (task st) = true ->
   exists s, wait iae st = Fatal s) /\
  (seen_ptrace_exit_event (task st) = false ->
   exists s1 st',
     wait iae st = did_waitpid ptrace_exit_wait_status None s1 /\
     k_trace (kernel s1) = k_trace (kernel st) ++ timed_waitpid iae r /\
     wait iae st = Done tt st' /\
     wait_status (task st') = ptrace_exit_wait_status /\
     is_stopped (task st') = true /\
     seen_ptrace_exit_event (task st') = true /\
     k_waitpid (kernel st') = rest).
Proof.
  intros Hu Hrec Hd Hw Hret Htid Hstop.
  destruct (wait_loop_returns (length (k_waitpid (kernel st))) iae false st
              r rest Hw ltac:(left; lia)) as (k1 & Hloop & Htr & Hwp & _).
  pose proof (wait_after_loop iae st _ _ k1 Hu Hrec Hd Hloop) as Hwait.
  rewrite Hstop, Hret, Z.eqb_refl in Hwait.
  replace (0 <=? tid (task st)) with true in Hwait
    by (symmetry; apply Z.leb_le; exact Htid).
  cbn [negb andb] in Hwait.
  split; intros Hseen; rewrite Hseen in Hwait.
  - eexists. exact Hwait.
  - destruct (did_waitpid_exit_status None (with_kernel k1 st))
      as (st' & Hrun & Hst & Hstopped & Hseen' & Hwp').
    exists (with_kernel k1 st), st'.
    split; [exact Hwait|]. split; [exact Htr|].
    split; [rewrite Hwait; exact Hrun|].
    rewrite Hwp'. repeat split; assumption.
Qed.

Lemma wait_converts_exit_code_witness :
  (seen_ptrace_exit_event (task exited_state) = true ->
   exists s, wait (double_of_int 0) exited_state = Fatal s) /\
  (seen_ptrace_exit_event (task exited_state) = false ->
   exists s1 st',
     wait (double_of_int 0) exited_state
     = did_waitpid ptrace_exit_wait_status None s1 /\
     k_trace (kernel s1)
     = k_trace (kernel exited_state)
         ++ timed_waitpid (double_of_int 0) (mkWaitResult 100 256 0) /\
     wait (double_of_int 0) exited_state = Done tt st' /\
     wait_status (task st') = ptrace_exit_wait_status /\
     is_stopped (task st') = true /\
     seen_ptrace_exit_event (task st') = true /\
     k_waitpid (kernel st') = []).
Proof.
  apply (wait_converts_exit_code (double_of_int 0) exited_state
           (mkWaitResult 100 256 0) []).
  - reflexivity.
  - left. reflexivity.
  - reflexivity.
  - reflexivity.
  - reflexivity.
  - vm_compute. discriminate.
  - reflexivity.
Defined.

(** X7.  When the first waitpid of [wait] reports a stop of this task, [wait]
    commits exactly that status through [did_waitpid], without siginfo
    override: no PTRACE_INTERRUPT is sent, and even a PTRACE_EVENT_STOP is
    committed as reported, since [wait] did not provoke it.  When the
    deadline (a [double]) is not zero, the interval timer is armed with
    [to_timeval] of the deadline before the waitpid (whole seconds, and
    the rest in whole microseconds, both rounded down) and disarmed with
    the zero timer right after it; when the deadline is zero the waitpid
    is the only request. *)
Theorem wait_commits_reported_stop iae st r rest :
  unstable (task st) = false ->
  is_recording (session st) = true \/ double_is_zero iae = true ->
  detected_unexpected_exit (task st) = false ->
  k_waitpid (kernel st) = r :: rest ->
  wr_ret r = tid (task st) -> 0 <= tid (task st) ->
  stopped_from_status (wr_status r) = true ->
  exists s1,
    wait iae st = did_waitpid (wr_status r) None s1 /\
    s1 = with_kernel (kernel s1) st /\
    k_trace (kernel s1) = k_trace (kernel st) ++ timed_waitpid iae r /\
    forallb (fun e => negb (is_interrupt_event e)) (timed_waitpid iae r)
    = true /\
    k_waitpid (kernel s1) = rest.
Proof.
  intros Hu Hrec Hd Hw Hret Htid Hstop.
  destruct (wait_loop_returns (length (k_waitpid (kernel st))) iae false st
              r rest Hw ltac:(left; lia)) as (k1 & Hloop & Htr & Hwp & _).
  pose proof (wait_after_loop iae st _ _ k1 Hu Hrec Hd Hloop) as Hwait.
  rewrite Hstop, Hret, Z.eqb_refl, andb_false_r in Hwait.
  exists (with_kernel k1 st).
  split; [exact Hwait|]. split; [reflexivity|]. split; [exact Htr|].
  split; [|exact Hwp].
  unfold timed_waitpid; destruct (double_is_zero iae); reflexivity.
Qed.

Lemma wait_commits_reported_stop_witness :
  exists s1,
    wait a_second_and_a_millisecond stop_reported_state
    = did_waitpid 34175 None s1 /\
    s1 = with_kernel (kernel s1) stop_reported_state /\
    k_trace (kernel s1)
    = k_trace (kernel stop_reported_state)
        ++ [EvSetitimer (mkTimeval 1 999);
            EvWaitpid false (mkWaitResult 100 34175 0);
            EvSetitimer (mkTimeval 0 0)] /\
    forallb (fun e => negb (is_interrupt_event e))
      (timed_waitpid a_second_and_a_millisecond
         (mkWaitResult 100 34175 0)) = true /\
    k_waitpid (kernel s1) = [].
Proof.
  change [EvSetitimer (mkTimeval 1 999);
          EvWaitpid false (mkWaitResult 100 34175 0);
          EvSetitimer (mkTimeval 0 0)]
    with (timed_waitpid a_second_and_a_millisecond
            (mkWaitResult 100 34175 0)).
  apply (wait_commits_reported_stop a_second_and_a_millisecond
           stop_reported_state (mkWaitResult 100 34175 0) []).
  - reflexivity.
  - left. reflexivity.
  - reflexivity.
  - reflexivity.
  - reflexivity.
  - vm_compute. discriminate.
  - reflexivity.
Defined.

(** X8.  [wait] aborts when waitpid ends its loop with anything but this
    task: a failure other than EINTR, or the report of another pid. *)
Theorem wait_aborts_on_foreign_result iae st r rest :
  unstable (task st) = false ->
  is_recording (session st) = true \/ double_is_zero iae = true ->
  detected_unexpected_exit (task st) = false ->
  k_waitpid (kernel st) = r :: rest ->
  0 <= wr_ret r \/ wr_errno r <> EINTR ->
  wr_ret r <> tid (task st) ->
  exists s, wait iae st = Fatal s.
Proof.
  intros Hu Hrec Hd Hw Hend Hret.
  destruct (wait_loop_returns (length (k_waitpid (kernel st))) iae false st
              r rest Hw Hend) as (k1 & Hloop & _).
  pose proof (wait_after_loop iae st _ _ k1 Hu Hrec Hd Hloop) as Hwait.
  replace (tid (task st) =? wr_ret r) with false in Hwait
    by (symmetry; apply Z.eqb_neq; congruence).
  rewrite Hwait.
  destruct ((0 <=? wr_ret r) && negb (stopped_from_status (wr_status r)));
    [destruct (seen_ptrace_exit_event (task st))|]; eexists; reflexivity.
Qed.

Lemma wait_aborts_on_foreign_result_witness :
  exists s, wait (double_of_int 0) no_child_state = Fatal s.
Proof.
  apply (wait_aborts_on_foreign_result (double_of_int 0) no_child_state
           (mkWaitResult (-1) 0 ECHILD) []).
  - reflexivity.
  - left. reflexivity.
  - reflexivity.
  - reflexivity.
  - right. vm_compute. discriminate.
  - vm_compute. discriminate.
Defined.

(** X9.  When replaying, or when the non-blocking waitpid of a recording
    reports nothing, [resume_execution] remembers the current ip as
    [address_of_last_execution_resume], resets the perf counter as asked,
    writes 0 to DR6 and then issues the one ptrace resume request [how] with
    the signal as data (which can only fail with ESRCH); the task is marked
    running, its extra registers unknown, and no unexpected exit is
    flagged.  With RESUME_WAIT it goes on with [wait] from that state. *)
Theorem resume_execution_resumes how tick_period sig st :
  (is_recording (session st) = true -> k_waitpid (kernel st) = []) ->
  is_stopped (task st) = true ->
  tid (task st) <> 0 ->
  exists s e6 err,
    (forall wait_how,
       resume_execution how wait_how tick_period sig st =
       match wait_how with
       | RESUME_WAIT => wait (double_of_int 0) s
       | RESUME_NONBLOCKING => Done tt s
       end) /\
    is_stopped (task s) = false /\
    extra_registers_known (task s) = false /\
    address_of_last_execution_resume (task s) = ip (registers (task st)) /\
    detected_unexpected_exit (task s) = detected_unexpected_exit (task st) /\
    registers (task s) = registers (task st) /\
    k_trace (kernel s) =
      k_trace (kernel st)
        ++ hpc_reset_events tick_period
        ++ poke_dr 6 0 e6
        :: (if is_recording (session st)
            then [EvWaitpid true (mkWaitResult 0 0 0)] else [])
        ++ [EvPtrace (request_of_resume how) 0 (DataWord sig) err] /\
    (err = 0 \/ err = ESRCH).
Proof.
  intros Hscript Hstopped Htid.
  assert (Hne : (0 =? tid (task st)) = false)
    by (apply Z.eqb_neq; congruence).
  unfold resume_execution, task_ip, regs, set_debug_status, hpc_reset.
  destruct tick_period; msimpl; rewrite Hstopped; msimpl;
    (rewrite dr_user_word_offset_ok by lia);
    match goal with
    | |- context [fallible_ptrace PTRACE_POKEUSER _ (DataWord 0) ?x] =>
        destruct (fallible_ptrace_poke 6 0 x ltac:(lia))
          as (rc & e6 & s1 & Hrun & P)
    end;
    rewrite Hrun; msimpl;
    pose proof (ps_trace _ _ _ _ _ _ P) as Htr;
    pose proof (ps_waitpid _ _ _ _ _ _ P) as Hwp;
    rewrite (ps_frame _ _ _ _ _ _ P); msimpl in Htr; msimpl in Hwp;
    generalize dependent (kernel s1); clear Hrun P; intros k1 Htr Hwp; msimpl;
    (destruct (is_recording (session st)) eqn:Hrec; msimpl;
     [ unfold waitpid; msimpl; rewrite Hwp, (Hscript eq_refl); msimpl;
       rewrite Hne; msimpl;
       change (0 <=? 0) with true; change (0 =? 0) with true; msimpl;
       rewrite Hne; msimpl
     | rewrite Hne; msimpl ]);
    match goal with
    | |- context [ptrace_if_alive ?req 0 ?d ?x] =>
        destruct (ptrace_if_alive_control req 0 d x
                    ltac:(right; eexists; reflexivity))
          as (k2 & Hrun2 & Hk2)
    end;
    rewrite Hrun2; msimpl;
    pose proof (kf_trace _ _ _ Hk2) as Htr2; msimpl in Htr2;
    (eexists _, e6, _;
     split; [intros wait_how; destruct wait_how; reflexivity|]);
    msimpl; rewrite Htr2, ?Htr;
    repeat split; try reflexivity;
    cbn [hpc_reset_events app]; rewrite <- ?app_assoc; try reflexivity.

  all: match goal with
    | |- context [if ?c then _ else _] => destruct c; auto
    end.
Qed.

Lemma resume_execution_resumes_witness :
  exists s e6 err,
    (forall wait_how,
       resume_execution RESUME_SYSCALL wait_how (RESUME_TICKS 5000) 0
         example_state =
       match wait_how with
       | RESUME_WAIT => wait (double_of_int 0) s
       | RESUME_NONBLOCKING => Done tt s
       end) /\
    is_stopped (task s) = false /\
    extra_registers_known (task s) = false /\
    address_of_last_execution_resume (task s)
    = ip (registers (task example_state)) /\
    detected_unexpected_exit (task s)
    = detected_unexpected_exit (task example_state) /\
    registers (task s) = registers (task example_state) /\
    k_trace (kernel s) =
      k_trace (kernel example_state)
        ++ hpc_reset_events (RESUME_TICKS 5000)
        ++ poke_dr 6 0 e6
        :: (if is_recording (session example_state)
            then [EvWaitpid true (mkWaitResult 0 0 0)] else [])
        ++ [EvPtrace (request_of_resume RESUME_SYSCALL) 0 (DataWord 0) err] /\
    (err = 0 \/ err = ESRCH).
Proof.
  apply (resume_execution_resumes RESUME_SYSCALL (RESUME_TICKS 5000) 0
           example_state).
  - reflexivity.
  - reflexivity.
  - vm_compute. discriminate.
Defined.

(** X10.  Resuming at a breakpoint is a no-op for ip and
    [original_syscallno]: after [did_waitpid] has committed a SIGTRAP stop
    with a breakpoint at the address of the last resume,
    [move_ip_before_breakpoint] puts the ip back on that address, writes the
    registers to the tracee, and [original_syscallno] is the one the cache
    held before the stop. *)
Theorem move_ip_before_breakpoint_undoes_trap status osi st st' :
  did_waitpid status osi st = Done tt st' ->
  breakpoint_at_resume_stop st' ->
  exists st'',
    move_ip_before_breakpoint st' = Done tt st'' /\
    ip (registers (task st''))
    = address_of_last_execution_resume (task st') /\
    original_syscallno (registers (task st''))
    = original_syscallno (registers (task st)) /\
    registers_written_back st''.
Proof.
  intros H Hstop.
  destruct (did_waitpid_Done _ _ _ _ H) as (s & Hr & Hn).
  pose proof (normalize_frame _ _ _ _ Hn) as Hf.
  assert (Hstop_s : breakpoint_at_resume_stop s).
  { unfold breakpoint_at_resume_stop in *.
    rewrite <- (nf_wait_status _ _ Hf), <- (nf_resume_addr _ _ Hf),
      <- (nf_vm _ _ Hf). exact Hstop. }
  destruct (normalize_breakpoint _ _ _ _ Hn Hstop_s) as (Ho & _ & _ & Hip).
  assert (Hstopped : is_stopped (task st') = true).
  { rewrite (nf_is_stopped _ _ Hf). apply (rf_is_stopped _ _ _ _ Hr). }
  unfold move_ip_before_breakpoint, regs, task_arch. msimpl.
  rewrite Hstopped. msimpl.
  match goal with
  | |- context [set_regs ?r ?x] => pose proof (set_regs_run r x) as Hs
  end.
  rewrite Hstopped in Hs. destruct Hs as (err & k' & Hs & Htr & Herr & Hk & _).
  rewrite Hs. eexists. split; [reflexivity|].
  unfold registers_written_back. msimpl. cbn [set_ip ip original_syscallno].
  split.
  { rewrite Hip. unfold decrement_by_bkpt_insn_length,
      increment_by_bkpt_insn_length, bkpt_insn_length. lia. }
  split; [exact Ho|].
  eexists _, err. split; [exact Htr|]. split; assumption.
Qed.

Lemma move_ip_before_breakpoint_undoes_trap_witness :
  let st' := final_state (did_waitpid 1407 None) breakpoint_state in
  exists st'',
    move_ip_before_breakpoint st' = Done tt st'' /\
    ip (registers (task st''))
    = address_of_last_execution_resume (task st') /\
    original_syscallno (registers (task st''))
    = original_syscallno (registers (task breakpoint_state)) /\
    registers_written_back st''.
Proof.
  apply (move_ip_before_breakpoint_undoes_trap 1407 None breakpoint_state).
  - vm_compute. reflexivity.
  - split; [vm_compute; reflexivity|].
    split; [vm_compute; reflexivity|].
    vm_compute. discriminate.
Defined.

Lemma testbit_tf i : 0 <= i -> Z.testbit X86_TF_FLAG i = (i =? 8).
Proof.
  intros Hi. change X86_TF_FLAG with (2 ^ 8).
  rewrite Z.pow2_bits_eqb by lia. apply Z.eqb_sym.
Qed.

(** X11.  [emulate_syscall_entry] needs a stopped task (it aborts
    otherwise).  It makes the cache hold the registers given, normalised as
    at a syscall stop, and writes them to the tracee: on x86-64, R11 is the
    given flags with TF cleared, RCX is -1 and the flags are 0x246; on x86
    only the flags change, to 0x246; ip, syscall number and result are the
    ones given. *)
Theorem emulate_syscall_entry_normalizes regs st :
  (is_stopped (task st) = false -> emulate_syscall_entry regs st = Fatal st) /\
  (is_stopped (task st) = true ->
   exists st',
     emulate_syscall_entry regs st = Done tt st' /\
     registers_written_back st' /\
     let r := registers (task st') in
     arch r = arch regs /\ ip r = ip regs /\
     original_syscallno r = original_syscallno regs /\
     syscall_result r = syscall_result regs /\
     flags r = 582 /\
     (arch regs = x86_64 ->
      cx_signed r = -1 /\
      forall i, 0 <= i < 64 ->
        Z.testbit (r11 r) i = negb (i =? 8) && Z.testbit (flags regs) i) /\
     (arch regs = x86 -> r11 r = r11 regs /\ cx r = cx regs)).
Proof.
  unfold emulate_syscall_entry.
  match goal with
  | |- context [set_regs ?r st] => pose proof (set_regs_run r st) as Hs
  end.
  split; intros Hstopped; rewrite Hstopped in Hs; [exact Hs|].
  destruct Hs as (err & k' & Hs & Htr & Herr & Hk & _).
  rewrite Hs. eexists. split; [reflexivity|].
  split.
  { unfold registers_written_back. msimpl.
    eexists _, err. split; [exact Htr|]. split; assumption. }
  msimpl.
  unfold fixup_syscall_registers, set_flags, set_cx, set_r11, cx_signed,
    is_x86_64.
  destruct (arch regs) eqn:Ha;
    cbn [arch ip flags r11 cx original_syscallno syscall_result
         with_flags with_cx with_r11];
    rewrite ?Ha;
    cbn [arch ip flags r11 cx original_syscallno syscall_result
         with_flags with_cx with_r11 reg_wrap reg_signed];
    repeat (split; [first [reflexivity|exact Ha]|]).
  - split; [discriminate|]. intros _. split; reflexivity.
  - split; [|discriminate]. intros _. rewrite Ha. split; [reflexivity|].
    intros i Hi. unfold wrap64.
    rewrite Z.mod_pow2_bits_low by lia.
    rewrite Z.land_spec, Z.lnot_spec by lia.
    rewrite Z.mod_pow2_bits_low by lia.
    rewrite testbit_tf by lia. apply andb_comm.
Qed.

Lemma emulate_syscall_entry_normalizes_witness :
  let regs := mkRegisters x86_64 4198400 838 0 4198400 1 5 1 0 5 0 0 0 in
  exists st',
    emulate_syscall_entry regs example_state = Done tt st' /\
    registers_written_back st' /\
    let r := registers (task st') in
    arch r = arch regs /\ ip r = ip regs /\
    original_syscallno r = original_syscallno regs /\
    syscall_result r = syscall_result regs /\
    flags r = 582 /\
    (arch regs = x86_64 ->
     cx_signed r = -1 /\
     forall i, 0 <= i < 64 ->
       Z.testbit (r11 r) i = negb (i =? 8) && Z.testbit (flags regs) i) /\
    (arch regs = x86 -> r11 r = r11 regs /\ cx r = cx regs).
Proof.
  apply (proj2 (emulate_syscall_entry_normalizes
                  (mkRegisters x86_64 4198400 838 0 4198400 1 5 1 0 5 0 0 0)
                  example_state)).
  reflexivity.
Defined.

(** ** Bit-fields of the debug control word *)

Lemma set_field_testbit pos width v x n :
  0 <= pos -> 0 <= width -> 0 <= n ->
  Z.testbit (set_field pos width v x) n =
    if (pos <=? n) && (n <? pos + width) then Z.testbit v (n - pos)
    else Z.testbit x n.
Proof.
  intros Hp Hw Hn. unfold set_field.
  rewrite Z.lor_spec, Z.land_spec, Z.lnot_spec, !Z.shiftl_spec by lia.
  destruct (pos <=? n) eqn:E1; cbn [andb].
  - apply Z.leb_le in E1. rewrite Z.land_spec.
    rewrite !Z.testbit_ones_nonneg by lia.

    destruct (n <? pos + width) eqn:E2.
    + replace (n - pos <? width) with true
        by (symmetry; apply Z.ltb_lt; apply Z.ltb_lt in E2; lia).
      cbn [negb]. rewrite andb_false_r, andb_true_r. reflexivity.
    + replace (n - pos <? width) with false
        by (symmetry; apply Z.ltb_ge; apply Z.ltb_ge in E2; lia).
      cbn [negb]. rewrite andb_true_r, andb_false_r, orb_false_r. reflexivity.
  - apply Z.leb_gt in E1.
    rewrite (Z.testbit_neg_r (Z.land v (Z.ones width)) (n - pos)) by lia.
    rewrite (Z.testbit_neg_r (Z.ones width) (n - pos)) by lia.
    cbn [negb]. rewrite andb_true_r, orb_false_r. reflexivity.
Qed.

Lemma get_field_testbit pos width x n :
  0 <= pos -> 0 <= width -> 0 <= n ->
  Z.testbit (get_field pos width x) n =
    (n <? width) && Z.testbit x (n + pos).
Proof.
  intros Hp Hw Hn. unfold get_field.
  rewrite Z.land_spec, Z.shiftr_spec, Z.testbit_ones_nonneg by lia.
  apply andb_comm.
Qed.

Lemma get_set_field_same pos width v x :
  0 <= pos -> 0 <= width -> 0 <= v < 2 ^ width ->
  get_field pos width (set_field pos width v x) = v.
Proof.
  intros Hp Hw Hv. apply Z.bits_inj'. intros n Hn.
  rewrite get_field_testbit, set_field_testbit by lia.
  destruct (n <? width) eqn:E; cbn [andb].
  - apply Z.ltb_lt in E.
    replace ((pos <=? n + pos) && (n + pos <? pos + width)) with true
      by (symmetry; apply andb_true_iff; split;
          [apply Z.leb_le|apply Z.ltb_lt]; lia).
    f_equal. lia.
  - apply Z.ltb_ge in E. symmetry.
    destruct (Z.eq_dec v 0) as [->|Hnz]; [apply Z.bits_0|].
    apply Z.bits_above_log2; [lia|].
    apply Z.log2_lt_pow2; [lia|].
    apply Z.lt_le_trans with (2 ^ width); [lia|].
    apply Z.pow_le_mono_r; lia.
Qed.

Lemma get_set_field_other pos width v x pos' width' :
  0 <= pos -> 0 <= width -> 0 <= pos' -> 0 <= width' ->
  pos' + width' <= pos \/ pos + width <= pos' ->
  get_field pos' width' (set_field pos width v x) = get_field pos' width' x.
Proof.
  intros Hp Hw Hp' Hw' Hdisj. apply Z.bits_inj'. intros n Hn.
  rewrite !get_field_testbit, set_field_testbit by lia.
  destruct (n <? width') eqn:E; cbn [andb]; [|reflexivity].
  apply Z.ltb_lt in E.
  replace ((pos <=? n + pos') && (n + pos' <? pos + width)) with false;
    [reflexivity|].
  symmetry. apply andb_false_iff.
  destruct Hdisj; [left; apply Z.leb_gt|right; apply Z.ltb_ge]; lia.
Qed.

Lemma dr_len_bits_range n : 0 <= dr_len_bits n < 2 ^ 2.
Proof.
  unfold dr_len_bits.
  destruct (n =? 1); [|destruct (n =? 2); [|destruct (n =? 4)]];
    change (2 ^ 2) with 4; lia.
Qed.

Lemma WatchType_bits_range t : 0 <= WatchType_bits t < 2 ^ 2.
Proof. destruct t; cbn [WatchType_bits]; change (2 ^ 2) with 4; lia. Qed.

(** The fields of slot [i] in the word built from slot [dr] on. *)
Lemma packed_dr7_fields regs : forall dr dr7 i,
  0 <= dr -> dr + Z.of_nat (length regs) <= 4 -> 0 <= i < 4 ->
  (forall reg, nth_error regs (Z.to_nat (i - dr)) = Some reg -> dr <= i ->
     get_field (2 * i) 1 (packed_dr7 regs dr dr7) = 1 /\
     get_field (16 + 4 * i) 2 (packed_dr7 regs dr dr7)
     = WatchType_bits (wc_type reg) /\
     get_field (18 + 4 * i) 2 (packed_dr7 regs dr dr7)
     = dr_len_bits (wc_num_bytes reg)) /\
  (i < dr \/ dr + Z.of_nat (length regs) <= i ->
   get_field (2 * i) 1 (packed_dr7 regs dr dr7) = get_field (2 * i) 1 dr7 /\
   get_field (16 + 4 * i) 2 (packed_dr7 regs dr dr7)
   = get_field (16 + 4 * i) 2 dr7 /\
   get_field (18 + 4 * i) 2 (packed_dr7 regs dr dr7)
   = get_field (18 + 4 * i) 2 dr7) /\
  get_field (2 * i + 1) 1 (packed_dr7 regs dr dr7)
  = get_field (2 * i + 1) 1 dr7.
Proof.
  induction regs as [|reg0 rest IH]; intros dr dr7 i Hdr Hlen Hi.
  - cbn [packed_dr7 length]. split; [|split; intros; repeat split].
    intros reg Hnth. destruct (Z.to_nat (i - dr)); discriminate Hnth.
  - cbn [packed_dr7 length]. cbn [length] in Hlen.
    set (w := set_field (18 + 4 * dr) 2 (dr_len_bits (wc_num_bytes reg0))
                (set_field (16 + 4 * dr) 2 (WatchType_bits (wc_type reg0))
                   (set_field (2 * dr) 1 1 dr7))).
    destruct (IH (dr + 1) w i ltac:(lia) ltac:(lia) Hi)
      as (IHin & IHout & IHg).
    split; [|split].
    + intros reg Hnth Hle.
      destruct (Z.eq_dec i dr) as [->|Hne].
      * replace (Z.to_nat (dr - dr)) with O in Hnth by lia.
        cbn [nth_error] in Hnth. inversion Hnth; subst reg0. clear Hnth.
        destruct (IHout ltac:(lia)) as (-> & -> & ->). subst w.
        split; [|split].
        -- rewrite !get_set_field_other by lia.
           apply get_set_field_same; lia.
        -- rewrite get_set_field_other by lia.
           apply get_set_field_same; try lia. apply WatchType_bits_range.
        -- apply get_set_field_same; try lia. apply dr_len_bits_range.
      * apply IHin; [|lia].
        replace (Z.to_nat (i - dr)) with (S (Z.to_nat (i - (dr + 1))))
          in Hnth by lia.
        exact Hnth.
    + intros Hout.
      destruct (IHout ltac:(lia)) as (-> & -> & ->). subst w.
      rewrite !get_set_field_other by lia.
      repeat split.
    + rewrite IHg. subst w.
      rewrite !get_set_field_other by lia. reflexivity.
Qed.

(** A write to DR0..DR3, DR6 or DR7 of a tracee that lives on, with a kernel
    that takes every value. *)
Lemma fallible_ptrace_poke_accepted i v st :
  0 <= i < 4 \/ i = 6 \/ i = 7 ->
  k_ttl (kernel st) = None ->
  (forall j w, k_dr_ok (kernel st) j w = true) ->
  exists k',
    fallible_ptrace PTRACE_POKEUSER (u_debugreg_offset + 8 * i) (DataWord v) st
      = Done (0, DataNull) (with_kernel k' st) /\
    k_ttl k' = None /\
    k_dr_ok k' = k_dr_ok (kernel st) /\
    k_errno k' = k_errno (kernel st) /\
    (forall j, k_dr k' j = if j =? i then wrap64 v else k_dr (kernel st) j) /\
    k_trace k' = k_trace (kernel st) ++ [poke_dr i v 0].
Proof.
  intros Hi Hlive Hok. unfold fallible_ptrace, kernel_ptrace.
  rewrite (debugreg_of_offset_dr i) by lia.
  unfold tracee_alive, serve. rewrite Hlive. cbn [negb].
  assert (Hacc : dr_write_accepted (kernel st) i v = true).
  { unfold dr_write_accepted.
    destruct (i =? 6); [reflexivity|].
    destruct ((i =? 7) && (v =? 0)); [reflexivity|].
    replace ((i =? 4) || (i =? 5)) with false; [apply Hok|].
    symmetry. apply orb_false_iff. split; apply Z.eqb_neq; lia. }
  rewrite Hacc. change (0 =? 0) with true. cbn [is_peek].
  eexists. split; [reflexivity|]. msimpl. repeat split. exact Hlive.
Qed.

Lemma ptrace_if_alive_poke_accepted i v st :
  0 <= i < 4 \/ i = 6 \/ i = 7 ->
  k_ttl (kernel st) = None ->
  (forall j w, k_dr_ok (kernel st) j w = true) ->
  exists k',
    ptrace_if_alive PTRACE_POKEUSER (u_debugreg_offset + 8 * i) (DataWord v) st
      = Done (true, DataNull) (with_kernel k' st) /\
    k_ttl k' = None /\
    k_dr_ok k' = k_dr_ok (kernel st) /\
    (forall j, k_dr k' j = if j =? i then wrap64 v else k_dr (kernel st) j) /\
    k_trace k' = k_trace (kernel st) ++ [poke_dr i v 0].
Proof.
  intros Hi Hlive Hok. unfold ptrace_if_alive. msimpl.
  destruct (fallible_ptrace_poke_accepted i v
              (with_kernel (with_k_errno 0 (kernel st)) st) Hi Hlive Hok)
    as (k' & Hrun & Hl & Hk & He & Hd & Htr).
  rewrite Hrun. msimpl. msimpl in He. rewrite He.
  change (0 =? ESRCH) with false. change (0 =? 0) with true. msimpl.
  eexists. split; [reflexivity|]. repeat split; assumption.
Qed.

Lemma enable_dr_supported i reg dr7 st :
  supported_watch_size reg = true ->
  enable_dr i reg dr7 st =
    Done (set_field (18 + 4 * i) 2 (dr_len_bits (wc_num_bytes reg))
            (set_field (16 + 4 * i) 2 (WatchType_bits (wc_type reg))
               (set_field (2 * i) 1 1 dr7))) st.
Proof.
  unfold supported_watch_size, enable_dr, num_bytes_to_dr_len, dr_len_bits.
  intros H.
  destruct (wc_num_bytes reg =? 1); [reflexivity|].
  destruct (wc_num_bytes reg =? 2); [reflexivity|].
  destruct (wc_num_bytes reg =? 4); [reflexivity|].
  destruct (wc_num_bytes reg =? 8); [reflexivity|discriminate H].
Qed.

(** The loop of [set_debug_regs] when nothing is refused. *)
Lemma program_debug_regs_accepted regs : forall dr dr7 st,
  0 <= dr -> dr + Z.of_nat (length regs) <= 4 ->
  Forall (fun reg => supported_watch_size reg = true) regs ->
  k_ttl (kernel st) = None ->
  (forall j w, k_dr_ok (kernel st) j w = true) ->
  exists k',
    program_debug_regs regs dr dr7 st
      = Done (Some (packed_dr7 regs dr dr7)) (with_kernel k' st) /\
    k_ttl k' = None /\
    k_dr_ok k' = k_dr_ok (kernel st) /\
    (forall j,
       k_dr k' j =
         match nth_error regs (Z.to_nat (j - dr)) with
         | Some reg => if dr <=? j then wrap64 (wc_addr reg)
                       else k_dr (kernel st) j
         | None => k_dr (kernel st) j
         end) /\
    k_trace k' = k_trace (kernel st) ++ addr_writes regs dr.
Proof.
  induction regs as [|reg rest IH]; intros dr dr7 st Hdr Hlen Hsup Hlive Hok.
  - cbn [program_debug_regs packed_dr7 addr_writes]. exists (kernel st).
    split; [destruct st; reflexivity|]. rewrite app_nil_r.
    repeat split; try assumption.
    intros j. destruct (Z.to_nat (j - dr)); reflexivity.
  - cbn [length] in Hlen. inversion Hsup as [|? ? Hreg Hrest]; subst.
    cbn [program_debug_regs packed_dr7 addr_writes].
    rewrite (bind_run _ _ _ _ _ (dr_user_word_offset_ok dr st ltac:(lia))).
    destruct (fallible_ptrace_poke_accepted dr (wc_addr reg) st
                ltac:(lia) Hlive Hok)
      as (k1 & Hrun & Hl1 & Hk1 & _ & Hd1 & Htr1).
    rewrite (bind_run _ _ _ _ _ Hrun).
    change (negb (0 =? 0)) with false. cbv iota.
    replace ((0 <=? dr) && (dr <? 4)) with true
      by (symmetry; apply andb_true_iff; split;
          [apply Z.leb_le|apply Z.ltb_lt]; lia).
    rewrite (bind_run _ _ _ _ _ (enable_dr_supported dr reg dr7 _ Hreg)).
    destruct (IH (dr + 1)
                (set_field (18 + 4 * dr) 2 (dr_len_bits (wc_num_bytes reg))
                   (set_field (16 + 4 * dr) 2 (WatchType_bits (wc_type reg))
                      (set_field (2 * dr) 1 1 dr7)))
                (with_kernel k1 st) ltac:(lia) ltac:(lia) Hrest Hl1
                ltac:(intros; cbn [kernel with_kernel]; rewrite Hk1; apply Hok))
      as (k2 & Hrun2 & Hl2 & Hk2 & Hd2 & Htr2).
    rewrite Hrun2. exists k2.
    split; [destruct st; reflexivity|].
    split; [exact Hl2|]. split; [rewrite Hk2; exact Hk1|].
    split.
    + intros j. rewrite Hd2. cbn [kernel with_kernel]. rewrite Hd1.
      destruct (Z.eq_dec j dr) as [->|Hne].
      * replace (Z.to_nat (dr - (dr + 1))) with O by lia.
        replace (Z.to_nat (dr - dr)) with O by lia.
        cbn [nth_error]. rewrite Z.eqb_refl, Z.leb_refl.
        replace (dr + 1 <=? dr) with false by (symmetry; apply Z.leb_gt; lia).
        destruct rest; reflexivity.
      * replace (j =? dr) with false by (symmetry; apply Z.eqb_neq; exact Hne).
        destruct (Z_lt_le_dec j dr) as [Hlt|Hge].
        -- replace (Z.to_nat (j - (dr + 1))) with O by lia.
           replace (Z.to_nat (j - dr)) with O by lia.
           cbn [nth_error].
           replace (dr + 1 <=? j) with false by (symmetry; apply Z.leb_gt; lia).
           replace (dr <=? j) with false by (symmetry; apply Z.leb_gt; lia).
           destruct rest; reflexivity.
        -- replace (Z.to_nat (j - dr)) with (S (Z.to_nat (j - (dr + 1))))
             by lia.
           cbn [nth_error].
           replace (dr + 1 <=? j) with true by (symmetry; apply Z.leb_le; lia).
           replace (dr <=? j) with true by (symmetry; apply Z.leb_le; lia).
           reflexivity.
    + rewrite Htr2. cbn [kernel with_kernel]. rewrite Htr1, <- app_assoc.
      reflexivity.
Qed.

Lemma get_field_wrap64 pos width x :
  0 <= pos -> 0 <= width -> pos + width <= 64 ->
  get_field pos width (wrap64 x) = get_field pos width x.
Proof.
  intros Hp Hw Hle. apply Z.bits_inj'. intros n Hn.
  rewrite !get_field_testbit by lia.
  destruct (n <? width) eqn:E; cbn [andb]; [|reflexivity].
  apply Z.ltb_lt in E. unfold wrap64.
  apply Z.mod_pow2_bits_low. lia.
Qed.

Lemma get_field_zero pos width : get_field pos width 0 = 0.
Proof. unfold get_field. rewrite Z.shiftr_0_l. reflexivity. Qed.

(** X12.  With at most four entries of supported sizes, a tracee that lives
    on and a kernel that takes every value, [set_debug_regs] succeeds with
    exactly these writes: 0 to DR6, 0 to DR7, the address of entry i to
    DRi, and the control word to DR7.  Afterwards DRi holds the address of
    entry i, and in DR7 slot i has its local-enable bit set and carries the
    type and the length code of entry i, the slots beyond the entries are
    disabled and no global-enable bit is set. *)
Theorem set_debug_regs_programs_watchpoints regs st :
  Z.of_nat (length regs) <= 4 ->
  Forall (fun reg => supported_watch_size reg = true) regs ->
  k_ttl (kernel st) = None ->
  (forall j w, k_dr_ok (kernel st) j w = true) ->
  exists st',
    set_debug_regs regs st = Done true st' /\
    k_trace (kernel st') =
      k_trace (kernel st)
        ++ poke_dr 6 0 0 :: poke_dr 7 0 0 :: addr_writes regs 0
        ++ [poke_dr 7 (packed_dr7 regs 0 0) 0] /\
    k_dr (kernel st') 6 = 0 /\
    let dr7 := k_dr (kernel st') 7 in
    (forall i reg,
       nth_error regs i = Some reg ->
       k_dr (kernel st') (Z.of_nat i) = wrap64 (wc_addr reg) /\
       get_field (2 * Z.of_nat i) 1 dr7 = 1 /\
       get_field (16 + 4 * Z.of_nat i) 2 dr7 = WatchType_bits (wc_type reg) /\
       get_field (18 + 4 * Z.of_nat i) 2 dr7
       = dr_len_bits (wc_num_bytes reg)) /\
    (forall i, Z.of_nat (length regs) <= i < 4 -> get_field (2 * i) 1 dr7 = 0)
    /\
    (forall i, 0 <= i < 4 -> get_field (2 * i + 1) 1 dr7 = 0).
Proof.
  intros Hlen Hsup Hlive Hok. unfold set_debug_regs.
  rewrite (bind_run _ _ _ _ _ (dr_user_word_offset_ok 6 st ltac:(lia))).
  destruct (ptrace_if_alive_poke_accepted 6 0 st ltac:(lia) Hlive Hok)
    as (k1 & Hrun1 & Hl1 & Hk1 & Hd1 & Htr1).
  rewrite (bind_run _ _ _ _ _ Hrun1).
  assert (Hok1 : forall j w, k_dr_ok (kernel (with_kernel k1 st)) j w = true).
  { intros. cbn [kernel with_kernel]. rewrite Hk1. apply Hok. }
  rewrite (bind_run _ _ _ _ _
             (dr_user_word_offset_ok 7 (with_kernel k1 st) ltac:(lia))).
  destruct (ptrace_if_alive_poke_accepted 7 0 (with_kernel k1 st)
              ltac:(lia) Hl1 Hok1)
    as (k2 & Hrun2 & Hl2 & Hk2 & Hd2 & Htr2).
  rewrite (bind_run _ _ _ _ _ Hrun2).
  unfold NUM_X86_WATCHPOINTS.
  replace (4 <? Z.of_nat (length regs)) with false
    by (symmetry; apply Z.ltb_ge; exact Hlen).
  set (s2 := with_kernel k2 (with_kernel k1 st)).
  assert (Hok2 : forall j w, k_dr_ok (kernel s2) j w = true).
  { intros. unfold s2. cbn [kernel with_kernel]. rewrite Hk2. apply Hok1. }
  destruct (program_debug_regs_accepted regs 0 0 s2 ltac:(lia) ltac:(lia)
              Hsup Hl2 Hok2)
    as (k3 & Hrun3 & Hl3 & Hk3 & Hd3 & Htr3).
  rewrite (bind_run _ _ _ _ _ Hrun3).
  set (s3 := with_kernel k3 s2).
  assert (Hok3 : forall j w, k_dr_ok (kernel s3) j w = true).
  { intros. unfold s3. cbn [kernel with_kernel]. rewrite Hk3. apply Hok2. }
  rewrite (bind_run _ _ _ _ _ (dr_user_word_offset_ok 7 s3 ltac:(lia))).
  destruct (fallible_ptrace_poke_accepted 7 (packed_dr7 regs 0 0) s3
              ltac:(lia) Hl3 Hok3)
    as (k4 & Hrun4 & Hl4 & Hk4 & _ & Hd4 & Htr4).
  rewrite (bind_run _ _ _ _ _ Hrun4). cbn [ret].
  change (0 =? 0) with true.
  eexists. split; [reflexivity|].
  unfold s3, s2 in *. cbn [kernel with_kernel] in *.
  split.
  { rewrite Htr4, Htr3, Htr2, Htr1, <- !app_assoc. reflexivity. }
  assert (Hnth_none : forall j,
            Z.of_nat (length regs) <= j ->
            nth_error regs (Z.to_nat (j - 0)) = None).
  { intros j Hj. apply nth_error_None. lia. }
  split.
  { rewrite Hd4, Hd3, (Hnth_none 6 ltac:(lia)), Hd2, Hd1. reflexivity. }
  cbv zeta. rewrite (Hd4 7). cbn [Z.eqb Pos.eqb].
  split; [|split].
  - intros i reg Hnth.
    assert (Hi : (i < length regs)%nat)
      by (apply nth_error_Some; rewrite Hnth; discriminate).
    destruct (packed_dr7_fields regs 0 0 (Z.of_nat i) ltac:(lia) ltac:(lia)
                ltac:(lia)) as (Hin & _ & _).
    replace (Z.to_nat (Z.of_nat i - 0)) with i in Hin by lia.
    destruct (Hin reg Hnth ltac:(lia)) as (He & Ht & Hl).
    rewrite !get_field_wrap64 by lia.
    split; [|split; [exact He|split; [exact Ht|exact Hl]]].
    rewrite Hd4.
    replace (Z.of_nat i =? 7) with false by (symmetry; apply Z.eqb_neq; lia).
    rewrite Hd3. replace (Z.to_nat (Z.of_nat i - 0)) with i by lia.
    rewrite Hnth.
    replace (0 <=? Z.of_nat i) with true by (symmetry; apply Z.leb_le; lia).
    reflexivity.
  - intros i Hi.
    destruct (packed_dr7_fields regs 0 0 i ltac:(lia) ltac:(lia) ltac:(lia))
      as (_ & Hout & _).
    destruct (Hout ltac:(lia)) as (He & _).
    rewrite get_field_wrap64, He by lia. apply get_field_zero.
  - intros i Hi.
    destruct (packed_dr7_fields regs 0 0 i ltac:(lia) ltac:(lia) ltac:(lia))
      as (_ & _ & Hg).
    rewrite get_field_wrap64, Hg by lia. apply get_field_zero.
Qed.

Lemma set_debug_regs_programs_watchpoints_witness :
  exists st',
    set_debug_regs two_watchpoints example_state = Done true st' /\
    k_trace (kernel st') =
      k_trace (kernel example_state)
        ++ poke_dr 6 0 0 :: poke_dr 7 0 0 :: addr_writes two_watchpoints 0
        ++ [poke_dr 7 (packed_dr7 two_watchpoints 0 0) 0] /\
    k_dr (kernel st') 6 = 0 /\
    let dr7 := k_dr (kernel st') 7 in
    (forall i reg,
       nth_error two_watchpoints i = Some reg ->
       k_dr (kernel st') (Z.of_nat i) = wrap64 (wc_addr reg) /\
       get_field (2 * Z.of_nat i) 1 dr7 = 1 /\
       get_field (16 + 4 * Z.of_nat i) 2 dr7 = WatchType_bits (wc_type reg) /\
       get_field (18 + 4 * Z.of_nat i) 2 dr7
       = dr_len_bits (wc_num_bytes reg)) /\
    (forall i, Z.of_nat (length two_watchpoints) <= i < 4 ->
       get_field (2 * i) 1 dr7 = 0) /\
    (forall i, 0 <= i < 4 -> get_field (2 * i + 1) 1 dr7 = 0).
Proof.
  apply (set_debug_regs_programs_watchpoints two_watchpoints example_state).
  - vm_compute. discriminate.
  - repeat constructor.
  - reflexivity.
  - reflexivity.
Defined.

(** ** Tracee memory: spans of bytes *)

Lemma wrap64_idem a : wrap64 (wrap64 a) = wrap64 a.
Proof. unfold wrap64. apply Z.mod_mod. lia. Qed.

Lemma wrap64_add_l a b : wrap64 (wrap64 a + b) = wrap64 (a + b).
Proof. unfold wrap64. apply Zplus_mod_idemp_l. Qed.

Lemma wrap64_small a : 0 <= a < 2 ^ 64 -> wrap64 a = a.
Proof. intros H. unfold wrap64. apply Z.mod_small. exact H. Qed.

Lemma wrap64_range a : 0 <= wrap64 a < 2 ^ 64.
Proof. unfold wrap64. apply Z.mod_pos_bound. lia. Qed.

Lemma read_span_congr mem n : forall a b,
  wrap64 a = wrap64 b -> read_span mem a n = read_span mem b n.
Proof.
  induction n as [|n IH]; intros a b H; [reflexivity|].
  cbn [read_span]. rewrite H. destruct (mem (wrap64 b)); [|reflexivity].
  f_equal. apply IH.
  rewrite <- (wrap64_add_l a), <- (wrap64_add_l b), H. reflexivity.
Qed.

Lemma read_span_wrap mem a n : read_span mem (wrap64 a) n = read_span mem a n.
Proof. apply read_span_congr, wrap64_idem. Qed.

Lemma read_span_wrap_add mem a b n :
  read_span mem (wrap64 a + b) n = read_span mem (a + b) n.
Proof. apply read_span_congr, wrap64_add_l. Qed.

Lemma read_span_length mem n : forall a,
  (length (read_span mem a n) <= n)%nat.
Proof.
  induction n as [|n IH]; intros a; cbn [read_span]; [cbn; lia|].
  destruct (mem (wrap64 a)); cbn [length]; [|lia].
  specialize (IH (a + 1)). lia.
Qed.


Lemma read_span_app mem n : forall a m,
  length (read_span mem a n) = n ->
  read_span mem a (n + m) =
    read_span mem a n ++ read_span mem (a + Z.of_nat n) m.
Proof.
  induction n as [|n IH]; intros a m H.
  - cbn [read_span app Nat.add]. rewrite Z.add_0_r. reflexivity.
  - cbn [read_span Nat.add] in *.
    destruct (mem (wrap64 a)); [|discriminate H].
    cbn [length] in H. injection H as H.
    cbn [app]. f_equal. rewrite (IH _ _ H). f_equal. f_equal. lia.
Qed.

Lemma read_span_firstn mem n : forall a k,
  (k <= n)%nat -> firstn k (read_span mem a n) = read_span mem a k.
Proof.
  induction n as [|n IH]; intros a k Hk.
  - replace k with O by lia. reflexivity.
  - destruct k as [|k]; [reflexivity|]. cbn [read_span].
    destruct (mem (wrap64 a)); [|reflexivity].
    cbn [firstn]. f_equal. apply IH. lia.
Qed.

Lemma read_span_skipn mem n : forall a k,
  (k <= n)%nat ->
  length (read_span mem a n) = n ->
  skipn k (read_span mem a n) = read_span mem (a + Z.of_nat k) (n - k).
Proof.
  induction n as [|n IH]; intros a k Hk H.
  - replace k with O by lia. cbn. reflexivity.
  - destruct k as [|k].
    + cbn [skipn]. rewrite Z.add_0_r. reflexivity.
    + cbn [read_span] in *. destruct (mem (wrap64 a)); [|discriminate H].
      cbn [length] in H. injection H as H. cbn [skipn Nat.sub].
      rewrite (IH (a + 1) k ltac:(lia) H). f_equal. lia.
Qed.

(** A full span is a span of each shorter length. *)
Lemma read_span_full_prefix mem n a k :
  (k <= n)%nat ->
  length (read_span mem a n) = n -> length (read_span mem a k) = k.
Proof.
  intros Hk H. rewrite <- (read_span_firstn mem n a k Hk).
  rewrite length_firstn. lia.
Qed.

(** ** Words and their bytes *)

Lemma bytes_of_int_length n : forall v, length (bytes_of_int n v) = n.
Proof.
  induction n as [|n IH]; intros v; cbn [bytes_of_int length];
    [reflexivity|]. rewrite IH. reflexivity.
Qed.

Lemma bytes_of_int_add n : forall v k,
  bytes_of_int n (v + k * 2 ^ (8 * Z.of_nat n)) = bytes_of_int n v.
Proof.
  induction n as [|n IH]; intros v k; [reflexivity|].
  cbn [bytes_of_int].
  replace (8 * Z.of_nat (S n)) with (8 + 8 * Z.of_nat n) by lia.
  rewrite Z.pow_add_r by lia.
  f_equal.
  - change 255 with (Z.ones 8). rewrite !Z.land_ones by lia.
    replace (v + k * (2 ^ 8 * 2 ^ (8 * Z.of_nat n)))
      with (v + (k * 2 ^ (8 * Z.of_nat n)) * 2 ^ 8) by ring.
    apply Z.mod_add. lia.
  - rewrite !Z.shiftr_div_pow2 by lia.
    replace (v + k * (2 ^ 8 * 2 ^ (8 * Z.of_nat n)))
      with (v + (k * 2 ^ (8 * Z.of_nat n)) * 2 ^ 8) by ring.
    rewrite Z.div_add by lia. apply IH.
Qed.

Lemma bytes_of_int_signed64 v :
  bytes_of_int 8 (signed64 v) = bytes_of_int 8 v.
Proof.
  unfold signed64, to_signed.
  assert (Hm : v mod 2 ^ 64 = v + (- (v / 2 ^ 64)) * 2 ^ 64).
  { pose proof (Z.div_mod v (2 ^ 64) ltac:(lia)). lia. }
  destruct (v mod 2 ^ 64 <? 2 ^ (64 - 1)).
  - rewrite Hm. apply (bytes_of_int_add 8).
  - replace (v mod 2 ^ 64 - 2 ^ 64)
      with (v + (- (v / 2 ^ 64) - 1) * 2 ^ 64) by lia.
    apply (bytes_of_int_add 8).
Qed.

Lemma int_of_bytes_split b bs :
  0 <= b < 256 ->
  Z.land (int_of_bytes (b :: bs)) 255 = b /\
  Z.shiftr (int_of_bytes (b :: bs)) 8 = int_of_bytes bs.
Proof.
  intros Hb. cbn [int_of_bytes].
  assert (Hland : Z.land b 255 = b).
  { change 255 with (Z.ones 8). rewrite Z.land_ones by lia.
    apply Z.mod_small. lia. }
  rewrite Hland. split.
  - rewrite Z.land_lor_distr_l, Hland.
    change 255 with (Z.ones 8). rewrite Z.land_ones by lia.
    rewrite Z.shiftl_mul_pow2 by lia. rewrite Z.mod_mul by lia.
    apply Z.lor_0_r.
  - rewrite Z.shiftr_lor, Z.shiftr_shiftl_l by lia.
    rewrite Z.shiftr_div_pow2 by lia.
    rewrite (Z.div_small b) by lia.
    replace (8 - 8) with 0 by lia. rewrite Z.shiftl_0_r. apply Z.lor_0_l.
Qed.

Lemma bytes_of_int_of_bytes bs :
  byte_list bs -> bytes_of_int (length bs) (int_of_bytes bs) = bs.
Proof.
  induction 1 as [|b bs Hb Hbs IH]; [reflexivity|].
  cbn [length bytes_of_int].
  destruct (int_of_bytes_split b bs Hb) as [-> ->]. rewrite IH. reflexivity.
Qed.

(** The word ptrace transfers, decomposed again, is the eight bytes it was
    made of. *)
Lemma word_round_trip w :
  length w = 8%nat -> byte_list w ->
  bytes_of_int 8 (signed64 (int_of_bytes w)) = w.
Proof.
  intros Hl Hw. rewrite bytes_of_int_signed64, <- Hl.
  apply bytes_of_int_of_bytes, Hw.
Qed.

Lemma read_span_bytes mem n : forall a,
  byte_memory mem -> byte_list (read_span mem a n).
Proof.
  induction n as [|n IH]; intros a Hm; cbn [read_span]; [constructor|].
  destruct (mem (wrap64 a)) eqn:E; [|constructor].
  constructor; [apply (Hm _ _ E)|apply IH, Hm].
Qed.

(** ** Aligned words *)

Lemma align_down_word a :
  0 <= a < 2 ^ 64 -> align_down a word_size = a - a mod 8.
Proof.
  intros Ha. unfold align_down, word_size.
  change (wrap64 (Z.lnot (8 - 1))) with (Z.shiftl (Z.ones 61) 3).
  transitivity (Z.shiftl (Z.shiftr a 3) 3).
  - apply Z.bits_inj'. intros n Hn.
    rewrite Z.land_spec, !Z.shiftl_spec by lia.
    destruct (Z_lt_le_dec n 3) as [Hlt|Hge].
    + rewrite !(Z.testbit_neg_r _ (n - 3)) by lia. apply andb_false_r.
    + rewrite Z.shiftr_spec, Z.testbit_ones_nonneg by lia.
      replace (n - 3 + 3) with n by lia.
      destruct (n - 3 <? 61) eqn:E; [apply andb_true_r|].
      apply Z.ltb_ge in E. rewrite andb_false_r. symmetry.
      destruct (Z.eq_dec a 0) as [->|Hnz]; [apply Z.bits_0|].
      apply Z.bits_above_log2; [lia|].
      apply Z.lt_le_trans with 64; [|lia].
      apply Z.log2_lt_pow2; lia.
  - rewrite Z.shiftr_div_pow2, Z.shiftl_mul_pow2 by lia.
    change (2 ^ 3) with 8.
    pose proof (Z.div_mod a 8 ltac:(lia)). lia.
Qed.

(** The chunk one iteration of the ptrace loops handles: the offset of
    [start] in its word and the number of bytes up to the end of the word
    or of the buffer. *)
Lemma word_chunk start remaining :
  0 <= start < 2 ^ 64 -> 0 < remaining < 2 ^ 64 ->
  let start_word := align_down start word_size in
  let end_word := wrap64 (start_word + word_size) in
  let length := Z.min (wrap64 (end_word - start)) (wrap64 remaining) in
  start_word = start - start mod 8 /\
  0 <= start_word < 2 ^ 64 /\
  0 <= start - start_word < 8 /\
  length = Z.min (8 - (start - start_word)) remaining /\
  0 < length <= 8 /\ length <= remaining /\
  start - start_word + length <= 8.
Proof.
  intros Hs Hr. cbv zeta. rewrite (align_down_word start Hs).
  pose proof (Z.mod_pos_bound start 8 ltac:(lia)) as Hm.
  unfold word_size.
  assert (He : wrap64 (wrap64 (start - start mod 8 + 8) - start)
               = 8 - start mod 8).
  { unfold wrap64. rewrite Zminus_mod_idemp_l.
    replace (start - start mod 8 + 8 - start) with (8 - start mod 8) by lia.
    apply Z.mod_small. lia. }
  rewrite He, (wrap64_small remaining) by lia.
  replace (start - (start - start mod 8)) with (start mod 8) by lia.
  pose proof (Z.mod_le start 8 ltac:(lia) ltac:(lia)) as Hle.
  repeat split; try reflexivity; try lia.
Qed.

(** ** PTRACE_PEEKDATA and PTRACE_POKEDATA *)

Lemma serve_frame k :
  k_poke_ok (serve k) = k_poke_ok k /\
  k_prot (serve k) = k_prot k /\
  k_memfd_denied (serve k) = k_memfd_denied k /\
  k_mem_fd_opens (serve k) = k_mem_fd_opens k /\
  (k_ttl k = None -> serve k = k).
Proof.
  unfold serve. destruct (k_ttl k) as [[|n]|]; repeat split; discriminate.
Qed.

Lemma peek_data_run addr st :
  exists v err k',
    fallible_ptrace PTRACE_PEEKDATA addr DataNull st
      = Done (v, DataNull) (with_kernel k' st) /\
    k_mem k' = k_mem (kernel st) /\
    k_poke_ok k' = k_poke_ok (kernel st) /\
    k_errno k' = err /\
    k_trace k' =
      k_trace (kernel st) ++ [EvPtrace PTRACE_PEEKDATA addr DataNull err] /\
    (err = 0 ->
     length (read_span (k_mem (kernel st)) addr 8) = 8%nat /\
     v = signed64 (int_of_bytes (read_span (k_mem (kernel st)) addr 8))) /\
    (k_ttl (kernel st) = None ->
     k_ttl k' = None /\
     (length (read_span (k_mem (kernel st)) addr 8) = 8%nat -> err = 0)).
Proof.
  unfold fallible_ptrace, kernel_ptrace, word_readable.
  destruct (serve_fields (kernel st)) as (Ht & _ & He & _ & Hm & _).
  destruct (serve_frame (kernel st)) as (Hp & _ & _ & _ & Hs).
  destruct (tracee_alive (kernel st)) eqn:Halive; cbn [negb].
  - rewrite Hm.
    destruct (length (read_span (k_mem (kernel st)) addr 8) =? 8)%nat eqn:E.
    + apply Nat.eqb_eq in E. change (0 =? 0) with true. cbn [is_peek].
      eexists _, 0, _. split; [reflexivity|]. msimpl. rewrite Hm, Ht, Hp.
      split; [reflexivity|]. split; [reflexivity|]. split; [reflexivity|].
      split; [reflexivity|]. split; [intros _; split; [exact E|reflexivity]|].
      intros Hl. rewrite (Hs Hl). split; [exact Hl|reflexivity].
    + apply Nat.eqb_neq in E. change (EIO =? 0) with false.
      eexists _, EIO, _. split; [reflexivity|]. msimpl. rewrite Hm, Ht, Hp.
      split; [reflexivity|]. split; [reflexivity|]. split; [reflexivity|].
      split; [reflexivity|]. split; [discriminate|].
      intros Hl. rewrite (Hs Hl). split; [exact Hl|].
      intros Hc. exfalso. exact (E Hc).
  - change (ESRCH =? 0) with false.
    eexists _, ESRCH, _. split; [reflexivity|]. msimpl.
    split; [reflexivity|]. split; [reflexivity|]. split; [reflexivity|].
    split; [reflexivity|]. split; [discriminate|].
    intros Hl. unfold tracee_alive in Halive. rewrite Hl in Halive.
    discriminate Halive.
Qed.

(** ** The ptrace read loop *)

Lemma read_bytes_ptrace_loop_spec fuel :
  forall addr n nread buf st r bs st',
  byte_memory (k_mem (kernel st)) ->
  n < 2 ^ 64 -> 0 <= nread <= n ->
  buf = read_span (k_mem (kernel st)) addr (Z.to_nat nread) ->
  length buf = Z.to_nat nread ->
  read_bytes_ptrace_loop fuel addr n nread buf st = Done (r, bs) st' ->
  nread <= r <= n /\
  bs = read_span (k_mem (kernel st)) addr (Z.to_nat r) /\
  length bs = Z.to_nat r /\
  st' = with_kernel (kernel st') st /\
  k_mem (kernel st') = k_mem (kernel st) /\
  exists new,
    k_trace (kernel st') = k_trace (kernel st) ++ new /\
    Forall is_aligned_peek new.
Proof.
  induction fuel as [|fuel IH];
    intros addr n nread buf st r bs st' Hbytes Hn Hnread Hbuf Hlen H.
  - cbn [read_bytes_ptrace_loop] in H.
    destruct (nread <? n) eqn:E; [discriminate H|].
    apply Z.ltb_ge in E. inversion H; subst r bs st'.
    split; [lia|]. split; [exact Hbuf|]. split; [exact Hlen|].
    split; [destruct st; reflexivity|]. split; [reflexivity|].
    exists []. rewrite app_nil_r. split; [reflexivity|constructor].
  - cbn [read_bytes_ptrace_loop] in H.
    destruct (nread <? n) eqn:E.
    2:{ apply Z.ltb_ge in E. inversion H; subst r bs st'.
        split; [lia|]. split; [exact Hbuf|]. split; [exact Hlen|].
        split; [destruct st; reflexivity|]. split; [reflexivity|].
        exists []. rewrite app_nil_r. split; [reflexivity|constructor]. }
    apply Z.ltb_lt in E.
    pose proof (wrap64_range (addr + nread)) as Hstart.
    destruct (word_chunk (wrap64 (addr + nread)) (n - nread) Hstart
                ltac:(lia)) as (Hsw & Hswr & Hoff & Hl & Hlpos & Hlrem & Hfit).
    cbv zeta in Hsw, Hswr, Hoff, Hl, Hlpos, Hlrem, Hfit.
    set (start := wrap64 (addr + nread)) in *.
    set (sw := align_down start word_size) in *.
    set (len := Z.min (wrap64 (wrap64 (sw + word_size) - start))
                  (wrap64 (n - nread))) in *.
    destruct (peek_data_run sw st)
      as (v & err & k' & Hrun & Hmem & _ & Herr & Htr & Hok & _).
    rewrite (bind_run _ _ _ _ _ Hrun) in H. msimpl in H. rewrite Herr in H.
    destruct (err =? 0) eqn:Ee; cbn [negb] in H.
    + apply Z.eqb_eq in Ee. destruct (Hok Ee) as [Hfull Hv].
      assert (Hchunk :
        firstn (Z.to_nat len)
          (skipn (Z.to_nat (start - sw)) (bytes_of_int 8 v))
        = read_span (k_mem (kernel st)) (addr + nread) (Z.to_nat len)
        /\ length (read_span (k_mem (kernel st)) (addr + nread) (Z.to_nat len))
           = Z.to_nat len).
      { rewrite Hv, word_round_trip
          by (try exact Hfull; apply read_span_bytes, Hbytes).
        rewrite read_span_skipn by (try exact Hfull; lia).
        rewrite Z2Nat.id by lia.
        replace (sw + (start - sw)) with start by lia.
        rewrite read_span_firstn by lia.
        unfold start. rewrite read_span_wrap. split; [reflexivity|].
        rewrite <- (read_span_wrap _ (addr + nread)). fold start.
        apply (read_span_full_prefix _ (8 - Z.to_nat (start - sw))); [lia|].
        replace start with (sw + Z.of_nat (Z.to_nat (start - sw))) at 1
          by (rewrite Z2Nat.id; lia).
        rewrite <- read_span_skipn by (try exact Hfull; lia).
        rewrite length_skipn, Hfull. reflexivity. }
      destruct Hchunk as [Hchunk Hchunk_len].
      rewrite Hchunk in H.
      apply IH in H; try assumption; try lia.
      * destruct H as (Hr & Hbs & Hbl & Hfr & Hm & new & Htr' & Hnew).
        cbn [kernel with_kernel] in Hbs, Hm, Htr'.
        rewrite Hmem in Hbs, Hm.
        split; [lia|]. split; [exact Hbs|]. split; [exact Hbl|].
        split; [rewrite Hfr; destruct st; reflexivity|].
        split; [exact Hm|].
        exists (EvPtrace PTRACE_PEEKDATA sw DataNull err :: new).
        split; [rewrite Htr', Htr, <- app_assoc; reflexivity|].
        constructor; [|exact Hnew].
        exists sw, err. split; [reflexivity|].
        rewrite Hsw. rewrite Zminus_mod, Z.mod_mod, Z.sub_diag by lia.
        reflexivity.
      * cbn [kernel with_kernel]. rewrite Hmem. exact Hbytes.
      * cbn [kernel with_kernel]. rewrite Hmem.
        replace (Z.to_nat (nread + len))
          with (Z.to_nat nread + Z.to_nat len)%nat by lia.
        rewrite read_span_app.
        -- rewrite Z2Nat.id by lia. rewrite <- Hbuf. reflexivity.
        -- rewrite <- Hbuf. exact Hlen.
      * rewrite length_app, Hlen, Hchunk_len. lia.
    + inversion H; subst r bs st'. cbn [kernel with_kernel].
      split; [lia|]. split; [exact Hbuf|]. split; [exact Hlen|].
      split; [reflexivity|]. split; [exact Hmem|].
      exists [EvPtrace PTRACE_PEEKDATA sw DataNull err].
      split; [exact Htr|]. constructor; [|constructor].
      exists sw, err. split; [reflexivity|].
      rewrite Hsw. rewrite Zminus_mod, Z.mod_mod, Z.sub_diag by lia.
      reflexivity.
Qed.

(** ** The mem-fd read loop *)

Lemma pread64_spec count offset st :
  exists n bs k',
    pread64 count offset st = Done (n, bs) (with_kernel k' st) /\
    k_mem k' = k_mem (kernel st) /\
    k_mem_fd_opens k' = k_mem_fd_opens (kernel st) /\
    k_trace k' = k_trace (kernel st) ++ [EvPread64 count offset n] /\
    ((n = -1 /\ bs = [] /\ k_errno k' <> 0)
     \/ (n = 0 /\ bs = [] /\ k_errno k' = k_errno (kernel st)
         /\ is_open (mem_fd (vm st)) = true)
     \/ (0 < n /\ n = Z.of_nat (length bs) /\
         bs = read_span (k_mem (kernel st)) offset (Z.to_nat count) /\
         mem_fd (vm st) = open_fd true)).
Proof.
  unfold pread64.
  destruct (serve_mem_fd_frame (kernel st)) as (Hop & Htr & Hm & He & _).
  destruct (mem_fd (vm st)) as [|[|]] eqn:Efd.
  - eexists _, _, _. split; [reflexivity|]. msimpl.
    repeat (split; [reflexivity|]).
    left. repeat split; try discriminate.
  - destruct (mem_fd_gone (kernel st)).
    { eexists _, _, _. split; [reflexivity|]. msimpl.
      repeat (split; [reflexivity|]). right. left. repeat split. }
    cbv zeta. rewrite Hm. destruct (2 ^ 63 <=? offset).
    + eexists _, _, _. split; [reflexivity|]. msimpl. rewrite Hop, Htr, Hm.
      repeat (split; [reflexivity|]). left. repeat split; try discriminate.
    + destruct (read_span (k_mem (kernel st)) offset (Z.to_nat count))
        as [|b bs] eqn:E.
      * eexists _, _, _. split; [reflexivity|]. msimpl. rewrite Hop, Htr, Hm.
        repeat (split; [reflexivity|]). left. repeat split; try discriminate.
      * eexists _, _, _. split; [reflexivity|]. msimpl. rewrite Hop, Htr, Hm.
        repeat (split; [reflexivity|]). right. right.
        repeat split; try (cbn [length]; lia).
  - eexists _, _, _. split; [reflexivity|]. msimpl.
    repeat (split; [reflexivity|]). right. left. repeat split.
Qed.

Lemma open_mem_fd_run st :
  exists live,
    open_mem_fd st =
      Done tt
        (with_vm (with_mem_fd (open_fd live) (vm st))
           (with_kernel (log_event (EvOpenMemFd live) (reopened (kernel st)))
              st)).
Proof.
  unfold open_mem_fd. msimpl. cbn [is_open]. msimpl.
  eexists. destruct st as [t s v f k a]. destruct v. reflexivity.
Qed.

Lemma reopened_frame k :
  k_mem (reopened k) = k_mem k /\
  k_trace (reopened k) = k_trace k /\
  k_errno (reopened k) = k_errno k /\
  k_prot (reopened k) = k_prot k /\
  k_memfd_denied (reopened k) = k_memfd_denied k /\
  k_prot_none_bug (reopened k) = k_prot_none_bug k /\
  k_poke_ok (reopened k) = k_poke_ok k /\
  k_ttl (reopened k) = k_ttl k.
Proof. unfold reopened. msimpl. repeat split. Qed.

Lemma read_bytes_mem_fd_loop_spec fuel :
  forall addr n all_read buf st r bs st',
  0 <= all_read <= n ->
  buf = read_span (k_mem (kernel st)) addr (Z.to_nat all_read) ->
  length buf = Z.to_nat all_read ->
  read_bytes_mem_fd_loop fuel addr n all_read buf st = Done (r, bs) st' ->
  -1 <= r <= n /\
  (all_read <= r \/ (all_read = 0 /\ r = -1)) /\
  bs = read_span (k_mem (kernel st)) addr (Z.to_nat r) /\
  length bs = Z.to_nat r /\
  k_mem (kernel st') = k_mem (kernel st) /\
  is_open (mem_fd (vm st')) = is_open (mem_fd (vm st)).
Proof.
  induction fuel as [|fuel IH];
    intros addr n all_read buf st r bs st' Hall Hbuf Hlen H.
  - cbn [read_bytes_mem_fd_loop] in H.
    destruct (all_read <? n) eqn:E; [discriminate H|].
    inversion H; subst r bs st'. repeat split; try assumption; try lia.
  - cbn [read_bytes_mem_fd_loop] in H.
    destruct (all_read <? n) eqn:E.
    2:{ inversion H; subst r bs st'. repeat split; try assumption; try lia. }
    apply Z.ltb_lt in E. msimpl in H.
    match type of H with
    | context [pread64 ?c ?o ?x] =>
        destruct (pread64_spec c o x)
          as (nr & bytes & k' & Hrun & Hmem & _ & _ & Hcases)
    end.
    rewrite Hrun in H. msimpl in H. msimpl in Hmem. msimpl in Hcases.
    destruct Hcases as [(-> & -> & Herr)|[(-> & -> & Herr & Hfd)|
                                           (Hpos & Hnr & Hbytes & Hfd)]].
    + change (0 =? -1) with false in H. cbn [andb] in H.
      change (-1 <=? 0) with true in H. cbv iota in H.
      destruct (0 <? all_read) eqn:Ea; msimpl in H;
        inversion H; subst r bs st'; msimpl.
      * apply Z.ltb_lt in Ea. repeat split; try assumption; try lia.
      * apply Z.ltb_ge in Ea. assert (all_read = 0) by lia. subst all_read.
        repeat split; try lia; try assumption.
    + rewrite Herr in H. change (0 =? 0) with true in H. cbn [andb] in H.
      destruct (0 =? all_read) eqn:Ea.
      * apply Z.eqb_eq in Ea. subst all_read. msimpl in H.
        match type of H with
        | context [open_mem_fd ?x] =>
            destruct (open_mem_fd_run x) as (live & Hopen)
        end.
        rewrite Hopen in H. unfold reopened in H. msimpl in H.
        apply IH in H; try assumption; try lia;
          try (msimpl; rewrite Hmem; exact Hbuf).
        msimpl in H. rewrite Hmem in H.
        destruct H as (H1 & H2 & H3 & H4 & H5 & H6).
        cbn [is_open] in H6. rewrite Hfd.
        cbn [is_open]. repeat split; try assumption; lia.
      * change (0 <=? 0) with true in H. cbv iota in H.
        apply Z.eqb_neq in Ea.
        replace (0 <? all_read) with true in H
          by (symmetry; apply Z.ltb_lt; lia).
        msimpl in H. inversion H; subst r bs st'; msimpl.
        repeat split; try assumption; try lia.
    + replace (0 =? nr) with false in H by (symmetry; apply Z.eqb_neq; lia).
      cbn [andb] in H.
      replace (nr <=? 0) with false in H by (symmetry; apply Z.leb_gt; lia).
      assert (Hle : (length bytes <= Z.to_nat (n - all_read))%nat).
      { rewrite Hbytes. apply read_span_length. }
      assert (Hchunk : bytes = read_span (k_mem (kernel st))
                                 (addr + all_read) (length bytes)).
      { rewrite <- (read_span_firstn _ (Z.to_nat (n - all_read)))
          by exact Hle.
        rewrite <- read_span_wrap, <- Hbytes. symmetry. apply firstn_all. }
      apply IH in H; try lia.
      * msimpl in H. rewrite Hmem in H.
        destruct H as (H1 & H2 & H3 & H4 & H5 & H6).
        repeat split; try assumption; try lia.
      * msimpl. rewrite Hmem.
        replace (Z.to_nat (all_read + nr))
          with (Z.to_nat all_read + length bytes)%nat by lia.
        rewrite read_span_app by (rewrite <- Hbuf; exact Hlen).
        rewrite Z2Nat.id by lia. rewrite <- Hbuf, <- Hchunk. reflexivity.
      * rewrite length_app, Hlen. lia.
Qed.

Lemma eight_bytes_are_bytes : byte_memory eight_bytes_at_4096.
Proof.
  intros a b H. unfold eight_bytes_at_4096 in H.
  destruct ((4096 <=? a) && (a <? 4104)) eqn:E; [|discriminate H].
  apply andb_true_iff in E. destruct E as [E1 E2].
  apply Z.leb_le in E1. apply Z.ltb_lt in E2. inversion H. lia.
Qed.

Lemma read_bytes_fallible_spec fuel addr n st r bs st' :
  byte_memory (k_mem (kernel st)) ->
  n < 2 ^ 64 ->
  read_bytes_fallible fuel addr n st = Done (r, bs) st' ->
  -1 <= r <= n /\
  bs = read_span (k_mem (kernel st)) addr (Z.to_nat r) /\
  length bs = Z.to_nat r /\
  k_mem (kernel st') = k_mem (kernel st) /\
  (r = -1 -> is_open (mem_fd (vm st)) = true) /\
  is_open (mem_fd (vm st')) = is_open (mem_fd (vm st)).
Proof.
  intros Hbytes Hn H. unfold read_bytes_fallible in H. msimpl in H.
  destruct (0 <=? n) eqn:Hnn; msimpl in H; [|discriminate H].
  apply Z.leb_le in Hnn.
  destruct (0 =? n) eqn:Hz.
  - inversion H; subst r bs st'. cbn [Z.to_nat read_span length].
    repeat split; try lia; try discriminate.
  - msimpl in H. apply Z.eqb_neq in Hz.
    destruct (is_open (mem_fd (vm st))) eqn:Hfd; cbn [negb] in H.
    + apply read_bytes_mem_fd_loop_spec in H;
        [|lia|reflexivity|reflexivity].
      destruct H as (H1 & H2 & H3 & H4 & H5 & H6).
      rewrite H6. repeat split; try assumption; lia.
    + unfold read_bytes_ptrace in H. msimpl in H.
      apply read_bytes_ptrace_loop_spec in H;
        [|exact Hbytes|lia|lia|reflexivity|reflexivity].
      destruct H as (H1 & H2 & H3 & H4 & H5 & _).
      msimpl in H2. msimpl in H5. rewrite H4. msimpl. rewrite Hfd.
      repeat split; try assumption; try lia.
Qed.

(** X13.  What [read_bytes_fallible] returns is the tracee's memory: when it
    reports r bytes, the buffer holds exactly the r bytes mapped from [addr]
    on, r is at most the size asked for, and memory itself is untouched;
    this holds for the mem-fd path and for the ptrace fallback alike.  The
    only other result is -1 with an empty buffer, which the ptrace fallback
    never gives.  Whether a mem fd is open does not change. *)
Theorem read_bytes_fallible_reads_memory fuel addr n st r bs st' :
  byte_memory (k_mem (kernel st)) ->
  n < 2 ^ 63 ->
  read_bytes_fallible fuel addr n st = Done (r, bs) st' ->
  -1 <= r <= n /\
  bs = read_span (k_mem (kernel st)) addr (Z.to_nat r) /\
  length bs = Z.to_nat r /\
  k_mem (kernel st') = k_mem (kernel st) /\
  (r = -1 -> is_open (mem_fd (vm st)) = true) /\
  is_open (mem_fd (vm st')) = is_open (mem_fd (vm st)).
Proof. intros Hb Hn. apply read_bytes_fallible_spec; [exact Hb|lia]. Qed.

Lemma read_bytes_fallible_reads_memory_witness :
  let st' := final_state (read_bytes_fallible 8 4096 4) stale_mem_fd_state in
  -1 <= 4 <= 4 /\
  [1; 2; 3; 4]
  = read_span (k_mem (kernel stale_mem_fd_state)) 4096 (Z.to_nat 4) /\
  length [1; 2; 3; 4] = Z.to_nat 4 /\
  k_mem (kernel st') = k_mem (kernel stale_mem_fd_state) /\
  (4 = -1 -> is_open (mem_fd (vm stale_mem_fd_state)) = true) /\
  is_open (mem_fd (vm st')) = is_open (mem_fd (vm stale_mem_fd_state)).
Proof.
  apply (read_bytes_fallible_reads_memory 8 4096 4 stale_mem_fd_state).
  - exact eight_bytes_are_bytes.
  - reflexivity.
  - vm_compute. reflexivity.
Defined.

Lemma read_bytes_ptrace_loop_complete addr n fuel :
  forall nread buf st,
  n < 2 ^ 64 -> 0 <= nread <= n ->
  (Z.to_nat (n - nread) <= fuel)%nat ->
  k_ttl (kernel st) = None ->
  words_mapped (k_mem (kernel st)) addr n ->
  exists bs st',
    read_bytes_ptrace_loop fuel addr n nread buf st = Done (n, bs) st'.
Proof.
  induction fuel as [|fuel IH]; intros nread buf st Hn Hnread Hfuel Hlive Hw.
  - cbn [read_bytes_ptrace_loop].
    replace (nread <? n) with false by (symmetry; apply Z.ltb_ge; lia).
    assert (nread = n) by lia. subst nread. eexists _, _. reflexivity.
  - cbn [read_bytes_ptrace_loop].
    destruct (nread <? n) eqn:E.
    2:{ apply Z.ltb_ge in E. assert (nread = n) by lia. subst nread.
        eexists _, _. reflexivity. }
    apply Z.ltb_lt in E.
    pose proof (wrap64_range (addr + nread)) as Hstart.
    destruct (word_chunk (wrap64 (addr + nread)) (n - nread) Hstart
                ltac:(lia)) as (_ & _ & _ & _ & Hlpos & Hlrem & _).
    cbv zeta in Hlpos, Hlrem.
    set (start := wrap64 (addr + nread)) in *.
    set (sw := align_down start word_size) in *.
    set (len := Z.min (wrap64 (wrap64 (sw + word_size) - start))
                  (wrap64 (n - nread))) in *.
    destruct (peek_data_run sw st)
      as (v & err & k' & Hrun & Hmem & _ & Herr & _ & _ & Hok).
    destruct (Hok Hlive) as [Hlive' Hzero].
    rewrite (bind_run _ _ _ _ _ Hrun). msimpl. rewrite Herr.
    rewrite (Hzero (Hw nread ltac:(lia))). change (negb (0 =? 0)) with false.
    cbv iota.
    apply IH; try assumption; try lia.
    cbn [kernel with_kernel]. rewrite Hmem. exact Hw.
Qed.

(** X14.  The ptrace fallback reads everything when it can: with no mem fd
    open, a tracee that lives on and every aligned word that the range
    touches mapped, [read_bytes_fallible] returns all [n] bytes, the bytes
    of memory, within [n] iterations; it needs nothing mapped beyond those
    words. *)
Theorem read_bytes_ptrace_reads_whole_range fuel addr n st :
  0 < n < 2 ^ 63 ->
  (Z.to_nat n <= fuel)%nat ->
  mem_fd (vm st) = closed_fd ->
  k_ttl (kernel st) = None ->
  byte_memory (k_mem (kernel st)) ->
  words_mapped (k_mem (kernel st)) addr n ->
  exists st',
    read_bytes_fallible fuel addr n st
      = Done (n, read_span (k_mem (kernel st)) addr (Z.to_nat n)) st' /\
    length (read_span (k_mem (kernel st)) addr (Z.to_nat n)) = Z.to_nat n.
Proof.
  intros Hn Hfuel Hfd Hlive Hbytes Hw.
  destruct (read_bytes_ptrace_loop_complete addr n fuel 0 []
              (with_kernel (with_k_errno 0 (kernel st)) st)
              ltac:(lia) ltac:(lia) ltac:(lia) Hlive Hw)
    as (bs & st' & Hloop).
  assert (Hrun : read_bytes_fallible fuel addr n st = Done (n, bs) st').
  { unfold read_bytes_fallible, read_bytes_ptrace. msimpl.
    replace (0 <=? n) with true by (symmetry; apply Z.leb_le; lia). msimpl.
    replace (0 =? n) with false by (symmetry; apply Z.eqb_neq; lia). msimpl.
    rewrite Hfd. cbn [is_open negb]. msimpl. exact Hloop. }
  apply read_bytes_ptrace_loop_spec in Hloop;
    [|exact Hbytes|lia|lia|reflexivity|reflexivity].
  destruct Hloop as (_ & Hbs & Hlen & _). msimpl in Hbs.
  exists st'. rewrite Hrun, Hbs. split; [reflexivity|].
  rewrite <- Hbs. exact Hlen.
Qed.

Lemma eight_bytes_words_mapped :
  words_mapped eight_bytes_at_4096 4097 6.
Proof.
  intros i Hi.
  assert (Hc : i = 0 \/ i = 1 \/ i = 2 \/ i = 3 \/ i = 4 \/ i = 5) by lia.
  destruct Hc as [->|[->|[->|[->|[->| ->]]]]]; reflexivity.
Qed.

Lemma read_bytes_ptrace_reads_whole_range_witness :
  exists st',
    read_bytes_fallible 8 4097 6 read_only_word_state
      = Done (6, read_span (k_mem (kernel read_only_word_state)) 4097
                   (Z.to_nat 6)) st' /\
    length (read_span (k_mem (kernel read_only_word_state)) 4097 (Z.to_nat 6))
    = Z.to_nat 6.
Proof.
  apply (read_bytes_ptrace_reads_whole_range 8 4097 6 read_only_word_state).
  - lia.
  - vm_compute. lia.
  - reflexivity.
  - reflexivity.
  - exact eight_bytes_are_bytes.
  - exact eight_bytes_words_mapped.
Defined.

(** ** Stores into tracee memory *)

Lemma store_bytes_ext bs : forall mem mem' a,
  (forall x, mem x = mem' x) ->
  forall x, store_bytes mem a bs x = store_bytes mem' a bs x.
Proof.
  induction bs as [|b bs IH]; intros mem mem' a H x; cbn [store_bytes];
    [apply H|].
  apply IH. intros y. destruct (y =? wrap64 a); [reflexivity|apply H].
Qed.

Lemma store_bytes_congr bs : forall mem a a',
  wrap64 a = wrap64 a' ->
  forall x, store_bytes mem a bs x = store_bytes mem a' bs x.
Proof.
  induction bs as [|b bs IH]; intros mem a a' H x; cbn [store_bytes];
    [reflexivity|].
  rewrite H. apply IH.
  rewrite <- (wrap64_add_l a), <- (wrap64_add_l a'), H. reflexivity.
Qed.

Lemma store_bytes_app xs : forall mem a ys,
  store_bytes mem a (xs ++ ys)
  = store_bytes (store_bytes mem a xs) (a + Z.of_nat (length xs)) ys.
Proof.
  induction xs as [|b xs IH]; intros mem a ys; cbn [store_bytes app length].
  - rewrite Z.add_0_r. reflexivity.
  - rewrite IH. f_equal. lia.
Qed.

Lemma store_bytes_outside bs : forall mem a x,
  (forall i, (i < length bs)%nat -> wrap64 (a + Z.of_nat i) <> x) ->
  store_bytes mem a bs x = mem x.
Proof.
  induction bs as [|b bs IH]; intros mem a x H; cbn [store_bytes];
    [reflexivity|].
  rewrite IH.
  - specialize (H O ltac:(cbn; lia)). rewrite Z.add_0_r in H.
    replace (x =? wrap64 a) with false; [reflexivity|].
    symmetry. apply Z.eqb_neq. congruence.
  - intros i Hi. specialize (H (S i) ltac:(cbn; lia)).
    replace (a + 1 + Z.of_nat i) with (a + Z.of_nat (S i)) by lia. exact H.
Qed.

(** Storing what is there already changes nothing. *)
Lemma store_bytes_same bs : forall mem a,
  read_span mem a (length bs) = bs ->
  forall x, store_bytes mem a bs x = mem x.
Proof.
  induction bs as [|b bs IH]; intros mem a H x; cbn [store_bytes];
    [reflexivity|].
  cbn [length read_span] in H.
  destruct (mem (wrap64 a)) as [b'|] eqn:E; [|discriminate H].
  injection H as -> H.
  assert (Hsame : forall y,
            (if y =? wrap64 a then Some b else mem y) = mem y).
  { intros y. destruct (y =? wrap64 a) eqn:Ey; [|reflexivity].
    apply Z.eqb_eq in Ey. subst y. symmetry. exact E. }
  rewrite (store_bytes_ext bs _ mem (a + 1) Hsame). apply IH. exact H.
Qed.

Lemma wrap64_distinct a i :
  0 < i < 2 ^ 64 -> wrap64 (a + i) <> wrap64 a.
Proof.
  intros Hi Heq. unfold wrap64 in Heq.
  assert (H0 : (a + i - a) mod 2 ^ 64 = 0).
  { rewrite Zminus_mod, Heq, Z.sub_diag. reflexivity. }
  replace (a + i - a) with i in H0 by lia.
  rewrite Z.mod_small in H0 by lia. lia.
Qed.


Lemma store_bytes_byte_memory bs : forall mem a,
  byte_memory mem -> byte_list bs -> byte_memory (store_bytes mem a bs).
Proof.
  induction bs as [|b bs IH]; intros mem a Hm Hb; cbn [store_bytes];
    [exact Hm|].
  inversion Hb as [|? ? Hb0 Hbs]; subst. apply IH; [|exact Hbs].
  intros y c. destruct (y =? wrap64 a); [|apply Hm].
  intros Hc. inversion Hc; subst. exact Hb0.
Qed.

Lemma bytes_of_int_bytes n : forall v, byte_list (bytes_of_int n v).
Proof.
  induction n as [|n IH]; intros v; cbn [bytes_of_int]; constructor.
  - change 255 with (Z.ones 8). rewrite Z.land_ones by lia.
    change (2 ^ 8) with 256. apply Z.mod_pos_bound. lia.
  - apply IH.
Qed.

Lemma byte_memory_ext mem mem' :
  (forall x, mem' x = mem x) -> byte_memory mem -> byte_memory mem'.
Proof. intros H Hm a b Hab. rewrite H in Hab. exact (Hm _ _ Hab). Qed.

Lemma read_span_ext_local mem mem' n : forall a,
  (forall i, (i < n)%nat ->
     mem (wrap64 (a + Z.of_nat i)) = mem' (wrap64 (a + Z.of_nat i))) ->
  read_span mem a n = read_span mem' a n.
Proof.
  induction n as [|n IH]; intros a H; [reflexivity|].
  cbn [read_span]. pose proof (H O ltac:(lia)) as H0.
  rewrite Z.add_0_r in H0. rewrite H0.
  destruct (mem' (wrap64 a)); [|reflexivity].
  f_equal. apply IH. intros i Hi. specialize (H (S i) ltac:(lia)).
  replace (a + 1 + Z.of_nat i) with (a + Z.of_nat (S i)) by lia. exact H.
Qed.

Lemma wrap64_distinct2 a i j :
  0 <= j < i -> i < 2 ^ 64 -> wrap64 (a + i) <> wrap64 (a + j).
Proof.
  intros Hj Hi. replace (a + i) with (a + j + (i - j)) by lia.
  apply wrap64_distinct. lia.
Qed.

(** Writing back a word in which only [chunk] was replaced, at offset
    [off], stores [chunk] and nothing else. *)
Lemma word_splice_store cur sw off chunk :
  length (read_span cur sw 8) = 8%nat ->
  (off + length chunk <= 8)%nat ->
  forall x,
    store_bytes cur sw (splice (read_span cur sw 8) off chunk) x
    = store_bytes cur (sw + Z.of_nat off) chunk x.
Proof.
  intros Hfull Hfit x. unfold splice.
  set (w := read_span cur sw 8) in *.
  assert (Hpre : firstn off w = read_span cur sw off).
  { unfold w. apply read_span_firstn. lia. }
  assert (Hpre_len : length (firstn off w) = off).
  { rewrite length_firstn, Hfull. lia. }
  assert (Hrest : skipn (off + length chunk) w
                  = read_span cur (sw + Z.of_nat (off + length chunk))
                      (8 - (off + length chunk))).
  { unfold w. apply read_span_skipn; [lia|exact Hfull]. }
  rewrite !store_bytes_app, Hpre_len.
  set (m1 := store_bytes cur sw (firstn off w)).
  assert (Hm1 : forall y, m1 y = cur y).
  { intros y. unfold m1. apply store_bytes_same.
    rewrite Hpre_len. symmetry. exact Hpre. }
  set (m2 := store_bytes m1 (sw + Z.of_nat off) chunk).
  assert (Hm2 : forall y, m2 y = store_bytes cur (sw + Z.of_nat off) chunk y).
  { intros y. unfold m2. apply store_bytes_ext. exact Hm1. }
  rewrite <- Hm2. apply store_bytes_same.
  rewrite length_skipn, Hfull, Hrest.
  replace (sw + Z.of_nat off + Z.of_nat (length chunk))
    with (sw + Z.of_nat (off + length chunk)) by lia.
  apply read_span_ext_local. intros i Hi. rewrite Hm2.
  apply store_bytes_outside. intros j Hj Heq.
  apply (wrap64_distinct2 (sw + Z.of_nat off)
           (Z.of_nat (length chunk) + Z.of_nat i) (Z.of_nat j));
    [lia|lia|].
  rewrite Heq. f_equal. lia.
Qed.

Lemma poke_data_run sw v st :
  exists rc err k',
    fallible_ptrace PTRACE_POKEDATA sw (DataWord v) st
      = Done (rc, DataNull) (with_kernel k' st) /\
    k_trace k' =
      k_trace (kernel st) ++ [EvPtrace PTRACE_POKEDATA sw (DataWord v) err] /\
    (err = 0 ->
     k_mem k' = store_bytes (k_mem (kernel st)) sw (bytes_of_int 8 v)) /\
    (err <> 0 -> k_mem k' = k_mem (kernel st)) /\
    (k_ttl (kernel st) = None ->
     k_ttl k' = None /\ k_poke_ok k' = k_poke_ok (kernel st) /\
     (length (read_span (k_mem (kernel st)) sw 8) = 8%nat ->
      k_poke_ok (kernel st) sw = true -> err = 0)).
Proof.
  unfold fallible_ptrace, kernel_ptrace, word_readable.
  destruct (serve_fields (kernel st)) as (Ht & _ & He & _ & Hm & _).
  destruct (serve_frame (kernel st)) as (Hp & _ & _ & _ & Hs).
  destruct (tracee_alive (kernel st)) eqn:Halive; cbn [negb].
  - rewrite Hm, Hp.
    destruct ((length (read_span (k_mem (kernel st)) sw 8) =? 8)%nat
              && k_poke_ok (kernel st) sw) eqn:E.
    + change (0 =? 0) with true. cbn [is_peek].
      eexists _, 0, _. split; [reflexivity|]. msimpl. rewrite ?Hm, ?Ht.
      split; [reflexivity|]. split; [reflexivity|].
      split; [intros Hc; exfalso; apply Hc; reflexivity|].
      intros Hl. rewrite (Hs Hl). repeat split. exact Hl.
    + change (EIO =? 0) with false.
      eexists _, EIO, _. split; [reflexivity|]. msimpl. rewrite ?Hm, ?Ht.
      split; [reflexivity|]. split; [discriminate|].
      split; [reflexivity|].
      intros Hl. rewrite (Hs Hl). split; [exact Hl|]. split; [reflexivity|].
      intros Hfull Hok. exfalso. rewrite Hfull, Hok in E. discriminate E.
  - change (ESRCH =? 0) with false.
    eexists _, ESRCH, _. split; [reflexivity|]. msimpl.
    split; [reflexivity|]. split; [discriminate|].
    split; [reflexivity|].
    intros Hl. unfold tracee_alive in Halive. rewrite Hl in Halive.
    discriminate Halive.
Qed.

Lemma firstn_skipn_app {A} (l : list A) a b :
  firstn a l ++ firstn b (skipn a l) = firstn (a + b) l.
Proof.
  revert l. induction a as [|a IH]; intros l; [reflexivity|].
  destruct l as [|x l]; cbn [firstn skipn app Nat.add].
  - rewrite firstn_nil. reflexivity.
  - f_equal. apply IH.
Qed.

Lemma byte_list_firstn bs n : byte_list bs -> byte_list (firstn n bs).
Proof.
  unfold byte_list. revert n. induction bs as [|b bs IH]; intros n H.
  - rewrite firstn_nil. constructor.
  - destruct n; [constructor|]. inversion H; subst.
    cbn [firstn]. constructor; [assumption|apply IH; assumption].
Qed.

Lemma byte_list_skipn bs n : byte_list bs -> byte_list (skipn n bs).
Proof.
  unfold byte_list. revert n. induction bs as [|b bs IH]; intros n H.
  - rewrite skipn_nil. constructor.
  - destruct n; [exact H|]. inversion H; subst. cbn [skipn]. apply IH.
    assumption.
Qed.

Lemma byte_list_app xs ys : byte_list xs -> byte_list ys -> byte_list (xs ++ ys).
Proof. unfold byte_list. intros. apply Forall_app. split; assumption. Qed.

(** ** The ptrace write loop *)

Lemma write_bytes_ptrace_loop_spec fuel :
  forall addr buf nw st r st',
  byte_memory (k_mem (kernel st)) -> byte_list buf ->
  Z.of_nat (length buf) < 2 ^ 64 ->
  0 <= nw <= Z.of_nat (length buf) ->
  write_bytes_ptrace_loop fuel addr buf nw st = Done r st' ->
  nw <= r <= Z.of_nat (length buf) /\
  st' = with_kernel (kernel st') st /\
  byte_memory (k_mem (kernel st')) /\
  exists new,
    k_trace (kernel st') = k_trace (kernel st) ++ new /\
    (forallb poke_accepted new = true ->
     forall x,
       k_mem (kernel st') x =
         store_bytes (k_mem (kernel st)) (addr + nw)
           (firstn (Z.to_nat (r - nw)) (skipn (Z.to_nat nw) buf)) x).
Proof.
  induction fuel as [|fuel IH];
    intros addr buf nw st r st' Hbytes Hbuf Hsize Hnw H.
  - cbn [write_bytes_ptrace_loop] in H.
    destruct (nw <? Z.of_nat (length buf)) eqn:E; [discriminate H|].
    inversion H; subst r st'.
    split; [lia|]. split; [destruct st; reflexivity|]. split; [exact Hbytes|].
    exists []. rewrite app_nil_r, Z.sub_diag. split; [reflexivity|].
    intros _ x. reflexivity.
  - cbn [write_bytes_ptrace_loop] in H.
    destruct (nw <? Z.of_nat (length buf)) eqn:E.
    2:{ inversion H; subst r st'.
        split; [lia|]. split; [destruct st; reflexivity|].
        split; [exact Hbytes|].
        exists []. rewrite app_nil_r, Z.sub_diag. split; [reflexivity|].
        intros _ x. reflexivity. }
    apply Z.ltb_lt in E.
    pose proof (wrap64_range (addr + nw)) as Hstart.
    destruct (word_chunk (wrap64 (addr + nw)) (Z.of_nat (length buf) - nw)
                Hstart ltac:(lia))
      as (Hsw & Hswr & Hoff & Hl & Hlpos & Hlrem & Hfit).
    cbv zeta in Hsw, Hswr, Hoff, Hl, Hlpos, Hlrem, Hfit.
    set (start := wrap64 (addr + nw)) in *.
    set (sw := align_down start word_size) in *.
    set (len := Z.min (wrap64 (wrap64 (sw + word_size) - start))
                  (wrap64 (Z.of_nat (length buf) - nw))) in *.
    set (chunk := firstn (Z.to_nat len) (skipn (Z.to_nat nw) buf)) in *.
    assert (Hchunk_len : length chunk = Z.to_nat len).
    { unfold chunk. rewrite length_firstn, length_skipn. lia. }
    assert (Hchunk_bytes : byte_list chunk).
    { unfold chunk. apply byte_list_firstn, byte_list_skipn, Hbuf. }
    (* the word that is written back, and what it does to memory *)
    assert (Hword : forall v s,
      k_mem (kernel s) = k_mem (kernel st) ->
      ((len <? word_size) = true ->
       length (read_span (k_mem (kernel st)) sw 8) = 8%nat /\
       v = signed64 (int_of_bytes (read_span (k_mem (kernel st)) sw 8))) ->
      ((len <? word_size) = false -> v = 0) ->
      forall x,
        store_bytes (k_mem (kernel s)) sw
          (bytes_of_int 8
             (signed64
                (int_of_bytes
                   (splice (bytes_of_int 8 v) (Z.to_nat (start - sw)) chunk))))
          x
        = store_bytes (k_mem (kernel st)) (addr + nw) chunk x).
    { intros v s Hs Hpart Hwhole x. rewrite Hs.
      assert (Hsplice_len :
        length (splice (bytes_of_int 8 v) (Z.to_nat (start - sw)) chunk)
        = 8%nat).
      { unfold splice.
        rewrite !length_app, length_firstn, length_skipn,
          bytes_of_int_length. lia. }
      rewrite word_round_trip;
        [|exact Hsplice_len
         |unfold splice;
          apply byte_list_app;
          [apply byte_list_firstn, bytes_of_int_bytes
          |apply byte_list_app;
           [exact Hchunk_bytes
           |apply byte_list_skipn, bytes_of_int_bytes]]].
      rewrite <- (store_bytes_congr chunk _ start (addr + nw))
        by (unfold start; apply wrap64_idem).
      destruct (len <? word_size) eqn:Elen.
      - destruct (Hpart eq_refl) as [Hfull ->].
        rewrite word_round_trip
          by (try exact Hfull; apply read_span_bytes, Hbytes).
        rewrite word_splice_store by (try exact Hfull; lia).
        rewrite Z2Nat.id by lia.
        replace (sw + (start - sw)) with start by lia. reflexivity.
      - rewrite (Hwhole eq_refl). apply Z.ltb_ge in Elen.
        unfold word_size in Elen.
        assert (Hlen8 : len = 8) by lia.
        assert (Hoff0 : start = sw) by lia.
        unfold splice. rewrite Hoff0, Z.sub_diag.
        cbn [Z.to_nat firstn app Nat.add].
        rewrite skipn_all2 by (rewrite bytes_of_int_length; lia).
        rewrite app_nil_r. reflexivity. }
    (* the PEEKDATA of a partial word *)
    destruct (len <? word_size) eqn:Elen.
    + destruct (peek_data_run sw st)
        as (v & perr & k1 & Hrun & Hmem1 & _ & Herr & Htr1 & Hok & _).
      msimpl in H. rewrite Hrun in H. msimpl in H. rewrite Herr in H.
      destruct (perr =? 0) eqn:Ep; msimpl in H.
      * apply Z.eqb_eq in Ep.
        match type of H with
        | context [fallible_ptrace PTRACE_POKEDATA sw (DataWord ?w) ?s] =>
            destruct (poke_data_run sw w s)
              as (rc & err & k2 & Hrun2 & Htr2 & Hmem2 & Hmem2' & _);
            pose proof (Hword v s Hmem1 (fun _ => Hok Ep)
                          ltac:(discriminate)) as Hw
        end.
        rewrite Hrun2 in H. msimpl in H. msimpl in Htr2. msimpl in Hmem2.
        msimpl in Hmem2'. msimpl in Hw.
        assert (Hbytes2 : byte_memory (k_mem k2)).
        { destruct (Z.eq_dec err 0) as [He|He].
          - rewrite (Hmem2 He).
            apply store_bytes_byte_memory; [|apply bytes_of_int_bytes].
            rewrite Hmem1. exact Hbytes.
          - rewrite (Hmem2' He), Hmem1. exact Hbytes. }
        apply IH in H; try assumption; try lia.
        destruct H as (Hr & Hfr & Hb' & new & Htr' & Hstore).
        msimpl in Hfr. msimpl in Htr'. msimpl in Hstore.
        split; [lia|]. split; [rewrite Hfr; destruct st; reflexivity|].
        split; [exact Hb'|].
        eexists. split; [rewrite Htr', Htr2, Htr1, <- !app_assoc; reflexivity|].
        cbn [app forallb poke_accepted andb]. intros Hacc.
        apply andb_true_iff in Hacc. destruct Hacc as [He Hacc].
        apply Z.eqb_eq in He. intros x.
        rewrite (Hstore Hacc x).
        rewrite (store_bytes_ext _ _
                   (store_bytes (k_mem (kernel st)) (addr + nw) chunk));
          [|intros y; rewrite (Hmem2 He); apply Hw].
        replace (addr + (nw + len))
          with (addr + nw + Z.of_nat (length chunk)) by lia.
        rewrite <- store_bytes_app. f_equal. unfold chunk.
        replace (Z.to_nat (nw + len)) with (Z.to_nat nw + Z.to_nat len)%nat
          by lia.
        rewrite (Nat.add_comm (Z.to_nat nw)), <- skipn_skipn, firstn_skipn_app.
        f_equal. lia.
      * inversion H; subst r st'. msimpl.
        split; [lia|]. split; [reflexivity|].
        split; [rewrite Hmem1; exact Hbytes|].
        eexists. split; [exact Htr1|]. intros _ x.
        rewrite Z.sub_diag. cbn [Z.to_nat firstn store_bytes].
        rewrite Hmem1. reflexivity.
    + msimpl in H.
      match type of H with
      | context [fallible_ptrace PTRACE_POKEDATA sw (DataWord ?w) ?s] =>
          destruct (poke_data_run sw w s)
            as (rc & err & k2 & Hrun2 & Htr2 & Hmem2 & Hmem2' & _);
          pose proof (Hword 0 s eq_refl ltac:(discriminate)
                        (fun _ => eq_refl)) as Hw
      end.
      rewrite Hrun2 in H. msimpl in H.
      assert (Hbytes2 : byte_memory (k_mem k2)).
      { destruct (Z.eq_dec err 0) as [He|He].
        - rewrite (Hmem2 He).
          apply store_bytes_byte_memory; [exact Hbytes|].
          apply bytes_of_int_bytes.
        - rewrite (Hmem2' He). exact Hbytes. }
      apply IH in H; try assumption; try lia.
      destruct H as (Hr & Hfr & Hb' & new & Htr' & Hstore).
      msimpl in Hfr. msimpl in Htr'. msimpl in Hstore.
      split; [lia|]. split; [rewrite Hfr; destruct st; reflexivity|].
      split; [exact Hb'|].
      eexists. split; [rewrite Htr', Htr2, <- !app_assoc; reflexivity|].
      cbn [app forallb poke_accepted andb]. intros Hacc.
      apply andb_true_iff in Hacc. destruct Hacc as [He Hacc].
      apply Z.eqb_eq in He. intros x.
      rewrite (Hstore Hacc x).
      rewrite (store_bytes_ext _ _
                 (store_bytes (k_mem (kernel st)) (addr + nw) chunk));
        [|intros y; rewrite (Hmem2 He); apply Hw].
      replace (addr + (nw + len))
        with (addr + nw + Z.of_nat (length chunk)) by lia.
      rewrite <- store_bytes_app. f_equal. unfold chunk.
      replace (Z.to_nat (nw + len)) with (Z.to_nat nw + Z.to_nat len)%nat
        by lia.
      rewrite (Nat.add_comm (Z.to_nat nw)), <- skipn_skipn, firstn_skipn_app.
        f_equal. lia.
Qed.

(** ** What a read leaves alone *)

Lemma read_bytes_ptrace_loop_frame fuel :
  forall addr n nread buf st r bs st',
  read_bytes_ptrace_loop fuel addr n nread buf st = Done (r, bs) st' ->
  st' = with_kernel (kernel st') st /\
  k_mem (kernel st') = k_mem (kernel st).
Proof.
  induction fuel as [|fuel IH]; intros addr n nread buf st r bs st' H.
  - cbn [read_bytes_ptrace_loop] in H.
    destruct (nread <? n); [discriminate H|].
    inversion H; subst. split; [destruct st'; reflexivity|reflexivity].
  - cbn [read_bytes_ptrace_loop] in H.
    destruct (nread <? n).
    2:{ inversion H; subst. split; [destruct st'; reflexivity|reflexivity]. }
    cbv zeta in H.
    match type of H with
    | context [fallible_ptrace PTRACE_PEEKDATA ?a DataNull] =>
        destruct (peek_data_run a st)
          as (v & err & k' & Hrun & Hmem & _ & Herr & _)
    end.
    rewrite (bind_run _ _ _ _ _ Hrun) in H. msimpl in H. rewrite Herr in H.
    destruct (err =? 0); cbn [negb] in H.
    + apply IH in H. destruct H as [Hfr Hm].
      cbn [kernel with_kernel] in Hm. rewrite Hmem in Hm.
      split; [rewrite Hfr; destruct st; reflexivity|exact Hm].
    + inversion H; subst. cbn [kernel with_kernel].
      split; [reflexivity|exact Hmem].
Qed.

Lemma read_bytes_mem_fd_loop_frame fuel :
  forall addr n all_read buf st r bs st',
  read_bytes_mem_fd_loop fuel addr n all_read buf st = Done (r, bs) st' ->
  task st' = task st /\ session st' = session st /\ fds st' = fds st /\
  abi st' = abi st /\ vm_log (vm st') = vm_log (vm st) /\
  maps (vm st') = maps (vm st) /\
  k_mem (kernel st') = k_mem (kernel st).
Proof.
  induction fuel as [|fuel IH]; intros addr n all_read buf st r bs st' H.
  - cbn [read_bytes_mem_fd_loop] in H.
    destruct (all_read <? n); [discriminate H|].
    inversion H; subst. repeat split.
  - cbn [read_bytes_mem_fd_loop] in H.
    destruct (all_read <? n).
    2:{ inversion H; subst. repeat split. }
    msimpl in H.
    match type of H with
    | context [pread64 ?c ?o ?x] =>
        destruct (pread64_spec c o x)
          as (nr & bytes & k' & Hrun & Hmem & _)
    end.
    rewrite Hrun in H. msimpl in H. msimpl in Hmem.
    destruct ((0 =? nr) && (0 =? all_read) && (0 =? k_errno k')).
    + msimpl in H.
      match type of H with
      | context [open_mem_fd ?x] =>
          destruct (open_mem_fd_run x) as (live & Hopen)
      end.
      rewrite Hopen in H. unfold reopened in H. msimpl in H.
      apply IH in H. msimpl in H. rewrite Hmem in H. exact H.
    + destruct (nr <=? 0).
      * destruct (0 <? all_read); msimpl in H; inversion H; subst;
          msimpl; repeat split; exact Hmem.
      * apply IH in H. msimpl in H. rewrite Hmem in H. exact H.
Qed.


Lemma read_bytes_fallible_frame fuel addr n st r bs st' :
  read_bytes_fallible fuel addr n st = Done (r, bs) st' ->
  task st' = task st /\ session st' = session st /\ fds st' = fds st /\
  abi st' = abi st /\ vm_log (vm st') = vm_log (vm st) /\
  maps (vm st') = maps (vm st) /\
  k_mem (kernel st') = k_mem (kernel st).
Proof.
  intros H. unfold read_bytes_fallible in H. msimpl in H.
  destruct (0 <=? n); msimpl in H; [|discriminate H].
  destruct (0 =? n).
  - inversion H; subst. repeat split.
  - msimpl in H. destruct (is_open (mem_fd (vm st))); cbn [negb] in H.
    + apply read_bytes_mem_fd_loop_frame in H. msimpl in H. exact H.
    + unfold read_bytes_ptrace in H. msimpl in H.
      apply read_bytes_ptrace_loop_frame in H. destruct H as [Hfr Hm].
      msimpl in Hm. rewrite Hfr. msimpl. repeat split. exact Hm.
Qed.

(** A [read_mem] that returns has read all the bytes asked for. *)
Lemma read_mem_spec fuel addr n st bs st' :
  byte_memory (k_mem (kernel st)) -> n < 2 ^ 64 ->
  read_mem fuel addr n st = Done bs st' ->
  bs = read_span (k_mem (kernel st)) addr (Z.to_nat n) /\
  length bs = Z.to_nat n /\
  task st' = task st /\ session st' = session st /\ fds st' = fds st /\
  abi st' = abi st /\ vm_log (vm st') = vm_log (vm st) /\
  maps (vm st') = maps (vm st) /\
  k_mem (kernel st') = k_mem (kernel st).
Proof.
  intros Hm Hn H. unfold read_mem, read_bytes_helper in H.
  unfold bind at 1 2 in H.
  destruct (read_bytes_fallible fuel addr n st) as [[r got] s1| |] eqn:Hr;
    try discriminate H.
  destruct (r =? n) eqn:E; cbn [negb] in H; [|discriminate H].
  apply Z.eqb_eq in E. subst r. inversion H; subst bs st'.
  pose proof (read_bytes_fallible_frame _ _ _ _ _ _ _ Hr) as Hfr.
  apply read_bytes_fallible_spec in Hr; try assumption.
  destruct Hr as (_ & Hgot & Hlen & _).
  split; [exact Hgot|]. split; [exact Hlen|]. exact Hfr.
Qed.


(** ** Writes through the mem fd *)

Lemma mprotect_each_run ms extra : forall st,
  exists k',
    mprotect_each ms extra st = Done tt (with_kernel k' st) /\
    k_mem k' = k_mem (kernel st) /\
    k_errno k' = k_errno (kernel st) /\
    k_memfd_denied k' = k_memfd_denied (kernel st) /\
    exists new, k_trace k' = k_trace (kernel st) ++ new.
Proof.
  induction ms as [|m ms IH]; intros st; cbn [mprotect_each].
  - exists (kernel st). split; [destruct st; reflexivity|]. repeat split.
    exists []. rewrite app_nil_r. reflexivity.
  - unfold remote_mprotect. msimpl.
    match goal with
    | |- context [mprotect_each ms extra ?s] =>
        destruct (IH s) as (k' & Hrun & Hm & He & Hd & new & Htr)
    end.
    rewrite Hrun. msimpl in Hm. msimpl in He. msimpl in Hd. msimpl in Htr.
    exists k'. split; [reflexivity|]. repeat split; try assumption.
    eexists. rewrite Htr, <- app_assoc. reflexivity.
Qed.

Lemma writable_span_le k n : forall a, (writable_span k a n <= n)%nat.
Proof.
  induction n as [|n IH]; intros a; cbn [writable_span]; [lia|].
  destruct (memfd_write_errno k a =? 0); [|lia]. specialize (IH (a + 1)). lia.
Qed.

Lemma memfd_write_errno_eperm k a :
  memfd_write_errno k a = EPERM -> k_memfd_denied k (wrap64 a) = true.
Proof.
  unfold memfd_write_errno.
  destruct (k_mem k (wrap64 a)); [|discriminate].
  destruct (k_memfd_denied k (wrap64 a)); [reflexivity|].
  destruct (k_prot_none_bug k
            && (Z.land (k_prot k (wrap64 a)) (Z.lor PROT_READ PROT_WRITE) =? 0));
    discriminate.
Qed.

Lemma memfd_write_errno_serve k a :
  memfd_write_errno (serve_mem_fd k) a = memfd_write_errno k a.
Proof.
  unfold memfd_write_errno.
  destruct (serve_mem_fd_frame k) as (_ & _ & Hm & _ & Hp & Hd & Hb).
  rewrite Hm, Hp, Hd, Hb. reflexivity.
Qed.

Lemma writable_span_serve k n : forall a,
  writable_span (serve_mem_fd k) a n = writable_span k a n.
Proof.
  induction n as [|n IH]; intros a; cbn [writable_span]; [reflexivity|].
  rewrite memfd_write_errno_serve, IH. reflexivity.
Qed.

Lemma pwrite64_spec buf offset st :
  exists n k',
    pwrite64 buf offset st = Done n (with_kernel k' st) /\
    k_memfd_denied k' = k_memfd_denied (kernel st) /\
    k_trace k' = k_trace (kernel st) ++ [EvPwrite64 buf offset n] /\
    ((n = -1 /\ k_mem k' = k_mem (kernel st) /\
      (k_errno k' = EPERM ->
       offset < 2 ^ 63 /\ exists a, k_memfd_denied (kernel st) a = true))
     \/ (n = 0 /\ k_mem k' = k_mem (kernel st)
         /\ k_errno k' = k_errno (kernel st))
     \/ (0 < n <= Z.of_nat (length buf) /\
         k_mem k' =
           store_bytes (k_mem (kernel st)) offset (firstn (Z.to_nat n) buf) /\
         k_errno k' = k_errno (kernel st))).
Proof.
  unfold pwrite64.
  destruct (serve_mem_fd_frame (kernel st))
    as (_ & Htr & Hm & He & _ & Hd & _).
  destruct (mem_fd (vm st)) as [|[|]] eqn:Efd.
  - eexists _, _. split; [reflexivity|]. msimpl. split; [reflexivity|].
    split; [reflexivity|].
    left. repeat split; discriminate.
  - destruct (mem_fd_gone (kernel st)).
    { eexists _, _. split; [reflexivity|]. msimpl. split; [reflexivity|].
      split; [reflexivity|]. right. left. repeat split. }
    cbv zeta. rewrite writable_span_serve, memfd_write_errno_serve, Hm.
    destruct (2 ^ 63 <=? offset) eqn:Eoff.
    + eexists _, _. split; [reflexivity|]. msimpl. rewrite Hd, Htr, Hm.
      split; [reflexivity|]. split; [reflexivity|].
      left. repeat split; discriminate.
    + apply Z.leb_gt in Eoff.
      pose proof (writable_span_le (kernel st) (length buf) offset) as Hle.
      destruct (writable_span (kernel st) offset (length buf)) as [|n] eqn:E.
      * eexists _, _. split; [reflexivity|]. msimpl. rewrite Hd, Htr, Hm.
        split; [reflexivity|]. split; [reflexivity|].
        left. split; [reflexivity|]. split; [reflexivity|].
        intros Hp. split; [exact Eoff|].
        eexists. apply memfd_write_errno_eperm. exact Hp.
      * eexists _, _. split; [reflexivity|]. msimpl. rewrite Hd, Htr, He.
        split; [reflexivity|]. split; [reflexivity|].
        right. right. rewrite Nat2Z.id. repeat split; lia.
  - eexists _, _. split; [reflexivity|]. msimpl. split; [reflexivity|].
    split; [reflexivity|].
    right. left. repeat split.
Qed.

Lemma safe_pwrite64_spec buf addr st :
  exists n k',
    safe_pwrite64 buf addr st = Done n (with_kernel k' st) /\
    k_memfd_denied k' = k_memfd_denied (kernel st) /\
    (exists new, k_trace k' = k_trace (kernel st) ++ new) /\
    ((n = -1 /\ k_mem k' = k_mem (kernel st) /\
      (k_errno k' = EPERM ->
       addr < 2 ^ 63 /\ exists a, k_memfd_denied (kernel st) a = true))
     \/ (n = 0 /\ k_mem k' = k_mem (kernel st)
         /\ k_errno k' = k_errno (kernel st))
     \/ (0 < n <= Z.of_nat (length buf) /\
         k_mem k' =
           store_bytes (k_mem (kernel st)) addr (firstn (Z.to_nat n) buf) /\
         k_errno k' = k_errno (kernel st))).
Proof.
  unfold safe_pwrite64. msimpl.
  destruct (mappings_to_fix
              (maps_starting_at (floor_page_size addr) (vm st))
              (ceil_page_size (wrap64 (addr + Z.of_nat (length buf)))))
    as [|m ms] eqn:Efix.
  - destruct (pwrite64_spec buf addr st)
      as (n & k' & Hrun & Hd & Htr & Hcases).
    exists n, k'. split; [exact Hrun|]. split; [exact Hd|].
    split; [eexists; exact Htr|exact Hcases].
  - destruct (mprotect_each_run (m :: ms) PROT_WRITE st)
      as (k1 & Hrun1 & Hm1 & He1 & Hd1 & new1 & Htr1).
    rewrite Hrun1.
    destruct (pwrite64_spec buf addr (with_kernel k1 st))
      as (n & k2 & Hrun2 & Hd2 & Htr2 & Hcases).
    rewrite Hrun2.
    destruct (mprotect_each_run (m :: ms) 0 (with_kernel k2 (with_kernel k1 st)))
      as (k3 & Hrun3 & Hm3 & He3 & Hd3 & new3 & Htr3).
    rewrite Hrun3. cbn [kernel with_kernel vm with_kernel] in *.
    exists n, k3. split; [destruct st; reflexivity|].
    split; [rewrite Hd3, Hd2, Hd1; reflexivity|].
    split; [eexists; rewrite Htr3, Htr2, Htr1, <- !app_assoc; reflexivity|].
    rewrite Hm3, He3.
    destruct Hcases as [(-> & Hm & He)|[(-> & Hm & He)|(Hn & Hm & He)]].
    + left. rewrite Hm, Hm1. repeat split; try apply (He H).
      destruct (He H) as (_ & a & Ha). rewrite Hd1 in Ha.
      exists a. exact Ha.
    + right. left. rewrite Hm, Hm1, He, He1. repeat split.
    + right. right. rewrite Hm, Hm1, He, He1. repeat split; lia.
Qed.

(** ** Replacing pages *)

Lemma align_down_page a :
  0 <= a < 2 ^ 64 -> align_down a page_size = a - a mod 4096.
Proof.
  intros Ha. unfold align_down, page_size.
  change (wrap64 (Z.lnot (4096 - 1))) with (Z.shiftl (Z.ones 52) 12).
  transitivity (Z.shiftl (Z.shiftr a 12) 12).
  - apply Z.bits_inj'. intros n Hn.
    rewrite Z.land_spec, !Z.shiftl_spec by lia.
    destruct (Z_lt_le_dec n 12) as [Hlt|Hge].
    + rewrite !(Z.testbit_neg_r _ (n - 12)) by lia. apply andb_false_r.
    + rewrite Z.shiftr_spec, Z.testbit_ones_nonneg by lia.
      replace (n - 12 + 12) with n by lia.
      destruct (n - 12 <? 52) eqn:E; [apply andb_true_r|].
      apply Z.ltb_ge in E. rewrite andb_false_r. symmetry.
      destruct (Z.eq_dec a 0) as [->|Hnz]; [apply Z.bits_0|].
      apply Z.bits_above_log2; [lia|].
      apply Z.lt_le_trans with 64; [|lia].
      apply Z.log2_lt_pow2; lia.
  - rewrite Z.shiftr_div_pow2, Z.shiftl_mul_pow2 by lia.
    change (2 ^ 12) with 4096.
    pose proof (Z.div_mod a 4096 ltac:(lia)). lia.
Qed.

(** The pages that [try_replace_pages] replaces cover the bytes written. *)
Lemma page_span addr len :
  0 <= addr < 2 ^ 63 -> 0 <= len < 2 ^ 63 ->
  let page_start := floor_page_size addr in
  let page_end := ceil_page_size (wrap64 (addr + len)) in
  0 < page_end - page_start ->
  0 <= page_start <= addr /\ addr + len <= page_end /\
  page_end - page_start < 2 ^ 64.
Proof.
  intros Ha Hl. cbv zeta. unfold floor_page_size, ceil_page_size.
  rewrite (wrap64_small (addr + len)) by lia.
  rewrite (align_down_page addr) by lia.
  rewrite (align_down_page (wrap64 _)) by apply wrap64_range.
  unfold wrap64, page_size.
  pose proof (Z.mod_pos_bound addr 4096 ltac:(lia)).
  pose proof (Z.mod_pos_bound ((addr + len + 4096 - 1) mod 2 ^ 64) 4096
                ltac:(lia)).
  pose proof (Z.mod_pos_bound (addr + len + 4096 - 1) (2 ^ 64) ltac:(lia)).
  pose proof (Z.div_mod (addr + len + 4096 - 1) (2 ^ 64) ltac:(lia)).
  pose proof (Z.div_mod ((addr + len + 4096 - 1) mod 2 ^ 64) 4096 ltac:(lia)).
  pose proof (Z.div_mod addr 4096 ltac:(lia)).
  intros Hpos. lia.
Qed.

Lemma span_splice_store cur start n off chunk :
  length (read_span cur start n) = n ->
  (off + length chunk <= n)%nat ->
  Z.of_nat n <= 2 ^ 64 ->
  forall x,
    store_bytes cur start (splice (read_span cur start n) off chunk) x
    = store_bytes cur (start + Z.of_nat off) chunk x.
Proof.
  intros Hfull Hfit Hn x. unfold splice.
  set (w := read_span cur start n) in *.
  assert (Hpre : firstn off w = read_span cur start off).
  { unfold w. apply read_span_firstn. lia. }
  assert (Hpre_len : length (firstn off w) = off).
  { rewrite length_firstn, Hfull. lia. }
  assert (Hrest : skipn (off + length chunk) w
                  = read_span cur (start + Z.of_nat (off + length chunk))
                      (n - (off + length chunk))).
  { unfold w. apply read_span_skipn; [lia|exact Hfull]. }
  rewrite !store_bytes_app, Hpre_len.
  set (m1 := store_bytes cur start (firstn off w)).
  assert (Hm1 : forall y, m1 y = cur y).
  { intros y. unfold m1. apply store_bytes_same.
    rewrite Hpre_len. symmetry. exact Hpre. }
  set (m2 := store_bytes m1 (start + Z.of_nat off) chunk).
  assert (Hm2 : forall y,
            m2 y = store_bytes cur (start + Z.of_nat off) chunk y).
  { intros y. unfold m2. apply store_bytes_ext. exact Hm1. }
  rewrite <- Hm2. apply store_bytes_same.
  rewrite length_skipn, Hfull, Hrest.
  replace (start + Z.of_nat off + Z.of_nat (length chunk))
    with (start + Z.of_nat (off + length chunk)) by lia.
  apply read_span_ext_local. intros i Hi. rewrite Hm2.
  apply store_bytes_outside. intros j Hj Heq.
  apply (wrap64_distinct2 (start + Z.of_nat off)
           (Z.of_nat (length chunk) + Z.of_nat i) (Z.of_nat j));
    [lia|lia|].
  rewrite Heq. f_equal. lia.
Qed.

Lemma check_pages_frame n : forall page_start p all_prot all_flags st r st',
  check_pages n page_start p all_prot all_flags st = Done r st' -> st' = st.
Proof.
  induction n as [|n IH]; intros page_start p all_prot all_flags st r st' H;
    cbn [check_pages] in H.
  - inversion H. reflexivity.
  - unfold mapping_of in H. msimpl in H.
    destruct (find _ _) as [m|]; [|discriminate H].
    destruct (page_start <? p).
    + destruct (negb (all_prot =? km_prot m) || negb (all_flags =? km_flags m)).
      * inversion H. reflexivity.
      * exact (IH _ _ _ _ _ _ _ H).
    + exact (IH _ _ _ _ _ _ _ H).
Qed.

Lemma read_bytes_fallible_grows fuel addr n st r bs st' :
  byte_memory (k_mem (kernel st)) -> n < 2 ^ 64 ->
  read_bytes_fallible fuel addr n st = Done (r, bs) st' ->
  exists new, k_trace (kernel st') = k_trace (kernel st) ++ new.
Proof.
  intros Hbytes Hn H. unfold read_bytes_fallible in H. msimpl in H.
  destruct (0 <=? n) eqn:Hnn; msimpl in H; [|discriminate H].
  apply Z.leb_le in Hnn.
  destruct (0 =? n) eqn:Hz.
  - inversion H; subst. exists []. rewrite app_nil_r. reflexivity.
  - msimpl in H. destruct (is_open (mem_fd (vm st))); cbn [negb] in H.
    + apply read_bytes_mem_fd_loop_rule in H; [|lia].
      destruct H as (new & Htr & _). msimpl in Htr. exists new. exact Htr.
    + unfold read_bytes_ptrace in H. msimpl in H.
      apply read_bytes_ptrace_loop_spec in H;
        [|exact Hbytes|lia|lia|reflexivity|reflexivity].
      destruct H as (_ & _ & _ & _ & _ & new & Htr & _).
      msimpl in Htr. exists new. exact Htr.
Qed.

(** A [read_mem] that returns: what it read, and what it left alone. *)
Lemma read_mem_run fuel addr n st bs st' :
  byte_memory (k_mem (kernel st)) -> n < 2 ^ 64 ->
  read_mem fuel addr n st = Done bs st' ->
  0 <= n /\
  bs = read_span (k_mem (kernel st)) addr (Z.to_nat n) /\
  length bs = Z.to_nat n /\
  k_mem (kernel st') = k_mem (kernel st) /\
  is_open (mem_fd (vm st')) = is_open (mem_fd (vm st)) /\
  (exists new, k_trace (kernel st') = k_trace (kernel st) ++ new).
Proof.
  intros Hm Hn H. unfold read_mem, read_bytes_helper in H.
  unfold bind at 1 2 in H.
  destruct (read_bytes_fallible fuel addr n st) as [[r got] s1| |] eqn:Hr;
    try discriminate H.
  destruct (r =? n) eqn:E; cbn [negb] in H; [|discriminate H].
  apply Z.eqb_eq in E. subst r. inversion H; subst bs st'.
  pose proof (read_bytes_fallible_grows _ _ _ _ _ _ _ Hm Hn Hr) as Htr.
  assert (Hnn : 0 <= n).
  { unfold read_bytes_fallible in Hr. msimpl in Hr.
    destruct (0 <=? n) eqn:Hnn; msimpl in Hr; [|discriminate Hr].
    apply Z.leb_le. exact Hnn. }
  apply read_bytes_fallible_spec in Hr; try assumption.
  destruct Hr as (_ & Hgot & Hlen & Hmem & _ & Hop).
  repeat split; assumption.
Qed.

Lemma try_replace_pages_spec fuel addr buf st b st' :
  byte_memory (k_mem (kernel st)) -> byte_list buf ->
  0 <= addr < 2 ^ 63 -> Z.of_nat (length buf) < 2 ^ 63 ->
  try_replace_pages fuel addr buf st = Done b st' ->
  (exists new, k_trace (kernel st') = k_trace (kernel st) ++ new) /\
  is_open (mem_fd (vm st')) = is_open (mem_fd (vm st)) /\
  byte_memory (k_mem (kernel st')) /\
  (forall x,
     k_mem (kernel st') x =
       if b then store_bytes (k_mem (kernel st)) addr buf x
       else k_mem (kernel st) x).
Proof.
  intros Hbytes Hbuf Haddr Hlen H. unfold try_replace_pages in H.
  cbv zeta in H.
  pose proof (page_span addr (Z.of_nat (length buf)) Haddr ltac:(lia))
    as Hspan. cbv zeta in Hspan.
  set (page_start := floor_page_size addr) in *.
  set (page_end := ceil_page_size (wrap64 (addr + Z.of_nat (length buf))))
    in *.
  apply bind_Done in H. destruct H as (checked & s1 & Hc & H).
  assert (Hpos : checked = Some (0, 0) \/ 0 < page_end - page_start).
  { destruct (Z.to_nat ((page_end - page_start) / page_size)) eqn:En.
    - left. cbn [check_pages] in Hc. inversion Hc. reflexivity.
    - right. unfold page_size in En.
      destruct (Z_lt_le_dec 0 (page_end - page_start)) as [Hp|Hp];
        [exact Hp|].
      assert ((page_end - page_start) / 4096 <= 0)
        by (apply Z.div_le_upper_bound; lia).
      lia. }
  apply check_pages_frame in Hc. subst s1.
  assert (Hsame : b = false -> st' = st ->
    (exists new, k_trace (kernel st') = k_trace (kernel st) ++ new) /\
    is_open (mem_fd (vm st')) = is_open (mem_fd (vm st)) /\
    byte_memory (k_mem (kernel st')) /\
    (forall x,
       k_mem (kernel st') x =
         if b then store_bytes (k_mem (kernel st)) addr buf x
         else k_mem (kernel st) x)).
  { intros -> ->. split; [exists []; rewrite app_nil_r; reflexivity|].
    split; [reflexivity|]. split; [exact Hbytes|]. reflexivity. }
  destruct checked as [[all_prot all_flags]|];
    [|inversion H; subst; apply Hsame; reflexivity].
  destruct (Z.land all_flags MAP_PRIVATE =? 0) eqn:Eflags;
    [inversion H; subst; apply Hsame; reflexivity|].
  destruct Hpos as [Hzero|Hpos];
    [inversion Hzero; subst; discriminate Eflags|].
  destruct (Hspan Hpos) as (Hps & Hpe & Hsize).
  apply bind_Done in H. destruct H as (cur & s2 & Hr & H).
  apply read_mem_run in Hr; [|exact Hbytes|exact Hsize].
  destruct Hr as (_ & Hcur & Hcur_len & Hmem & Hop & new & Htr).
  msimpl in H. injection H as <- <-. msimpl. rewrite Hmem.
  assert (Hstore : forall x,
    store_bytes (k_mem (kernel st)) page_start
      (splice cur (Z.to_nat (addr - page_start)) buf) x
    = store_bytes (k_mem (kernel st)) addr buf x).
  { intros x. rewrite Hcur, span_splice_store.
    - rewrite Z2Nat.id by lia.
      replace (page_start + (addr - page_start)) with addr by lia.
      reflexivity.
    - rewrite <- Hcur. exact Hcur_len.
    - lia.
    - lia. }
  split; [eexists; rewrite Htr, <- app_assoc; reflexivity|].
  split; [exact Hop|]. split; [|exact Hstore].
  apply (byte_memory_ext (store_bytes (k_mem (kernel st)) addr buf));
    [exact Hstore|].
  apply store_bytes_byte_memory; assumption.
Qed.

(** ** write_bytes_helper *)

Lemma skipn_length_app {A} (l new : list A) : skipn (length l) (l ++ new) = new.
Proof.
  rewrite skipn_app, skipn_all, Nat.sub_diag. reflexivity.
Qed.

Lemma write_bytes_helper_spec fuel :
  forall addr buf ok st ok' st',
  byte_memory (k_mem (kernel st)) -> byte_list buf ->
  Z.of_nat (length buf) < 2 ^ 64 ->
  (forall x, k_memfd_denied (kernel st) x = false)
  \/ (0 <= addr /\ Z.of_nat (length buf) < 2 ^ 63) ->
  write_bytes_helper fuel addr buf ok st = Done ok' st' ->
  exists n new,
    0 <= n <= Z.of_nat (length buf) /\
    ok' = match ok with
          | Some _ => if n <? Z.of_nat (length buf) then Some false else ok
          | None => None
          end /\
    k_trace (kernel st') = k_trace (kernel st) ++ new /\
    byte_memory (k_mem (kernel st')) /\
    is_open (mem_fd (vm st')) = is_open (mem_fd (vm st)) /\
    ((is_open (mem_fd (vm st)) = false -> forallb poke_accepted new = true) ->
     forall x,
       k_mem (kernel st') x =
         store_bytes (k_mem (kernel st)) addr (firstn (Z.to_nat n) buf) x).
Proof.
  induction fuel as [|fuel IH];
    intros addr buf ok st ok' st' Hbytes Hbuf Hsize Hside H.
  all: cbn [write_bytes_helper] in H; msimpl in H.
  all: replace (0 <=? Z.of_nat (length buf)) with true in H
         by (symmetry; apply Z.leb_le; lia).
  all: msimpl in H.
  all: destruct (0 =? Z.of_nat (length buf)) eqn:Ez;
    [ apply Z.eqb_eq in Ez; inversion H; subst ok' st';
      exists 0, []; rewrite app_nil_r, <- Ez;
      split; [lia|]; split; [destruct ok; reflexivity|];
      split; [reflexivity|]; split; [exact Hbytes|];
      split; [reflexivity|]; intros _ x; reflexivity
    | apply Z.eqb_neq in Ez; msimpl in H ].
  all: destruct (is_open (mem_fd (vm st))) eqn:Hfd; cbn [negb] in H.
  (* the ptrace path *)
  2,4: unfold write_bytes_ptrace in H; msimpl in H;
    match type of H with
    | context [write_bytes_ptrace_loop ?f ?a ?b 0 ?s] =>
        destruct (write_bytes_ptrace_loop f a b 0 s) as [r s1| |]
          eqn:Hloop; try discriminate H;
        apply write_bytes_ptrace_loop_spec in Hloop;
          [|exact Hbytes|exact Hbuf|exact Hsize|lia]
    end;
    destruct Hloop as (Hr & Hfr & Hb1 & new & Htr & Hstore);
    msimpl in Htr; msimpl in Hstore;
    exists r, new;
    assert (Hvm1 : vm s1 = vm st) by (rewrite Hfr; reflexivity);
    assert (Hres : ok' = match ok with
                         | Some _ =>
                             if r <? Z.of_nat (length buf)
                             then Some false else ok
                         | None => None
                         end
                   /\ kernel st' = kernel s1
                   /\ mem_fd (vm st') = mem_fd (vm st))
      by (unfold vm_call in H;
          destruct (0 <? r); msimpl in H; inversion H; subst ok' st';
          msimpl; rewrite Hvm1; repeat split);
    destruct Hres as (Hok & Hk & Hvm); rewrite Hk, Hvm;
    (split; [lia|]); (split; [exact Hok|]); (split; [exact Htr|]);
    (split; [exact Hb1|]); (split; [exact Hfd|]);
    intros Hacc x; rewrite (Hstore (Hacc eq_refl) x);
    rewrite Z.add_0_r, Z.sub_0_r; reflexivity.
  (* the mem-fd path *)
  all: match type of H with
       | context [safe_pwrite64 ?b ?a ?s] =>
           destruct (safe_pwrite64_spec b a s)
             as (n & k' & Hrun & Hd & (new & Htr) & Hcases)
       end;
    rewrite Hrun in H; msimpl in H; msimpl in Htr; msimpl in Hcases;
    msimpl in Hd;
    destruct Hcases as [(-> & Hm & He)|[(-> & Hm & He)|(Hn & Hm & He)]].
  (* pwrite64 failed: with EPERM the pages may be replaced *)
  1,4: change (0 =? -1) with false in H; cbn [andb] in H; msimpl in H;
    destruct (k_errno k' =? EPERM) eqn:Ep;
    [ apply Z.eqb_eq in Ep; destruct (He Ep) as (Hlt & a & Ha);
      (destruct Hside as [Hden|[Haddr Hlen]];
       [rewrite Hden in Ha; discriminate Ha|]);
      match type of H with
      | context [try_replace_pages ?f ?a0 ?b0 ?s] =>
          destruct (try_replace_pages f a0 b0 s) as [rb s2| |] eqn:Htry;
            try discriminate H
      end;
      (apply try_replace_pages_spec in Htry;
       [|msimpl; rewrite Hm; exact Hbytes|exact Hbuf|lia|exact Hlen]);
      destruct Htry as ((new2 & Htr2) & Hop2 & Hb2 & Hmem2);
      msimpl in Htr2; msimpl in Hop2; msimpl in Hmem2;
      destruct rb; cbv beta iota in H;
      [ unfold vm_call in H; msimpl in H; inversion H; subst ok' st'; msimpl;
        exists (Z.of_nat (length buf)), (new ++ new2);
        rewrite Z.ltb_irrefl, Nat2Z.id, firstn_all;
        (split; [lia|]); (split; [destruct ok; reflexivity|]);
        (split; [rewrite Htr2, Htr, <- app_assoc; reflexivity|]);
        (split; [exact Hb2|]); (split; [rewrite Hop2; exact Hfd|]);
        intros _ x; rewrite Hmem2, Hm; reflexivity
      | msimpl in H;
        replace (-1 <? Z.of_nat (length buf)) with true in H
          by (symmetry; apply Z.ltb_lt; lia);
        replace (-1 =? Z.of_nat (length buf)) with false in H
          by (symmetry; apply Z.eqb_neq; lia);
        change (0 <? -1) with false in H;
        (destruct ok as [b|]; msimpl in H; [|discriminate H]);
        inversion H; subst ok' st'; msimpl;
        exists 0, (new ++ new2);
        replace (0 <? Z.of_nat (length buf)) with true
          by (symmetry; apply Z.ltb_lt; lia);
        (split; [lia|]); (split; [reflexivity|]);
        (split; [rewrite Htr2, Htr, <- app_assoc; reflexivity|]);
        (split; [exact Hb2|]); (split; [rewrite Hop2; exact Hfd|]);
        intros _ x; rewrite Hmem2, Hm; reflexivity ]
    | msimpl in H;
      replace (-1 <? Z.of_nat (length buf)) with true in H
        by (symmetry; apply Z.ltb_lt; lia);
      replace (-1 =? Z.of_nat (length buf)) with false in H
        by (symmetry; apply Z.eqb_neq; lia);
      change (0 <? -1) with false in H;
      (destruct ok as [b|]; msimpl in H; [|discriminate H]);
      inversion H; subst ok' st'; msimpl;
      exists 0, new;
      replace (0 <? Z.of_nat (length buf)) with true
        by (symmetry; apply Z.ltb_lt; lia);
      (split; [lia|]); (split; [reflexivity|]); (split; [exact Htr|]);
      (split; [rewrite Hm; exact Hbytes|]); (split; [exact Hfd|]);
      intros _ x; rewrite Hm; reflexivity ].
  (* pwrite64 wrote something *)
  2,4: replace (0 =? n) with false in H by (symmetry; apply Z.eqb_neq; lia);
    cbn [andb] in H; msimpl in H; rewrite He in H;
    change (0 =? EPERM) with false in H; msimpl in H;
    replace (0 <? n) with true in H by (symmetry; apply Z.ltb_lt; lia);
    unfold vm_call in H;
    assert (Hres : ok' = match ok with
                         | Some _ =>
                             if n <? Z.of_nat (length buf)
                             then Some false else ok
                         | None => None
                         end
                   /\ kernel st' = k'
                   /\ mem_fd (vm st') = mem_fd (vm st))
      by (destruct ok as [b|]; msimpl in H;
          [|destruct (n =? Z.of_nat (length buf)); msimpl in H;
            [|discriminate H]];
          inversion H; subst ok' st'; msimpl; repeat split);
    destruct Hres as (Hok & Hk & Hvm); rewrite Hk, Hvm;
    exists n, new;
    (split; [lia|]); (split; [exact Hok|]); (split; [exact Htr|]);
    (split; [rewrite Hm;
             apply store_bytes_byte_memory;
             [exact Hbytes|apply byte_list_firstn, Hbuf]|]);
    (split; [exact Hfd|]);
    intros _ x; rewrite Hm; reflexivity.
  (* a stale mem fd *)
  - change (0 =? 0) with true in H. rewrite He in H.
    change (0 =? 0) with true in H. cbn [andb] in H. discriminate H.
  - change (0 =? 0) with true in H. rewrite He in H.
    change (0 =? 0) with true in H. cbn [andb] in H. msimpl in H.
    match type of H with
    | context [open_mem_fd ?x] =>
        destruct (open_mem_fd_run x) as (live & Hopen)
    end.
    rewrite Hopen in H. unfold reopened in H. msimpl in H.
    apply IH in H; try assumption.
    + msimpl in H. destruct H as (n & new' & Hn & Hok & Htr' & Hb' & Hop & Hst).
      cbn [is_open] in Hop.
      exists n, (new ++ EvOpenMemFd live :: new').
      split; [exact Hn|]. split; [exact Hok|].
      split; [rewrite Htr', Htr, <- !app_assoc; reflexivity|].
      split; [exact Hb'|]. split; [exact Hop|].
      intros _ x. rewrite Hst by (intros Hc; discriminate Hc).
      rewrite Hm. reflexivity.
    + msimpl. rewrite Hm. exact Hbytes.
    + destruct Hside as [Hden|Hright]; [left|right; exact Hright].
      intros x. msimpl. rewrite Hd. apply Hden.
Qed.

Lemma write_bytes_helper_stored fuel addr buf st st' :
  byte_memory (k_mem (kernel st)) -> byte_list buf ->
  Z.of_nat (length buf) < 2 ^ 64 ->
  (forall x, k_memfd_denied (kernel st) x = false)
  \/ (0 <= addr /\ Z.of_nat (length buf) < 2 ^ 63) ->
  write_bytes_helper fuel addr buf (Some true) st = Done (Some true) st' ->
  (is_open (mem_fd (vm st)) = false ->
   forallb poke_accepted
     (new_events (write_bytes_helper fuel addr buf (Some true)) st) = true) ->
  (forall x, k_mem (kernel st') x =
             store_bytes (k_mem (kernel st)) addr buf x) /\
  byte_memory (k_mem (kernel st')) /\
  is_open (mem_fd (vm st')) = is_open (mem_fd (vm st)).
Proof.
  intros Hm Hb Hlen Hside H Hpoke.
  assert (Hnew : new_events (write_bytes_helper fuel addr buf (Some true)) st =
                 skipn (length (k_trace (kernel st))) (k_trace (kernel st'))).
  { unfold new_events, final_state. rewrite H. reflexivity. }
  rewrite Hnew in Hpoke. clear Hnew.
  apply write_bytes_helper_spec in H; try assumption.
  destruct H as (n & new & Hn & Hok & Htr & Hm' & Hfd & Hst).
  rewrite Htr, skipn_length_app in Hpoke.
  assert (n = Z.of_nat (length buf)) as ->.
  { destruct (n <? Z.of_nat (length buf)) eqn:E; [discriminate Hok|].
    apply Z.ltb_ge in E. lia. }
  rewrite Nat2Z.id, firstn_all in Hst.
  split; [exact (Hst Hpoke)|]. split; assumption.
Qed.

(** X15.  A write that leaves its [ok] flag set has stored the buffer: after
    [write_bytes_helper] returns with [ok] still true, the tracee's memory
    is the old memory with [buf] stored at [addr], byte for byte, and
    nothing else changed.  This holds over the mem fd (with any number of
    stale-descriptor reopens) and, when no mem fd is open, over the ptrace
    path provided the kernel accepted every PTRACE_POKEDATA of the call,
    whose results the code does not look at. *)
Theorem write_bytes_helper_stores_buffer fuel addr buf st st' :
  byte_memory (k_mem (kernel st)) -> byte_list buf ->
  Z.of_nat (length buf) < 2 ^ 64 ->
  (forall x, k_memfd_denied (kernel st) x = false) ->
  write_bytes_helper fuel addr buf (Some true) st = Done (Some true) st' ->
  (is_open (mem_fd (vm st)) = false ->
   forallb poke_accepted
     (new_events (write_bytes_helper fuel addr buf (Some true)) st) = true) ->
  (forall x, k_mem (kernel st') x =
             store_bytes (k_mem (kernel st)) addr buf x) /\
  byte_memory (k_mem (kernel st')) /\
  is_open (mem_fd (vm st')) = is_open (mem_fd (vm st)).
Proof.
  intros Hm Hb Hlen Hden. apply write_bytes_helper_stored; try assumption.
  left. exact Hden.
Qed.

Lemma write_bytes_helper_stores_buffer_witness :
  let st := stale_mem_fd_state in
  let st' := final_state (write_bytes_helper 8 4098 [9; 8; 7] (Some true)) st in
  (forall x, k_mem (kernel st') x =
             store_bytes (k_mem (kernel st)) 4098 [9; 8; 7] x) /\
  byte_memory (k_mem (kernel st')) /\
  is_open (mem_fd (vm st')) = is_open (mem_fd (vm st)).
Proof.
  apply (write_bytes_helper_stores_buffer 8 4098 [9; 8; 7]
           stale_mem_fd_state).
  - exact eight_bytes_are_bytes.
  - repeat constructor; lia.
  - vm_compute. reflexivity.
  - intro x. reflexivity.
  - vm_compute. reflexivity.
  - intro Hc. vm_compute in Hc. discriminate Hc.
Defined.



(** ** Thread areas *)

Lemma upsert_thread_area_same desc areas :
  thread_area (entry_number desc) (upsert_thread_area desc areas) = Some desc.
Proof.
  unfold thread_area. induction areas as [|t rest IH]; cbn [upsert_thread_area].
  - cbn [find]. rewrite Z.eqb_refl. reflexivity.
  - destruct (entry_number t =? entry_number desc) eqn:E; cbn [find].
    + rewrite Z.eqb_refl. reflexivity.
    + rewrite E. exact IH.
Qed.

Lemma upsert_thread_area_other desc areas n :
  n <> entry_number desc ->
  thread_area n (upsert_thread_area desc areas) = thread_area n areas.
Proof.
  intros Hn. unfold thread_area.
  induction areas as [|t rest IH]; cbn [upsert_thread_area].
  - cbn [find]. replace (entry_number desc =? n) with false
      by (symmetry; apply Z.eqb_neq; lia). reflexivity.
  - destruct (entry_number t =? entry_number desc) eqn:E; cbn [find].
    + apply Z.eqb_eq in E. rewrite E.
      replace (entry_number desc =? n) with false
        by (symmetry; apply Z.eqb_neq; lia). reflexivity.
    + rewrite IH. reflexivity.
Qed.

Lemma upsert_thread_area_numbers desc areas n :
  In n (map entry_number (upsert_thread_area desc areas)) ->
  n = entry_number desc \/ In n (map entry_number areas).
Proof.
  induction areas as [|t rest IH]; cbn [upsert_thread_area].
  - cbn [map In]. intros [H|[]]. left. symmetry. exact H.
  - destruct (entry_number t =? entry_number desc) eqn:E; cbn [map In].
    + intros [H|H]; [left; symmetry; exact H|right; right; exact H].
    + intros [H|H]; [right; left; exact H|].
      destruct (IH H) as [H'|H']; [left; exact H'|right; right; exact H'].
Qed.

Lemma upsert_thread_area_NoDup desc areas :
  NoDup (map entry_number areas) ->
  NoDup (map entry_number (upsert_thread_area desc areas)).
Proof.
  induction areas as [|t rest IH]; cbn [upsert_thread_area]; intros Hnd.
  - cbn [map]. constructor; [intros []|constructor].
  - cbn [map] in Hnd. inversion Hnd as [|x l Hnot Hrest]; subst.
    destruct (entry_number t =? entry_number desc) eqn:E; cbn [map].
    + apply Z.eqb_eq in E. rewrite <- E. constructor; assumption.
    + apply Z.eqb_neq in E. constructor; [|exact (IH Hrest)].
      intros Hin. apply upsert_thread_area_numbers in Hin.
      destruct Hin as [Hin|Hin]; [exact (E Hin)|exact (Hnot Hin)].
Qed.

Lemma upsert_thread_area_length desc areas :
  (length areas <= length (upsert_thread_area desc areas) <= S (length areas))%nat.
Proof.
  induction areas as [|t rest IH]; cbn [upsert_thread_area length]; [lia|].
  destruct (entry_number t =? entry_number desc); cbn [length]; lia.
Qed.

(** X17.  [set_thread_area] keeps one descriptor per entry number: after the
    call the descriptor read from the tracee is the one recorded for its
    entry number, the descriptors of all other entry numbers are the ones
    recorded before, a table without duplicates stays without duplicates and
    grows by at most one entry, and the tracee's memory is untouched. *)
Theorem set_thread_area_upserts fuel tls st st' :
  byte_memory (k_mem (kernel st)) ->
  set_thread_area fuel tls st = Done tt st' ->
  let desc := decode_user_desc (read_span (k_mem (kernel st)) tls 16) in
  length (read_span (k_mem (kernel st)) tls 16) = 16%nat /\
  thread_area (entry_number desc) (thread_areas_ (task st')) = Some desc /\
  (forall n, n <> entry_number desc ->
     thread_area n (thread_areas_ (task st'))
     = thread_area n (thread_areas_ (task st))) /\
  (NoDup (map entry_number (thread_areas_ (task st))) ->
   NoDup (map entry_number (thread_areas_ (task st')))) /\
  (length (thread_areas_ (task st)) <= length (thread_areas_ (task st'))
     <= S (length (thread_areas_ (task st))))%nat /\
  prname (task st') = prname (task st) /\
  k_mem (kernel st') = k_mem (kernel st).
Proof.
  intros Hm H. cbv zeta. unfold set_thread_area in H.
  apply bind_Done in H. destruct H as (bs & s1 & Hr & H).
  apply read_mem_spec in Hr; [|exact Hm|reflexivity].
  destruct Hr as (Hbs & Hlen & Ht & _ & _ & _ & _ & _ & Hmem).
  change (Z.to_nat 16) with 16%nat in Hbs, Hlen.
  msimpl in H. inversion H; subst st'. msimpl. rewrite Ht, Hmem, <- Hbs.
  split; [exact Hlen|].
  split; [apply upsert_thread_area_same|].
  split; [intros n Hn; apply upsert_thread_area_other; exact Hn|].
  split; [apply upsert_thread_area_NoDup|].
  split; [apply upsert_thread_area_length|].
  split; reflexivity.
Qed.


Lemma bytes_at_bytes base bs : byte_list bs -> byte_memory (bytes_at base bs).
Proof.
  intros Hb a b H. unfold bytes_at in H.
  destruct ((base <=? a) && (a <? base + Z.of_nat (length bs)));
    [|discriminate H].
  apply nth_error_In in H. unfold byte_list in Hb.
  rewrite Forall_forall in Hb. exact (Hb _ H).
Qed.

Lemma hook_memory_bytes : byte_memory hook_memory.
Proof.
  intros a b H. unfold hook_memory in H.
  match type of H with
  | context [match bytes_at ?p ?l a with _ => _ end] =>
      destruct (bytes_at p l a) as [b1|] eqn:E1
  end.
  - inversion H; subst b1.
    refine (bytes_at_bytes _ _ _ _ _ E1). repeat constructor; lia.
  - refine (bytes_at_bytes _ _ _ _ _ H). repeat constructor; lia.
Qed.

Lemma set_thread_area_upserts_witness :
  let st := hook_state in
  let st' := final_state (set_thread_area 8 8192) st in
  let desc := decode_user_desc (read_span (k_mem (kernel st)) 8192 16) in
  length (read_span (k_mem (kernel st)) 8192 16) = 16%nat /\
  thread_area (entry_number desc) (thread_areas_ (task st')) = Some desc /\
  (forall n, n <> entry_number desc ->
     thread_area n (thread_areas_ (task st'))
     = thread_area n (thread_areas_ (task st))) /\
  (NoDup (map entry_number (thread_areas_ (task st))) ->
   NoDup (map entry_number (thread_areas_ (task st')))) /\
  (length (thread_areas_ (task st)) <= length (thread_areas_ (task st'))
     <= S (length (thread_areas_ (task st))))%nat /\
  prname (task st') = prname (task st) /\
  k_mem (kernel st') = k_mem (kernel st).
Proof.
  apply (set_thread_area_upserts 8 8192 hook_state).
  - exact hook_memory_bytes.
  - vm_compute. reflexivity.
Defined.

(** ** The thread name *)

Lemma c_string_nonzero chars : Forall (fun c => c <> 0) (c_string chars).
Proof.
  induction chars as [|c rest IH]; cbn [c_string]; [constructor|].
  destruct (c =? 0) eqn:E; constructor; [|exact IH].
  apply Z.eqb_neq. exact E.
Qed.

Lemma c_string_terminated chars : c_string (chars ++ [0]) = c_string chars.
Proof.
  induction chars as [|c rest IH]; cbn [app c_string]; [reflexivity|].
  destruct (c =? 0); [reflexivity|]. rewrite IH. reflexivity.
Qed.

Lemma c_string_prefix chars :
  exists rest, chars = c_string chars ++ rest /\
    (rest = [] \/ exists tail, rest = 0 :: tail).
Proof.
  induction chars as [|c rest IH]; cbn [c_string].
  - exists []. split; [reflexivity|left; reflexivity].
  - destruct (c =? 0) eqn:E.
    + apply Z.eqb_eq in E. subst c. exists (0 :: rest).
      split; [reflexivity|right; eexists; reflexivity].
    + destruct IH as (r & Hr & Hcases). exists r.
      split; [cbn [app]; rewrite <- Hr; reflexivity|exact Hcases].
Qed.

Lemma c_string_length chars : (length (c_string chars) <= length chars)%nat.
Proof.
  induction chars as [|c rest IH]; cbn [c_string length]; [lia|].
  destruct (c =? 0); cbn [length]; lia.
Qed.

(** X18.  [update_prname] records a C string of at most 15 characters: the
    new [prname] has no NUL, is at most 15 long, and is the beginning of the
    16 bytes at [child_addr], cut at the first NUL or, when the first 15
    bytes hold none, after 15 bytes.  The thread areas and the tracee's
    memory are untouched. *)
Theorem update_prname_truncates fuel child_addr st st' :
  byte_memory (k_mem (kernel st)) ->
  update_prname fuel child_addr st = Done tt st' ->
  let name := prname (task st') in
  (length name <= 15)%nat /\
  Forall (fun c => c <> 0) name /\
  (exists rest,
     read_span (k_mem (kernel st)) child_addr 16 = name ++ rest /\
     length (name ++ rest) = 16%nat /\
     ((length name < 15)%nat -> exists tail, rest = 0 :: tail)) /\
  thread_areas_ (task st') = thread_areas_ (task st) /\
  k_mem (kernel st') = k_mem (kernel st).
Proof.
  intros Hm H. cbv zeta. unfold update_prname in H.
  apply bind_Done in H. destruct H as (bs & s1 & Hr & H).
  apply read_mem_spec in Hr; [|exact Hm|reflexivity].
  destruct Hr as (Hbs & Hlen & Ht & _ & _ & _ & _ & _ & Hmem).
  change (Z.to_nat 16) with 16%nat in Hbs, Hlen.
  remember (firstn 15 bs) as pre eqn:Hpre.
  assert (Hf : length pre = 15%nat)
    by (rewrite Hpre, length_firstn; lia).
  assert (Heq : bs = pre ++ skipn 15 bs)
    by (rewrite Hpre; symmetry; apply firstn_skipn).
  clear Hpre.
  msimpl in H. injection H as <-. msimpl. rewrite Ht, Hmem, <- Hbs.
  rewrite c_string_terminated.
  split; [pose proof (c_string_length pre); lia|].
  split; [apply c_string_nonzero|].
  split; [|split; reflexivity].
  destruct (c_string_prefix pre) as (r & Hr & Hcases).
  exists (r ++ skipn 15 bs).
  assert (Heq' : bs = c_string pre ++ r ++ skipn 15 bs)
    by (rewrite app_assoc, <- Hr; exact Heq).
  split; [exact Heq'|]. split; [rewrite <- Heq'; exact Hlen|].
  intros Hshort. destruct Hcases as [->|(tail & ->)].
  - rewrite app_nil_r in Hr. rewrite <- Hr in Hshort. lia.
  - eexists. reflexivity.
Qed.

Lemma update_prname_truncates_witness :
  let st := hook_state in
  let name := prname (task (final_state (update_prname 8 12288) st)) in
  (length name <= 15)%nat /\
  Forall (fun c => c <> 0) name /\
  (exists rest,
     read_span (k_mem (kernel st)) 12288 16 = name ++ rest /\
     length (name ++ rest) = 16%nat /\
     ((length name < 15)%nat -> exists tail, rest = 0 :: tail)) /\
  thread_areas_ (task (final_state (update_prname 8 12288) st))
  = thread_areas_ (task st) /\
  k_mem (kernel (final_state (update_prname 8 12288) st)) = k_mem (kernel st).
Proof.
  apply (update_prname_truncates 8 12288 hook_state).
  - exact hook_memory_bytes.
  - vm_compute. reflexivity.
Defined.

(** ** The ranges of a writev *)





Lemma read_mem_frame fuel addr n st bs st' :
  read_mem fuel addr n st = Done bs st' ->
  task st' = task st /\ session st' = session st /\ fds st' = fds st /\
  abi st' = abi st /\ vm_log (vm st') = vm_log (vm st) /\
  maps (vm st') = maps (vm st) /\
  k_mem (kernel st') = k_mem (kernel st).
Proof.
  intros H. unfold read_mem, read_bytes_helper in H.
  unfold bind at 1 2 in H.
  destruct (read_bytes_fallible fuel addr n st) as [[r got] s1| |] eqn:Hr;
    try discriminate H.
  destruct (r =? n); cbn [negb] in H; [|discriminate H].
  inversion H; subst bs st'.
  exact (read_bytes_fallible_frame _ _ _ _ _ _ _ Hr).
Qed.

Ltac log_tail :=
  first [reflexivity | symmetry; apply app_nil_r
        | rewrite <- app_assoc; reflexivity].

Ltac hook_done H :=
  let E := fresh "E" in
  injection H as E; rewrite <- E; clear E; msimpl;
  split; [reflexivity|]; split; [reflexivity|]; split; [reflexivity|];
  eexists _, _; split; [log_tail|]; split; [log_tail|];
  first [left; reflexivity | right; reflexivity].

Ltac hook_read H s1 :=
  let bs := fresh "bs" in
  let Hr := fresh "Hr" in
  apply bind_Done in H; destruct H as (bs & s1 & Hr & H);
  apply read_mem_frame in Hr; msimpl in Hr;
  destruct Hr as [Ht [Hs [Hf [Ha [Hl [Hmaps Hmem]]]]]].

(** X20.  [on_syscall_exit] only keeps the tracer's books: whenever it
    returns, the session has counted one more syscall, the tracee's memory
    and the cached registers are as before, and the calls made to the
    AddressSpace and to the FdTable were added after the earlier ones,
    never to both in one call. *)
Theorem on_syscall_exit_counts fuel syscallno regs st st' :
  on_syscall_exit fuel syscallno regs st = Done tt st' ->
  syscalls_performed (session st') = syscalls_performed (session st) + 1 /\
  registers (task st') = registers (task st) /\
  k_mem (kernel st') = k_mem (kernel st) /\
  exists vm_ops fd_ops,
    vm_log (vm st') = vm_log (vm st) ++ vm_ops /\
    fd_log (fds st') = fd_log (fds st) ++ fd_ops /\
    (vm_ops = [] \/ fd_ops = []).
Proof.
  intros H.
  unfold on_syscall_exit, on_syscall_exit_arch, task_arch, vm_call, fd_call
    in H.
  msimpl in H.
  repeat match type of H with
         | (if ?c then _ else _) _ = _ => destruct c
         end;
    cbv beta in H;
    try solve [hook_done H].
  - unfold mapping_of in H. msimpl in H.
    destruct (find _ _); [|discriminate H].
    destruct (km_start _ =? _); [|discriminate H]. hook_done H.
  - unfold mapping_of in H. msimpl in H.
    destruct (find _ _); [|discriminate H].
    destruct (km_start _ =? _); [|discriminate H]. hook_done H.
  - unfold set_thread_area in H. hook_read H s1. msimpl in H.
    injection H as <-. msimpl. rewrite Ht, Hs, Hf, Hl, Hmem. msimpl.
    repeat (split; [reflexivity|]).
    exists [], []. rewrite !app_nil_r. repeat split. left. reflexivity.
  - unfold update_prname in H. hook_read H s1.
    remember (firstn 15 bs) as pre. msimpl in H.
    injection H as <-. msimpl. rewrite Ht, Hs, Hf, Hl, Hmem. msimpl.
    repeat (split; [reflexivity|]).
    exists [], []. rewrite !app_nil_r. repeat split. left. reflexivity.
  - match type of H with
    | context [read_mem ?f ?a ?n ?s] =>
        destruct (read_mem f a n s) as [bs s1| |] eqn:Hr; try discriminate H
    end.
    apply read_mem_frame in Hr. msimpl in Hr.
    destruct Hr as (Ht & Hs & Hf & Ha & Hl & Hmaps & Hmem).
    destruct (0 <=? syscall_result_signed regs); [|discriminate H].
    injection H as <-. msimpl. rewrite Ht, Hs, Hf, Hl, Hmem. msimpl.
    repeat (split; [reflexivity|]).
    eexists [], _. rewrite app_nil_r.
    split; [reflexivity|]. split; [reflexivity|]. left. reflexivity.
Qed.


Lemma on_syscall_exit_counts_witness :
  let st := hook_state in
  let st' := final_state (on_syscall_exit 8 157 prctl_set_name_regs) st in
  syscalls_performed (session st') = syscalls_performed (session st) + 1 /\
  registers (task st') = registers (task st) /\
  k_mem (kernel st') = k_mem (kernel st) /\
  exists vm_ops fd_ops,
    vm_log (vm st') = vm_log (vm st) ++ vm_ops /\
    fd_log (fds st') = fd_log (fds st) ++ fd_ops /\
    (vm_ops = [] \/ fd_ops = []).
Proof.
  apply (on_syscall_exit_counts 8 157 prctl_set_name_regs hook_state).
  vm_compute. reflexivity.
Defined.
